(** * Session driver of the human-in-the-loop agent front ends

    A shallow embedding of the two browser clients of the repository:

    - [Frontend]   : [frontend/app.js], the streaming client of the LangGraph
                     server (threads, [runs/stream] over SSE, snapshot poll);
    - [FrontendLs] : [frontend_ls/app.js], the client of the LangServe
                     deployment (one [POST /agent/invoke] per action).

    Text is modelled with the Standard Library's [string]; a character stands
    for one UTF-16 code unit in the range U+0000..U+00FF.  JSON values are a
    tagged union; [undefined] is the [None] of [option JSON].  The globals of
    each script ([threadId], [uiState], [logItems], the storage entry of the
    thread id, the parts of the page the logic writes to) form a record that
    every operation takes and returns; an operation that may throw returns,
    beside the globals it leaves, what it returned or the message of what it
    threw.  A conversion to a string throws on an object that has a member of
    its own named [toString], and on an array that holds one.  The replies of
    the network are arguments of the operation that awaits them. *)

From Stdlib Require Import String Ascii List Bool Arith Lia ZArith DecimalString.
Import ListNotations.
Open Scope list_scope.
Open Scope string_scope.

Set Implicit Arguments.
Set Warnings "-register-all".

(* ===================================================================== *)
(** ** JavaScript strings *)
(* ===================================================================== *)

Module Js.

Definition LF : ascii := ascii_of_nat 10.
Definition CR : ascii := ascii_of_nat 13.
Definition isLF (c : ascii) : bool := Ascii.eqb c LF.
Definition isCR (c : ascii) : bool := Ascii.eqb c CR.

(** The one-character strings the source writes with an escape. *)
Definition nl : string := String LF EmptyString.
Definition dquote : string := String (ascii_of_nat 34) EmptyString.

(** [s.replace(/\r\n/g, "\n")]: one pass, left to right. *)
Fixpoint replaceCRLF (s : string) : string :=
  match s with
  | EmptyString => EmptyString
  | String c rest =>
      match rest with
      | String d rest' =>
          if isCR c && isLF d then String LF (replaceCRLF rest')
          else String c (replaceCRLF rest)
      | EmptyString => String c EmptyString
      end
  end.

(** [s.startsWith(p)]. *)
Fixpoint startsWith (s p : string) {struct p} : bool :=
  match p with
  | EmptyString => true
  | String a p' =>
      match s with
      | EmptyString => false
      | String b s' => Ascii.eqb a b && startsWith s' p'
      end
  end.

(** [s.indexOf(p)]; [None] is the source's [-1]. *)
Fixpoint indexOf (s p : string) {struct s} : option nat :=
  if startsWith s p then Some 0
  else match s with
       | EmptyString => None
       | String _ rest => option_map S (indexOf rest p)
       end.

(** [s.slice(0, n)] and [s.slice(n)] for [0 <= n]. *)
Fixpoint sliceTo (n : nat) (s : string) : string :=
  match n, s with
  | S n', String c rest => String c (sliceTo n' rest)
  | _, _ => EmptyString
  end.

Fixpoint sliceFrom (n : nat) (s : string) : string :=
  match n, s with
  | S n', String _ rest => sliceFrom n' rest
  | _, _ => s
  end.

(** White space of [String.prototype.trim] among the code units below 256:
    TAB, LF, VT, FF, CR, SP and NBSP. *)
Definition isWhiteSpace (c : ascii) : bool :=
  let n := nat_of_ascii c in
  (Nat.leb 9 n && Nat.leb n 13) || Nat.eqb n 32 || Nat.eqb n 160.

Fixpoint trimStart (s : string) : string :=
  match s with
  | EmptyString => EmptyString
  | String c rest => if isWhiteSpace c then trimStart rest else s
  end.

Fixpoint trimEnd (s : string) : string :=
  match s with
  | EmptyString => EmptyString
  | String c rest =>
      match trimEnd rest with
      | EmptyString => if isWhiteSpace c then EmptyString else String c EmptyString
      | t => String c t
      end
  end.

Definition trim (s : string) : string := trimEnd (trimStart s).

(** [s.split("\n")]. *)
Fixpoint splitLines (s : string) : list string :=
  match s with
  | EmptyString => [EmptyString]
  | String c rest =>
      if isLF c then EmptyString :: splitLines rest
      else match splitLines rest with
           | l :: ls => String c l :: ls
           | [] => [String c EmptyString]
           end
  end.

(** [lines.join("\n")]. *)
Definition joinLines (ls : list string) : string := String.concat nl ls.

(** A string is falsy exactly when it is empty. *)
Definition nonEmpty (s : string) : bool :=
  match s with EmptyString => false | String _ _ => true end.

(** [a || b] on strings. *)
Definition orElse (a b : string) : string := if nonEmpty a then a else b.

(** Every character of [s] is white space (the blank strings). *)
Fixpoint allWhiteSpace (s : string) : bool :=
  match s with
  | EmptyString => true
  | String c rest => isWhiteSpace c && allWhiteSpace rest
  end.

End Js.

(* ===================================================================== *)
(** ** JSON values *)
(* ===================================================================== *)

(** The fields of an object are listed in the order [Object.keys] gives
    them, without repeated keys.  Numbers enter this code through their
    truthiness and their text only and are kept as integers. *)
Inductive JSON : Type :=
| JNull
| JBool (b : bool)
| JNum (z : Z)
| JStr (s : string)
| JArr (items : list JSON)
| JObj (fields : list (string * JSON)).

Module Json.

Fixpoint assoc (k : string) (fields : list (string * JSON)) : option JSON :=
  match fields with
  | [] => None
  | (k', v) :: rest => if String.eqb k k' then Some v else assoc k rest
  end.

(** [v.k] for one of the property names this code reads.  None of them is
    a member of a string, number, boolean or array, nor of
    [Object.prototype]; ([values] of an array is a host function, on which
    the code reads further properties only, all [undefined]). *)
Definition prop (k : string) (v : JSON) : option JSON :=
  match v with
  | JObj fields => assoc k fields
  | _ => None
  end.

(** [o?.k] on a value that may be [undefined] or [null]. *)
Definition optProp (k : string) (o : option JSON) : option JSON :=
  match o with
  | Some v => prop k v
  | None => None
  end.

(** [Boolean(v)]. *)
Definition truthy (v : JSON) : bool :=
  match v with
  | JNull => false
  | JBool b => b
  | JNum z => negb (Z.eqb z 0)
  | JStr s => Js.nonEmpty s
  | JArr _ => true
  | JObj _ => true
  end.

Definition truthyOpt (o : option JSON) : bool :=
  match o with Some v => truthy v | None => false end.

(** [v && typeof v === "object"]. *)
Definition isObject (v : JSON) : bool :=
  match v with JArr _ | JObj _ => true | _ => false end.

(** [typeof o === "string"] together with the string. *)
Definition asString (o : option JSON) : option string :=
  match o with Some (JStr s) => Some s | _ => None end.

(** The object has a member of its own named [k]. *)
Definition hasOwn (k : string) (fields : list (string * JSON)) : bool :=
  existsb (fun kv => String.eqb k (fst kv)) fields.

(** Whether the conversion of [v] to a string completes.  An object is
    converted by the [toString] it inherits, unless it has a member of
    that name of its own: read from JSON, that member is no function,
    [valueOf] hands the object back, and the conversion throws a
    [TypeError].  An array converts its items, [null] apart, and joins
    them; the other values always convert. *)
Fixpoint convertible (v : JSON) : bool :=
  match v with
  | JArr items => forallb convertible items
  | JObj fields => negb (hasOwn "toString" fields)
  | _ => true
  end.

End Json.

(* ===================================================================== *)
(** ** Throwing *)
(* ===================================================================== *)

(** How an operation that may throw ends; of what was thrown the text
    [String(e?.message || e)] is kept, which is all the scripts read of
    it. *)
Inductive Outcome (A : Type) : Type :=
| Returned (a : A)
| Thrown (message : string).
Arguments Returned {A} a.
Arguments Thrown {A} message.

(* ===================================================================== *)
(** ** What the browser provides *)
(* ===================================================================== *)

(** Built-ins the scripts call and whose results are not computed here. *)
Record Host : Type := {
  (** the n-th reading of the clock, [new Date().toISOString()] *)
  nowISO : nat -> string;
  (** [JSON.parse(text)], [None] when it throws *)
  JSON_parse : string -> option JSON;
  (** [JSON.stringify(v, null, 2)] and [JSON.stringify(v)] *)
  JSON_stringify : JSON -> string;
  JSON_stringify_flat : JSON -> string;
  (** [String(v)] for a value that is not a string and can be converted *)
  toStringOther : JSON -> string;
  (** the text of the [TypeError] raised by the conversion to a string
      of a value that cannot be converted *)
  conversionError : JSON -> string;
  (** [String(Object.prototype[k])] for a member name [k] *)
  inheritedText : string -> string;
  (** the one-character strings U+2026, U+23CE and U+2192 *)
  ellipsis : string;
  returnSymbol : string;
  arrow : string;
  (** the n-th identifier made by [crypto.randomUUID()] or its fallback *)
  randomUUID : nat -> string;
  (** the base URL of the server, fixed when the page loads *)
  API_BASE : string;
  (** the text of the [TypeError] raised by reading the property [k]
      of [null] or [undefined], or by calling a missing method [k] *)
  typeErrorMessage : string -> string
}.

(** The conversion of a value to a string, as [String(v)], a template
    literal, the setter of [textContent], [localStorage.setItem] and
    [new Error(v)] all make it. *)
Definition String_ (h : Host) (v : JSON) : Outcome string :=
  match v with
  | JStr s => Returned s
  | _ => if Json.convertible v then Returned (toStringOther h v)
         else Thrown (conversionError h v)
  end.

(** [String(o || "")]. *)
Definition stringOrEmpty (h : Host) (o : option JSON) : Outcome string :=
  match o with
  | Some v => if Json.truthy v then String_ h v else Returned EmptyString
  | None => Returned EmptyString
  end.

(* ===================================================================== *)
(** ** Reading the interrupt, the report and the step off a JSON value
       ([frontend/app.js]) *)
(* ===================================================================== *)

Module Extract.

Import Json.

(** [[a, b, c, d].filter(Boolean)] *)
Fixpoint filterBoolean (cs : list (option JSON)) : list JSON :=
  match cs with
  | [] => []
  | Some v :: rest => if truthy v then v :: filterBoolean rest else filterBoolean rest
  | None :: rest => filterBoolean rest
  end.

(** The four places searched, in the order of the source. *)
Definition candidateSlots (obj : JSON) : list (option JSON) :=
  [ prop "__interrupt__" obj;
    optProp "__interrupt__" (prop "values" obj);
    prop "interrupts" obj;
    optProp "interrupts" (prop "values" obj) ].

Definition candidates (obj : JSON) : list JSON :=
  filterBoolean (candidateSlots obj).

(** [payload.kind === "approval_request" || payload.question ||
    payload.analysis_preview] *)
Definition looksLikeApproval (payload : JSON) : bool :=
  match prop "kind" payload with
  | Some (JStr k) => String.eqb k "approval_request"
  | _ => false
  end
  || truthyOpt (prop "question" payload)
  || truthyOpt (prop "analysis_preview" payload).

(** One turn of the loop over the candidates: [Some payload] when the turn
    returns, [None] when it continues. *)
Definition candidatePayload (c : JSON) : option JSON :=
  let first := match c with JArr items => hd_error items | _ => Some c end in
  match first with
  | None => None
  | Some first =>
      if negb (truthy first) then None
      else
        let payload :=
          match prop "value" first with
          | None | Some JNull => first
          | Some v => v
          end in
        if negb (truthy payload) then None
        else if looksLikeApproval payload then Some payload
        else None
  end.

Fixpoint firstPayload (cs : list JSON) : option JSON :=
  match cs with
  | [] => None
  | c :: rest =>
      match candidatePayload c with
      | Some payload => Some payload
      | None => firstPayload rest
      end
  end.

(** The object made up when the status alone says the run is paused. *)
Definition fallbackPayload : JSON :=
  JObj [ ("kind", JStr "approval_request");
         ("question", JStr "Approve?");
         ("options", JArr [JStr "y"; JStr "retry"; JStr "n"]);
         ("analysis_preview", JArr []) ].

Section WithHost.
Variable h : Host.

(** The conversion of [obj.status] throws when the status cannot be
    converted; it is made only when no place yields a request. *)
Definition extractInterruptPayload (obj : JSON) : Outcome (option JSON) :=
  if negb (truthy obj) then Returned None
  else
    match firstPayload (candidates obj) with
    | Some payload => Returned (Some payload)
    | None =>
        match stringOrEmpty h (prop "status" obj) with
        | Returned status =>
            Returned (if String.eqb status "interrupted"
                      then Some fallbackPayload else None)
        | Thrown message => Thrown message
        end
    end.

Definition extractFinalReportFromThread (threadObj : JSON) : string :=
  let values := prop "values" threadObj in
  if negb (truthyOpt values) then EmptyString
  else
    match asString (optProp "final_report" values) with
    | Some report => if Js.nonEmpty (Js.trim report) then report else EmptyString
    | None => EmptyString
    end.

Definition extractCurrentStepFromThread (threadObj : JSON) : Outcome string :=
  let values := prop "values" threadObj in
  if negb (truthyOpt values) then Returned EmptyString
  else stringOrEmpty h (optProp "current_step" values).

End WithHost.

End Extract.

(* ===================================================================== *)
(** ** The frame decoder ([parseSseFrame] and the read loop of [runStream]) *)
(* ===================================================================== *)

(** A protocol frame, [{ id, event, data }]. *)
Record Frame : Type := {
  ev_id : string;
  ev_event : string;
  ev_data : JSON
}.

Module Sse.

Import Js.

(** The separator searched for in the buffer, [indexOf] of two line feeds. *)
Definition blankLine : string := String LF (String LF EmptyString).

(** The body of [for (const line of lines)], on the three variables it
    assigns: [eventName], [dataLines] and [id]. *)
Definition parseLine (acc : string * list string * string) (line : string)
  : string * list string * string :=
  let '(eventName, dataLines, id) := acc in
  if negb (nonEmpty line) then acc
  else if startsWith line ":" then acc
  else if startsWith line "event:" then (trim (sliceFrom 6 line), dataLines, id)
  else if startsWith line "data:" then (eventName, (dataLines ++ [trim (sliceFrom 5 line)])%list, id)
  else if startsWith line "id:" then (eventName, dataLines, trim (sliceFrom 3 line))
  else acc.

Section WithHost.
Variable h : Host.

Definition parseSseFrame (frameText : string) : Frame :=
  let normalized := replaceCRLF frameText in
  let lines := splitLines normalized in
  let '(eventName, dataLines, id) :=
    fold_left parseLine lines (EmptyString, [], EmptyString) in
  let dataRaw := joinLines dataLines in
  let data :=
    if nonEmpty dataRaw then
      match JSON_parse h dataRaw with
      | Some v => v
      | None => JStr dataRaw
      end
    else JStr dataRaw in
  {| ev_id := id; ev_event := eventName; ev_data := data |}.

(** The reader's variables: [buffer], [eventCount], and whatever [onEvent]
    acts on. *)
Record Reader (A : Type) : Type := {
  buffer : string;
  eventCount : nat;
  seen : A
}.

Section Loop.
Variable A : Type.
Variable onEvent : Frame -> A -> A.

(** [while ((sepIndex = buffer.indexOf("\n\n")) !== -1) { ... }]; every
    turn removes two characters or more from the buffer, whose length is
    the fuel. *)
Fixpoint drain (fuel : nat) (r : Reader A) : Reader A :=
  match fuel with
  | O => r
  | S fuel' =>
      match indexOf (buffer r) blankLine with
      | None => r
      | Some sepIndex =>
          let frame := trim (sliceTo sepIndex (buffer r)) in
          let rest := sliceFrom (sepIndex + 2) (buffer r) in
          if negb (nonEmpty frame) then
            drain fuel' {| buffer := rest; eventCount := eventCount r; seen := seen r |}
          else
            let ev := parseSseFrame frame in
            drain fuel' {| buffer := rest;
                           eventCount := S (eventCount r);
                           seen := onEvent ev (seen r) |}
      end
  end.

(** One turn of [while (true)] after a successful [reader.read()]. *)
Definition onChunk (r : Reader A) (value : string) : Reader A :=
  let b := replaceCRLF (buffer r ++ value) in
  drain (String.length b) {| buffer := b; eventCount := eventCount r; seen := seen r |}.

(** The loop over the chunks the body delivers before it ends. *)
Definition readAll (chunks : list string) (a : A) : Reader A :=
  fold_left onChunk chunks {| buffer := EmptyString; eventCount := 0; seen := a |}.

End Loop.

(** The frames handed to [onEvent], in the order of the calls. *)
Definition decode (chunks : list string) : list Frame :=
  seen (readAll (fun ev acc => (acc ++ [ev])%list) chunks []).

End WithHost.

End Sse.

(* ===================================================================== *)
(** ** What both clients share *)
(* ===================================================================== *)

(** [uiState]: idle | starting | waiting_approval | resuming | done | error *)
Inductive UiState : Type :=
| idle | starting | waiting_approval | resuming | done | error.

Definition MAX_LOG_ITEMS : nat := 80.

(** What an awaited call of the network comes back with: [fetch] rejects,
    the response is not [ok], its body is not JSON, or the body. *)
Inductive Reply (A : Type) : Type :=
| NetworkError (message : string)
| HttpError (status text : string)
| BodyNotJson (message : string)
| Body (data : A).
Arguments NetworkError {A} message.
Arguments HttpError {A} status text.
Arguments BodyNotJson {A} message.
Arguments Body {A} data.

(** Code that reads and assigns the globals of type [S] and may throw. *)
Definition Run (S A : Type) : Type := S -> Outcome A * S.

Definition ret {S A : Type} (a : A) : Run S A := fun s => (Returned a, s).

Definition throw {S A : Type} (message : string) : Run S A :=
  fun s => (Thrown message, s).

Definition bind {S A B : Type} (c : Run S A) (k : A -> Run S B) : Run S B :=
  fun s =>
    match c s with
    | (Returned a, s') => k a s'
    | (Thrown message, s') => (Thrown message, s')
    end.

(** A statement that cannot throw. *)
Definition exec {S : Type} (f : S -> S) : Run S unit := fun s => (Returned tt, f s).

(** Reading a global. *)
Definition gets {S A : Type} (f : S -> A) : Run S A := fun s => (Returned (f s), s).

(** An expression that reads no global and may throw. *)
Definition lift {S A : Type} (o : Outcome A) : Run S A := fun s => (o, s).

Declare Scope run_scope.
Delimit Scope run_scope with run.
Notation "x <- c ;; k" := (bind c (fun x => k))
  (at level 61, c at next level, right associativity) : run_scope.
Notation "c ;; k" := (bind c (fun _ => k))
  (at level 61, right associativity) : run_scope.


(** Every run of the code [c] relates the globals before and after by
    [R], however it ends. *)
Definition keeps (S : Type) (R : S -> S -> Prop) {A : Type} (c : Run S A) : Prop :=
  forall s, R s (snd (c s)).

(** Whatever the code [c] throws satisfies [P]. *)
Definition throwsOnly (S : Type) (P : string -> Prop) {A : Type} (c : Run S A) : Prop :=
  forall s msg, fst (c s) = Thrown msg -> P msg.

Definition thrownOnly (P : string -> Prop) {A : Type} (o : Outcome A) : Prop :=
  forall msg, o = Thrown msg -> P msg.

Arguments keeps S R {A} c.
Arguments throwsOnly S P {A} c.
Arguments thrownOnly P {A} o.

(* ===================================================================== *)
(** ** [frontend/app.js]: the text of a preview item *)
(* ===================================================================== *)

Module Preview.

Import Js Json.

(** [s.split(/\r?\n/)]: a line ends at a line feed, which takes along
    the carriage return just before it. *)
Fixpoint splitNewlines (s : string) : list string :=
  match s with
  | EmptyString => [EmptyString]
  | String c rest =>
      if isLF c then EmptyString :: splitNewlines rest
      else
        match rest with
        | String d rest' =>
            if isCR c && isLF d then EmptyString :: splitNewlines rest'
            else match splitNewlines rest with
                 | l :: ls => String c l :: ls
                 | [] => [String c EmptyString]
                 end
        | EmptyString => [String c EmptyString]
        end
  end.

(** [firstLines(text, n)], the pair of [head] and [more]. *)
Definition firstLines (text : string) (n : nat) : string * bool :=
  let lines := splitNewlines text in
  let head := joinLines (firstn n lines) in
  let more := Nat.ltb n (List.length lines) in
  (head, more).

(** [head.replace(/\n+/g, sign)]: the sign is written at the last line
    feed of each run. *)
Fixpoint replaceLineFeeds (sign : string) (s : string) : string :=
  match s with
  | EmptyString => EmptyString
  | String c rest =>
      if isLF c then
        match rest with
        | String d _ =>
            if isLF d then replaceLineFeeds sign rest
            else sign ++ replaceLineFeeds sign rest
        | EmptyString => sign
        end
      else String c (replaceLineFeeds sign rest)
  end.

(** The decimal digits of an index, [String(n)]. *)
Definition decimal (n : nat) : string := NilZero.string_of_uint (Nat.to_uint n).

(** What [renderPreview] shows of an item: the title, the line beside
    it, and the text that unfolds. *)
Record Entry : Type := {
  title : string;
  snippet : string;
  body : string
}.

Section WithHost.
Variable h : Host.

(** [toTextMaybe(x)] *)
Definition toTextMaybe (x : option JSON) : string :=
  match x with
  | None | Some JNull => EmptyString
  | Some (JStr text) => text
  | Some v => JSON_stringify h v
  end.

(** The body of [list.forEach((x, idx) => ...)], on the texts it puts
    into the page; the conversion of [x.type] is its first statement. *)
Definition entry (idx : nat) (x : JSON) : Outcome Entry :=
  let type :=
    match prop "type" x with
    | Some t => if truthy t then String_ h t
                else Returned ("Message " ++ decimal (idx + 1))
    | None => Returned ("Message " ++ decimal (idx + 1))
    end in
  match type with
  | Thrown message => Thrown message
  | Returned type =>
      let full :=
        toTextMaybe (match prop "content" x with
                     | None | Some JNull => Some x
                     | Some content => Some content
                     end) in
      let '(head, more) := firstLines full 4 in
      let headOneLine := replaceLineFeeds (" " ++ returnSymbol h ++ " ") head in
      Returned
        {| title := type;
           snippet := headOneLine ++ (if more then " " ++ ellipsis h else EmptyString);
           body := full |}
  end.

(** The turns of [forEach] from the index [idx] on: the first item that
    throws ends the loop. *)
Fixpoint entriesFrom (idx : nat) (items : list JSON) : Outcome (list Entry) :=
  match items with
  | [] => Returned []
  | x :: rest =>
      match entry idx x with
      | Thrown message => Thrown message
      | Returned e =>
          match entriesFrom (S idx) rest with
          | Thrown message => Thrown message
          | Returned es => Returned (e :: es)
          end
      end
  end.

(** [renderPreview(analysisPreview)]: the entries put into the page,
    none when the hint that there is no preview data is put in their
    place.  The entries are attached after the loop, so that a loop that
    throws leaves the preview empty. *)
Definition renderPreview (analysisPreview : option JSON) : Outcome (list Entry) :=
  let list := match analysisPreview with Some (JArr items) => items | _ => [] end in
  entriesFrom 0 list.

End WithHost.

End Preview.

(* ===================================================================== *)
(** ** [frontend/app.js]: the streaming client *)
(* ===================================================================== *)

Module Frontend.

Import Js Json Extract.

Definition ASSISTANT_ID : string := "business_plan".

(** [const SHOW_NOISY_SSE = false;] *)
Definition SHOW_NOISY_SSE : bool := false.

(** An entry of [logItems]. *)
Record LogItem : Type := {
  timeISO : string;
  tag : string;
  agent : string;
  summary : string;
  detail : string;
  raw : JSON
}.

(** The body of a [runs/stream] request: the initial input of the pipeline
    for the topic, or the command that resumes it with a decision. *)
Inductive RunBody : Type :=
| StartInput (theme : string)
| ResumeCommand (decision : string).

(** The requests the script sends; [tid] is the text of the thread id
    in the address of the request. *)
Inductive Request : Type :=
| PostThreads
| GetThread (tid : string)
| PostRunsStream (tid : string) (body : RunBody).

(** The globals, the storage entry [agent_thread_id], the parts of the
    page the logic writes (the status pane, a dump for debugging, and the
    widgets' enabling are left out), and the requests sent so far, oldest
    first.  [threadId] holds [null] or a value: the saved text, or
    whatever the server gave for [thread_id]. *)
Record State : Type := mkState {
  threadId : option JSON;
  storedThreadId : option string;
  uiState : UiState;
  logItems : list LogItem;
  clock : nat;
  currentController : bool;
  workBadge : string;
  errorBanner : string;
  approvalCard : bool;
  questionEl : string;
  previewEl : list Preview.Entry;
  reportCard : bool;
  reportEl : string;
  requests : list Request
}.

Definition set_threadId (v : option JSON) (s : State) : State :=
  mkState v (storedThreadId s) (uiState s) (logItems s) (clock s)
    (currentController s) (workBadge s) (errorBanner s) (approvalCard s)
    (questionEl s) (previewEl s) (reportCard s) (reportEl s) (requests s).

Definition set_storedThreadId (v : option string) (s : State) : State :=
  mkState (threadId s) v (uiState s) (logItems s) (clock s)
    (currentController s) (workBadge s) (errorBanner s) (approvalCard s)
    (questionEl s) (previewEl s) (reportCard s) (reportEl s) (requests s).

Definition set_uiState (v : UiState) (s : State) : State :=
  mkState (threadId s) (storedThreadId s) v (logItems s) (clock s)
    (currentController s) (workBadge s) (errorBanner s) (approvalCard s)
    (questionEl s) (previewEl s) (reportCard s) (reportEl s) (requests s).

Definition set_logItems (v : list LogItem) (s : State) : State :=
  mkState (threadId s) (storedThreadId s) (uiState s) v (clock s)
    (currentController s) (workBadge s) (errorBanner s) (approvalCard s)
    (questionEl s) (previewEl s) (reportCard s) (reportEl s) (requests s).

Definition set_clock (v : nat) (s : State) : State :=
  mkState (threadId s) (storedThreadId s) (uiState s) (logItems s) v
    (currentController s) (workBadge s) (errorBanner s) (approvalCard s)
    (questionEl s) (previewEl s) (reportCard s) (reportEl s) (requests s).

Definition set_currentController (v : bool) (s : State) : State :=
  mkState (threadId s) (storedThreadId s) (uiState s) (logItems s) (clock s)
    v (workBadge s) (errorBanner s) (approvalCard s) (questionEl s)
    (previewEl s) (reportCard s) (reportEl s) (requests s).

Definition set_workBadge (v : string) (s : State) : State :=
  mkState (threadId s) (storedThreadId s) (uiState s) (logItems s) (clock s)
    (currentController s) v (errorBanner s) (approvalCard s) (questionEl s)
    (previewEl s) (reportCard s) (reportEl s) (requests s).

Definition set_errorBanner (v : string) (s : State) : State :=
  mkState (threadId s) (storedThreadId s) (uiState s) (logItems s) (clock s)
    (currentController s) (workBadge s) v (approvalCard s) (questionEl s)
    (previewEl s) (reportCard s) (reportEl s) (requests s).

Definition set_approvalCard (v : bool) (s : State) : State :=
  mkState (threadId s) (storedThreadId s) (uiState s) (logItems s) (clock s)
    (currentController s) (workBadge s) (errorBanner s) v (questionEl s)
    (previewEl s) (reportCard s) (reportEl s) (requests s).

Definition set_questionEl (v : string) (s : State) : State :=
  mkState (threadId s) (storedThreadId s) (uiState s) (logItems s) (clock s)
    (currentController s) (workBadge s) (errorBanner s) (approvalCard s) v
    (previewEl s) (reportCard s) (reportEl s) (requests s).

Definition set_previewEl (v : list Preview.Entry) (s : State) : State :=
  mkState (threadId s) (storedThreadId s) (uiState s) (logItems s) (clock s)
    (currentController s) (workBadge s) (errorBanner s) (approvalCard s)
    (questionEl s) v (reportCard s) (reportEl s) (requests s).

Definition set_reportCard (v : bool) (s : State) : State :=
  mkState (threadId s) (storedThreadId s) (uiState s) (logItems s) (clock s)
    (currentController s) (workBadge s) (errorBanner s) (approvalCard s)
    (questionEl s) (previewEl s) v (reportEl s) (requests s).

Definition set_reportEl (v : string) (s : State) : State :=
  mkState (threadId s) (storedThreadId s) (uiState s) (logItems s) (clock s)
    (currentController s) (workBadge s) (errorBanner s) (approvalCard s)
    (questionEl s) (previewEl s) (reportCard s) v (requests s).

Definition set_requests (v : list Request) (s : State) : State :=
  mkState (threadId s) (storedThreadId s) (uiState s) (logItems s) (clock s)
    (currentController s) (workBadge s) (errorBanner s) (approvalCard s)
    (questionEl s) (previewEl s) (reportCard s) (reportEl s) v.

(** The page as the script finds it when it is loaded, with what the
    storage holds under [agent_thread_id]. *)
Definition loaded (stored : option string) : State :=
  mkState None stored idle [] 0 false EmptyString EmptyString false
          EmptyString [] false EmptyString [].

(** Sending a request. *)
Definition send (r : Request) (s : State) : State :=
  set_requests (requests s ++ [r])%list s.

(** [NODE_LABEL], own entries. *)
Definition NODE_LABEL (k : string) : option string :=
  if String.eqb k "research_agent" then Some "Research (research_agent)"
  else if String.eqb k "tools" then Some "Search (tools)"
  else if String.eqb k "summary_agent" then Some "Summary (summary_agent)"
  else if String.eqb k "market_agent" then Some "Market analysis (market_agent)"
  else if String.eqb k "technical_agent" then Some "Technical review (technical_agent)"
  else if String.eqb k "human_approval" then Some "Awaiting approval (human_approval)"
  else if String.eqb k "report_agent" then Some "Report generation (report_agent)"
  else None.

(** The member names an object literal inherits from [Object.prototype];
    [NODE_LABEL[k]] is truthy for them too. *)
Definition inheritedMember (k : string) : bool :=
  existsb (String.eqb k)
    [ "constructor"; "hasOwnProperty"; "isPrototypeOf"; "propertyIsEnumerable";
      "toLocaleString"; "toString"; "valueOf"; "__proto__";
      "__defineGetter__"; "__defineSetter__"; "__lookupGetter__"; "__lookupSetter__" ].

(** [NODE_LABEL[k]] is truthy. *)
Definition hasLabel (k : string) : bool :=
  match NODE_LABEL k with
  | Some _ => true
  | None => inheritedMember k
  end.

Section WithHost.
Variable h : Host.

(** The text of [NODE_LABEL[k] || k]. *)
Definition labelOrKey (k : string) : string :=
  match NODE_LABEL k with
  | Some label => label
  | None => if inheritedMember k then inheritedText h k else k
  end.

(* ---- UI helpers ---- *)

(** [setError(message)]; the banner is hidden exactly when its text is
    empty. *)
Definition setError (message : string) (s : State) : State :=
  set_errorBanner message s.

Definition setWork (nodeKeyOrLabel : string) (s : State) : State :=
  set_workBadge (labelOrKey (orElse nodeKeyOrLabel "-")) s.

Definition setUiState (state : UiState) (s : State) : State :=
  set_uiState state s.

(** [persistThreadId(id)]: [localStorage.setItem] stores the text of
    the id, and throws when the id has none. *)
Definition persistThreadId (id : JSON) : Run State unit :=
  (text <- lift (String_ h id) ;;
   exec (set_storedThreadId (Some text)))%run.

Definition clearThreadId (s : State) : State :=
  set_storedThreadId None s.


(** [restoreThreadId()]: [saved || null]. *)
Definition restoreThreadId (s : State) : option string :=
  match storedThreadId s with
  | Some saved => if nonEmpty saved then Some saved else None
  | None => None
  end.

(** [truncate(s, n)] *)
Definition truncate (t : string) (n : nat) : string :=
  if Nat.leb (String.length t) n then t else sliceTo n t ++ ellipsis h.

(** The argument of [addLogEntry]; an omitted text is the empty string and
    an omitted [raw] is [JNull]. *)
Record LogArgs : Type := {
  arg_tag : string;
  arg_agent : string;
  arg_summary : string;
  arg_detail : string;
  arg_raw : JSON
}.

Definition note (tag summary detail : string) : LogArgs :=
  {| arg_tag := tag; arg_agent := EmptyString; arg_summary := summary;
     arg_detail := detail; arg_raw := JNull |}.

Definition addLogEntry (a : LogArgs) (s : State) : State :=
  let item := {| timeISO := nowISO h (clock s);
                 tag := orElse (arg_tag a) "LOG";
                 agent := arg_agent a;
                 summary := arg_summary a;
                 detail := arg_detail a;
                 raw := arg_raw a |} in
  let unshifted := item :: logItems s in
  let kept :=
    if Nat.ltb MAX_LOG_ITEMS (List.length unshifted)
    then firstn MAX_LOG_ITEMS unshifted
    else unshifted in
  set_logItems kept (set_clock (S (clock s)) s).

Definition clearLog (s : State) : State :=
  addLogEntry (note "UI" "Cleared logs." "Cleared logs.") (set_logItems [] s).

(* ---- SSE interpretation helpers ---- *)

(** [(obj.updates && typeof obj.updates === "object") ? obj.updates : obj] *)
Definition updatesOf (obj : JSON) : JSON :=
  match prop "updates" obj with
  | Some u => if isObject u then u else obj
  | None => obj
  end.

(** The loop of [pickNodeKeyFromUpdates] over [Object.keys(u)]. *)
Fixpoint firstLabelledKey (fields : list (string * JSON)) : string :=
  match fields with
  | [] => EmptyString
  | (k, _) :: rest => if hasLabel k then k else firstLabelledKey rest
  end.

(** The keys of an array are its indices, none of which has a label. *)
Definition pickNodeKeyFromUpdates (obj : JSON) : string :=
  if negb (isObject obj) then EmptyString
  else
    match updatesOf obj with
    | JObj fields => firstLabelledKey fields
    | _ => EmptyString
    end.

(** The loop of [pickCurrentStepFromUpdates] over the values [u[k]]. *)
Fixpoint firstCurrentStep (vs : list JSON) : string :=
  match vs with
  | [] => EmptyString
  | v :: rest =>
      match asString (prop "current_step" v) with
      | Some step => if nonEmpty (trim step) then trim step else firstCurrentStep rest
      | None => firstCurrentStep rest
      end
  end.

(** [Object.keys(u).map(k => u[k])] *)
Definition ownValues (u : JSON) : list JSON :=
  match u with
  | JObj fields => map snd fields
  | JArr items => items
  | _ => []
  end.

Definition pickCurrentStepFromUpdates (obj : JSON) : string :=
  if negb (isObject obj) then EmptyString
  else firstCurrentStep (ownValues (updatesOf obj)).

(** [a ?? b] *)
Definition coalesce (a : option JSON) (b : JSON) : JSON :=
  match a with
  | None | Some JNull => b
  | Some v => v
  end.

(** The text of [content]: itself when it is a string, else
    [JSON.stringify(content, null, 2)]. *)
Definition contentText (content : JSON) : string :=
  match content with
  | JStr text => text
  | _ => JSON_stringify h content
  end.

(** The loop over [["analysis_messages", "research_messages"]]. *)
Fixpoint lastMessageText (nodeState : JSON) (keys : list string) : option string :=
  match keys with
  | [] => None
  | key :: rest =>
      match prop key nodeState with
      | Some (JArr (m :: ms)) =>
          let last := List.last ms m in
          let content :=
            coalesce (prop "content" last)
              (coalesce (prop "text" last)
                 (coalesce (prop "message" last) last)) in
          Some (contentText content)
      | _ => lastMessageText nodeState rest
      end
  end.

Definition extractReadableOutputFromNodeState (nodeState : JSON) : string :=
  if negb (isObject nodeState) then EmptyString
  else
    let otherwise :=
      match lastMessageText nodeState ["analysis_messages"; "research_messages"] with
      | Some text => text
      | None => JSON_stringify h nodeState
      end in
    match asString (prop "final_report" nodeState) with
    | Some report => if nonEmpty (trim report) then report else otherwise
    | None => otherwise
    end.


(** [payload.question || "Approve?"] as the text the setter of
    [textContent] makes of it. *)
Definition questionText (payload : JSON) : Outcome string :=
  match prop "question" payload with
  | Some q => if truthy q then String_ h q else Returned "Approve?"
  | None => Returned "Approve?"
  end.

(** [payload.analysis_preview || []] *)
Definition previewOf (payload : JSON) : JSON :=
  match prop "analysis_preview" payload with
  | Some v => if truthy v then v else JArr []
  | None => JArr []
  end.

(** [renderPreview(analysisPreview)], on what the page shows: the
    preview is emptied first and filled after the loop over the items. *)
Definition renderPreview (analysisPreview : option JSON) : Run State unit :=
  (exec (set_previewEl []) ;;
   entries <- lift (Preview.renderPreview h analysisPreview) ;;
   exec (set_previewEl entries))%run.

Definition showApprovalIfNeeded (payload : JSON) : Run State unit :=
  if negb (truthy payload) then ret tt
  else
    (state <- gets uiState ;;
     match state with
     | waiting_approval => ret tt
     | _ =>
         exec (setUiState waiting_approval) ;;
         exec (set_approvalCard true) ;;
         question <- lift (questionText payload) ;;
         exec (set_questionEl question) ;;
         renderPreview (Some (previewOf payload)) ;;
         exec (addLogEntry {| arg_tag := "HITL";
                              arg_agent := "Awaiting approval (human_approval)";
                              arg_summary := "Awaiting approval (user input required).";
                              arg_detail := JSON_stringify h payload;
                              arg_raw := payload |})
     end)%run.

(** [eventName === "metadata" || eventName === "ping" || eventName ===
    "keepalive"] *)
Definition isKeepalive (eventName : string) : bool :=
  String.eqb eventName "metadata" || String.eqb eventName "ping"
  || String.eqb eventName "keepalive".

(** The end of [handleSseEvent], "only log raw SSE when truly needed". *)
Definition logRawSse (ev : Frame) (s : State) : State :=
  let raw := ev_data ev in
  let eventName := ev_event ev in
  if negb SHOW_NOISY_SSE then s
  else
    let asText := match raw with JStr text => text | _ => JSON_stringify_flat h raw end in
    addLogEntry {| arg_tag := if nonEmpty eventName then "SSE:" ++ eventName else "SSE";
                   arg_agent := EmptyString;
                   arg_summary := orElse (truncate asText 140) "(SSE)";
                   arg_detail := contentText raw;
                   arg_raw := if isObject raw then raw else JNull |} s.

(** The block "values: lightweight state-change logs" and what follows. *)
Definition logValues (ev : Frame) : Run State unit :=
  let raw := ev_data ev in
  if String.eqb (ev_event ev) "values" then
    (current <- lift (stringOrEmpty h (optProp "current_step" (prop "values" raw))) ;;
     if nonEmpty current then
       exec (addLogEntry {| arg_tag := "STATE";
                            arg_agent := labelOrKey current;
                            arg_summary := "State updated (values).";
                            arg_detail := JSON_stringify h (coalesce (prop "values" raw) raw);
                            arg_raw := raw |})
     else if negb SHOW_NOISY_SSE then ret tt
     else
       exec (addLogEntry {| arg_tag := "STATE";
                            arg_agent := EmptyString;
                            arg_summary := "State updated (values).";
                            arg_detail := JSON_stringify h raw;
                            arg_raw := raw |}))%run
  else exec (logRawSse ev).

(** The block "updates: readable result log entries" and what follows. *)
Definition logUpdates (ev : Frame) : Run State unit :=
  let raw := ev_data ev in
  if String.eqb (ev_event ev) "updates" then
    let nodeKey := pickNodeKeyFromUpdates raw in
    if nonEmpty nodeKey then
      let nodeState :=
        match prop nodeKey (updatesOf raw) with
        | Some v => if truthy v then v else JObj []
        | None => JObj []
        end in
      let text := extractReadableOutputFromNodeState nodeState in
      exec (addLogEntry {| arg_tag := "AGENT";
                           arg_agent := labelOrKey nodeKey;
                           arg_summary := orElse (truncate text 140) "(updated)";
                           arg_detail := orElse text "(updated)";
                           arg_raw := raw |})
    else if negb SHOW_NOISY_SSE then ret tt
    else logValues ev
  else logValues ev.

(** The block "if values.current_step exists, apply it with highest
    priority". *)
Definition applyCurrentStep (raw : JSON) : Run State unit :=
  if isObject raw then
    let valuesObj :=
      match prop "values" raw with
      | Some v => if isObject v then Some v else None
      | None => None
      end in
    (step <- lift (stringOrEmpty h (optProp "current_step" valuesObj)) ;;
     if nonEmpty step then exec (setWork step) else ret tt)%run
  else ret tt.

Definition handleSseEvent (ev : Frame) : Run State unit :=
  let raw := ev_data ev in
  let eventName := ev_event ev in
  (interruptPayload <-
     lift (if isObject raw then extractInterruptPayload h raw else Returned None) ;;
   match interruptPayload with
   | Some interruptPayload => showApprovalIfNeeded interruptPayload
   | None =>
       if negb SHOW_NOISY_SSE && isKeepalive eventName then ret tt
       else
         applyCurrentStep raw ;;
         let stepFromUpdates :=
           if String.eqb eventName "updates" && isObject raw
           then pickCurrentStepFromUpdates raw
           else EmptyString in
         if nonEmpty stepFromUpdates then exec (setWork stepFromUpdates)
         else logUpdates ev
   end)%run.

(* ---- API helpers ---- *)

(** [createThread()], on the reply to [POST /threads]. *)
Definition createThread (reply : Reply JSON) : Run State JSON :=
  (exec (send PostThreads) ;;
   match reply with
   | NetworkError message => throw message
   | HttpError status text => throw ("thread create failed: " ++ status ++ " " ++ text)
   | BodyNotJson message => throw message
   | Body data =>
       match prop "thread_id" data with
       | Some id => if truthy id then ret id
                    else throw "thread create response has no thread_id"
       | None => throw "thread create response has no thread_id"
       end
   end)%run.

(** [ensureThreadIdFromServer({ forceNew })]: the id is assigned to
    [threadId] before it is stored and logged. *)
Definition ensureThreadIdFromServer (forceNew : bool) (reply : Reply JSON)
  : Run State JSON :=
  (let create :=
     id <- createThread reply ;;
     exec (set_threadId (Some id)) ;;
     persistThreadId id ;;
     text <- lift (String_ h id) ;;
     exec (addLogEntry (note "THREAD" ("Created: thread_id=" ++ text)
                             ("Created: thread_id=" ++ text))) ;;
     ret id in
   current <- gets threadId ;;
   match current with
   | Some tid => if negb forceNew && truthy tid then ret tid else create
   | None => create
   end)%run.

(** [getThread(tid)], on the reply to [GET /threads/{tid}]; the address
    is made before the request is sent. *)
Definition getThread (tid : JSON) (reply : Reply JSON) : Run State JSON :=
  (text <- lift (String_ h tid) ;;
   exec (send (GetThread text)) ;;
   match reply with
   | NetworkError message => throw message
   | HttpError status text => throw ("get thread failed: " ++ status ++ " " ++ text)
   | BodyNotJson message => throw message
   | Body data => ret data
   end)%run.

Definition cancelInFlight (s : State) : State :=
  if negb (currentController s) then s
  else addLogEntry (note "UI" "User canceled the stream." "User canceled the stream.") s.

(** How the body of the stream ends: the server closes it, a read fails,
    or the user presses Cancel while a read is pending and the read
    rejects. *)
Inductive BodyEnd : Type :=
| EndOfBody
| ReadFails (message : string)
| CanceledByUser (message : string).

(** What [POST /threads/{tid}/runs/stream] comes back with: [fetch]
    rejects, the response is not [ok], it is [ok] and has no body, or
    its body arrives in chunks. *)
Inductive StreamReply : Type :=
| StreamNetworkError (message : string)
| StreamHttpError (status text : string)
| StreamNoBody
| StreamBody (contentType : string) (chunks : list string) (ending : BodyEnd).

(** [onEvent?.(ev)] inside the read loop: when the handler throws, the
    loop is left through its [finally], and no later frame is handled. *)
Definition onEvent (ev : Frame) (r : Outcome unit * State) : Outcome unit * State :=
  match r with
  | (Returned _, s) => handleSseEvent ev s
  | (Thrown message, s) => (Thrown message, s)
  end.

(** [runStream({ tid, body, onEvent })] with [onEvent] the handler of the
    script.  The controller is held from before the request until the
    [finally] of the read loop, which a failed request does not reach. *)
Definition runStream (tid : JSON) (body : RunBody) (reply : StreamReply)
  : Run State unit :=
  (exec (set_currentController true) ;;
   text <- lift (String_ h tid) ;;
   exec (send (PostRunsStream text body)) ;;
   match reply with
   | StreamNetworkError message => throw message
   | StreamHttpError status text =>
       throw ("runs/stream failed: " ++ status ++ " " ++ text)
   | StreamNoBody => throw (typeErrorMessage h "getReader")
   | StreamBody contentType chunks ending =>
       exec (fun s =>
               if SHOW_NOISY_SSE
               then addLogEntry (note "HTTP" ("runs/stream content-type=" ++ contentType)
                                      ("runs/stream content-type=" ++ contentType)) s
               else s) ;;
       fun s =>
         let r := Sse.readAll h onEvent chunks (Returned tt, s) in
         match Sse.seen r with
         | (Thrown message, s) => (Thrown message, set_currentController false s)
         | (Returned _, s) =>
             match ending with
             | EndOfBody =>
                 let s := set_currentController false s in
                 (Returned tt,
                  if Nat.eqb (Sse.eventCount r) 0
                  then addLogEntry
                         (note "WARN" "No SSE events were received."
                            "No SSE events were received. The server may not be emitting SSE, buffering may be occurring, or a proxy could be interfering.") s
                  else s)
             | ReadFails message =>
                 (Thrown message, set_currentController false s)
             | CanceledByUser message =>
                 (Thrown message, set_currentController false (cancelInFlight s))
             end
         end
   end)%run.

(* ---- app logic ---- *)

(** [themeValue()], on the text of the topic field. *)
Definition themeValue (themeInput : string) : string :=
  orElse (trim themeInput) "Space debris removal service".

Definition resetViewForRun (s : State) : State :=
  set_reportCard false (set_approvalCard false (setError EmptyString s)).

(** What [start] and [resume] both do with the snapshot polled after the
    stream, from [extractInterruptPayload(threadObj)] to their end; they
    differ in the text shown when there is no report. *)
Definition reconcile (noReportText : string) (threadObj : JSON) : Run State unit :=
  (payload <- lift (extractInterruptPayload h threadObj) ;;
   currentStep <- lift (extractCurrentStepFromThread h threadObj) ;;
   (if nonEmpty currentStep then exec (setWork currentStep) else ret tt) ;;
   match payload with
   | Some payload => showApprovalIfNeeded payload
   | None =>
       let report := extractFinalReportFromThread threadObj in
       if negb (nonEmpty report) then
         exec (setUiState done) ;;
         exec (set_reportCard true) ;;
         exec (set_reportEl noReportText) ;;
         exec (addLogEntry (note "DONE" "Done (no final report)" "Done (no final report)"))
       else
         exec (setUiState done) ;;
         exec (set_reportCard true) ;;
         exec (set_reportEl report) ;;
         exec (addLogEntry (note "DONE" "Done (final report generated)"
                                 "Done (final report generated)"))
   end)%run.

Definition start (themeInput : string)
  (created : Reply JSON) (stream : StreamReply) (thread : Reply JSON)
  : Run State unit :=
  (exec resetViewForRun ;;
   let theme := themeValue themeInput in
   tid <- ensureThreadIdFromServer true created ;;
   exec (setWork "-") ;;
   exec (setUiState starting) ;;
   text <- lift (String_ h tid) ;;
   exec (addLogEntry
           (note "START" ("Started: " ++ dquote ++ theme ++ dquote)
                 ("Started: " ++ dquote ++ theme ++ dquote ++ " / thread_id=" ++ text))) ;;
   runStream tid (StartInput theme) stream ;;
   threadObj <- getThread tid thread ;;
   reconcile
     "(The final report has not been generated yet. If you were not prompted for approval, check the server logs.)"
     threadObj)%run.

Definition resume (decision : string)
  (created : Reply JSON) (stream : StreamReply) (thread : Reply JSON)
  : Run State unit :=
  (exec resetViewForRun ;;
   tid <- ensureThreadIdFromServer false created ;;
   exec (setUiState resuming) ;;
   text <- lift (String_ h tid) ;;
   exec (addLogEntry
           (note "RESUME" ("Input: " ++ decision)
                 ("Input: " ++ decision ++ " / thread_id=" ++ text))) ;;
   runStream tid (ResumeCommand decision) stream ;;
   threadObj <- getThread tid thread ;;
   reconcile "(The final report has not been generated yet.)" threadObj)%run.

(** [runWithUi(fn)]: the text of the banner is [String(e?.message || e)]
    of what [fn] threw. *)
Definition runWithUi (fn : Run State unit) (s : State) : State :=
  match fn (setError EmptyString s) with
  | (Returned _, s) => s
  | (Thrown msg, s) =>
      let s := setUiState error s in
      let s := setError msg s in
      addLogEntry (note "ERROR" msg msg) s
  end.

Definition handleDecision (decision : string)
  (created : Reply JSON) (stream : StreamReply) (thread : Reply JSON)
  (s : State) : State :=
  runWithUi (resume decision created stream thread) (setUiState resuming s).

(* ---- clear / init ---- *)

Definition clearAll (s : State) : State :=
  let s := set_threadId None s in
  let s := clearThreadId s in
  let s := set_approvalCard false s in
  let s := set_reportCard false s in
  let s := setError EmptyString s in
  let s := setUiState idle s in
  let s := setWork "-" s in
  set_logItems [] s.

(** The [try] block of [initAsync], on the reply to the one
    [getThread(savedTid)] it sends. *)
Definition restore (savedTid : string) (thread : Reply JSON) : Run State unit :=
  (t <- getThread (JStr savedTid) thread ;;
   payload <- lift (extractInterruptPayload h t) ;;
   currentStep <- lift (extractCurrentStepFromThread h t) ;;
   (if nonEmpty currentStep then exec (setWork currentStep) else ret tt) ;;
   match payload with
   | Some payload =>
       exec (set_threadId (Some (JStr savedTid))) ;;
       exec (addLogEntry
               (note "UI"
                  ("Restored: awaiting approval (thread_id=" ++ savedTid ++ ")")
                  ("Restored: awaiting approval (thread_id=" ++ savedTid ++ ")"))) ;;
       exec (setUiState waiting_approval) ;;
       exec (set_approvalCard true) ;;
       question <- lift (questionText payload) ;;
       exec (set_questionEl question) ;;
       renderPreview (Some (previewOf payload))
   | None =>
       exec clearThreadId ;;
       exec (addLogEntry
               (note "UI" "Discarded previous thread (not awaiting approval)."
                  ("Discarded previous thread (not awaiting approval): thread_id="
                   ++ savedTid)))
   end)%run.

(** [initAsync()]: whatever the [try] block throws is caught, and the
    saved id is removed from the storage. *)
Definition initAsync (thread : Reply JSON) (s : State) : State :=
  let s := setUiState idle s in
  let s := setWork "-" s in
  let s := addLogEntry (note "UI" ("App loaded. API: " ++ API_BASE h)
                             ("App loaded. API: " ++ API_BASE h)) s in
  match restoreThreadId s with
  | None => s
  | Some savedTid =>
      match restore savedTid thread s with
      | (Returned _, s) => s
      | (Thrown msg, s) =>
          let s := clearThreadId s in
          addLogEntry
            (note "WARN"
               ("Failed to verify saved thread " ++ arrow h ++ " discarded.")
               ("Failed to verify saved thread, so it was discarded: " ++ msg)) s
      end
  end.

(* ---- Events ---- *)

(** What the listeners registered at the end of the script react to,
    each with the replies its requests will get: the Run button (or
    Enter in the topic field), a decision button, Cancel, "clear log"
    and the Clear button.  (Copying and downloading the report are left
    out: they read the report card and add log entries only.) *)
Inductive Event : Type :=
| ClickStart (themeInput : string)
    (created : Reply JSON) (stream : StreamReply) (thread : Reply JSON)
| ClickDecision (decision : string)
    (created : Reply JSON) (stream : StreamReply) (thread : Reply JSON)
| ClickCancel
| ClickClearLog
| ClickClear.

Definition listener (e : Event) (s : State) : State :=
  match e with
  | ClickStart themeInput created stream thread =>
      runWithUi (start themeInput created stream thread) s
  | ClickDecision decision created stream thread =>
      handleDecision decision created stream thread s
  | ClickCancel => cancelInFlight s
  | ClickClearLog => clearLog s
  | ClickClear => clearAll s
  end.

End WithHost.

End Frontend.
(* ===================================================================== *)
(** ** [frontend_ls/app.js]: the client of the LangServe deployment *)
(* ===================================================================== *)

Module FrontendLs.

Import Js Json.

(** [const REQUEST_TIMEOUT_MS = 0;]: no timer is ever armed. *)
Definition REQUEST_TIMEOUT_MS : nat := 0.

(** An entry of [logItems]. *)
Record LogItem : Type := {
  timeISO : string;
  tag : string;
  message : string
}.

(** The [input] of a [POST /agent/invoke]; [thread_id] is the value of
    [threadId] as it is put into the body of the request. *)
Inductive InvokeInput : Type :=
| StartAction (theme : string) (thread_id : JSON)
| ResumeAction (thread_id : JSON) (decision : string).

(** What [renderPreview] shows of an item. *)
Record PreviewItem : Type := {
  item_title : string;
  item_text : string
}.

(** The globals, the storage entry [agent_thread_id], the parts of the
    page the logic writes, the requests sent so far, oldest first, and
    the number of identifiers made so far.  [threadId] holds [null] or a
    value: the saved text, an identifier made here, or whatever the
    server gave for [thread_id]. *)
Record State : Type := mkState {
  threadId : option JSON;
  storedThreadId : option string;
  uiState : UiState;
  logItems : list LogItem;
  clock : nat;
  currentController : bool;
  errorBanner : string;
  approvalCard : bool;
  questionEl : string;
  previewEl : list PreviewItem;
  reportCard : bool;
  reportEl : string;
  requests : list InvokeInput;
  uuids : nat
}.

Definition set_threadId (v : option JSON) (s : State) : State :=
  mkState v (storedThreadId s) (uiState s) (logItems s) (clock s)
    (currentController s) (errorBanner s) (approvalCard s) (questionEl s)
    (previewEl s) (reportCard s) (reportEl s) (requests s) (uuids s).

Definition set_storedThreadId (v : option string) (s : State) : State :=
  mkState (threadId s) v (uiState s) (logItems s) (clock s)
    (currentController s) (errorBanner s) (approvalCard s) (questionEl s)
    (previewEl s) (reportCard s) (reportEl s) (requests s) (uuids s).

Definition set_uiState (v : UiState) (s : State) : State :=
  mkState (threadId s) (storedThreadId s) v (logItems s) (clock s)
    (currentController s) (errorBanner s) (approvalCard s) (questionEl s)
    (previewEl s) (reportCard s) (reportEl s) (requests s) (uuids s).

Definition set_logItems (v : list LogItem) (s : State) : State :=
  mkState (threadId s) (storedThreadId s) (uiState s) v (clock s)
    (currentController s) (errorBanner s) (approvalCard s) (questionEl s)
    (previewEl s) (reportCard s) (reportEl s) (requests s) (uuids s).

Definition set_clock (v : nat) (s : State) : State :=
  mkState (threadId s) (storedThreadId s) (uiState s) (logItems s) v
    (currentController s) (errorBanner s) (approvalCard s) (questionEl s)
    (previewEl s) (reportCard s) (reportEl s) (requests s) (uuids s).

Definition set_currentController (v : bool) (s : State) : State :=
  mkState (threadId s) (storedThreadId s) (uiState s) (logItems s) (clock s)
    v (errorBanner s) (approvalCard s) (questionEl s) (previewEl s)
    (reportCard s) (reportEl s) (requests s) (uuids s).

Definition set_errorBanner (v : string) (s : State) : State :=
  mkState (threadId s) (storedThreadId s) (uiState s) (logItems s) (clock s)
    (currentController s) v (approvalCard s) (questionEl s) (previewEl s)
    (reportCard s) (reportEl s) (requests s) (uuids s).

Definition set_approvalCard (v : bool) (s : State) : State :=
  mkState (threadId s) (storedThreadId s) (uiState s) (logItems s) (clock s)
    (currentController s) (errorBanner s) v (questionEl s) (previewEl s)
    (reportCard s) (reportEl s) (requests s) (uuids s).

Definition set_questionEl (v : string) (s : State) : State :=
  mkState (threadId s) (storedThreadId s) (uiState s) (logItems s) (clock s)
    (currentController s) (errorBanner s) (approvalCard s) v (previewEl s)
    (reportCard s) (reportEl s) (requests s) (uuids s).

Definition set_previewEl (v : list PreviewItem) (s : State) : State :=
  mkState (threadId s) (storedThreadId s) (uiState s) (logItems s) (clock s)
    (currentController s) (errorBanner s) (approvalCard s) (questionEl s) v
    (reportCard s) (reportEl s) (requests s) (uuids s).

Definition set_reportCard (v : bool) (s : State) : State :=
  mkState (threadId s) (storedThreadId s) (uiState s) (logItems s) (clock s)
    (currentController s) (errorBanner s) (approvalCard s) (questionEl s)
    (previewEl s) v (reportEl s) (requests s) (uuids s).

Definition set_reportEl (v : string) (s : State) : State :=
  mkState (threadId s) (storedThreadId s) (uiState s) (logItems s) (clock s)
    (currentController s) (errorBanner s) (approvalCard s) (questionEl s)
    (previewEl s) (reportCard s) v (requests s) (uuids s).

Definition set_requests (v : list InvokeInput) (s : State) : State :=
  mkState (threadId s) (storedThreadId s) (uiState s) (logItems s) (clock s)
    (currentController s) (errorBanner s) (approvalCard s) (questionEl s)
    (previewEl s) (reportCard s) (reportEl s) v (uuids s).

Definition set_uuids (v : nat) (s : State) : State :=
  mkState (threadId s) (storedThreadId s) (uiState s) (logItems s) (clock s)
    (currentController s) (errorBanner s) (approvalCard s) (questionEl s)
    (previewEl s) (reportCard s) (reportEl s) (requests s) v.

(** The page as the script finds it when it is loaded. *)
Definition loaded (stored : option string) : State :=
  mkState None stored idle [] 0 false EmptyString false EmptyString []
          false EmptyString [] 0.

Definition send (r : InvokeInput) (s : State) : State :=
  set_requests (requests s ++ [r])%list s.

(** Why a controller was aborted, [abortReasons]. *)
Inductive AbortReason : Type := timeout | user | superseded.

(** What [POST /agent/invoke] comes back with. *)
Inductive InvokeReply : Type :=
| InvokeFails (message : string)
| InvokeAborted (reason : option AbortReason)
| InvokeHttpError (status text : string)
| InvokeBodyNotJson (message : string)
| InvokeBody (data : JSON).

Section WithHost.
Variable h : Host.

Definition setError (message : string) (s : State) : State :=
  set_errorBanner message s.

Definition setUiState (state : UiState) (s : State) : State :=
  set_uiState state s.

Definition restoreThreadId (s : State) : option string :=
  match storedThreadId s with
  | Some saved => if nonEmpty saved then Some saved else None
  | None => None
  end.

(** [persistThreadId(id)]: [localStorage.setItem] stores the text of
    the id, and throws when the id has none. *)
Definition persistThreadId (id : JSON) : Run State unit :=
  (text <- lift (String_ h id) ;;
   exec (set_storedThreadId (Some text)))%run.

Definition clearThreadId (s : State) : State :=
  set_storedThreadId None s.

(** [if (threadId)] *)
Definition currentThreadId (s : State) : option JSON :=
  match threadId s with
  | Some tid => if truthy tid then Some tid else None
  | None => None
  end.

Definition ensureThreadId : Run State JSON :=
  (current <- gets currentThreadId ;;
   match current with
   | Some tid => ret tid
   | None =>
       id <- gets (fun s => randomUUID h (uuids s)) ;;
       exec (fun s => set_uuids (S (uuids s)) s) ;;
       exec (set_threadId (Some (JStr id))) ;;
       persistThreadId (JStr id) ;;
       ret (JStr id)
   end)%run.

Definition addLog (tag message : string) (s : State) : State :=
  let item := {| timeISO := nowISO h (clock s); tag := tag; message := message |} in
  let unshifted := item :: logItems s in
  let kept :=
    if Nat.ltb MAX_LOG_ITEMS (List.length unshifted)
    then firstn MAX_LOG_ITEMS unshifted
    else unshifted in
  set_logItems kept (set_clock (S (clock s)) s).

Definition clearLog (s : State) : State :=
  addLog "UI" "Cleared the log." (set_logItems [] s).

(** The [catch] of [callInvoke] on an [AbortError]. *)
Definition abortMessage (reason : option AbortReason) : string :=
  match reason with
  | Some timeout =>
      "Request aborted due to a frontend timeout. Increase or disable REQUEST_TIMEOUT_MS."
  | Some user => "Request aborted by the user."
  | Some superseded => "Previous request aborted (a newer action took precedence)."
  | None => "Request was aborted."
  end.

Definition cancelInFlight (s : State) : State :=
  if negb (currentController s) then s
  else addLog "UI" "User aborted the request." s.

(** [new Error(maybe?.detail || `API error: ...`)]: the message of the
    error is the text of the detail, whose conversion may throw in its
    turn; an error whose message is empty reads "Error". *)
Definition apiError (status text : string) : Outcome string :=
  match optProp "detail" (JSON_parse h text) with
  | Some d =>
      if truthy d then
        match String_ h d with
        | Returned message => Returned (orElse message "Error")
        | Thrown message => Thrown message
        end
      else Returned ("API error: " ++ status ++ " " ++ text)
  | None => Returned ("API error: " ++ status ++ " " ++ text)
  end.

(** [callInvoke(input)]; an abort by the user is the Cancel button pressed
    while the request is pending.  Whatever is thrown passes the
    [finally], which lets go of the controller. *)
Definition callInvoke (input : InvokeInput) (reply : InvokeReply) : Run State JSON :=
  (exec (set_currentController true) ;;
   exec (send input) ;;
   match reply with
   | InvokeFails message =>
       exec (set_currentController false) ;; throw message
   | InvokeAborted reason =>
       exec (fun s => match reason with Some user => cancelInFlight s | _ => s end) ;;
       exec (set_currentController false) ;;
       throw (abortMessage reason)
   | InvokeHttpError status text =>
       exec (set_currentController false) ;;
       match apiError status text with
       | Returned message => throw message
       | Thrown message => throw message
       end
   | InvokeBodyNotJson message =>
       exec (set_currentController false) ;; throw message
   | InvokeBody data =>
       exec (set_currentController false) ;; ret data
   end)%run.

Definition themeValue (themeInput : string) : string :=
  orElse (trim themeInput) "Space debris removal business".

Definition resetViewForRun (s : State) : State :=
  set_reportCard false (set_approvalCard false (setError EmptyString s)).

(** The body of [forEach((x) => ...)]: reading [x.type] throws on a
    [null] item, and the two conversions may throw. *)
Definition previewItem (x : JSON) : Outcome PreviewItem :=
  match x with
  | JNull => Thrown (typeErrorMessage h "type")
  | _ =>
      let type :=
        match prop "type" x with
        | Some t => if truthy t then String_ h t else Returned "Message"
        | None => Returned "Message"
        end in
      match type with
      | Thrown message => Thrown message
      | Returned type =>
          match stringOrEmpty h (prop "content" x) with
          | Thrown message => Thrown message
          | Returned content =>
              Returned {| item_title := type; item_text := content |}
          end
      end
  end.

(** The turns of [forEach]: the first item that throws ends the loop. *)
Fixpoint previewItems (items : list JSON) : Outcome (list PreviewItem) :=
  match items with
  | [] => Returned []
  | x :: rest =>
      match previewItem x with
      | Thrown message => Thrown message
      | Returned item =>
          match previewItems rest with
          | Thrown message => Thrown message
          | Returned shown => Returned (item :: shown)
          end
      end
  end.

(** [renderPreview(analysisPreview)]: [(analysisPreview || []).forEach]
    throws on a truthy value that is not an array; the fragment is
    attached after the loop. *)
Definition renderPreview (analysisPreview : option JSON) : Run State unit :=
  (exec (set_previewEl []) ;;
   match analysisPreview with
   | None => ret tt
   | Some (JArr items) =>
       shown <- lift (previewItems items) ;;
       exec (set_previewEl shown)
   | Some v => if truthy v then throw (typeErrorMessage h "forEach") else ret tt
   end)%run.

(** [summarizeOutput(out)]: the three template literals. *)
Definition summarizeOutput (out : option JSON) : Run State string :=
  (st <- lift (match optProp "status" out with
               | Some v => if truthy v
                           then match String_ h v with
                                | Returned text => Returned ("status=" ++ text)
                                | Thrown message => Thrown message
                                end
                           else Returned "status=?"
               | None => Returned "status=?"
               end) ;;
   current <- gets currentThreadId ;;
   let own :=
     match current with
     | Some tid => match String_ h tid with
                   | Returned text => Returned ("thread_id=" ++ text)
                   | Thrown message => Thrown message
                   end
     | None => Returned EmptyString
     end in
   tid <- lift (match optProp "thread_id" out with
                | Some v => if truthy v
                            then match String_ h v with
                                 | Returned text => Returned ("thread_id=" ++ text)
                                 | Thrown message => Thrown message
                                 end
                            else own
                | None => own
                end) ;;
   let extra := if nonEmpty tid then " / " ++ tid else EmptyString in
   ret (st ++ extra))%run.

(** [if (out?.thread_id) { threadId = out.thread_id; persistThreadId(threadId); }] *)
Definition adoptThreadId (out : option JSON) : Run State unit :=
  match optProp "thread_id" out with
  | Some v =>
      if truthy v
      then (exec (set_threadId (Some v)) ;; persistThreadId v)%run
      else ret tt
  | None => ret tt
  end.

(** [out.status === text], once [out] is known not to be nullish. *)
Definition statusIs (out : JSON) (text : string) : bool :=
  match prop "status" out with
  | Some (JStr st) => String.eqb st text
  | _ => false
  end.

(** [out.interrupt?.question || "Do you approve?"] as the text the
    setter of [textContent] makes of it. *)
Definition questionText (out : JSON) : Outcome string :=
  match optProp "question" (prop "interrupt" out) with
  | Some q => if truthy q then String_ h q else Returned "Do you approve?"
  | None => Returned "Do you approve?"
  end.

(** [out.interrupt?.analysis_preview || []] *)
Definition previewOf (out : JSON) : JSON :=
  match optProp "analysis_preview" (prop "interrupt" out) with
  | Some v => if truthy v then v else JArr []
  | None => JArr []
  end.

(** The [if (out.status === "interrupted") ... else if (out.status ===
    "completed") ... else ...] of [start] and [resume]; reading the
    status of a nullish [out] throws. *)
Definition decideOutput (what waitingText : string) (out : option JSON)
  : Run State unit :=
  (match out with
   | None | Some JNull => throw (typeErrorMessage h "status")
   | Some out =>
       if statusIs out "interrupted" then
         exec (setUiState waiting_approval) ;;
         exec (set_approvalCard true) ;;
         question <- lift (questionText out) ;;
         exec (set_questionEl question) ;;
         renderPreview (Some (previewOf out)) ;;
         exec (addLog "HITL" waitingText)
       else
         exec (set_approvalCard false) ;;
         if statusIs out "completed" then
           exec (setUiState done) ;;
           exec (set_reportCard true) ;;
           report <- lift (stringOrEmpty h (prop "report" out)) ;;
           exec (set_reportEl report) ;;
           exec (addLog "DONE" "Completed (report generated).")
         else
           exec (setUiState error) ;;
           exec (setError "Unexpected response format. Please check the 'status' field.") ;;
           exec (addLog "ERROR" ("Unexpected response format (" ++ what ++ ")."))
   end)%run.

(** What [start] and [resume] both do with the reply, from
    [const out = data.output] to their end; they differ in the words of
    three log entries. *)
Definition handleOutput (what waitingText : string) (data : JSON) : Run State unit :=
  (match data with
   | JNull => throw (typeErrorMessage h "output")
   | _ =>
       let out := prop "output" data in
       adoptThreadId out ;;
       summary <- summarizeOutput out ;;
       exec (addLog "API" (what ++ " response: " ++ summary)) ;;
       decideOutput what waitingText out
   end)%run.

Definition start (themeInput : string) (reply : InvokeReply) : Run State unit :=
  (exec resetViewForRun ;;
   let theme := themeValue themeInput in
   tid <- ensureThreadId ;;
   exec (setUiState starting) ;;
   text <- lift (String_ h tid) ;;
   exec (addLog "START" ("Started: " ++ dquote ++ theme ++ dquote ++ " / thread_id=" ++ text)) ;;
   data <- callInvoke (StartAction theme tid) reply ;;
   handleOutput "start" "Waiting for approval (please respond using the buttons)." data)%run.

(** [resume(decision)]; [threadId || ensureThreadId()] is what
    [ensureThreadId()] returns. *)
Definition resume (decision : string) (reply : InvokeReply) : Run State unit :=
  (exec resetViewForRun ;;
   tid <- ensureThreadId ;;
   if negb (truthy tid) then
     exec (setUiState error) ;;
     exec (setError "Missing thread_id. Click 'Run' first.") ;;
     exec (addLog "ERROR" "Cannot resume because thread_id is missing.")
   else
     exec (setUiState resuming) ;;
     text <- lift (String_ h tid) ;;
     exec (addLog "RESUME" ("Input: " ++ decision ++ " / thread_id=" ++ text)) ;;
     data <- callInvoke (ResumeAction tid decision) reply ;;
     handleOutput "resume" "Waiting for approval again." data)%run.

Definition runWithUi (fn : Run State unit) (s : State) : State :=
  match fn (setError EmptyString s) with
  | (Returned _, s) => s
  | (Thrown msg, s) =>
      let s := setUiState error s in
      let s := setError msg s in
      addLog "ERROR" msg s
  end.

Definition handleDecision (decision : string) (reply : InvokeReply) (s : State) : State :=
  runWithUi (resume decision reply) (setUiState resuming s).

Definition clearAll (s : State) : State :=
  let s := set_threadId None s in
  let s := clearThreadId s in
  let s := set_approvalCard false s in
  let s := set_reportCard false s in
  let s := setError EmptyString s in
  let s := setUiState idle s in
  set_logItems [] s.

Definition init (s : State) : State :=
  let s :=
    match restoreThreadId s with
    | Some savedTid =>
        addLog "UI" ("Restored: thread_id=" ++ savedTid)
          (set_threadId (Some (JStr savedTid)) s)
    | None => s
    end in
  let s := setUiState idle s in
  addLog "UI" "Ready." s.

(** What the listeners registered at the end of the script react to,
    each with the reply its request will get.  (Copying and downloading
    the report are left out.) *)
Inductive Event : Type :=
| ClickStart (themeInput : string) (reply : InvokeReply)
| ClickDecision (decision : string) (reply : InvokeReply)
| ClickCancel
| ClickClearLog
| ClickClear.

Definition listener (e : Event) (s : State) : State :=
  match e with
  | ClickStart themeInput reply => runWithUi (start themeInput reply) s
  | ClickDecision decision reply => handleDecision decision reply s
  | ClickCancel => cancelInFlight s
  | ClickClearLog => clearLog s
  | ClickClear => clearAll s
  end.

End WithHost.

End FrontendLs.

(* ===================================================================== *)
(** ** Both scripts: copying and downloading the report *)
(* ===================================================================== *)

(** What [navigator.clipboard?.writeText(text)] comes to: the browser
    has no clipboard, the text is written, or the writing is refused.
    The outcome is taken at the click, with nothing of the page changed
    between the click and the callback of the promise. *)
Inductive ClipboardReply : Type :=
| NoClipboard
| Copied
| CopyRefused.

Module Download.

Import Js.

(** The characters of the class in the first [replace] of
    [sanitizeFilename]: backslash, slash, colon, asterisk, question
    mark, double quote, the angle brackets and the bar. *)
Definition isForbidden (c : ascii) : bool :=
  existsb (Ascii.eqb c)
    [ ascii_of_nat 92; "/"%char; ":"%char; "*"%char; "?"%char;
      ascii_of_nat 34; "<"%char; ">"%char; "|"%char ].

(** The first [replace]: every character of the class becomes an
    underscore. *)
Fixpoint replaceForbidden (s : string) : string :=
  match s with
  | EmptyString => EmptyString
  | String c rest =>
      String (if isForbidden c then "_"%char else c) (replaceForbidden rest)
  end.

(** The second [replace], of [/\s+/g] by one space: the space is
    written at the last character of each run of white space. *)
Fixpoint collapseSpaces (s : string) : string :=
  match s with
  | EmptyString => EmptyString
  | String c rest =>
      if isWhiteSpace c then
        match rest with
        | String d _ =>
            if isWhiteSpace d then collapseSpaces rest
            else String " "%char (collapseSpaces rest)
        | EmptyString => String " "%char EmptyString
        end
      else String c (collapseSpaces rest)
  end.

Definition sanitizeFilename (s : string) : string :=
  sliceTo 60 (trim (collapseSpaces (replaceForbidden s))).

(** The name [downloadReport] gives the file: [ymd] and [hm] are the
    digits of the local date and of the local hour and minute, [fallback]
    the word used for a topic that sanitizes to nothing. *)
Definition filename (ymd hm theme fallback : string) : string :=
  "business_plan_" ++ ymd ++ "_" ++ hm ++ "_" ++ orElse theme fallback ++ ".txt".

End Download.

(** The second part of the listeners of [frontend/app.js]. *)
Module FrontendReport.

Import Js Json Frontend Download.

Section WithHost.
Variable h : Host.

Definition copyReport (clipboard : ClipboardReply) (s : State) : State :=
  let text := reportEl s in
  if negb (nonEmpty text) then
    addLogEntry h (note "UI" "There is no report text to copy."
                        "There is no report text to copy.") s
  else
    match clipboard with
    | NoClipboard => s
    | Copied =>
        addLogEntry h (note "UI" "Copied the report."
                            "Copied the report to the clipboard.")
          (setError EmptyString s)
    | CopyRefused =>
        addLogEntry h (note "ERROR" "Copy failed." "Copy failed.")
          (setError "Copy failed (check your browser permissions)." s)
    end.

(** [downloadReport()]: the file handed to the browser, if any, with its
    name and its text, and the globals. *)
Definition downloadReport (ymd hm themeInput : string) (s : State)
  : option (string * string) * State :=
  let text := reportEl s in
  if negb (nonEmpty text) then
    (None,
     addLogEntry h (note "UI" "There is no report text to download."
                         "There is no report text to download.") s)
  else
    let theme := sanitizeFilename (themeValue themeInput) in
    let name := filename ymd hm theme "topic" in
    (Some (name, text),
     addLogEntry h (note "UI" ("Downloaded: " ++ name)
                         ("Downloaded the report: " ++ name)) s).

(** All the listeners the script registers. *)
Inductive Action : Type :=
| Listened (e : Event)
| ClickCopy (clipboard : ClipboardReply)
| ClickDownload (ymd hm themeInput : string).

Definition act (a : Action) (s : State) : State :=
  match a with
  | Listened e => listener h e s
  | ClickCopy clipboard => copyReport clipboard s
  | ClickDownload ymd hm themeInput => snd (downloadReport ymd hm themeInput s)
  end.

(** The page after it was loaded with [stored] in the storage, its check
    of the saved thread was answered by [thread], and the listeners ran
    on [actions] in turn, each to its end before the next. *)
Definition session (stored : option string) (thread : Reply JSON)
  (actions : list Action) : State :=
  fold_left (fun s a => act a s) actions (initAsync h thread (loaded stored)).

End WithHost.

End FrontendReport.

(** The second part of the listeners of [frontend_ls/app.js]. *)
Module FrontendLsReport.

Import Js Json FrontendLs Download.

Section WithHost.
Variable h : Host.

Definition copyReport (clipboard : ClipboardReply) (s : State) : State :=
  let text := reportEl s in
  if negb (nonEmpty text) then
    addLog h "UI" "There is no report text to copy." s
  else
    match clipboard with
    | NoClipboard => s
    | Copied =>
        addLog h "UI" "Copied the report to the clipboard." (setError EmptyString s)
    | CopyRefused =>
        addLog h "ERROR" "Copy failed."
          (setError "Copy failed (please check browser permissions)." s)
    end.

Definition downloadReport (ymd hm themeInput : string) (s : State)
  : option (string * string) * State :=
  let text := reportEl s in
  if negb (nonEmpty text) then
    (None, addLog h "UI" "There is no report text to download." s)
  else
    let theme := sanitizeFilename (themeValue themeInput) in
    let name := filename ymd hm theme "theme" in
    (Some (name, text), addLog h "UI" ("Downloaded report: " ++ name) s).

(** All the listeners the script registers. *)
Inductive Action : Type :=
| Listened (e : Event)
| ClickCopy (clipboard : ClipboardReply)
| ClickDownload (ymd hm themeInput : string).

Definition act (a : Action) (s : State) : State :=
  match a with
  | Listened e => listener h e s
  | ClickCopy clipboard => copyReport clipboard s
  | ClickDownload ymd hm themeInput => snd (downloadReport ymd hm themeInput s)
  end.

(** The page after it was loaded with [stored] in the storage and the
    listeners ran on [actions] in turn, each to its end before the
    next. *)
Definition session (stored : option string) (actions : list Action) : State :=
  fold_left (fun s a => act a s) actions (init h (loaded stored)).

End WithHost.

End FrontendLsReport.

(* ===================================================================== *)
(** * The vocabulary of the statements *)
(* ===================================================================== *)

Unset Implicit Arguments.

(** Comparisons of characters stay folded in the goals. *)
#[local] Arguments Ascii.eqb : simpl never.

(** A host for the closed examples: its clock, parser and printers give
    fixed answers, and it prints numbers in decimal. *)
Definition plainHost : Host :=
  {| nowISO := fun _ => EmptyString;
     JSON_parse := fun _ => None;
     JSON_stringify := fun _ => EmptyString;
     JSON_stringify_flat := fun _ => EmptyString;
     toStringOther := fun v => match v with
                              | JNum z => NilZero.string_of_int (Z.to_int z)
                              | _ => EmptyString
                              end;
     conversionError := fun _ => "Cannot convert object to primitive value";
     inheritedText := fun k => k;
     ellipsis := "...";
     returnSymbol := "^";
     arrow := "->";
     randomUUID := fun _ => "uuid";
     API_BASE := "http://127.0.0.1:2024";
     typeErrorMessage := fun k => k |}.

(* --------------------------------------------------------------------- *)
(** ** On the interrupt extractor *)
(* --------------------------------------------------------------------- *)

(** What one of the four places yields: the payload the loop would return
    for the value found there, nothing when the place is empty, falsy, or
    holds something that does not look like an approval request. *)
Definition slotPayload (slot : option JSON) : option JSON :=
  match slot with
  | Some c => if Json.truthy c then Extract.candidatePayload c else None
  | None => None
  end.

(** The four documented places. *)
Inductive Location : Type :=
| TopInterrupt | ValuesInterrupt | TopInterrupts | ValuesInterrupts.

Definition embedAt (loc : Location) (x : JSON) : JSON :=
  match loc with
  | TopInterrupt => JObj [("__interrupt__", x)]
  | ValuesInterrupt => JObj [("values", JObj [("__interrupt__", x)])]
  | TopInterrupts => JObj [("interrupts", x)]
  | ValuesInterrupts => JObj [("values", JObj [("interrupts", x)])]
  end.

(** The shapes the loop unwraps: the descriptor itself, a sequence that
    starts with it, and either of them under [value]. *)
Inductive Wrapping : Type :=
| Bare | InSequence | UnderValue | InSequenceUnderValue.

Definition wrap (w : Wrapping) (more : list JSON) (p : JSON) : JSON :=
  match w with
  | Bare => p
  | InSequence => JArr (p :: more)
  | UnderValue => JObj [("value", p)]
  | InSequenceUnderValue => JArr (JObj [("value", p)] :: more)
  end.

(** The canonical approval request; its preview is the field
    [analysis_preview] of the source. *)
Record InterruptRequest : Type := {
  question : string;
  options : list string;
  preview : list JSON
}.

Definition canonical (r : InterruptRequest) : JSON :=
  JObj [ ("kind", JStr "approval_request");
         ("question", JStr (question r));
         ("options", JArr (map JStr (options r)));
         ("analysis_preview", JArr (preview r)) ].

(* --------------------------------------------------------------------- *)
(** ** On the log *)
(* --------------------------------------------------------------------- *)

(** A log of 80 entries, tagged 0 to 79 from the newest to the oldest. *)
Definition fullLog : list FrontendLs.LogItem :=
  map (fun n => {| FrontendLs.timeISO := EmptyString;
                   FrontendLs.tag := String (ascii_of_nat n) EmptyString;
                   FrontendLs.message := EmptyString |})
      (seq 0 80).

(* --------------------------------------------------------------------- *)
(** ** On text and the frame decoder *)
(* --------------------------------------------------------------------- *)

Section TextVocabulary.

Import Js.

(** [s.includes(p)] *)
Definition includes (s p : string) : bool :=
  match indexOf s p with Some _ => true | None => false end.

Definition crlf : string := String CR (String LF EmptyString).
Definition crcrlf : string := String CR crlf.

Fixpoint endsWithCR (s : string) : bool :=
  match s with
  | EmptyString => false
  | String c rest =>
      match rest with
      | EmptyString => isCR c
      | _ => endsWithCR rest
      end
  end.

End TextVocabulary.

(** The blocks that a blank line ends in [s], first to last, and what is
    left after the last of them. *)
Fixpoint delimited (fuel : nat) (s : string) : list string * string :=
  match fuel with
  | O => ([], s)
  | S fuel' =>
      match Js.indexOf s Sse.blankLine with
      | None => ([], s)
      | Some i =>
          let '(blocks, tail) := delimited fuel' (Js.sliceFrom (i + 2) s) in
          (Js.sliceTo i s :: blocks, tail)
      end
  end.

(** The blocks of a text. *)
Definition blocksOf (s : string) : list string :=
  fst (delimited (String.length s) s).

(** The texts handed to [parseSseFrame]: the blocks trimmed, those that
    are then empty dropped. *)
Definition frameTexts (blocks : list string) : list string :=
  filter Js.nonEmpty (map Js.trim blocks).

(** The chunks put end to end. *)
Definition joined (chunks : list string) : string :=
  fold_right append EmptyString chunks.

(** What the read loop cuts off the chunks, starting with [b] in the
    buffer: the blocks, and the buffer it ends with. *)
Fixpoint blocksFrom (b : string) (chunks : list string) : list string * string :=
  match chunks with
  | [] => ([], b)
  | c :: rest =>
      let b' := Js.replaceCRLF (b ++ c) in
      let '(blocks, tail) := delimited (String.length b') b' in
      let '(blocks', tail') := blocksFrom tail rest in
      ((blocks ++ blocks')%list, tail')
  end.

(** [Cuts s blocks tail]: [s] is [blocks], each followed by the blank
    line that ends it and that is the first one since the block began,
    and then [tail], which has no blank line. *)
Inductive Cuts : string -> list string -> string -> Prop :=
| Cuts_done (tail : string) :
    Js.indexOf tail Sse.blankLine = None -> Cuts tail [] tail
| Cuts_more (b s : string) (blocks : list string) (tail : string) :
    Js.indexOf (b ++ Sse.blankLine) Sse.blankLine = Some (String.length b) ->
    Cuts s blocks tail ->
    Cuts (b ++ Sse.blankLine ++ s) (b :: blocks) tail.

Section ReadingVocabulary.

Variable h : Host.
Variable A : Type.
Variable onEvent : Frame -> A -> A.

(** What [onEvent] makes of the text of a frame. *)
Definition handle (a : A) (text : string) : A := onEvent (Sse.parseSseFrame h text) a.

End ReadingVocabulary.

Definition cr : string := String Js.CR EmptyString.

(** A body with CR LF line ends, and the same body cut inside two of
    them. *)
Definition crlfBody : string :=
  "event: updates" ++ cr ++ Js.nl ++ "data: 1" ++ cr ++ Js.nl ++ cr ++ Js.nl.

Definition crlfChunks : list string :=
  [ "event: updates" ++ cr; Js.nl ++ "data: 1" ++ cr ++ Js.nl ++ cr; Js.nl ].

(** A body in which an LF follows two CRs, whole and cut after that LF. *)
Definition oddHead : string := "event: a" ++ Js.nl ++ cr ++ cr ++ Js.nl.
Definition oddTail : string := "data: 1" ++ Js.nl ++ Js.nl.

(* --------------------------------------------------------------------- *)
(** ** On the streaming client *)
(* --------------------------------------------------------------------- *)

(** A value that marks the start of a stage: an object whose
    [current_step] is a string that is not blank. *)
Definition isStageStart (v : JSON) : bool :=
  match Json.asString (Json.prop "current_step" v) with
  | Some step => negb (Js.allWhiteSpace step)
  | None => false
  end.

(** The frame of the specification's example. *)
Definition researchStarted : Frame :=
  {| ev_id := EmptyString;
     ev_event := "updates";
     ev_data := JObj [("research_start",
                       JObj [("current_step", JStr "research_agent")])] |}.

(** The same frame with an interrupt beside the marker. *)
Definition researchStartedInterrupted : Frame :=
  {| ev_id := EmptyString;
     ev_event := "updates";
     ev_data := JObj [("research_start",
                       JObj [("current_step", JStr "research_agent")]);
                      ("__interrupt__",
                       JArr [JObj [("value", JObj [("question", JStr "Proceed?")])]])] |}.


(** A value that holds no object with a member named [toString], at any
    depth: every conversion to a string of it and of its parts
    completes. *)
Fixpoint plain (v : JSON) : bool :=
  match v with
  | JArr items => forallb plain items
  | JObj fields =>
      negb (Json.hasOwn "toString" fields)
      && (fix all (fields : list (string * JSON)) : bool :=
            match fields with
            | [] => true
            | (_, x) :: rest => plain x && all rest
            end) fields
  | _ => true
  end.

(** The values of the fields of an object. *)
Definition fieldValues (fields : list (string * JSON)) : list JSON := map snd fields.

(** An object that cannot be converted to a string. *)
Definition exotic : JSON := JObj [("toString", JNum 1)].


(** The report of a snapshot as the specification words it: the string
    under [values.final_report] when it has a character that is not
    white space, else the empty string. *)
Definition reportAsSpecified (threadObj : JSON) : string :=
  match Json.optProp "final_report" (Json.prop "values" threadObj) with
  | Some (JStr report) => if Js.allWhiteSpace report then EmptyString else report
  | _ => EmptyString
  end.

Section StreamingVocabulary.

Import Js Json Extract Frontend.
Variable h : Host.

(** [s'] differs from [s] at most in the log, the clock, the step shown,
    the approval card with its question and preview, and in the state,
    which may have become [waiting_approval]. *)
Definition Kept (s s' : State) : Prop :=
  threadId s' = threadId s
  /\ storedThreadId s' = storedThreadId s
  /\ requests s' = requests s
  /\ currentController s' = currentController s
  /\ reportCard s' = reportCard s
  /\ reportEl s' = reportEl s
  /\ errorBanner s' = errorBanner s
  /\ (uiState s' = uiState s \/ uiState s' = waiting_approval).

(** The summary of the newest log entry. *)
Definition newestSummary (s : State) : option string :=
  option_map summary (nth_error (logItems s) 0).

(** The object [handleSseEvent] reads the current step from:
    [raw.values] when it is an object. *)
Definition valuesObject (raw : JSON) : option JSON :=
  match prop "values" raw with
  | Some v => if isObject v then Some v else None
  | None => None
  end.

(** The step a frame tells under [values.current_step], as the handler
    converts it. *)
Definition stepOfValues (raw : JSON) : Outcome string :=
  stringOrEmpty h (optProp "current_step" (valuesObject raw)).

(** The text [start] and [resume] show when the run ended without a
    report. *)
Definition startNoReport : string :=
  "(The final report has not been generated yet. If you were not prompted for approval, check the server logs.)".
Definition resumeNoReport : string :=
  "(The final report has not been generated yet.)".

End StreamingVocabulary.

(* --------------------------------------------------------------------- *)
(** ** On the texts of previews, frames and file names *)
(* --------------------------------------------------------------------- *)

(** The number of line feeds of a text. *)
Fixpoint lineFeeds (s : string) : nat :=
  match s with
  | EmptyString => 0
  | String c rest => (if Js.isLF c then 1 else 0) + lineFeeds rest
  end.

(** Every character of [s] passes the test [p]. *)
Fixpoint every (p : ascii -> bool) (s : string) : bool :=
  match s with
  | EmptyString => true
  | String c rest => p c && every p rest
  end.

(** A text that fits on one line: it has no LF and no CR. *)
Definition oneLine (s : string) : bool :=
  every (fun c => negb (Js.isLF c || Js.isCR c)) s.

(** A line of a frame, by what [parseSseFrame] makes of it: a field
    with the text after its colon, a comment, or another line. *)
Inductive Field : Type :=
| EventField (value : string)
| DataField (value : string)
| IdField (value : string)
| Comment (text : string)
| Other (line : string).

Definition fieldLine (f : Field) : string :=
  match f with
  | EventField value => "event:" ++ value
  | DataField value => "data:" ++ value
  | IdField value => "id:" ++ value
  | Comment text => ":" ++ text
  | Other line => line
  end.

(** The line has no LF and no CR, and a line that is given as [Other]
    is no field and no comment. *)
Definition wellFormed (f : Field) : bool :=
  oneLine (fieldLine f)
  && match f with
     | Other line =>
         negb (Js.startsWith line ":" || Js.startsWith line "event:"
               || Js.startsWith line "data:" || Js.startsWith line "id:")
     | _ => true
     end.

Definition eventValues (fields : list Field) : list string :=
  flat_map (fun f => match f with EventField value => [value] | _ => [] end) fields.

Definition dataValues (fields : list Field) : list string :=
  flat_map (fun f => match f with DataField value => [value] | _ => [] end) fields.

Definition idValues (fields : list Field) : list string :=
  flat_map (fun f => match f with IdField value => [value] | _ => [] end) fields.

(** The last of the values, trimmed; the empty string when there is
    none. *)
Definition lastTrimmed (values : list string) : string :=
  Js.trim (last values EmptyString).

(** The data of a frame whose data lines hold [values]: the values are
    trimmed and joined by line feeds, and the text is parsed when it is
    not empty and is JSON. *)
Definition dataOf (h : Host) (values : list string) : JSON :=
  let raw := Js.joinLines (map Js.trim values) in
  if Js.nonEmpty raw then
    match JSON_parse h raw with
    | Some v => v
    | None => JStr raw
    end
  else JStr raw.

(* --------------------------------------------------------------------- *)
(** ** On the logs *)
(* --------------------------------------------------------------------- *)

(** The entry [addLogEntry] makes of its argument at the [n]-th reading
    of the clock. *)
Definition logged (h : Host) (a : Frontend.LogArgs) (n : nat) : Frontend.LogItem :=
  {| Frontend.timeISO := nowISO h n;
     Frontend.tag := Js.orElse (Frontend.arg_tag a) "LOG";
     Frontend.agent := Frontend.arg_agent a;
     Frontend.summary := Frontend.arg_summary a;
     Frontend.detail := Frontend.arg_detail a;
     Frontend.raw := Frontend.arg_raw a |}.

(** The entry [addLog] of the other script makes. *)
Definition loggedLs (h : Host) (tag message : string) (n : nat) : FrontendLs.LogItem :=
  {| FrontendLs.timeISO := nowISO h n;
     FrontendLs.tag := tag;
     FrontendLs.message := message |}.

(** An [updates] frame of the node [research_agent], whose output comes
    after a counter. *)
Definition researchDone : Frame :=
  {| ev_id := EmptyString;
     ev_event := "updates";
     ev_data := JObj [("loop_count", JNum 1);
                      ("research_agent",
                       JObj [("research_messages",
                              JArr [JObj [("content", JStr "Found 3 sources")]])])] |}.

(** An [error] frame of the server. *)
Definition serverError : Frame :=
  {| ev_id := EmptyString;
     ev_event := "error";
     ev_data := JObj [("error", JStr "ValueError"); ("message", JStr "boom")] |}.

(** The text is that of the [TypeError] of a value that cannot be
    converted to a string. *)
Definition conversionFailure (h : Host) (msg : string) : Prop :=
  exists v : JSON, Json.convertible v = false /\ msg = conversionError h v.

(** The entry the log gains when the approval card is shown for the
    request [p]. *)
Definition approvalEntry (h : Host) (p : JSON) : Frontend.LogArgs :=
  {| Frontend.arg_tag := "HITL";
     Frontend.arg_agent := "Awaiting approval (human_approval)";
     Frontend.arg_summary := "Awaiting approval (user input required).";
     Frontend.arg_detail := JSON_stringify h p;
     Frontend.arg_raw := p |}.

(** The frame of the specification's example with blanks around the
    step, with a blank step beside the update of a node, and with a
    current step of the values that cannot be converted. *)
Definition researchStartedPadded : Frame :=
  {| ev_id := EmptyString;
     ev_event := "updates";
     ev_data := JObj [("research_start",
                       JObj [("current_step", JStr " research_agent ")])] |}.

Definition researchStartedBlank : Frame :=
  {| ev_id := EmptyString;
     ev_event := "updates";
     ev_data := JObj [("research_start", JObj [("current_step", JStr "  ")]);
                      ("research_agent",
                       JObj [("research_messages",
                              JArr [JObj [("content", JStr "Found 3 sources")]])])] |}.

Definition researchStartedExotic : Frame :=
  {| ev_id := EmptyString;
     ev_event := "updates";
     ev_data := JObj [("values", JObj [("current_step", exotic)]);
                      ("research_start",
                       JObj [("current_step", JStr "research_agent")])] |}.

(** A [values] frame that tells the step the pipeline is at. *)
Definition valuesAtMarket : Frame :=
  {| ev_id := EmptyString;
     ev_event := "values";
     ev_data := JObj [("values", JObj [("current_step", JStr "market_agent");
                                       ("loop_count", JNum 1)])] |}.

(* --------------------------------------------------------------------- *)
(** ** On the runs of the streaming client *)
(* --------------------------------------------------------------------- *)

(** The handler of the streaming client takes the frames in turn, up to
    the first one on which it throws. *)
Fixpoint handled (h : Host) (frames : list Frame) : Run Frontend.State unit :=
  match frames with
  | [] => ret tt
  | ev :: rest => (Frontend.handleSseEvent h ev ;; handled h rest)%run
  end.

(** The entry that says that the stream brought no event. *)
Definition noEvents : Frontend.LogArgs :=
  Frontend.note "WARN" "No SSE events were received."
    "No SSE events were received. The server may not be emitting SSE, buffering may be occurring, or a proxy could be interfering.".

(** The data of a frame holds no object with a member named
    [toString]. *)
Definition plainFrame (ev : Frame) : bool := plain (ev_data ev).

(** The thread id [createThread] returns on a reply, [None] when it
    throws: the truthy [thread_id] of the body. *)
Definition createdId (reply : Reply JSON) : option JSON :=
  match reply with
  | Body data =>
      match Json.prop "thread_id" data with
      | Some id => if Json.truthy id then Some id else None
      | None => None
      end
  | _ => None
  end.

(** The words in which the streaming client reports that the thread
    could not be made, that the stream failed, and that the snapshot
    could not be read. *)
Definition createFailure (created : Reply JSON) : string :=
  match created with
  | NetworkError message => message
  | HttpError status text => "thread create failed: " ++ status ++ " " ++ text
  | BodyNotJson message => message
  | Body _ => "thread create response has no thread_id"
  end.

Definition streamFailure (h : Host) (stream : Frontend.StreamReply) : string :=
  match stream with
  | Frontend.StreamNetworkError message => message
  | Frontend.StreamHttpError status text => "runs/stream failed: " ++ status ++ " " ++ text
  | Frontend.StreamNoBody => typeErrorMessage h "getReader"
  | Frontend.StreamBody _ _ (Frontend.ReadFails message) => message
  | Frontend.StreamBody _ _ (Frontend.CanceledByUser message) => message
  | Frontend.StreamBody _ _ Frontend.EndOfBody => EmptyString
  end.

Definition pollFailure (thread : Reply JSON) : string :=
  match thread with
  | NetworkError message => message
  | HttpError status text => "get thread failed: " ++ status ++ " " ++ text
  | BodyNotJson message => message
  | Body _ => EmptyString
  end.

(** The globals after [ensureThreadIdFromServer] made the thread [id],
    whose text is [text]. *)
Definition createdThread (h : Host) (id : JSON) (text : string) (s : Frontend.State)
  : Frontend.State :=
  Frontend.addLogEntry h
    (Frontend.note "THREAD" ("Created: thread_id=" ++ text) ("Created: thread_id=" ++ text))
    (Frontend.set_storedThreadId (Some text)
       (Frontend.set_threadId (Some id) (Frontend.send Frontend.PostThreads s))).

(** The globals when [start] sends its stream request on the thread
    whose id has the text [tid]. *)
Definition started (h : Host) (themeInput tid : string) (s : Frontend.State)
  : Frontend.State :=
  let theme := Frontend.themeValue themeInput in
  Frontend.addLogEntry h
    (Frontend.note "START" ("Started: " ++ Js.dquote ++ theme ++ Js.dquote)
       ("Started: " ++ Js.dquote ++ theme ++ Js.dquote ++ " / thread_id=" ++ tid))
    (Frontend.setUiState starting (Frontend.setWork h "-" s)).

(** The globals when [resume] sends its stream request on the thread
    whose id has the text [tid]. *)
Definition resumedOn (h : Host) (decision tid : string) (s : Frontend.State)
  : Frontend.State :=
  Frontend.addLogEntry h
    (Frontend.note "RESUME" ("Input: " ++ decision)
       ("Input: " ++ decision ++ " / thread_id=" ++ tid))
    (Frontend.setUiState resuming s).

(** The thread id the globals make [ensureThreadIdFromServer] reuse. *)
Definition reusable (forceNew : bool) (s : Frontend.State) : option JSON :=
  match Frontend.threadId s with
  | Some tid => if negb forceNew && Json.truthy tid then Some tid else None
  | None => None
  end.

(** The stream was read to its end and the snapshot came back. *)
Definition completed (stream : Frontend.StreamReply) (thread : Reply JSON) : option JSON :=
  match stream, thread with
  | Frontend.StreamBody _ _ Frontend.EndOfBody, Body t => Some t
  | _, _ => None
  end.

(** The server closed the stream. *)
Definition closedByServer (stream : Frontend.StreamReply) : bool :=
  match stream with
  | Frontend.StreamBody _ _ Frontend.EndOfBody => true
  | _ => false
  end.

(** The outcome the snapshot [t] calls for: an interrupt in it makes the
    client wait for approval, with the report card hidden; else the run
    is done, without error, showing the report when there is one (the
    string under [values.final_report], when it is not blank) and the
    text [noReportText] when there is none. *)
Definition decidedBySnapshot (h : Host) (noReportText : string) (t : JSON)
  (s' : Frontend.State) : Prop :=
  match Extract.extractInterruptPayload h t with
  | Returned (Some _) =>
      Frontend.uiState s' = waiting_approval /\ Frontend.reportCard s' = false
  | Returned None =>
      Frontend.uiState s' = done /\ Frontend.reportCard s' = true
      /\ Frontend.errorBanner s' = EmptyString
      /\ if Js.nonEmpty (reportAsSpecified t)
         then Frontend.reportEl s' = reportAsSpecified t
              /\ newestSummary s' = Some "Done (final report generated)"
         else Frontend.reportEl s' = noReportText
              /\ newestSummary s' = Some "Done (no final report)"
  | Thrown _ => Frontend.uiState s' = error
  end.


(** A reply of [POST /threads] with the thread id "t1". *)
Definition threadT1 : Reply JSON := Body (JObj [("thread_id", JStr "t1")]).

(** A snapshot that is paused on an interrupt and holds a report too. *)
Definition pausedWithReport : JSON :=
  JObj [("status", JStr "interrupted");
        ("values", JObj [("final_report", JStr "Report")])].

(** A snapshot whose report is blank. *)
Definition blankReport : JSON :=
  JObj [("values", JObj [("final_report", JStr "   ")])].

(** A streaming client whose thread id, in memory and in storage, is
    "old". *)
Definition onOldThread : Frontend.State :=
  Frontend.set_threadId (Some (JStr "old")) (Frontend.loaded (Some "old")).




(** [s'] has the thread id of [s], in memory and in storage, its
    requests and its banner. *)
Definition Quiet (s s' : Frontend.State) : Prop :=
  Frontend.threadId s' = Frontend.threadId s
  /\ Frontend.storedThreadId s' = Frontend.storedThreadId s
  /\ Frontend.requests s' = Frontend.requests s
  /\ Frontend.errorBanner s' = Frontend.errorBanner s.

(** What [start] and [resume] do once the thread id is known: the
    stream, the poll of the snapshot, and the decision on it. *)
Definition streamAndPoll (h : Host) (tid : JSON) (body : Frontend.RunBody)
  (stream : Frontend.StreamReply) (thread : Reply JSON) (noReportText : string)
  : Run Frontend.State unit :=
  (Frontend.runStream h tid body stream ;;
   threadObj <- Frontend.getThread h tid thread ;;
   Frontend.reconcile h noReportText threadObj)%run.


(** The log after a frame: as it was, or one entry longer when the
    handler returned, tagged HITL, AGENT or STATE. *)
Definition oneEntry (h : Host) (s : Frontend.State) (r : Outcome unit * Frontend.State)
  : Prop :=
  Frontend.logItems (snd r) = Frontend.logItems s
  \/ exists a : Frontend.LogArgs,
       In (Frontend.arg_tag a) ["HITL"; "AGENT"; "STATE"]
       /\ fst r = Returned tt
       /\ Frontend.logItems (snd r) = Frontend.logItems (Frontend.addLogEntry h a s).

(* --------------------------------------------------------------------- *)
(** ** On the states a page goes through *)
(* --------------------------------------------------------------------- *)

(** [s'] has a thread id in memory, and one in storage, wherever [s]
    has. *)
Definition keepsId (s s' : Frontend.State) : Prop :=
  (Frontend.threadId s <> None -> Frontend.threadId s' <> None)
  /\ (Frontend.storedThreadId s <> None -> Frontend.storedThreadId s' <> None).

(** The same of the LangServe client. *)
Definition keepsIdLs (s s' : FrontendLs.State) : Prop :=
  (FrontendLs.threadId s <> None -> FrontendLs.threadId s' <> None)
  /\ (FrontendLs.storedThreadId s <> None -> FrontendLs.storedThreadId s' <> None).

(** [after] is [before] with entries added at its head, one by one,
    through the cap of 80. *)
Definition grown {A : Type} (before after : list A) : Prop :=
  after = before
  \/ exists new : list A, after = firstn MAX_LOG_ITEMS (new ++ before).

Definition Grown (s s' : Frontend.State) : Prop :=
  grown (Frontend.logItems s) (Frontend.logItems s').

Definition GrownLs (s s' : FrontendLs.State) : Prop :=
  grown (FrontendLs.logItems s) (FrontendLs.logItems s').

(** [s'] is [s] but for what the page shows and for the controller. *)
Definition SameCore (s s' : Frontend.State) : Prop :=
  Frontend.threadId s' = Frontend.threadId s
  /\ Frontend.storedThreadId s' = Frontend.storedThreadId s
  /\ Frontend.logItems s' = Frontend.logItems s
  /\ Frontend.requests s' = Frontend.requests s.

(** A relation between the globals before and after that the steps of a
    run on a thread keep: changes of the page, new log entries, and the
    requests of the stream and of the snapshot. *)
Record Stepwise (h : Host) (R : Frontend.State -> Frontend.State -> Prop) : Prop := {
  step_trans : forall s1 s2 s3, R s1 s2 -> R s2 s3 -> R s1 s3;
  step_view : forall s s', SameCore s s' -> R s s';
  step_log : forall a s, R s (Frontend.addLogEntry h a s);
  step_stream : forall text body s, R s (Frontend.send (Frontend.PostRunsStream text body) s);
  step_poll : forall text s, R s (Frontend.send (Frontend.GetThread text) s)
}.
Arguments step_trans {h R} _.
Arguments step_view {h R} _.
Arguments step_log {h R} _.
Arguments step_stream {h R} _.
Arguments step_poll {h R} _.

(** And the steps that make a thread: the request, and the new id put
    into memory and into storage. *)
Record Runwise (h : Host) (R : Frontend.State -> Frontend.State -> Prop) : Prop := {
  run_steps : Stepwise h R;
  run_post : forall s, R s (Frontend.send Frontend.PostThreads s);
  run_tid : forall id s, R s (Frontend.set_threadId (Some id) s);
  run_stored : forall text s, R s (Frontend.set_storedThreadId (Some text) s)
}.
Arguments run_steps {h R} _.
Arguments run_post {h R} _.
Arguments run_tid {h R} _.
Arguments run_stored {h R} _.

(** [s'] is on the thread of [s], and has sent what [s] had sent and
    then requests other than for a new thread. *)
Definition Onward (s s' : Frontend.State) : Prop :=
  Frontend.threadId s' = Frontend.threadId s
  /\ Frontend.storedThreadId s' = Frontend.storedThreadId s
  /\ exists more,
       Frontend.requests s' = (Frontend.requests s ++ more)%list
       /\ ~ In Frontend.PostThreads more.

(** A state ends in the error state with the words [text] in the banner
    and in the newest log entry, which is tagged ERROR. *)
Definition reportsError (text : string) (s : Frontend.State) : Prop :=
  Frontend.uiState s = error
  /\ Frontend.errorBanner s = text
  /\ exists entry, nth_error (Frontend.logItems s) 0 = Some entry
                   /\ Frontend.tag entry = "ERROR"
                   /\ Frontend.summary entry = text
                   /\ Frontend.detail entry = text.



(* --------------------------------------------------------------------- *)
(** ** On the load of the page of the streaming client *)
(* --------------------------------------------------------------------- *)

(** The interrupt the check of the saved thread finds: the poll comes
    back with a snapshot, the extractor finds an interrupt in it, and
    the current step of the snapshot has a text. *)
Definition actionable (h : Host) (thread : Reply JSON) : option JSON :=
  match thread with
  | Body t =>
      match Extract.extractInterruptPayload h t, Extract.extractCurrentStepFromThread h t with
      | Returned (Some payload), Returned _ => Some payload
      | _, _ => None
      end
  | _ => None
  end.

(** The question and the preview the approval card shows for an
    interrupt; [None] when one of them has a part with no text. *)
Definition shownFor (h : Host) (payload : JSON) : option (string * list Preview.Entry) :=
  match Frontend.questionText h payload,
        Preview.renderPreview h (Some (Frontend.previewOf payload)) with
  | Returned question, Returned entries => Some (question, entries)
  | _, _ => None
  end.

(** A snapshot paused on an interrupt whose question has no text. *)
Definition pausedOnExotic : JSON :=
  JObj [("__interrupt__",
         JObj [("kind", JStr "approval_request"); ("question", exotic)])].

(* --------------------------------------------------------------------- *)
(** ** On the LangServe client *)
(* --------------------------------------------------------------------- *)

(** The reply names one of the two outcomes the client knows: its
    [output] has the status "interrupted" or "completed". *)
Definition knownStatus (data : JSON) : bool :=
  match Json.prop "output" data with
  | Some out => FrontendLs.statusIs out "interrupted" || FrontendLs.statusIs out "completed"
  | None => false
  end.

(** The reply makes [start] or [resume] of the LangServe client fail:
    the request does, or the status of the reply is not a known one. *)
Definition failing (reply : FrontendLs.InvokeReply) : Prop :=
  match reply with
  | FrontendLs.InvokeBody data => knownStatus data = false
  | _ => True
  end.

(** The reply names no thread: it has no truthy [output.thread_id]. *)
Definition namesNoThread (reply : FrontendLs.InvokeReply) : Prop :=
  match reply with
  | FrontendLs.InvokeBody data =>
      Json.truthyOpt (Json.optProp "thread_id" (Json.prop "output" data)) = false
  | _ => True
  end.

(** A value that is falsy or has a text. *)
Definition hasText (o : option JSON) : bool :=
  match o with
  | Some v => if Json.truthy v then Json.convertible v else true
  | None => true
  end.

(** [s'] is [s] but for what the page shows. *)
Definition SameCoreLs (s s' : FrontendLs.State) : Prop :=
  FrontendLs.threadId s' = FrontendLs.threadId s
  /\ FrontendLs.storedThreadId s' = FrontendLs.storedThreadId s
  /\ FrontendLs.logItems s' = FrontendLs.logItems s
  /\ FrontendLs.requests s' = FrontendLs.requests s
  /\ FrontendLs.uuids s' = FrontendLs.uuids s
  /\ FrontendLs.currentController s' = FrontendLs.currentController s.

(** A relation between the globals before and after that the steps
    taken on a reply keep: changes of the page and new log entries. *)
Record StepwiseLs (h : Host) (R : FrontendLs.State -> FrontendLs.State -> Prop) : Prop := {
  ls_trans : forall s1 s2 s3, R s1 s2 -> R s2 s3 -> R s1 s3;
  ls_view : forall s s', SameCoreLs s s' -> R s s';
  ls_log : forall tag message s, R s (FrontendLs.addLog h tag message s)
}.
Arguments ls_trans {h R} _.
Arguments ls_view {h R} _.
Arguments ls_log {h R} _.

(** And a thread id put into memory or into storage. *)
Record AdoptingLs (h : Host) (R : FrontendLs.State -> FrontendLs.State -> Prop) : Prop := {
  ls_base : StepwiseLs h R;
  ls_tid : forall v s, R s (FrontendLs.set_threadId (Some v) s);
  ls_stored : forall text s, R s (FrontendLs.set_storedThreadId (Some text) s)
}.
Arguments ls_base {h R} _.
Arguments ls_tid {h R} _.
Arguments ls_stored {h R} _.

(** And the steps of a whole run: an identifier made, and the request
    from its sending to the release of its controller. *)
Record RunwiseLs (h : Host) (R : FrontendLs.State -> FrontendLs.State -> Prop) : Prop := {
  ls_steps : AdoptingLs h R;
  ls_uuids : forall n s, R s (FrontendLs.set_uuids n s);
  ls_invoke : forall input reply, keeps FrontendLs.State R (FrontendLs.callInvoke h input reply)
}.
Arguments ls_steps {h R} _.
Arguments ls_uuids {h R} _.
Arguments ls_invoke {h R} _.

(** [s'] is on the thread of [s], in memory and in storage. *)
Definition SameIds (s s' : FrontendLs.State) : Prop :=
  FrontendLs.threadId s' = FrontendLs.threadId s
  /\ FrontendLs.storedThreadId s' = FrontendLs.storedThreadId s.

(** [s'] has sent what [s] had sent and made as many identifiers. *)
Definition SameTraffic (s s' : FrontendLs.State) : Prop :=
  FrontendLs.requests s' = FrontendLs.requests s
  /\ FrontendLs.uuids s' = FrontendLs.uuids s
  /\ FrontendLs.currentController s' = FrontendLs.currentController s.

(** [s'] holds no controller if [s] holds none. *)
Definition Released (s s' : FrontendLs.State) : Prop :=
  FrontendLs.currentController s = false -> FrontendLs.currentController s' = false.

Section LangServeVocabulary.

Import Js Json FrontendLs.
Variable h : Host.

(** The thread id a request of [start] or [resume] carries: the one in
    use, else the next one made. *)
Definition idInUse (s : State) : JSON :=
  match currentThreadId s with
  | Some tid => tid
  | None => JStr (randomUUID h (uuids s))
  end.

(** The state [ensureThreadId] leaves. *)
Definition ensured (s : State) : State :=
  match currentThreadId s with
  | Some _ => s
  | None =>
      set_storedThreadId (Some (randomUUID h (uuids s)))
        (set_threadId (Some (JStr (randomUUID h (uuids s))))
           (set_uuids (S (uuids s)) s))
  end.

(** The globals of the LangServe client when [start] sends its request
    on the thread whose id has the text [text]. *)
Definition startedLs (themeInput text : string) (s : State) : State :=
  addLog h "START"
    ("Started: " ++ dquote ++ themeValue themeInput ++ dquote ++ " / thread_id=" ++ text)
    (setUiState starting (ensured (resetViewForRun s))).

(** And when [resume] sends its request. *)
Definition resumedLs (decision text : string) (s : State) : State :=
  addLog h "RESUME" ("Input: " ++ decision ++ " / thread_id=" ++ text)
    (setUiState resuming (ensured (resetViewForRun s))).

(** The globals when [callInvoke] is over. *)
Definition sentLs (input : InvokeInput) (reply : InvokeReply) (s : State) : State :=
  let s := send input (set_currentController true s) in
  set_currentController false
    (match reply with
     | InvokeAborted (Some user) => cancelInFlight h s
     | _ => s
     end).

(** The words in which the LangServe client reports a request that
    failed. *)
Definition failureText (reply : InvokeReply) : string :=
  match reply with
  | InvokeFails message => message
  | InvokeBodyNotJson message => message
  | InvokeAborted reason => abortMessage reason
  | InvokeHttpError status text =>
      match apiError h status text with
      | Returned message => message
      | Thrown message => message
      end
  | InvokeBody _ => EmptyString
  end.

(** The request and what is done with its reply. *)
Definition invoked (input : InvokeInput) (what waitingText : string) (reply : InvokeReply)
  : Run State unit :=
  (data <- callInvoke h input reply ;; handleOutput h what waitingText data)%run.

(** What [runWithUi] makes of the end of a run. *)
Definition caught (r : Outcome unit * State) : State :=
  match r with
  | (Returned _, s) => s
  | (Thrown msg, s) => addLog h "ERROR" msg (setError msg (setUiState error s))
  end.

(** A run ends in an error: it throws, or it leaves the error state. *)
Definition endsInError (r : Outcome unit * State) : Prop :=
  (exists msg, fst r = Thrown msg) \/ uiState (snd r) = error.

(** The thread id the LangServe client is on after a reply with the
    [output] [out] to a request made on [tid]. *)
Definition idAfter (out : JSON) (tid : JSON) : JSON :=
  match prop "thread_id" out with
  | Some v => if truthy v then v else tid
  | None => tid
  end.

(** The preview of the approval card for the [output] of a reply. *)
Definition shownPreview (out : JSON) : Outcome (list PreviewItem) :=
  match previewOf out with
  | JArr items => previewItems h items
  | _ => Thrown (typeErrorMessage h "forEach")
  end.

(** The outcome the [output] of a reply calls for in the LangServe
    client.  The status "interrupted" shows the approval card, and
    makes the client wait when the question and the preview can be
    shown and fail when they cannot; "completed" shows the report
    card, and the run is done when the report has a text; any other
    status is an error of its own. *)
Definition decidedByStatus (out : JSON) (s' : State) : Prop :=
  if statusIs out "interrupted" then
    approvalCard s' = true
    /\ reportCard s' = false
    /\ match questionText h out with
       | Thrown msg => uiState s' = error /\ errorBanner s' = msg
       | Returned question =>
           questionEl s' = question
           /\ match shownPreview out with
              | Returned items =>
                  uiState s' = waiting_approval
                  /\ previewEl s' = items
                  /\ errorBanner s' = EmptyString
              | Thrown msg =>
                  uiState s' = error /\ previewEl s' = [] /\ errorBanner s' = msg
              end
       end
  else if statusIs out "completed" then
    approvalCard s' = false
    /\ reportCard s' = true
    /\ match stringOrEmpty h (prop "report" out) with
       | Returned report =>
           uiState s' = done /\ reportEl s' = report /\ errorBanner s' = EmptyString
       | Thrown msg => uiState s' = error /\ errorBanner s' = msg
       end
  else
    uiState s' = error
    /\ errorBanner s'
       = "Unexpected response format. Please check the 'status' field."
    /\ approvalCard s' = false
    /\ reportCard s' = false.

End LangServeVocabulary.

(** A LangServe client that found "t1" in storage when its page
    loaded. *)
Definition restoredT1 : FrontendLs.State :=
  FrontendLs.init plainHost (FrontendLs.loaded (Some "t1")).

(** A reply of [POST /agent/invoke] that reports a completed run. *)
Definition completedReply : FrontendLs.InvokeReply :=
  FrontendLs.InvokeBody
    (JObj [("output", JObj [("status", JStr "completed"); ("report", JStr "Report")])]).

(** A reply of [POST /agent/invoke] whose status is not a known one and
    that names another thread. *)
Definition oddReply : FrontendLs.InvokeReply :=
  FrontendLs.InvokeBody
    (JObj [("output", JObj [("status", JStr "paused"); ("thread_id", JStr "srv")])]).

(** A reply that reports a pause, with a question and one preview
    item. *)
Definition pausedOutput : JSON :=
  JObj [("status", JStr "interrupted");
        ("thread_id", JStr "t1");
        ("interrupt",
         JObj [("question", JStr "Proceed?");
               ("analysis_preview",
                JArr [JObj [("type", JStr "ai"); ("content", JStr "Draft")]])])].

Definition pausedReply : FrontendLs.InvokeReply :=
  FrontendLs.InvokeBody (JObj [("output", pausedOutput)]).


(** No operation of the LangServe client is under way, and the cards
    fit the state: the approval card is shown while the client waits
    for approval, the report card is shown when the run is done, and it
    is shown only then or after an error. *)
Definition settledLs (s : FrontendLs.State) : Prop :=
  (FrontendLs.uiState s = idle \/ FrontendLs.uiState s = waiting_approval
   \/ FrontendLs.uiState s = done \/ FrontendLs.uiState s = error)
  /\ (FrontendLs.uiState s = waiting_approval -> FrontendLs.approvalCard s = true)
  /\ (FrontendLs.uiState s = done -> FrontendLs.reportCard s = true)
  /\ (FrontendLs.reportCard s = true ->
      FrontendLs.uiState s = done \/ FrontendLs.uiState s = error).

(** [s'] shows the report card and the banner as [s] does. *)
Definition SameCards (s s' : FrontendLs.State) : Prop :=
  FrontendLs.reportCard s' = FrontendLs.reportCard s
  /\ FrontendLs.errorBanner s' = FrontendLs.errorBanner s.

(** The storage holds the text of the thread id in memory, when that id
    has a text; with no thread id in memory the storage holds none, or
    the empty string. *)
Definition inStep (h : Host) (s : FrontendLs.State) : Prop :=
  match FrontendLs.threadId s with
  | None =>
      FrontendLs.storedThreadId s = None
      \/ FrontendLs.storedThreadId s = Some EmptyString
  | Some id =>
      forall text, String_ h id = Returned text -> FrontendLs.storedThreadId s = Some text
  end.

(** A reply that reports a completed run whose report has no text. *)
Definition exoticReportReply : FrontendLs.InvokeReply :=
  FrontendLs.InvokeBody
    (JObj [("output", JObj [("status", JStr "completed"); ("report", exotic)])]).

(** A reply that names a thread whose id has no text. *)
Definition exoticThreadReply : FrontendLs.InvokeReply :=
  FrontendLs.InvokeBody
    (JObj [("output", JObj [("status", JStr "completed"); ("thread_id", exotic)])]).
(* ===================================================================== *)
(** * Properties *)
(* ===================================================================== *)

(* --------------------------------------------------------------------- *)
(** ** Blank strings *)
(* --------------------------------------------------------------------- *)

Section TrimFacts.

Import Js.

Lemma trimEnd_empty_iff (s : string) :
  trimEnd s = EmptyString <-> allWhiteSpace s = true.
Proof.
  induction s as [|c rest IH]; simpl.
  - tauto.
  - destruct (trimEnd rest) eqn:E.
    + destruct (isWhiteSpace c); simpl.
      * rewrite <- IH. tauto.
      * split; discriminate.
    + split; [discriminate|].
      intros H. apply andb_true_iff in H as [_ H].
      apply IH in H. discriminate.
Qed.

Lemma allWhiteSpace_trimStart (s : string) :
  allWhiteSpace (trimStart s) = allWhiteSpace s.
Proof.
  induction s as [|c rest IH]; simpl; [reflexivity|].
  destruct (isWhiteSpace c) eqn:E; simpl; [exact IH|].
  now rewrite E.
Qed.

Lemma trim_empty_iff (s : string) :
  trim s = EmptyString <-> allWhiteSpace s = true.
Proof.
  unfold trim. rewrite trimEnd_empty_iff. now rewrite allWhiteSpace_trimStart.
Qed.

Lemma nonEmpty_trim (s : string) :
  nonEmpty (trim s) = negb (allWhiteSpace s).
Proof.
  destruct (allWhiteSpace s) eqn:E.
  - apply trim_empty_iff in E. now rewrite E.
  - destruct (trim s) eqn:T; [|reflexivity].
    apply trim_empty_iff in T. congruence.
Qed.

Lemma nonEmpty_false (s : string) : nonEmpty s = false <-> s = EmptyString.
Proof. destruct s; simpl; split; congruence. Qed.

Lemma nonEmpty_true (s : string) : nonEmpty s = true <-> s <> EmptyString.
Proof. destruct s; simpl; split; congruence. Qed.

End TrimFacts.


(* --------------------------------------------------------------------- *)
(** ** The interrupt extractor *)
(* --------------------------------------------------------------------- *)

Section ExtractorFacts.

Import Js Json Extract.
Variable h : Host.

Lemma firstPayload_filterBoolean (slots : list (option JSON)) :
  Forall (fun slot => slotPayload slot = None) slots ->
  firstPayload (filterBoolean slots) = None.
Proof.
  induction 1 as [|slot slots Hslot _ IH]; simpl; [reflexivity|].
  destruct slot as [c|]; simpl in *; [|exact IH].
  destruct (truthy c); simpl; [|exact IH].
  now rewrite Hslot.
Qed.

Lemma candidatePayload_truthy (c p : JSON) :
  candidatePayload c = Some p -> truthy p = true.
Proof.
  unfold candidatePayload.
  destruct (match c with JArr items => hd_error items | _ => Some c end) as [first|];
    [|discriminate].
  destruct (truthy first); simpl; [|discriminate].
  set (payload := match prop "value" first with
                  | None | Some JNull => first
                  | Some v => v
                  end).
  destruct (truthy payload) eqn:E; simpl; [|discriminate].
  destruct (looksLikeApproval payload); [|discriminate].
  intros [= <-]. exact E.
Qed.

Lemma firstPayload_truthy (cs : list JSON) (p : JSON) :
  firstPayload cs = Some p -> truthy p = true.
Proof.
  induction cs as [|c cs IH]; simpl; [discriminate|].
  destruct (candidatePayload c) eqn:E.
  - intros [= <-]. eapply candidatePayload_truthy; eassumption.
  - exact IH.
Qed.

Lemma extractInterruptPayload_truthy (obj p : JSON) :
  extractInterruptPayload h obj = Returned (Some p) -> truthy p = true.
Proof.
  unfold extractInterruptPayload.
  destruct (truthy obj); simpl; [|discriminate].
  destruct (firstPayload (candidates obj)) eqn:E.
  - intros [= <-]. eapply firstPayload_truthy; eassumption.
  - destruct (stringOrEmpty h (prop "status" obj)); [|discriminate].
    destruct (String.eqb _ _); [|discriminate].
    intros [= <-]. reflexivity.
Qed.

(** C3.  An object none of whose four candidate places yields an approval
    request, and whose own [status] is the string "interrupted", makes the
    extractor return the made-up request: kind "approval_request", question
    "Approve?", options y / retry / n and an empty preview (the field
    [analysis_preview]). *)
Theorem C3_interrupted_status_gives_default_request (fields : list (string * JSON)) :
  Forall (fun slot => slotPayload slot = None) (candidateSlots (JObj fields)) ->
  prop "status" (JObj fields) = Some (JStr "interrupted") ->
  extractInterruptPayload h (JObj fields)
  = Returned (Some (JObj [ ("kind", JStr "approval_request");
                           ("question", JStr "Approve?");
                           ("options", JArr [JStr "y"; JStr "retry"; JStr "n"]);
                           ("analysis_preview", JArr []) ])).
Proof.
  intros Hslots Hstatus.
  unfold extractInterruptPayload, candidates.
  rewrite (firstPayload_filterBoolean _ Hslots).
  rewrite Hstatus. reflexivity.
Qed.

(** C7.  Two calls on the same value give the same result (the function
    reads no global and assigns nothing, its argument included), and the
    canonical request is extracted unchanged from each of the four
    places, in each of the shapes the loop unwraps. *)
Theorem C7_extractor_repeatable_and_place_independent :
  (forall obj : JSON,
      let first := extractInterruptPayload h obj in
      let second := extractInterruptPayload h obj in
      first = second)
  /\ (forall (r : InterruptRequest) (loc : Location) (w : Wrapping) (more : list JSON),
         extractInterruptPayload h (embedAt loc (wrap w more (canonical r)))
         = Returned (Some (canonical r))).
Proof.
  split.
  - reflexivity.
  - intros r loc w more. destruct loc, w; reflexivity.
Qed.

End ExtractorFacts.

(** The example of the specification for C3: the snapshot
    [{"status":"interrupted","values":{}}]. *)
Lemma C3_witness :
  Extract.extractInterruptPayload plainHost
    (JObj [("status", JStr "interrupted"); ("values", JObj [])])
  = Returned (Some (JObj [ ("kind", JStr "approval_request");
                           ("question", JStr "Approve?");
                           ("options", JArr [JStr "y"; JStr "retry"; JStr "n"]);
                           ("analysis_preview", JArr []) ])).
Proof.
  apply (C3_interrupted_status_gives_default_request plainHost
           [("status", JStr "interrupted"); ("values", JObj [])]).
  - repeat constructor.
  - reflexivity.
Defined.

(* --------------------------------------------------------------------- *)
(** ** The log *)
(* --------------------------------------------------------------------- *)

Section LogFacts.

Variable h : Host.

(** [items.unshift(x); if (items.length > 80) items = items.slice(0, 80)] *)
Lemma unshift_capped (A : Type) (x : A) (items : list A) :
  let unshifted := x :: items in
  let kept := if Nat.ltb MAX_LOG_ITEMS (length unshifted)
              then firstn MAX_LOG_ITEMS unshifted else unshifted in
  length kept <= 80
  /\ nth_error kept 0 = Some x
  /\ (length items < 80 -> kept = x :: items)
  /\ (length items = 80 ->
      exists front oldest, items = (front ++ [oldest])%list /\ kept = x :: front).
Proof.
  cbv zeta. change MAX_LOG_ITEMS with (S 79).
  destruct (Nat.ltb (S 79) (length (x :: items))) eqn:E.
  - apply Nat.ltb_lt in E. rewrite firstn_cons. cbn [length] in *.
    repeat split.
    + rewrite length_firstn. lia.
    + lia.
    + intros Hlen. exists (firstn 79 items).
      assert (Hk : length (skipn 79 items) = 1) by (rewrite length_skipn; lia).
      destruct (skipn 79 items) as [|oldest [|]] eqn:Hs; try discriminate.
      exists oldest. split; [|reflexivity].
      rewrite <- Hs. symmetry. apply firstn_skipn.
  - apply Nat.ltb_ge in E. cbn [length] in *.
    repeat split; try lia.
Qed.

(** C8.  After [addLogEntry] (and after [addLog] of the other client) the
    log holds at most 80 entries and the new entry is at index 0; on a
    log of 80 entries the append drops the last one, the oldest, and
    nothing else. *)
Theorem C8_log_capped_newest_first :
  (forall (a : Frontend.LogArgs) (s : Frontend.State),
      let item := {| Frontend.timeISO := nowISO h (Frontend.clock s);
                     Frontend.tag := Js.orElse (Frontend.arg_tag a) "LOG";
                     Frontend.agent := Frontend.arg_agent a;
                     Frontend.summary := Frontend.arg_summary a;
                     Frontend.detail := Frontend.arg_detail a;
                     Frontend.raw := Frontend.arg_raw a |} in
      let after := Frontend.logItems (Frontend.addLogEntry h a s) in
      length after <= 80
      /\ nth_error after 0 = Some item
      /\ (length (Frontend.logItems s) = 80 ->
          exists front oldest,
            Frontend.logItems s = (front ++ [oldest])%list /\ after = item :: front))
  /\ (forall (tag message : string) (s : FrontendLs.State),
         let item := {| FrontendLs.timeISO := nowISO h (FrontendLs.clock s);
                        FrontendLs.tag := tag;
                        FrontendLs.message := message |} in
         let after := FrontendLs.logItems (FrontendLs.addLog h tag message s) in
         length after <= 80
         /\ nth_error after 0 = Some item
         /\ (length (FrontendLs.logItems s) = 80 ->
             exists front oldest,
               FrontendLs.logItems s = (front ++ [oldest])%list /\ after = item :: front)).
Proof.
  split.
  - intros a s item after.
    destruct (unshift_capped _ item (Frontend.logItems s)) as (H1 & H2 & _ & H4).
    repeat split; assumption.
  - intros tag message s item after.
    destruct (unshift_capped _ item (FrontendLs.logItems s)) as (H1 & H2 & _ & H4).
    repeat split; assumption.
Qed.

End LogFacts.

Lemma C8_witness :
  exists front oldest,
    fullLog = (front ++ [oldest])%list
    /\ FrontendLs.logItems
         (FrontendLs.addLog plainHost "UI" "Ready."
            (FrontendLs.set_logItems fullLog (FrontendLs.loaded None)))
       = {| FrontendLs.timeISO := EmptyString;
            FrontendLs.tag := "UI";
            FrontendLs.message := "Ready." |} :: front.
Proof.
  destruct (C8_log_capped_newest_first plainHost) as [_ H].
  destruct (H "UI" "Ready." (FrontendLs.set_logItems fullLog (FrontendLs.loaded None)))
    as (_ & _ & Hfull).
  apply Hfull. reflexivity.
Defined.

(* --------------------------------------------------------------------- *)
(** ** Text: prefixes, occurrences, slices *)
(* --------------------------------------------------------------------- *)

Section TextFacts.

Import Js.

Lemma append_assoc (a b c : string) : (a ++ b) ++ c = a ++ (b ++ c).
Proof. induction a as [|x a IH]; simpl; [reflexivity|now rewrite IH]. Qed.

Lemma append_empty_r (a : string) : a ++ EmptyString = a.
Proof. induction a as [|x a IH]; simpl; [reflexivity|now rewrite IH]. Qed.

Lemma length_append (a b : string) :
  String.length (a ++ b) = String.length a + String.length b.
Proof. induction a as [|x a IH]; simpl; [reflexivity|now rewrite IH]. Qed.

Lemma indexOf_cons (c : ascii) (r p : string) :
  indexOf (String c r) p
  = if startsWith (String c r) p then Some 0 else option_map S (indexOf r p).
Proof. reflexivity. Qed.

Lemma includes_cons (c : ascii) (r p : string) :
  includes (String c r) p = startsWith (String c r) p || includes r p.
Proof.
  unfold includes. rewrite indexOf_cons.
  destruct (startsWith (String c r) p); [reflexivity|].
  now destruct (indexOf r p).
Qed.

Lemma includes_empty (p : string) :
  includes EmptyString p = startsWith EmptyString p.
Proof. now destruct p. Qed.

Lemma startsWith_refl (p : string) : startsWith p p = true.
Proof.
  induction p as [|a p IH]; simpl; [reflexivity|].
  now rewrite Ascii.eqb_refl.
Qed.

Lemma startsWith_app (s p t : string) :
  startsWith s p = true -> startsWith (s ++ t) p = true.
Proof.
  revert s. induction p as [|a p IH]; intros s; simpl; [reflexivity|].
  destruct s as [|b s]; simpl; [discriminate|].
  destruct (Ascii.eqb a b); simpl; [apply IH|discriminate].
Qed.

Lemma startsWith_app_false (s p t : string) :
  startsWith (s ++ t) p = false -> startsWith s p = false.
Proof.
  intros H. destruct (startsWith s p) eqn:E; [|reflexivity].
  apply (startsWith_app _ _ t) in E. congruence.
Qed.

Lemma startsWith_app_long (s p t : string) :
  String.length p <= String.length s ->
  startsWith (s ++ t) p = startsWith s p.
Proof.
  revert s. induction p as [|a p IH]; intros s Hlen; simpl; [reflexivity|].
  destruct s as [|b s]; simpl in *; [lia|].
  destruct (Ascii.eqb a b); simpl; [apply IH; lia|reflexivity].
Qed.

Lemma startsWith_split (s p : string) :
  startsWith s p = true -> s = p ++ sliceFrom (String.length p) s.
Proof.
  revert s. induction p as [|a p IH]; intros s; simpl.
  - now destruct s.
  - destruct s as [|b s]; [discriminate|].
    destruct (Ascii.eqb_spec a b) as [->|]; simpl; [|discriminate].
    intros H. f_equal. now apply IH.
Qed.

Lemma startsWith_length (s p : string) :
  startsWith s p = true -> String.length p <= String.length s.
Proof.
  intros H. rewrite (startsWith_split _ _ H). rewrite length_append. lia.
Qed.

(** An occurrence found at [i] lies within the string, splits it in three,
    and is the first one of the part it ends. *)
Lemma indexOf_Some (s p : string) (i : nat) :
  indexOf s p = Some i ->
  String.length (sliceTo i s) = i
  /\ s = sliceTo i s ++ p ++ sliceFrom (i + String.length p) s
  /\ indexOf (sliceTo i s ++ p) p = Some i.
Proof.
  revert i. induction s as [|c r IH]; intros i.
  - simpl. destruct (startsWith EmptyString p) eqn:E; [|discriminate].
    intros [= <-]. destruct p; [|discriminate]. repeat split.
  - rewrite indexOf_cons.
    destruct (startsWith (String c r) p) eqn:E.
    + intros [= <-]. simpl sliceTo. simpl Nat.add. split; [reflexivity|]. split.
      * simpl append at 1. now apply startsWith_split.
      * simpl append. destruct p as [|a p]; [reflexivity|].
        rewrite indexOf_cons. now rewrite startsWith_refl.
    + destruct (indexOf r p) as [j|] eqn:Hj; [|discriminate].
      intros [= <-]. destruct (IH j eq_refl) as (Hlen & Hsplit & Hfirst).
      simpl sliceTo. simpl Nat.add. simpl sliceFrom. split; [simpl; now rewrite Hlen|].
      split.
      * simpl append. f_equal. exact Hsplit.
      * simpl append. rewrite indexOf_cons.
        assert (Hno : startsWith (String c (sliceTo j r ++ p)) p = false).
        { apply (startsWith_app_false _ _ (sliceFrom (j + String.length p) r)).
          simpl append. rewrite append_assoc. now rewrite <- Hsplit. }
        rewrite Hno. now rewrite Hfirst.
Qed.

Lemma indexOf_app (s p t : string) (i : nat) :
  indexOf s p = Some i -> indexOf (s ++ t) p = Some i.
Proof.
  revert i. induction s as [|c r IH]; intros i.
  - simpl. destruct (startsWith EmptyString p) eqn:E; [|discriminate].
    intros [= <-]. destruct p; [|discriminate].
    destruct t; reflexivity.
  - rewrite indexOf_cons. simpl append. rewrite indexOf_cons.
    destruct (startsWith (String c r) p) eqn:E.
    + intros [= <-]. change (String c (r ++ t)) with (String c r ++ t).
      now rewrite startsWith_app.
    + destruct (indexOf r p) as [j|] eqn:Hj; [|discriminate].
      intros [= <-].
      change (String c (r ++ t)) with (String c r ++ t).
      rewrite startsWith_app_long.
      * rewrite E. now rewrite (IH j eq_refl).
      * destruct (indexOf_Some _ _ _ Hj) as (Hlen & Hsplit & _).
        rewrite Hsplit. simpl. rewrite !length_append. lia.
Qed.

Lemma includes_app (s t p : string) :
  includes (s ++ t) p = false -> includes s p = false /\ includes t p = false.
Proof.
  induction s as [|c r IH]; simpl append.
  - intros H. split; [|exact H].
    rewrite includes_empty. destruct p; [|reflexivity].
    unfold includes in H. destruct t; discriminate.
  - rewrite !includes_cons. intros H.
    apply orb_false_iff in H as [H1 H2].
    destruct (IH H2) as [IH1 IH2]. split; [|exact IH2].
    rewrite IH1. rewrite orb_false_r.
    apply (startsWith_app_false _ _ t). exact H1.
Qed.

Lemma sliceTo_app (a b : string) : sliceTo (String.length a) (a ++ b) = a.
Proof. induction a as [|x a IH]; simpl; [now destruct b|now rewrite IH]. Qed.

Lemma sliceFrom_app (a b : string) : sliceFrom (String.length a) (a ++ b) = b.
Proof. induction a as [|x a IH]; simpl; [now destruct b|exact IH]. Qed.

End TextFacts.

(* --------------------------------------------------------------------- *)
(** ** Text: the replacement of CR LF by LF *)
(* --------------------------------------------------------------------- *)

Section NormalizeFacts.

Import Js.

(** The replacement drops every CR that an LF follows. *)
Lemma replaceCRLF_cons (c : ascii) (r : string) :
  replaceCRLF (String c r)
  = if startsWith (String c r) crlf then replaceCRLF r
    else String c (replaceCRLF r).
Proof.
  destruct r as [|d r]; simpl.
  - now destruct (Ascii.eqb CR c).
  - unfold isCR, isLF. rewrite (Ascii.eqb_sym c CR), (Ascii.eqb_sym d LF).
    destruct (Ascii.eqb_spec CR c) as [<-|]; simpl; [|reflexivity].
    destruct (Ascii.eqb_spec LF d) as [<-|]; simpl; [|reflexivity].
    now destruct r.
Qed.

Lemma replaceCRLF_app (x y : string) :
  endsWithCR x && startsWith y nl = false ->
  replaceCRLF (x ++ y) = replaceCRLF x ++ replaceCRLF y.
Proof.
  induction x as [|c x IH]; intros H; [reflexivity|].
  cbn [append]. rewrite !replaceCRLF_cons.
  assert (Hx : endsWithCR x && startsWith y nl = false).
  { destruct x; [reflexivity|exact H]. }
  specialize (IH Hx).
  assert (Hs : startsWith (String c (x ++ y)) crlf = startsWith (String c x) crlf).
  { destruct x as [|d x].
    - simpl in *. unfold isCR in H. rewrite (Ascii.eqb_sym c CR) in H.
      destruct (Ascii.eqb CR c); simpl in *; [|reflexivity].
      destruct y; simpl in *; [reflexivity|exact H].
    - change (String c (String d x ++ y)) with (String c (String d x) ++ y).
      apply startsWith_app_long. simpl. lia. }
  rewrite Hs, IH. now destruct (startsWith (String c x) crlf).
Qed.

Lemma replaceCRLF_id (p : string) :
  includes p crlf = false -> replaceCRLF p = p.
Proof.
  induction p as [|c p IH]; intros H; [reflexivity|].
  rewrite includes_cons in H. apply orb_false_iff in H as [H1 H2].
  rewrite replaceCRLF_cons, H1. now rewrite IH.
Qed.

Lemma startsWith_nl_replaceCRLF (r : string) :
  startsWith (replaceCRLF r) nl = true ->
  startsWith r nl = true \/ startsWith r crlf = true.
Proof.
  destruct r as [|d r]; [discriminate|].
  rewrite replaceCRLF_cons.
  destruct (startsWith (String d r) crlf); [now right|].
  intros H. left. exact H.
Qed.

Lemma startsWith_crlf_cons (c : ascii) (r : string) :
  startsWith (String c r) crlf = Ascii.eqb CR c && startsWith r nl.
Proof. reflexivity. Qed.

Lemma startsWith_crcrlf_cons (c : ascii) (r : string) :
  startsWith (String c r) crcrlf = Ascii.eqb CR c && startsWith r crlf.
Proof. reflexivity. Qed.

(** A text without CR CR LF has no CR LF left after the replacement. *)
Lemma replaceCRLF_clean (s : string) :
  includes s crcrlf = false -> includes (replaceCRLF s) crlf = false.
Proof.
  induction s as [|c s IH]; intros H; [reflexivity|].
  rewrite includes_cons in H. apply orb_false_iff in H as [H1 H2].
  specialize (IH H2). rewrite replaceCRLF_cons.
  destruct (startsWith (String c s) crlf) eqn:E; [exact IH|].
  rewrite includes_cons, IH, orb_false_r.
  destruct (startsWith (String c (replaceCRLF s)) crlf) eqn:E'; [|reflexivity].
  exfalso. rewrite startsWith_crlf_cons in E, E'.
  rewrite startsWith_crcrlf_cons in H1.
  destruct (Ascii.eqb CR c); cbn [andb] in *; [|discriminate].
  destruct (startsWith_nl_replaceCRLF s E'); congruence.
Qed.

(** On a text without CR CR LF, replacing again after more text arrived
    gives what one replacement of the whole gives. *)
Lemma replaceCRLF_again (s c : string) :
  includes (s ++ c) crcrlf = false ->
  replaceCRLF (replaceCRLF s ++ c) = replaceCRLF (s ++ c).
Proof.
  induction s as [|d s IH]; intros H; [reflexivity|].
  cbn [append] in H. rewrite includes_cons in H.
  apply orb_false_iff in H as [H1 H2]. specialize (IH H2).
  cbn [append]. rewrite (replaceCRLF_cons d s), (replaceCRLF_cons d (s ++ c)).
  destruct (startsWith (String d s) crlf) eqn:E.
  - change (String d (s ++ c)) with (String d s ++ c).
    rewrite (startsWith_app _ _ _ E). exact IH.
  - cbn [append]. rewrite replaceCRLF_cons, IH.
    assert (Hs : startsWith (String d (replaceCRLF s ++ c)) crlf
                 = startsWith (String d (s ++ c)) crlf).
    { rewrite !startsWith_crlf_cons. rewrite startsWith_crlf_cons in E.
      rewrite startsWith_crcrlf_cons in H1.
      destruct (Ascii.eqb CR d); cbn [andb] in *; [|reflexivity].
      destruct s as [|e s]; [reflexivity|].
      rewrite replaceCRLF_cons.
      destruct (startsWith (String e s) crlf) eqn:E2.
      - change (String e (s ++ c)) with (String e s ++ c) in H1.
        rewrite (startsWith_app _ _ _ E2) in H1. discriminate.
      - reflexivity. }
    now rewrite Hs.
Qed.

End NormalizeFacts.

(* --------------------------------------------------------------------- *)
(** ** The frame decoder *)
(* --------------------------------------------------------------------- *)

Section DecoderFacts.

Import Js Sse.
Variable h : Host.

Lemma frameTexts_app (a b : list string) :
  frameTexts (a ++ b) = (frameTexts a ++ frameTexts b)%list.
Proof. unfold frameTexts. now rewrite map_app, filter_app. Qed.

Section Reading.
Variable A : Type.
Variable onEvent : Frame -> A -> A.

Lemma drain_delimited (fuel : nat) (r : Reader A) :
  drain h onEvent fuel r
  = {| buffer := snd (delimited fuel (buffer r));
       eventCount := eventCount r + length (frameTexts (fst (delimited fuel (buffer r))));
       seen := fold_left (handle h A onEvent) (frameTexts (fst (delimited fuel (buffer r)))) (seen r) |}.
Proof.
  revert r. induction fuel as [|fuel IH]; intros [b n a]; cbn [drain delimited buffer eventCount seen].
  - cbn. now rewrite Nat.add_0_r.
  - destruct (indexOf b blankLine) as [i|].
    + destruct (delimited fuel (sliceFrom (i + 2) b)) as [blocks tail] eqn:E.
      cbn [fst snd]. unfold frameTexts at 1 2. cbn [map filter].
      fold (frameTexts blocks).
      destruct (nonEmpty (trim (sliceTo i b))); cbn [negb];
        rewrite IH; cbn [buffer eventCount seen]; rewrite E; cbn [fst snd].
      * cbn [length fold_left]. f_equal. lia.
      * reflexivity.
    + cbn. now rewrite Nat.add_0_r.
Qed.

Lemma readAll_blocksFrom (chunks : list string) (r : Reader A) :
  fold_left (onChunk h onEvent) chunks r
  = {| buffer := snd (blocksFrom (buffer r) chunks);
       eventCount := eventCount r + length (frameTexts (fst (blocksFrom (buffer r) chunks)));
       seen := fold_left (handle h A onEvent) (frameTexts (fst (blocksFrom (buffer r) chunks))) (seen r) |}.
Proof.
  revert r. induction chunks as [|c chunks IH]; intros [b n a];
    cbn [fold_left blocksFrom buffer eventCount seen].
  - cbn. now rewrite Nat.add_0_r.
  - unfold onChunk. rewrite drain_delimited. cbn [buffer eventCount seen].
    destruct (delimited (String.length (replaceCRLF (b ++ c))) (replaceCRLF (b ++ c)))
      as [blocks tail].
    cbn [fst snd]. rewrite IH. cbn [buffer eventCount seen].
    destruct (blocksFrom tail chunks) as [blocks' tail'].
    cbn [fst snd]. rewrite frameTexts_app, length_app, fold_left_app.
    f_equal. lia.
Qed.

End Reading.

Lemma fold_left_snoc (texts : list string) (acc : list Frame) :
  fold_left (handle h (list Frame) (fun ev acc => (acc ++ [ev])%list)) texts acc
  = (acc ++ map (parseSseFrame h) texts)%list.
Proof.
  revert acc. induction texts as [|t texts IH]; intros acc; cbn [fold_left map].
  - now rewrite app_nil_r.
  - rewrite IH. unfold handle. now rewrite <- app_assoc.
Qed.

Lemma decode_blocksFrom (chunks : list string) :
  decode h chunks
  = map (parseSseFrame h) (frameTexts (fst (blocksFrom EmptyString chunks))).
Proof.
  unfold decode, readAll. rewrite readAll_blocksFrom. cbn [seen buffer].
  now rewrite fold_left_snoc.
Qed.

Lemma Cuts_at (s b s0 : string) (blocks : list string) (tail : string) :
  s = b ++ blankLine ++ s0 ->
  indexOf (b ++ blankLine) blankLine = Some (String.length b) ->
  Cuts s0 blocks tail ->
  Cuts s (b :: blocks) tail.
Proof. intros -> Hb Hs. now constructor. Qed.

(** With the length of the text for fuel, the loop ends because no blank
    line is left. *)
Lemma delimited_Cuts (fuel : nat) (s : string) :
  String.length s <= fuel ->
  Cuts s (fst (delimited fuel s)) (snd (delimited fuel s)).
Proof.
  revert s. induction fuel as [|fuel IH]; intros s Hlen; cbn [delimited].
  - destruct s; [|simpl in Hlen; lia]. now constructor.
  - destruct (indexOf s blankLine) as [i|] eqn:E; [|now constructor].
    destruct (indexOf_Some _ _ _ E) as (Hi & Hsplit & Hfirst).
    change (String.length blankLine) with 2 in Hsplit.
    assert (Hrest : String.length (sliceFrom (i + 2) s) <= fuel).
    { rewrite Hsplit in Hlen. rewrite !length_append, Hi in Hlen.
      change (String.length blankLine) with 2 in Hlen. lia. }
    specialize (IH _ Hrest).
    destruct (delimited fuel (sliceFrom (i + 2) s)) as [blocks tail].
    cbn [fst snd] in *.
    apply (Cuts_at _ _ _ _ _ Hsplit); [|exact IH].
    now rewrite Hi.
Qed.

Lemma Cuts_delimited (s : string) (blocks : list string) (tail : string) :
  Cuts s blocks tail ->
  forall fuel, String.length s <= fuel -> delimited fuel s = (blocks, tail).
Proof.
  induction 1 as [tail Hnone|b s blocks tail Hb _ IH]; intros fuel Hlen.
  - destruct fuel; cbn [delimited]; [reflexivity|now rewrite Hnone].
  - rewrite !length_append in Hlen. change (String.length blankLine) with 2 in Hlen.
    destruct fuel as [|fuel]; [lia|]. cbn [delimited].
    assert (Hidx : indexOf (b ++ blankLine ++ s) blankLine = Some (String.length b)).
    { rewrite <- append_assoc. now apply indexOf_app. }
    rewrite Hidx, sliceTo_app.
    replace (sliceFrom (String.length b + 2) (b ++ blankLine ++ s)) with s.
    + rewrite IH by lia. reflexivity.
    + rewrite <- append_assoc.
      replace (String.length b + 2) with (String.length (b ++ blankLine))
        by (rewrite length_append; reflexivity).
      now rewrite sliceFrom_app.
Qed.

Lemma Cuts_tail (s : string) (blocks : list string) (tail : string) :
  Cuts s blocks tail -> indexOf tail blankLine = None.
Proof. induction 1; assumption. Qed.

Lemma endsWithCR_blankLine (b : string) : endsWithCR (b ++ blankLine) = false.
Proof.
  induction b as [|c b IH]; [reflexivity|].
  cbn [append endsWithCR]. rewrite IH. now destruct b.
Qed.

(** Text arriving after a text without CR LF was cut leaves the blocks
    already cut as they are. *)
Lemma Cuts_clean_prefix (m : string) (blocks : list string) (tail : string) :
  Cuts m blocks tail ->
  includes m crlf = false ->
  forall (c : string) (blocks' : list string) (tail' : string),
    Cuts (replaceCRLF (tail ++ c)) blocks' tail' ->
    Cuts (replaceCRLF (m ++ c)) (blocks ++ blocks')%list tail'.
Proof.
  induction 1 as [tail Hnone|b s blocks tail Hb _ IH]; intros Hclean c blocks' tail' Hc.
  - exact Hc.
  - rewrite <- append_assoc in Hclean.
    destruct (includes_app _ _ _ Hclean) as [Hhead Hs].
    replace ((b ++ blankLine ++ s) ++ c) with ((b ++ blankLine) ++ (s ++ c))
      by (now rewrite !append_assoc).
    rewrite replaceCRLF_app by (now rewrite endsWithCR_blankLine).
    rewrite (replaceCRLF_id _ Hhead), append_assoc.
    cbn [app]. constructor; [exact Hb|].
    now apply IH.
Qed.

Lemma Cuts_more_text (s c : string) (blocks blocks' : list string) (tail tail' : string) :
  includes (s ++ c) crcrlf = false ->
  Cuts (replaceCRLF s) blocks tail ->
  Cuts (replaceCRLF (tail ++ c)) blocks' tail' ->
  Cuts (replaceCRLF (s ++ c)) (blocks ++ blocks')%list tail'.
Proof.
  intros Hno Hs Hc. rewrite <- (replaceCRLF_again _ _ Hno).
  apply (Cuts_clean_prefix _ _ _ Hs); [|exact Hc].
  apply replaceCRLF_clean. now destruct (includes_app _ _ _ Hno).
Qed.

Lemma blocksFrom_Cuts (chunks : list string) :
  forall (t b : string) (blocks : list string),
    includes (t ++ joined chunks) crcrlf = false ->
    Cuts (replaceCRLF t) blocks b ->
    Cuts (replaceCRLF (t ++ joined chunks))
         (blocks ++ fst (blocksFrom b chunks))%list
         (snd (blocksFrom b chunks)).
Proof.
  induction chunks as [|c chunks IH]; intros t b blocks Hno Ht;
    cbn [joined fold_right blocksFrom] in *.
  - cbn [fst snd]. now rewrite append_empty_r, app_nil_r.
  - fold (joined chunks) in *.
    rewrite <- append_assoc in Hno |- *.
    pose proof (delimited_Cuts (String.length (replaceCRLF (b ++ c)))
                  (replaceCRLF (b ++ c)) (le_n _)) as Hb.
    destruct (delimited (String.length (replaceCRLF (b ++ c))) (replaceCRLF (b ++ c)))
      as [blocks1 tail1].
    cbn [fst snd] in Hb.
    assert (Hstep : Cuts (replaceCRLF (t ++ c)) (blocks ++ blocks1)%list tail1).
    { apply (Cuts_more_text _ _ _ _ b); [|exact Ht|exact Hb].
      now destruct (includes_app _ _ _ Hno). }
    specialize (IH _ _ _ Hno Hstep).
    destruct (blocksFrom tail1 chunks) as [blocks2 tail2].
    cbn [fst snd] in *. now rewrite app_assoc.
Qed.

(** On a body without CR CR LF the read loop cuts, whatever the chunks,
    the blocks of the body after one replacement of its CR LF. *)
Lemma blocksFrom_joined (chunks : list string) :
  includes (joined chunks) crcrlf = false ->
  fst (blocksFrom EmptyString chunks) = blocksOf (replaceCRLF (joined chunks))
  /\ indexOf (snd (blocksFrom EmptyString chunks)) blankLine = None.
Proof.
  intros Hno.
  assert (H0 : Cuts (replaceCRLF EmptyString) [] EmptyString) by now constructor.
  pose proof (blocksFrom_Cuts chunks EmptyString EmptyString [] Hno H0) as H.
  cbn [append app] in H. split.
  - unfold blocksOf. now rewrite (Cuts_delimited _ _ _ H _ (le_n _)).
  - exact (Cuts_tail _ _ _ H).
Qed.

(** C4, as amended.  For a body in which no LF follows two CRs, every way
    of cutting the body into chunks makes the decoder hand over the same
    frames in the same order: one for each block that a blank line ends
    in the body (its CR LF replaced by LF once) and that is not blank,
    in the order of the blocks; blank blocks give no frame. *)
Theorem C4_chunks_do_not_matter_without_CRCRLF
  (body : string) (chunks1 chunks2 : list string) :
  includes body crcrlf = false ->
  joined chunks1 = body ->
  joined chunks2 = body ->
  decode h chunks1 = decode h chunks2
  /\ decode h chunks1
     = map (parseSseFrame h) (frameTexts (blocksOf (replaceCRLF body)))
  /\ Forall (fun text => text <> EmptyString) (frameTexts (blocksOf (replaceCRLF body))).
Proof.
  intros Hno H1 H2.
  assert (Hdec : forall chunks, joined chunks = body ->
            decode h chunks
            = map (parseSseFrame h) (frameTexts (blocksOf (replaceCRLF body)))).
  { intros chunks Hj. rewrite decode_blocksFrom.
    rewrite <- Hj in Hno |- *.
    now destruct (blocksFrom_joined chunks Hno) as [-> _]. }
  split; [|split].
  - now rewrite (Hdec _ H1), (Hdec _ H2).
  - now apply Hdec.
  - apply Forall_forall. intros text Hin.
    apply filter_In in Hin as [_ Hin]. now apply nonEmpty_true.
Qed.

End DecoderFacts.

Lemma C4_witness :
  Sse.decode plainHost crlfChunks = Sse.decode plainHost [crlfBody]
  /\ Sse.decode plainHost crlfChunks
     = map (Sse.parseSseFrame plainHost) (frameTexts (blocksOf (Js.replaceCRLF crlfBody)))
  /\ Forall (fun text => text <> EmptyString)
            (frameTexts (blocksOf (Js.replaceCRLF crlfBody))).
Proof.
  apply (C4_chunks_do_not_matter_without_CRCRLF plainHost crlfBody crlfChunks [crlfBody]);
    reflexivity.
Defined.

(** C4 as stated fails: the same body gives one frame when it arrives
    whole and two when it arrives in two chunks. *)
Lemma C4_counterexample :
  joined [oddHead ++ oddTail] = joined [oddHead; oddTail]
  /\ Sse.decode plainHost [oddHead ++ oddTail] <> Sse.decode plainHost [oddHead; oddTail]
  /\ Sse.decode plainHost [oddHead ++ oddTail]
     = [ {| ev_id := EmptyString; ev_event := "a"; ev_data := JStr "1" |} ]
  /\ Sse.decode plainHost [oddHead; oddTail]
     = [ {| ev_id := EmptyString; ev_event := "a"; ev_data := JStr EmptyString |};
         {| ev_id := EmptyString; ev_event := EmptyString; ev_data := JStr "1" |} ].
Proof. repeat split. discriminate. Qed.

(* --------------------------------------------------------------------- *)
(** ** Sequencing *)
(* --------------------------------------------------------------------- *)

Section RunLaws.

Variables S A B : Type.

Lemma bind_exec (f : S -> S) (k : unit -> Run S B) (s : S) :
  bind (exec f) k s = k tt (f s).
Proof. reflexivity. Qed.

Lemma bind_gets (f : S -> A) (k : A -> Run S B) (s : S) :
  bind (gets f) k s = k (f s) s.
Proof. reflexivity. Qed.

Lemma bind_ret (a : A) (k : A -> Run S B) (s : S) :
  bind (ret a) k s = k a s.
Proof. reflexivity. Qed.

Lemma bind_throw (msg : string) (k : A -> Run S B) (s : S) :
  bind (throw msg) k s = (Thrown msg, s).
Proof. reflexivity. Qed.

Lemma bind_lift_returned (a : A) (k : A -> Run S B) (s : S) :
  bind (lift (Returned a)) k s = k a s.
Proof. reflexivity. Qed.

Lemma bind_lift_thrown (msg : string) (k : A -> Run S B) (s : S) :
  bind (lift (@Thrown A msg)) k s = (Thrown msg, s).
Proof. reflexivity. Qed.

Lemma bind_returned (c : Run S A) (k : A -> Run S B) (s s1 : S) (a : A) :
  c s = (Returned a, s1) -> bind c k s = k a s1.
Proof. unfold bind. now intros ->. Qed.


End RunLaws.

(** A relation between the globals before and after that every step of
    a piece of code keeps is kept by the piece, however it ends. *)
Section Keeping.

Variable S : Type.
Variable R : S -> S -> Prop.
Hypothesis R_refl : forall s, R s s.
Hypothesis R_trans : forall s1 s2 s3, R s1 s2 -> R s2 s3 -> R s1 s3.

Local Abbreviation keeps := (keeps S R).

Lemma keeps_ret (A : Type) (a : A) : keeps (ret a).
Proof. intros s. apply R_refl. Qed.

Lemma keeps_throw (A : Type) (msg : string) : keeps (@throw S A msg).
Proof. intros s. apply R_refl. Qed.

Lemma keeps_lift (A : Type) (o : Outcome A) : keeps (@lift S A o).
Proof. intros s. apply R_refl. Qed.

Lemma keeps_gets (A : Type) (f : S -> A) : keeps (gets f).
Proof. intros s. apply R_refl. Qed.

Lemma keeps_exec (f : S -> S) : (forall s, R s (f s)) -> keeps (exec f).
Proof. intros H s. apply H. Qed.

Lemma keeps_bind (A B : Type) (c : Run S A) (k : A -> Run S B) :
  keeps c -> (forall a, keeps (k a)) -> keeps (bind c k).
Proof.
  intros Hc Hk s. unfold bind. specialize (Hc s).
  destruct (c s) as [[a|msg] s1]; cbn [snd] in *.
  - eapply R_trans; [exact Hc|apply Hk].
  - exact Hc.
Qed.

Lemma keeps_run (A : Type) (c : Run S A) (s s' : S) (o : Outcome A) :
  keeps c -> c s = (o, s') -> R s s'.
Proof. intros Hc E. specialize (Hc s). now rewrite E in Hc. Qed.

End Keeping.

(* --------------------------------------------------------------------- *)
(** ** Conversions to a string *)
(* --------------------------------------------------------------------- *)

Section ConversionFacts.

Import Js Json.
Variable h : Host.

Lemma String_returned (v : JSON) (text : string) :
  String_ h v = Returned text ->
  convertible v = true.
Proof.
  destruct v; cbn; try reflexivity.
  - destruct (forallb convertible items); [reflexivity|discriminate].
  - destruct (hasOwn "toString" fields); [discriminate|reflexivity].
Qed.

Lemma String_thrown (v : JSON) (msg : string) :
  String_ h v = Thrown msg ->
  convertible v = false /\ msg = conversionError h v.
Proof.
  destruct v; cbn; try discriminate.
  - destruct (forallb convertible items); [discriminate|]. now intros [= <-].
  - destruct (hasOwn "toString" fields); [|discriminate]. now intros [= <-].
Qed.

Lemma String_convertible (v : JSON) :
  convertible v = true -> exists text, String_ h v = Returned text.
Proof.
  intros H. destruct v; cbn in *; try rewrite H; eauto.
Qed.

Lemma String_not_convertible (v : JSON) :
  convertible v = false -> String_ h v = Thrown (conversionError h v).
Proof.
  intros H. destruct v; cbn in *; try discriminate; now rewrite H.
Qed.

Lemma plain_convertible (v : JSON) : plain v = true -> convertible v = true.
Proof.
  revert v. fix IH 1. intros [| | | |items|fields]; cbn; try reflexivity.
  - induction items as [|x items IHitems]; cbn; [reflexivity|].
    intros H. apply andb_true_iff in H as [Hx Hitems].
    rewrite (IH x Hx). cbn. exact (IHitems Hitems).
  - intros H. apply andb_true_iff in H as [H _]. exact H.
Qed.

Lemma plain_String (v : JSON) :
  plain v = true -> exists text, String_ h v = Returned text.
Proof. intros H. apply String_convertible. now apply plain_convertible. Qed.

Lemma plain_assoc (k : string) (fields : list (string * JSON)) (x : JSON) :
  plain (JObj fields) = true -> assoc k fields = Some x -> plain x = true.
Proof.
  cbn. intros H. apply andb_true_iff in H as [_ H].
  induction fields as [|[k' v] fields IH]; cbn; [discriminate|].
  apply andb_true_iff in H as [Hv Hrest].
  destruct (String.eqb k k'); [now intros [= <-]|now apply IH].
Qed.

Lemma plain_prop (k : string) (v x : JSON) :
  plain v = true -> prop k v = Some x -> plain x = true.
Proof.
  destruct v; cbn [prop]; try discriminate. apply plain_assoc.
Qed.

Lemma plain_optProp (k : string) (o : option JSON) (x : JSON) :
  (forall v, o = Some v -> plain v = true) ->
  optProp k o = Some x -> plain x = true.
Proof.
  destruct o as [v|]; cbn; [|discriminate].
  intros H. apply plain_prop. now apply H.
Qed.

Lemma plain_items (items : list JSON) :
  plain (JArr items) = true -> Forall (fun x => plain x = true) items.
Proof.
  cbn. intros H. apply Forall_forall. intros x Hin.
  rewrite forallb_forall in H. now apply H.
Qed.

Lemma plain_fields (fields : list (string * JSON)) :
  plain (JObj fields) = true -> Forall (fun x => plain x = true) (fieldValues fields).
Proof.
  cbn. intros H. apply andb_true_iff in H as [_ H].
  induction fields as [|[k v] fields IH]; cbn; [constructor|].
  apply andb_true_iff in H as [Hv Hrest]. constructor; [exact Hv|now apply IH].
Qed.

Lemma stringOrEmpty_plain (o : option JSON) :
  (forall v, o = Some v -> plain v = true) ->
  exists text, stringOrEmpty h o = Returned text.
Proof.
  destruct o as [v|]; cbn; [|eauto].
  intros H. destruct (truthy v); [|eauto]. apply plain_String. now apply H.
Qed.

End ConversionFacts.

(** What a piece of code throws, when every step of it that throws
    throws such a thing. *)
Section Throwing.

Variable S : Type.
Variable P : string -> Prop.

Local Abbreviation throwsOnly := (throwsOnly S P).
Local Abbreviation thrownOnly := (thrownOnly P).

Lemma throwsOnly_ret (A : Type) (a : A) : throwsOnly (ret a).
Proof. intros s msg. discriminate. Qed.

Lemma throwsOnly_gets (A : Type) (f : S -> A) : throwsOnly (gets f).
Proof. intros s msg. discriminate. Qed.

Lemma throwsOnly_exec (f : S -> S) : throwsOnly (exec f).
Proof. intros s msg. discriminate. Qed.

Lemma throwsOnly_throw (A : Type) (msg : string) : P msg -> throwsOnly (@throw S A msg).
Proof. intros H s m [= <-]. exact H. Qed.

Lemma throwsOnly_lift (A : Type) (o : Outcome A) : thrownOnly o -> throwsOnly (@lift S A o).
Proof. intros H s msg E. now apply H. Qed.

Lemma throwsOnly_bind (A B : Type) (c : Run S A) (k : A -> Run S B) :
  throwsOnly c -> (forall a, throwsOnly (k a)) -> throwsOnly (bind c k).
Proof.
  intros Hc Hk s msg. unfold bind. specialize (Hc s).
  destruct (c s) as [[a|m] s1]; cbn [fst] in *.
  - apply Hk.
  - intros [= <-]. now apply Hc.
Qed.

End Throwing.

Section ThrowingMore.

Variable S : Type.
Variable P : string -> Prop.

(** The code after an expression takes what the expression returned. *)
Lemma throwsOnly_bind_lift (A B : Type) (o : Outcome A) (k : A -> Run S B) :
  thrownOnly P o ->
  (forall a, o = Returned a -> throwsOnly S P (k a)) ->
  throwsOnly S P (bind (lift o) k).
Proof.
  intros Ho Hk s msg. unfold bind, lift. destruct o as [a|m]; cbn [fst].
  - now apply Hk.
  - intros [= <-]. now apply Ho.
Qed.

Lemma throwsOnly_bind_gets (A B : Type) (f : S -> A) (k : A -> Run S B) (s : S) (msg : string) :
  throwsOnly S P (k (f s)) -> fst (bind (gets f) k s) = Thrown msg -> P msg.
Proof. intros Hk. rewrite bind_gets. apply Hk. Qed.

End ThrowingMore.

(** Code that throws nothing returns. *)
Lemma never_returns (S A : Type) (c : Run S A) (s : S) :
  throwsOnly S (fun _ => False) c -> exists a, fst (c s) = Returned a.
Proof.
  intros H. specialize (H s). destruct (c s) as [[a|msg] s']; cbn [fst] in *.
  - now exists a.
  - destruct (H msg eq_refl).
Qed.

Lemma never_returned (A : Type) (o : Outcome A) :
  thrownOnly (fun _ => False) o -> exists a, o = Returned a.
Proof.
  intros H. destruct o as [a|msg]; [now exists a|destruct (H msg eq_refl)].
Qed.

(* --------------------------------------------------------------------- *)
(** ** The streaming client: what the handler of a frame leaves alone *)
(* --------------------------------------------------------------------- *)

(** Takes a piece of code apart into its steps. *)
Ltac steps Hrefl Htrans :=
  repeat match goal with
         | |- keeps _ _ (ret _) => apply (keeps_ret _ _ Hrefl)
         | |- keeps _ _ (throw _) => apply (keeps_throw _ _ Hrefl)
         | |- keeps _ _ (lift _) => apply (keeps_lift _ _ Hrefl)
         | |- keeps _ _ (gets _) => apply (keeps_gets _ _ Hrefl)
         | |- keeps _ _ (bind _ _) => apply (keeps_bind _ _ Htrans); [|intros ?]
         | |- keeps _ _ (exec _) => apply keeps_exec; intros ?
         | |- keeps _ _ (match ?x with _ => _ end) => destruct x
         end.

Ltac throws :=
  repeat match goal with
         | |- throwsOnly _ _ (ret _) => apply throwsOnly_ret
         | |- throwsOnly _ _ (gets _) => apply throwsOnly_gets
         | |- throwsOnly _ _ (exec _) => apply throwsOnly_exec
         | |- throwsOnly _ _ (bind _ _) => apply throwsOnly_bind; [|intros ?]
         | |- throwsOnly _ _ (match ?x with _ => _ end) => destruct x
         end.

Section HandlerFacts.

Import Js Json Extract Frontend.
Variable h : Host.

Lemma Kept_refl (s : State) : Kept s s.
Proof. unfold Kept. tauto. Qed.

Lemma Kept_trans (s1 s2 s3 : State) : Kept s1 s2 -> Kept s2 s3 -> Kept s1 s3.
Proof.
  unfold Kept. intros (a1 & a2 & a3 & a4 & a5 & a6 & a7 & a8)
                      (b1 & b2 & b3 & b4 & b5 & b6 & b7 & b8).
  repeat split; try congruence.
  destruct a8 as [a8|a8], b8 as [b8|b8]; try (right; congruence); left; congruence.
Qed.

Lemma Kept_addLogEntry (a : LogArgs) (s : State) : Kept s (addLogEntry h a s).
Proof. unfold Kept. cbn. tauto. Qed.

Lemma Kept_setWork (step : string) (s : State) : Kept s (setWork h step s).
Proof. unfold Kept. cbn. tauto. Qed.

Lemma keeps_renderPreview (analysisPreview : option JSON) :
  keeps State Kept (renderPreview h analysisPreview).
Proof.
  unfold renderPreview. steps Kept_refl Kept_trans; unfold Kept; cbn; tauto.
Qed.

Lemma keeps_showApprovalIfNeeded (payload : JSON) :
  keeps State Kept (showApprovalIfNeeded h payload).
Proof.
  unfold showApprovalIfNeeded.
  steps Kept_refl Kept_trans;
    try apply keeps_renderPreview; try apply Kept_addLogEntry;
    unfold Kept; cbn; tauto.
Qed.

Lemma keeps_handleSseEvent (ev : Frame) : keeps State Kept (handleSseEvent h ev).
Proof.
  unfold handleSseEvent, applyCurrentStep, logUpdates, logValues, logRawSse.
  change SHOW_NOISY_SSE with false. cbn [negb andb].
  steps Kept_refl Kept_trans;
    try apply keeps_showApprovalIfNeeded; try apply Kept_addLogEntry;
    try apply Kept_setWork; try apply Kept_refl.
Qed.

(** What the handler throws is the error of a conversion. *)
Lemma String_throws (v : JSON) : thrownOnly (conversionFailure h) (String_ h v).
Proof.
  intros msg E. apply String_thrown in E as [Hv ->]. now exists v.
Qed.

Lemma stringOrEmpty_throws (o : option JSON) :
  thrownOnly (conversionFailure h) (stringOrEmpty h o).
Proof.
  destruct o as [v|]; cbn; [|discriminate].
  destruct (truthy v); [apply String_throws|discriminate].
Qed.

Lemma extractInterruptPayload_throws (obj : JSON) :
  thrownOnly (conversionFailure h) (extractInterruptPayload h obj).
Proof.
  unfold extractInterruptPayload. intros msg.
  destruct (truthy obj); cbn [negb]; [|discriminate].
  destruct (firstPayload (candidates obj)); [discriminate|].
  destruct (stringOrEmpty h (prop "status" obj)) eqn:E; [discriminate|].
  intros [= <-]. now apply (stringOrEmpty_throws _ _ E).
Qed.

Lemma extractCurrentStep_throws (t : JSON) :
  thrownOnly (conversionFailure h) (extractCurrentStepFromThread h t).
Proof.
  unfold extractCurrentStepFromThread.
  destruct (truthyOpt (prop "values" t)); cbn [negb]; [|discriminate].
  apply stringOrEmpty_throws.
Qed.

Lemma questionText_throws (p : JSON) :
  thrownOnly (conversionFailure h) (questionText h p).
Proof.
  unfold questionText. destruct (prop "question" p) as [q|]; [|discriminate].
  destruct (truthy q); [apply String_throws|discriminate].
Qed.

Lemma entry_throws (idx : nat) (x : JSON) :
  thrownOnly (conversionFailure h) (Preview.entry h idx x).
Proof.
  unfold Preview.entry. intros msg.
  destruct (prop "type" x) as [t|].
  - destruct (truthy t).
    + destruct (String_ h t) eqn:E.
      * destruct (Preview.firstLines _ 4). discriminate.
      * intros [= <-]. now apply (String_throws _ _ E).
    + destruct (Preview.firstLines _ 4). discriminate.
  - destruct (Preview.firstLines _ 4). discriminate.
Qed.

Lemma entriesFrom_throws (idx : nat) (items : list JSON) :
  thrownOnly (conversionFailure h) (Preview.entriesFrom h idx items).
Proof.
  revert idx. induction items as [|x items IH]; intros idx msg; cbn; [discriminate|].
  destruct (Preview.entry h idx x) eqn:E.
  - destruct (Preview.entriesFrom h (S idx) items) eqn:E'; [discriminate|].
    intros [= <-]. now apply (IH _ _ E').
  - intros [= <-]. now apply (entry_throws _ _ _ E).
Qed.

Lemma renderPreview_throws (analysisPreview : option JSON) :
  throwsOnly State (conversionFailure h) (renderPreview h analysisPreview).
Proof.
  unfold renderPreview. throws. apply throwsOnly_lift.
  apply entriesFrom_throws.
Qed.

Lemma showApprovalIfNeeded_throws (payload : JSON) :
  throwsOnly State (conversionFailure h) (showApprovalIfNeeded h payload).
Proof.
  unfold showApprovalIfNeeded.
  throws; try apply renderPreview_throws;
    apply throwsOnly_lift; apply questionText_throws.
Qed.

Lemma handleSseEvent_throws (ev : Frame) :
  throwsOnly State (conversionFailure h) (handleSseEvent h ev).
Proof.
  unfold handleSseEvent, applyCurrentStep, logUpdates, logValues.
  change SHOW_NOISY_SSE with false. cbn [negb andb].
  throws; try apply showApprovalIfNeeded_throws;
    apply throwsOnly_lift;
    try apply stringOrEmpty_throws.
  destruct (isObject (ev_data ev));
    [apply extractInterruptPayload_throws|intros msg; discriminate].
Qed.

End HandlerFacts.

(* --------------------------------------------------------------------- *)
(** ** The streaming client: how the handler of a frame runs *)
(* --------------------------------------------------------------------- *)

Section FrameRuns.

Import Js Json Extract Frontend.
Variable h : Host.

Lemma renderPreview_run (analysisPreview : option JSON) (s : State) :
  renderPreview h analysisPreview s
  = match Preview.renderPreview h analysisPreview with
    | Returned entries => (Returned tt, set_previewEl entries s)
    | Thrown msg => (Thrown msg, set_previewEl [] s)
    end.
Proof.
  unfold renderPreview, bind, exec, lift.
  destruct (Preview.renderPreview h analysisPreview); reflexivity.
Qed.

Lemma showApprovalIfNeeded_run (p : JSON) (s : State) :
  truthy p = true ->
  showApprovalIfNeeded h p s
  = match uiState s with
    | waiting_approval => (Returned tt, s)
    | _ =>
        let s1 := set_approvalCard true (setUiState waiting_approval s) in
        match questionText h p with
        | Thrown msg => (Thrown msg, s1)
        | Returned q =>
            match Preview.renderPreview h (Some (previewOf p)) with
            | Thrown msg => (Thrown msg, set_previewEl [] (set_questionEl q s1))
            | Returned entries =>
                (Returned tt,
                 addLogEntry h (approvalEntry h p)
                   (set_previewEl entries (set_questionEl q s1)))
            end
        end
    end.
Proof.
  intros Hp. unfold showApprovalIfNeeded. rewrite Hp. cbn [negb].
  rewrite bind_gets.
  destruct (uiState s) eqn:U; try reflexivity;
    rewrite !bind_exec;
    (destruct (questionText h p) as [q|msg];
     [rewrite bind_lift_returned, bind_exec; unfold bind at 1;
      rewrite renderPreview_run;
      destruct (Preview.renderPreview h (Some (previewOf p))); reflexivity
     |reflexivity]).
Qed.

Lemma extractInterruptPayload_object (raw p : JSON) :
  extractInterruptPayload h raw = Returned (Some p) -> isObject raw = true.
Proof.
  destruct raw as [|b|z|text|items|fields]; intros H; try reflexivity;
    exfalso; revert H; unfold extractInterruptPayload;
    destruct (truthy _); cbn; discriminate.
Qed.

Lemma extractInterruptPayload_primitive (raw : JSON) :
  isObject raw = false -> extractInterruptPayload h raw = Returned None.
Proof.
  destruct raw as [|b|z|text|items|fields]; try discriminate; intros _;
    unfold extractInterruptPayload; destruct (truthy _); reflexivity.
Qed.

Lemma handleSseEvent_interrupt (ev : Frame) (p : JSON) (s : State) :
  extractInterruptPayload h (ev_data ev) = Returned (Some p) ->
  handleSseEvent h ev s = showApprovalIfNeeded h p s.
Proof.
  intros E. unfold handleSseEvent.
  rewrite (extractInterruptPayload_object _ _ E), E. reflexivity.
Qed.

Lemma handleSseEvent_thrown (ev : Frame) (msg : string) (s : State) :
  extractInterruptPayload h (ev_data ev) = Thrown msg ->
  handleSseEvent h ev s = (Thrown msg, s).
Proof.
  intros E. unfold handleSseEvent.
  destruct (isObject (ev_data ev)) eqn:O.
  - rewrite E. reflexivity.
  - rewrite (extractInterruptPayload_primitive _ O) in E. discriminate.
Qed.

Lemma stepOfValues_primitive (raw : JSON) :
  isObject raw = false -> stepOfValues h raw = Returned EmptyString.
Proof. destruct raw; try discriminate; reflexivity. Qed.

(** The part of the handler that comes before the event name is looked
    at, on a frame without an interrupt that is no keep-alive: the step
    of [values.current_step] is converted and goes to the work badge. *)
Lemma handleSseEvent_no_interrupt (ev : Frame) (s : State) :
  extractInterruptPayload h (ev_data ev) = Returned None ->
  isKeepalive (ev_event ev) = false ->
  handleSseEvent h ev s
  = match stepOfValues h (ev_data ev) with
    | Thrown msg => (Thrown msg, s)
    | Returned step =>
        let s1 := if nonEmpty step then setWork h step s else s in
        if nonEmpty (if String.eqb (ev_event ev) "updates" && isObject (ev_data ev)
                     then pickCurrentStepFromUpdates (ev_data ev) else EmptyString)
        then (Returned tt, setWork h (pickCurrentStepFromUpdates (ev_data ev)) s1)
        else logUpdates h ev s1
    end.
Proof.
  intros E K. unfold handleSseEvent.
  assert (Hno : (if isObject (ev_data ev)
                 then extractInterruptPayload h (ev_data ev) else Returned None)
                = Returned None)
    by (destruct (isObject (ev_data ev)); [exact E|reflexivity]).
  rewrite Hno, bind_lift_returned, K. change SHOW_NOISY_SSE with false. cbn [negb andb].
  unfold applyCurrentStep.
  destruct (isObject (ev_data ev)) eqn:O.
  - fold (valuesObject (ev_data ev)). fold (stepOfValues h (ev_data ev)).
    unfold bind at 1. unfold bind at 1. unfold lift at 1.
    destruct (stepOfValues h (ev_data ev)) as [step|msg]; [|reflexivity].
    rewrite andb_true_r.
    destruct (nonEmpty step); cbn [exec ret];
      destruct (String.eqb (ev_event ev) "updates"); cbn [andb nonEmpty];
      try reflexivity;
      destruct (nonEmpty (pickCurrentStepFromUpdates (ev_data ev))); reflexivity.
  - rewrite (stepOfValues_primitive _ O). rewrite bind_ret, andb_false_r. reflexivity.
Qed.

End FrameRuns.

(* --------------------------------------------------------------------- *)
(** ** The streaming client: classifying a frame *)
(* --------------------------------------------------------------------- *)

Section ClassifierFacts.

Import Js Json Extract Frontend.
Variable h : Host.

Lemma firstCurrentStep_found (before after : list JSON) (marker : JSON) (step : string) :
  Forall (fun v => isStageStart v = false) before ->
  asString (prop "current_step" marker) = Some step ->
  allWhiteSpace step = false ->
  firstCurrentStep (before ++ marker :: after) = trim step.
Proof.
  intros Hbefore Hstep Hblank.
  induction Hbefore as [|v before Hv _ IH]; cbn [app firstCurrentStep].
  - rewrite Hstep, nonEmpty_trim, Hblank. reflexivity.
  - unfold isStageStart in Hv.
    destruct (asString (prop "current_step" v)) as [other|]; [|exact IH].
    rewrite nonEmpty_trim. apply negb_false_iff in Hv. rewrite Hv. exact IH.
Qed.

Lemma setWork_twice (a b : string) (s : State) :
  setWork h a (setWork h b s) = setWork h a s.
Proof. reflexivity. Qed.


Lemma isKeepalive_updates (name : string) :
  String.eqb name "updates" = true \/ String.eqb name "values" = true ->
  isKeepalive name = false.
Proof.
  intros [H|H]; apply String.eqb_eq in H; now subst name.
Qed.

(** C6, as amended.  A frame named "updates" whose payload is an object
    from which the interrupt extractor extracts nothing, and among whose
    entries (those of its [updates] object when it has one, else its own)
    the first that marks the start of a stage has the current step
    [step], makes the handler show the trimmed [step] as the current step
    and change nothing else: no log entry is added.  This is so when the
    current step of the payload's own [values], if it has one, can be
    converted to a string; when it cannot, the handler throws the error
    of the conversion and changes nothing at all. *)
Theorem C6_stage_start_sets_step_without_log
  (ev : Frame) (s : State) (fields : list (string * JSON))
  (before after : list JSON) (marker : JSON) (step : string) :
  ev_event ev = "updates" ->
  ev_data ev = JObj fields ->
  extractInterruptPayload h (JObj fields) = Returned None ->
  ownValues (updatesOf (JObj fields)) = (before ++ marker :: after)%list ->
  Forall (fun v => isStageStart v = false) before ->
  asString (prop "current_step" marker) = Some step ->
  allWhiteSpace step = false ->
  handleSseEvent h ev s
  = match stepOfValues h (JObj fields) with
    | Returned _ => (Returned tt, setWork h (trim step) s)
    | Thrown msg => (Thrown msg, s)
    end
  /\ logItems (snd (handleSseEvent h ev s)) = logItems s
  /\ uiState (snd (handleSseEvent h ev s)) = uiState s.
Proof.
  intros Hev Hdata Hnone Hvalues Hbefore Hstep Hblank.
  assert (Hpick : pickCurrentStepFromUpdates (JObj fields) = trim step).
  { unfold pickCurrentStepFromUpdates. cbn [isObject negb].
    rewrite Hvalues. now apply firstCurrentStep_found. }
  assert (Hne : nonEmpty (trim step) = true).
  { rewrite nonEmpty_trim, Hblank. reflexivity. }
  assert (Heq : handleSseEvent h ev s
                = match stepOfValues h (JObj fields) with
                  | Returned _ => (Returned tt, setWork h (trim step) s)
                  | Thrown msg => (Thrown msg, s)
                  end).
  { rewrite handleSseEvent_no_interrupt.
    - rewrite Hev, Hdata. cbn [isObject].
      change (String.eqb "updates" "updates") with true. cbn [andb].
      rewrite Hpick, Hne.
      destruct (stepOfValues h (JObj fields)) as [own|msg]; [|reflexivity].
      cbv zeta. destruct (nonEmpty own); [now rewrite setWork_twice|reflexivity].
    - now rewrite Hdata.
    - apply isKeepalive_updates. left. now rewrite Hev. }
  rewrite Heq. split; [reflexivity|].
  destruct (stepOfValues h (JObj fields)); split; reflexivity.
Qed.

End ClassifierFacts.

Lemma C6_witness :
  let s := Frontend.loaded None in
  Frontend.handleSseEvent plainHost researchStarted s
  = (Returned tt, Frontend.setWork plainHost "research_agent" s)
  /\ Frontend.logItems (snd (Frontend.handleSseEvent plainHost researchStarted s))
     = Frontend.logItems s
  /\ Frontend.uiState (snd (Frontend.handleSseEvent plainHost researchStarted s))
     = Frontend.uiState s.
Proof.
  apply (C6_stage_start_sets_step_without_log plainHost researchStarted
           (Frontend.loaded None)
           [("research_start", JObj [("current_step", JStr "research_agent")])]
           [] [] (JObj [("current_step", JStr "research_agent")]) "research_agent");
    try reflexivity.
  constructor.
Defined.

(** C6 as stated fails, in four ways.  The frame is named "updates" and
    carries a marker with a current step each time; yet with blanks
    around the step, the step shown is not that value but the value
    without the blanks; with a step of blanks only, no step is shown and
    the update of the node beside it is logged; with an interrupt beside
    the marker, the step shown stays as it was, the state becomes
    [waiting_approval] and a log entry is added; and with a current step
    of the [values] that cannot be converted, the handler throws and no
    step is shown. *)
Lemma C6_counterexample :
  let s := Frontend.loaded None in
  (let s' := snd (Frontend.handleSseEvent plainHost researchStartedPadded s) in
   Frontend.workBadge s' = Frontend.workBadge (Frontend.setWork plainHost "research_agent" s)
   /\ Frontend.workBadge s'
      <> Frontend.workBadge (Frontend.setWork plainHost " research_agent " s))
  /\ (let s' := snd (Frontend.handleSseEvent plainHost researchStartedBlank s) in
      Frontend.workBadge s' = Frontend.workBadge s
      /\ map Frontend.tag (Frontend.logItems s') = ["AGENT"])
  /\ (let s' := snd (Frontend.handleSseEvent plainHost researchStartedInterrupted s) in
      Frontend.pickCurrentStepFromUpdates (ev_data researchStartedInterrupted)
      = "research_agent"
      /\ Frontend.workBadge s' = Frontend.workBadge s
      /\ Frontend.uiState s' = waiting_approval
      /\ map Frontend.tag (Frontend.logItems s') = ["HITL"])
  /\ Frontend.handleSseEvent plainHost researchStartedExotic s
     = (Thrown (conversionError plainHost exotic), s).
Proof. cbv zeta. repeat split. discriminate. Qed.

(* --------------------------------------------------------------------- *)
(** ** The interrupt extractor: the order of the places *)
(* --------------------------------------------------------------------- *)

Section ExtractorOrder.

Import Js Json Extract.
Variable h : Host.

Lemma candidatePayload_looks (c p : JSON) :
  candidatePayload c = Some p -> looksLikeApproval p = true.
Proof.
  unfold candidatePayload.
  destruct (match c with JArr items => hd_error items | _ => Some c end) as [first|];
    [|discriminate].
  destruct (truthy first); cbn [negb]; [|discriminate].
  set (payload := match prop "value" first with
                  | None | Some JNull => first
                  | Some v => v
                  end).
  destruct (truthy payload); cbn [negb]; [|discriminate].
  destruct (looksLikeApproval payload) eqn:E; [|discriminate].
  now intros [= <-].
Qed.

Lemma firstPayload_looks (cs : list JSON) (p : JSON) :
  firstPayload cs = Some p -> looksLikeApproval p = true.
Proof.
  induction cs as [|c cs IH]; cbn [firstPayload]; [discriminate|].
  destruct (candidatePayload c) eqn:E; [|exact IH].
  intros [= <-]. eapply candidatePayload_looks; eassumption.
Qed.

Lemma firstPayload_slots (slots : list (option JSON)) :
  firstPayload (filterBoolean slots)
  = match slots with
    | [] => None
    | slot :: rest =>
        match slotPayload slot with
        | Some p => Some p
        | None => firstPayload (filterBoolean rest)
        end
    end.
Proof.
  destruct slots as [|[c|] rest]; cbn [filterBoolean slotPayload]; try reflexivity.
  destruct (truthy c); reflexivity.
Qed.

Lemma firstPayload_none (slots : list (option JSON)) :
  firstPayload (filterBoolean slots) = None ->
  Forall (fun slot => slotPayload slot = None) slots.
Proof.
  induction slots as [|slot rest IH]; [constructor|].
  rewrite firstPayload_slots.
  destruct (slotPayload slot) eqn:E; [discriminate|].
  intros H. constructor; [exact E|now apply IH].
Qed.

Lemma firstPayload_first (before after : list (option JSON))
      (slot : option JSON) (p : JSON) :
  Forall (fun slot => slotPayload slot = None) before ->
  slotPayload slot = Some p ->
  firstPayload (filterBoolean (before ++ slot :: after)) = Some p.
Proof.
  intros Hbefore Hslot.
  induction Hbefore as [|b before Hb _ IH]; cbn [app]; rewrite firstPayload_slots.
  - now rewrite Hslot.
  - now rewrite Hb.
Qed.

(** extractInterruptPayload.  What it returns is truthy and looks like
    an approval request; it is the payload of the first of the four
    places that yields one, whatever the later places and the status
    hold.  The status is read only when no place yields a payload: then
    nothing is returned exactly when the status can be converted and is
    not "interrupted", and the extractor throws exactly when the
    conversion of the status does. *)
Theorem extractInterruptPayload_first_place :
  (forall obj p : JSON,
      extractInterruptPayload h obj = Returned (Some p) ->
      truthy p = true /\ looksLikeApproval p = true)
  /\ (forall (obj : JSON) (before after : list (option JSON))
             (slot : option JSON) (p : JSON),
         candidateSlots obj = (before ++ slot :: after)%list ->
         Forall (fun slot => slotPayload slot = None) before ->
         slotPayload slot = Some p ->
         extractInterruptPayload h obj = Returned (Some p))
  /\ (forall obj : JSON,
         extractInterruptPayload h obj = Returned None
         <-> Forall (fun slot => slotPayload slot = None) (candidateSlots obj)
             /\ exists status,
                  stringOrEmpty h (prop "status" obj) = Returned status
                  /\ String.eqb status "interrupted" = false)
  /\ (forall (obj : JSON) (msg : string),
         extractInterruptPayload h obj = Thrown msg
         <-> Forall (fun slot => slotPayload slot = None) (candidateSlots obj)
             /\ stringOrEmpty h (prop "status" obj) = Thrown msg).
Proof.
  split; [|split; [|split]].
  - intros obj p H. split; [eapply extractInterruptPayload_truthy; eassumption|].
    revert H. unfold extractInterruptPayload.
    destruct (truthy obj); cbn [negb]; [|discriminate].
    destruct (firstPayload (candidates obj)) eqn:E.
    + intros [= <-]. eapply firstPayload_looks; eassumption.
    + destruct (stringOrEmpty h (prop "status" obj)); [|discriminate].
      destruct (String.eqb _ _); [|discriminate]. now intros [= <-].
  - intros obj before after slot p Hslots Hbefore Hslot.
    assert (Hobj : truthy obj = true).
    { assert (Hin : In slot (candidateSlots obj)) by (rewrite Hslots; apply in_elt).
      destruct obj; try reflexivity; cbn in Hin;
        repeat (destruct Hin as [<-|Hin]; [discriminate|]); destruct Hin. }
    unfold extractInterruptPayload, candidates. rewrite Hobj, Hslots. cbn [negb].
    now rewrite (firstPayload_first _ _ _ _ Hbefore Hslot).
  - intros obj. unfold extractInterruptPayload, candidates.
    destruct (truthy obj) eqn:Hobj; cbn [negb].
    + destruct (firstPayload (filterBoolean (candidateSlots obj))) eqn:E.
      * split; [discriminate|]. intros [Hall _].
        rewrite (firstPayload_filterBoolean _ Hall) in E. discriminate.
      * apply firstPayload_none in E.
        destruct (stringOrEmpty h (prop "status" obj)) as [status|msg].
        -- destruct (String.eqb status "interrupted") eqn:S.
           ++ split; [discriminate|]. intros (_ & st & [= <-] & Hst). congruence.
           ++ split; [|reflexivity]. intros _. split; [exact E|]. now exists status.
        -- split; [discriminate|]. intros (_ & st & Hst & _). discriminate.
    + split; [intros _|reflexivity].
      destruct obj as [|b|z|text|items|fields]; try discriminate;
        (split; [repeat constructor|now exists EmptyString]).
  - intros obj msg. unfold extractInterruptPayload, candidates.
    destruct (truthy obj) eqn:Hobj; cbn [negb].
    + destruct (firstPayload (filterBoolean (candidateSlots obj))) eqn:E.
      * split; [discriminate|]. intros [Hall _].
        rewrite (firstPayload_filterBoolean _ Hall) in E. discriminate.
      * apply firstPayload_none in E.
        destruct (stringOrEmpty h (prop "status" obj)) as [status|m].
        -- split; [discriminate|]. intros [_ ?]. discriminate.
        -- split; [intros [= <-]; now split|]. intros [_ [= <-]]. reflexivity.
    + split; [discriminate|]. intros [_ H]. revert H.
      destruct obj as [|b|z|text|items|fields]; try discriminate.
Qed.

End ExtractorOrder.

(** A snapshot with a request under [values.__interrupt__], another one
    under [interrupts] and the status "interrupted": the first one is
    returned. *)
Lemma extractInterruptPayload_first_place_witness :
  Extract.extractInterruptPayload plainHost
    (JObj [("status", JStr "interrupted");
           ("values", JObj [("__interrupt__",
                             JArr [JObj [("value", JObj [("question", JStr "Go on?")])]])]);
           ("interrupts", JObj [("question", JStr "Stop?")])])
  = Returned (Some (JObj [("question", JStr "Go on?")])).
Proof.
  destruct (extractInterruptPayload_first_place plainHost) as (_ & Hfirst & _).
  apply (Hfirst _ [None] [Some (JObj [("question", JStr "Stop?")]); None]
           (Some (JArr [JObj [("value", JObj [("question", JStr "Go on?")])]]))).
  - reflexivity.
  - repeat constructor.
  - reflexivity.
Defined.

(* --------------------------------------------------------------------- *)
(** ** The streaming client: what a frame can do *)
(* --------------------------------------------------------------------- *)

Section FrameFacts.

Import Js Json Extract Frontend.
Variable h : Host.

Lemma logItems_addLogEntry_same (a : LogArgs) (s1 s2 : State) :
  logItems s1 = logItems s2 -> clock s1 = clock s2 ->
  logItems (addLogEntry h a s1) = logItems (addLogEntry h a s2).
Proof. unfold addLogEntry. cbn. now intros -> ->. Qed.

Lemma oneEntry_showApprovalIfNeeded (p : JSON) (s : State) :
  truthy p = true -> oneEntry h s (showApprovalIfNeeded h p s).
Proof.
  intros Hp. rewrite (showApprovalIfNeeded_run h p s Hp). unfold oneEntry.
  destruct (uiState s); try (left; reflexivity);
    cbv zeta;
    (destruct (questionText h p) as [q|msg]; [|left; reflexivity]);
    (destruct (Preview.renderPreview h (Some (previewOf p))) as [entries|msg];
     [|left; reflexivity]);
    right; exists (approvalEntry h p);
    (split; [cbn; tauto|]); (split; [reflexivity|]);
    apply logItems_addLogEntry_same; reflexivity.
Qed.

Lemma oneEntry_logUpdates (ev : Frame) (s s1 : State) :
  logItems s1 = logItems s -> clock s1 = clock s ->
  oneEntry h s (logUpdates h ev s1).
Proof.
  intros Hlog Hclock. unfold oneEntry, logUpdates, logValues, logRawSse.
  change SHOW_NOISY_SSE with false. cbn [negb].
  destruct (String.eqb (ev_event ev) "updates").
  - destruct (nonEmpty (pickNodeKeyFromUpdates (ev_data ev))).
    + right. eexists. split; [|split; [reflexivity|]].
      2: { cbn [exec snd]. apply logItems_addLogEntry_same; assumption. }
      cbn. tauto.
    + left. exact Hlog.
  - destruct (String.eqb (ev_event ev) "values"); [|left; exact Hlog].
    unfold bind, lift.
    destruct (stringOrEmpty h _) as [current|msg]; [|left; exact Hlog].
    destruct (nonEmpty current); [|left; exact Hlog].
    right. eexists. split; [|split; [reflexivity|]].
    2: { cbn [exec snd]. apply logItems_addLogEntry_same; assumption. }
    cbn. tauto.
Qed.

(** handleSseEvent.  Whatever the frame and however its handler ends,
    the handler leaves the thread id, its stored copy, the requests, the
    report and the banner alone; the state stays or becomes
    [waiting_approval]; the log stays, or gains one entry, tagged HITL,
    AGENT or STATE, when the handler returns; and what the handler
    throws is the error of the conversion of a value to a string. *)
Theorem handleSseEvent_footprint (ev : Frame) (s : State) :
  let r := handleSseEvent h ev s in
  Kept s (snd r)
  /\ (logItems (snd r) = logItems s
      \/ exists a : LogArgs,
           In (arg_tag a) ["HITL"; "AGENT"; "STATE"]
           /\ fst r = Returned tt
           /\ logItems (snd r) = logItems (addLogEntry h a s))
  /\ (forall msg, fst r = Thrown msg ->
      exists v, convertible v = false /\ msg = conversionError h v).
Proof.
  cbv zeta. split; [apply keeps_handleSseEvent|]. split; [|apply handleSseEvent_throws].
  fold (oneEntry h s (handleSseEvent h ev s)).
  destruct (extractInterruptPayload h (ev_data ev)) as [[p|]|msg] eqn:E.
  - rewrite (handleSseEvent_interrupt h ev p s E).
    apply oneEntry_showApprovalIfNeeded.
    eapply extractInterruptPayload_truthy; eassumption.
  - destruct (isKeepalive (ev_event ev)) eqn:K.
    + left. unfold handleSseEvent.
      assert (Hno : (if isObject (ev_data ev)
                     then extractInterruptPayload h (ev_data ev) else Returned None)
                    = Returned None)
        by (destruct (isObject (ev_data ev)); [exact E|reflexivity]).
      rewrite Hno, bind_lift_returned, K. reflexivity.
    + rewrite (handleSseEvent_no_interrupt h ev s E K).
      destruct (stepOfValues h (ev_data ev)) as [step|msg]; [|left; reflexivity].
      cbv zeta.
      match goal with |- context [if nonEmpty ?m then (_, _) else _] =>
        destruct (nonEmpty m)
      end.
      * left. now destruct (nonEmpty step).
      * apply oneEntry_logUpdates; now destruct (nonEmpty step).
  - rewrite (handleSseEvent_thrown h ev msg s E). left. reflexivity.
Qed.

End FrameFacts.

Section InterruptFacts.

Import Js Json Extract Frontend.
Variable h : Host.

(** An interrupt in a frame.  A frame in whose data the extractor finds
    an approval request, whatever its event name and whatever else it
    holds, makes the client wait for approval and leaves the work badge
    alone.  When the client was waiting already, nothing changes.  When
    it was not, the approval card is shown; then the question of the
    request is converted and shown, the preview is made and shown, and
    one HITL entry is logged: the frames of one pause show one request
    and log one entry.  When the question, or the type of a preview
    item, cannot be converted, the handler throws at that point, with
    the card shown, the preview empty and no entry logged. *)
Theorem interrupt_frame_pauses_once (ev : Frame) (p : JSON) (s : State) :
  extractInterruptPayload h (ev_data ev) = Returned (Some p) ->
  let r := handleSseEvent h ev s in
  uiState (snd r) = waiting_approval
  /\ workBadge (snd r) = workBadge s
  /\ (uiState s = waiting_approval -> r = (Returned tt, s))
  /\ (uiState s <> waiting_approval ->
      approvalCard (snd r) = true
      /\ match questionText h p with
         | Thrown msg =>
             fst r = Thrown msg
             /\ questionEl (snd r) = questionEl s
             /\ previewEl (snd r) = previewEl s
             /\ logItems (snd r) = logItems s
         | Returned question =>
             questionEl (snd r) = question
             /\ match Preview.renderPreview h (Some (previewOf p)) with
                | Thrown msg =>
                    fst r = Thrown msg
                    /\ previewEl (snd r) = []
                    /\ logItems (snd r) = logItems s
                | Returned entries =>
                    fst r = Returned tt
                    /\ previewEl (snd r) = entries
                    /\ logItems (snd r)
                       = logItems (addLogEntry h (approvalEntry h p) s)
                end
         end)
  /\ (fst r = Returned tt -> handleSseEvent h ev (snd r) = r).
Proof.
  intros E. cbv zeta.
  pose proof (extractInterruptPayload_truthy h _ _ E) as Hp.
  rewrite (handleSseEvent_interrupt h ev p s E).
  rewrite (showApprovalIfNeeded_run h p s Hp).
  assert (Hagain : forall s1, uiState s1 = waiting_approval ->
                              handleSseEvent h ev s1 = (Returned tt, s1)).
  { intros s1 U. rewrite (handleSseEvent_interrupt h ev p s1 E).
    rewrite (showApprovalIfNeeded_run h p s1 Hp). now rewrite U. }
  destruct (uiState s) eqn:U; cbv zeta;
    try (split; [exact U|];
         split; [reflexivity|]; split; [reflexivity|];
         split; [congruence|]; intros _; now apply Hagain);
    (destruct (questionText h p) as [q|msg];
     [destruct (Preview.renderPreview h (Some (previewOf p))) as [entries|msg]|]);
    cbn [fst snd];
    (split; [reflexivity|]); (split; [reflexivity|]);
    (split; [discriminate|]);
    (split; [intros _; repeat split; apply logItems_addLogEntry_same; reflexivity|]);
    try discriminate;
    intros _; rewrite Hagain; reflexivity.
Qed.

End InterruptFacts.

(** A keep-alive frame that carries an interrupt pauses the client found
    in the state [starting]. *)
Lemma interrupt_frame_pauses_once_witness :
  let ev := {| ev_id := EmptyString;
               ev_event := "ping";
               ev_data := JObj [("__interrupt__",
                                 JArr [JObj [("value", JObj [("question", JStr "Proceed?")])]])] |} in
  let s := Frontend.setUiState starting (Frontend.loaded None) in
  let r := Frontend.handleSseEvent plainHost ev s in
  fst r = Returned tt
  /\ Frontend.uiState (snd r) = waiting_approval
  /\ Frontend.questionEl (snd r) = "Proceed?"
  /\ Frontend.handleSseEvent plainHost ev (snd r) = r.
Proof.
  cbv zeta.
  destruct (interrupt_frame_pauses_once plainHost
              {| ev_id := EmptyString;
                 ev_event := "ping";
                 ev_data := JObj [("__interrupt__",
                                   JArr [JObj [("value", JObj [("question", JStr "Proceed?")])]])] |}
              (JObj [("question", JStr "Proceed?")])
              (Frontend.setUiState starting (Frontend.loaded None)) eq_refl)
    as (H1 & _ & _ & H4 & H5).
  destruct H4 as (_ & Hq & Hr & _); [discriminate|].
  split; [exact Hr|]. split; [exact H1|]. split; [exact Hq|]. exact (H5 Hr).
Defined.

(* --------------------------------------------------------------------- *)
(** ** The streaming client: frames that are logged and frames that are not *)
(* --------------------------------------------------------------------- *)

Section LoggedFrames.

Import Js Json Extract Frontend.
Variable h : Host.

Lemma capped_firstn (A : Type) (l : list A) :
  (if Nat.ltb MAX_LOG_ITEMS (List.length l) then firstn MAX_LOG_ITEMS l else l)
  = firstn MAX_LOG_ITEMS l.
Proof.
  destruct (Nat.ltb MAX_LOG_ITEMS (List.length l)) eqn:E; [reflexivity|].
  apply Nat.ltb_ge in E. symmetry. now apply firstn_all2.
Qed.

Lemma logItems_addLogEntry (a : LogArgs) (s : State) :
  logItems (addLogEntry h a s)
  = firstn MAX_LOG_ITEMS (logged h a (clock s) :: logItems s).
Proof. unfold addLogEntry. cbn [logItems set_logItems]. apply capped_firstn. Qed.

Lemma newest_addLogEntry (a : LogArgs) (s : State) :
  nth_error (logItems (addLogEntry h a s)) 0 = Some (logged h a (clock s)).
Proof. now rewrite logItems_addLogEntry. Qed.

Lemma length_sliceTo_exact (n : nat) (s : string) :
  n <= String.length s -> String.length (sliceTo n s) = n.
Proof.
  revert s. induction n as [|n IH]; intros [|c s]; cbn; try lia.
  intros H. rewrite IH; lia.
Qed.

Lemma sliceTo_all (n : nat) (s : string) :
  String.length s <= n -> sliceTo n s = s.
Proof.
  revert s. induction n as [|n IH]; intros [|c s]; cbn; try lia; try reflexivity.
  intros H. rewrite IH; [reflexivity|lia].
Qed.

(** What [truncate] returns is [n] characters long, or the ellipsis
    longer, at most, and starts as the text does. *)
Lemma truncate_bound (t : string) (n : nat) :
  String.length (truncate h t n) <= n + String.length (ellipsis h)
  /\ sliceTo n (truncate h t n) = sliceTo n t
  /\ (String.length t <= n -> truncate h t n = t)
  /\ (nonEmpty t = true -> 0 < n -> nonEmpty (truncate h t n) = true).
Proof.
  unfold truncate. destruct (Nat.leb (String.length t) n) eqn:E.
  - apply Nat.leb_le in E. repeat split; auto. lia.
  - apply Nat.leb_gt in E.
    assert (Hlen : String.length (sliceTo n t) = n)
      by (apply length_sliceTo_exact; lia).
    repeat split.
    + rewrite length_append. lia.
    + rewrite <- Hlen at 1. now rewrite sliceTo_app.
    + lia.
    + intros _ Hn. destruct (sliceTo n t) eqn:S; [cbn in Hlen; lia|reflexivity].
Qed.

Lemma hasLabel_nonEmpty (k : string) : hasLabel k = true -> nonEmpty k = true.
Proof. now destruct k. Qed.

Lemma firstLabelledKey_found (before after : list (string * JSON)) (k : string) (v : JSON) :
  Forall (fun kv => hasLabel (fst kv) = false) before ->
  hasLabel k = true ->
  firstLabelledKey (before ++ (k, v) :: after) = k
  /\ assoc k (before ++ (k, v) :: after) = Some v.
Proof.
  intros Hbefore Hk. induction Hbefore as [|[k' v'] before Hk' _ IH]; cbn [app].
  - cbn. now rewrite Hk, String.eqb_refl.
  - cbn [firstLabelledKey assoc fst] in *. rewrite Hk'.
    destruct (String.eqb_spec k k') as [->|]; [congruence|exact IH].
Qed.

(** An update of a node.  On an [updates] frame without an interrupt
    and without a stage-start marker, the first key of the updates that
    has a label names the node.  When the current step of the frame's
    own [values], if any, can be converted, the handler returns and the
    log gains an AGENT entry for the node, with the label, the frame's
    data as raw value, and the readable output of the node as detail;
    the summary is that text cut to 140 characters and the ellipsis, and
    both are "(updated)" when there is no text; the state is left as it
    was.  When that step cannot be converted, the handler throws and
    nothing is logged. *)
Theorem updates_frame_logs_the_node
        (ev : Frame) (before after : list (string * JSON)) (k : string) (v : JSON)
        (s : State) :
  ev_event ev = "updates" ->
  extractInterruptPayload h (ev_data ev) = Returned None ->
  pickCurrentStepFromUpdates (ev_data ev) = EmptyString ->
  updatesOf (ev_data ev) = JObj (before ++ (k, v) :: after) ->
  Forall (fun kv => hasLabel (fst kv) = false) before ->
  hasLabel k = true ->
  let text := extractReadableOutputFromNodeState h (if truthy v then v else JObj []) in
  let r := handleSseEvent h ev s in
  match stepOfValues h (ev_data ev) with
  | Thrown msg => r = (Thrown msg, s)
  | Returned _ =>
      fst r = Returned tt
      /\ exists entry : LogItem,
           nth_error (logItems (snd r)) 0 = Some entry
           /\ tag entry = "AGENT"
           /\ agent entry = labelOrKey h k
           /\ raw entry = ev_data ev
           /\ detail entry = orElse text "(updated)"
           /\ summary entry <> EmptyString
           /\ String.length (summary entry) <= 140 + String.length (ellipsis h)
           /\ sliceTo 140 (summary entry) = sliceTo 140 (detail entry)
           /\ uiState (snd r) = uiState s
  end.
Proof.
  intros Hev E Hstep Hu Hbefore Hk text. cbv zeta.
  destruct (firstLabelledKey_found before after k v Hbefore Hk) as (Hkey & Hassoc).
  assert (Hobj : isObject (ev_data ev) = true).
  { revert Hu. unfold updatesOf.
    destruct (ev_data ev) as [|b|z|t|items|fields]; cbn; try discriminate; reflexivity. }
  assert (Hpick : pickNodeKeyFromUpdates (ev_data ev) = k).
  { unfold pickNodeKeyFromUpdates. now rewrite Hobj, Hu. }
  rewrite (handleSseEvent_no_interrupt h ev s E)
    by (apply isKeepalive_updates; left; rewrite Hev; reflexivity).
  destruct (stepOfValues h (ev_data ev)) as [own|msg]; [|reflexivity].
  cbv zeta. set (s1 := if nonEmpty own then setWork h own s else s).
  assert (Hs1 : uiState s1 = uiState s) by (unfold s1; now destruct (nonEmpty own)).
  clearbody s1.
  rewrite Hstep, Hev, Hobj. cbn [String.eqb nonEmpty andb].
  change (String.eqb "updates" "updates") with true. cbv iota.
  unfold logUpdates. rewrite Hev.
  change (String.eqb "updates" "updates") with true. cbv iota.
  rewrite Hpick, (hasLabel_nonEmpty _ Hk), Hu. cbn [prop]. rewrite Hassoc.
  fold text. cbn [exec fst snd]. split; [reflexivity|].
  eexists. split; [apply newest_addLogEntry|].
  cbn [logged tag agent raw detail summary arg_tag arg_agent arg_raw arg_detail
       arg_summary orElse nonEmpty].
  destruct (truncate_bound text 140) as (T1 & T2 & T3 & T4).
  repeat split.
  - unfold orElse. destruct (nonEmpty (truncate h text 140)) eqn:N.
    + now apply nonEmpty_true.
    + discriminate.
  - unfold orElse. destruct (nonEmpty (truncate h text 140)); [exact T1|cbn; lia].
  - unfold orElse. destruct (nonEmpty (truncate h text 140)) eqn:N.
    + destruct (nonEmpty text) eqn:N'; [exact T2|].
      apply nonEmpty_false in N'. rewrite N' in N. discriminate.
    + destruct (nonEmpty text) eqn:N'; [|reflexivity].
      assert (false = true) by (apply T4; [reflexivity|lia]). discriminate.
  - exact Hs1.
Qed.

(** Frames that are dropped.  Unless the extractor finds an interrupt in
    it or throws, a frame whose event is neither [updates] nor [values]
    (an [error] event of the server among them), an [updates] frame
    without a stage-start marker and without a key that has a label, and
    a [values] frame without a truthy [values.current_step] add nothing
    to the log and change no state.  A keep-alive frame changes nothing
    at all; for the others the current step of the frame's own [values]
    is converted first: it goes to the work badge when it is not empty,
    and the handler throws when it cannot be converted. *)
Theorem unlisted_frames_are_dropped (ev : Frame) (s : State) :
  extractInterruptPayload h (ev_data ev) = Returned None ->
  (ev_event ev <> "updates" /\ ev_event ev <> "values")
  \/ (ev_event ev = "updates"
      /\ pickCurrentStepFromUpdates (ev_data ev) = EmptyString
      /\ pickNodeKeyFromUpdates (ev_data ev) = EmptyString)
  \/ (ev_event ev = "values"
      /\ stringOrEmpty h (optProp "current_step" (prop "values" (ev_data ev)))
         = Returned EmptyString) ->
  handleSseEvent h ev s
  = if isKeepalive (ev_event ev) then (Returned tt, s)
    else match stepOfValues h (ev_data ev) with
         | Returned step =>
             (Returned tt, if nonEmpty step then setWork h step s else s)
         | Thrown msg => (Thrown msg, s)
         end.
Proof.
  intros E Hcase.
  destruct (isKeepalive (ev_event ev)) eqn:K.
  { unfold handleSseEvent.
    assert (Hno : (if isObject (ev_data ev)
                   then extractInterruptPayload h (ev_data ev) else Returned None)
                  = Returned None)
      by (destruct (isObject (ev_data ev)); [exact E|reflexivity]).
    rewrite Hno, bind_lift_returned, K. reflexivity. }
  rewrite (handleSseEvent_no_interrupt h ev s E K).
  destruct (stepOfValues h (ev_data ev)) as [step|msg]; [|reflexivity].
  cbv zeta. unfold logUpdates, logValues, logRawSse.
  change SHOW_NOISY_SSE with false. cbn [negb].
  destruct Hcase as [[Hu Hv]|[(Hu & Hstep & Hkey)|(Hv & Hcur)]].
  - apply String.eqb_neq in Hu, Hv. now rewrite Hu, Hv.
  - rewrite Hu, Hstep, Hkey.
    change (String.eqb "updates" "updates") with true.
    now destruct (isObject (ev_data ev)).
  - rewrite Hv, Hcur. reflexivity.
Qed.

End LoggedFrames.

(** The update of [research_agent] is logged with the label of the node
    and the content of its last message. *)
Lemma updates_frame_logs_the_node_witness :
  let r := Frontend.handleSseEvent plainHost researchDone (Frontend.loaded None) in
  fst r = Returned tt
  /\ exists entry : Frontend.LogItem,
       nth_error (Frontend.logItems (snd r)) 0 = Some entry
       /\ Frontend.tag entry = "AGENT"
       /\ Frontend.agent entry = "Research (research_agent)"
       /\ Frontend.raw entry = ev_data researchDone
       /\ Frontend.detail entry = "Found 3 sources"
       /\ Frontend.summary entry <> EmptyString
       /\ String.length (Frontend.summary entry) <= 140 + 3
       /\ Js.sliceTo 140 (Frontend.summary entry) = Js.sliceTo 140 (Frontend.detail entry)
       /\ Frontend.uiState (snd r) = idle.
Proof.
  apply (updates_frame_logs_the_node plainHost researchDone
           [("loop_count", JNum 1)] []
           "research_agent"
           (JObj [("research_messages", JArr [JObj [("content", JStr "Found 3 sources")]])])
           (Frontend.loaded None)); try reflexivity.
  repeat constructor.
Defined.

(** The [error] frame of the server changes nothing. *)
Lemma unlisted_frames_are_dropped_witness :
  let s := Frontend.setUiState starting (Frontend.loaded None) in
  Frontend.handleSseEvent plainHost serverError s = (Returned tt, s).
Proof.
  apply (unlisted_frames_are_dropped plainHost serverError); [reflexivity|].
  left. split; discriminate.
Defined.

(* --------------------------------------------------------------------- *)
(** ** The streaming client: a [values] frame *)
(* --------------------------------------------------------------------- *)

Section ValuesFrames.

Import Js Json Extract Frontend.
Variable h : Host.

(** A [values] frame.  On a [values] frame without an interrupt whose
    [values.current_step] is truthy and can be converted to the text
    [step], the step goes to the work badge, by its label when it has
    one, and the log gains a STATE entry with that label, the dump of
    [values] as detail and the frame's data as raw value; nothing else
    changes.  When the step cannot be converted, the handler throws the
    error of the conversion and changes nothing. *)
Theorem values_frame_logs_the_step (ev : Frame) (s : State) :
  ev_event ev = "values" ->
  extractInterruptPayload h (ev_data ev) = Returned None ->
  match stringOrEmpty h (optProp "current_step" (prop "values" (ev_data ev))) with
  | Thrown msg => handleSseEvent h ev s = (Thrown msg, s)
  | Returned step =>
      step <> EmptyString ->
      exists values,
        prop "values" (ev_data ev) = Some values
        /\ handleSseEvent h ev s
           = (Returned tt,
              addLogEntry h {| arg_tag := "STATE";
                               arg_agent := labelOrKey h step;
                               arg_summary := "State updated (values).";
                               arg_detail := JSON_stringify h values;
                               arg_raw := ev_data ev |}
                (setWork h step s))
  end.
Proof.
  intros Hev E.
  assert (K : isKeepalive (ev_event ev) = false) by (now rewrite Hev).
  rewrite (handleSseEvent_no_interrupt h ev s E K).
  assert (Hsame : forall o, o <> Returned EmptyString ->
             stringOrEmpty h (optProp "current_step" (prop "values" (ev_data ev))) = o ->
             stepOfValues h (ev_data ev) = o
             /\ exists values, prop "values" (ev_data ev) = Some values
                              /\ values <> JNull).
  { intros o Ho Heq. unfold stepOfValues, valuesObject.
    destruct (prop "values" (ev_data ev)) as [values|]; [|now destruct Ho].
    destruct values; try (now destruct Ho); cbn [isObject];
      (split; [exact Heq|]); eexists; (split; [reflexivity|discriminate]). }
  destruct (stringOrEmpty h (optProp "current_step" (prop "values" (ev_data ev))))
    as [step|msg] eqn:S.
  - intros Hstep.
    destruct (Hsame (Returned step)) as (Hown & values & Hv & Hnull);
      [congruence|reflexivity|].
    exists values. split; [exact Hv|].
    rewrite Hown. cbv zeta. apply nonEmpty_true in Hstep. rewrite Hstep, Hev.
    change (String.eqb "values" "updates") with false. cbn [andb nonEmpty].
    unfold logUpdates. rewrite Hev.
    change (String.eqb "values" "updates") with false. cbv iota.
    unfold logValues. rewrite Hev.
    change (String.eqb "values" "values") with true. cbv iota.
    cbn [ev_data]. rewrite S, bind_lift_returned, Hstep, Hv.
    unfold coalesce. destruct values; try reflexivity. now destruct Hnull.
  - destruct (Hsame (Thrown msg)) as (Hown & _); [discriminate|reflexivity|].
    now rewrite Hown.
Qed.

End ValuesFrames.

(** The frame that tells the step [market_agent] puts the label of that
    node into the badge and into a STATE entry. *)
Lemma values_frame_logs_the_step_witness :
  exists values,
    Json.prop "values" (ev_data valuesAtMarket) = Some values
    /\ Frontend.handleSseEvent plainHost valuesAtMarket (Frontend.loaded None)
       = (Returned tt,
          Frontend.addLogEntry plainHost
            {| Frontend.arg_tag := "STATE";
               Frontend.arg_agent := "Market analysis (market_agent)";
               Frontend.arg_summary := "State updated (values).";
               Frontend.arg_detail := JSON_stringify plainHost values;
               Frontend.arg_raw := ev_data valuesAtMarket |}
            (Frontend.setWork plainHost "market_agent" (Frontend.loaded None))).
Proof.
  apply (values_frame_logs_the_step plainHost valuesAtMarket (Frontend.loaded None)
           eq_refl eq_refl).
  discriminate.
Defined.

(* --------------------------------------------------------------------- *)
(** ** Plain values: nothing throws *)
(* --------------------------------------------------------------------- *)

Section PlainFacts.

Import Js Json Extract Frontend.
Variable h : Host.

Abbreviation never := (thrownOnly (fun _ : string => False)).
Abbreviation neverThrows := (throwsOnly State (fun _ : string => False)).

Lemma String_never (v : JSON) : plain v = true -> never (String_ h v).
Proof.
  intros Hv msg E. destruct (plain_String h v Hv) as (text & Ht). congruence.
Qed.

Lemma stringOrEmpty_never (o : option JSON) :
  (forall v, o = Some v -> plain v = true) -> never (stringOrEmpty h o).
Proof.
  intros Ho msg E. destruct (stringOrEmpty_plain h o Ho) as (text & Ht). congruence.
Qed.

Lemma plain_hd (items : list JSON) (x : JSON) :
  plain (JArr items) = true -> hd_error items = Some x -> plain x = true.
Proof.
  destruct items as [|y items]; cbn; [discriminate|].
  intros H [= <-]. now apply andb_true_iff in H as [H _].
Qed.

Lemma candidatePayload_plain (c p : JSON) :
  plain c = true -> candidatePayload c = Some p -> plain p = true.
Proof.
  intros Hc. unfold candidatePayload.
  destruct (match c with JArr items => hd_error items | _ => Some c end) as [first|] eqn:F;
    [|discriminate].
  assert (Hfirst : plain first = true).
  { destruct c; try (injection F as <-; exact Hc). eapply plain_hd; eassumption. }
  destruct (truthy first); cbn [negb]; [|discriminate].
  assert (Hp : plain (match prop "value" first with
                      | None | Some JNull => first
                      | Some v => v
                      end) = true).
  { destruct (prop "value" first) as [v|] eqn:V; [|exact Hfirst].
    pose proof (plain_prop _ _ _ Hfirst V). now destruct v. }
  destruct (truthy _); cbn [negb]; [|discriminate].
  destruct (looksLikeApproval _); [|discriminate].
  now intros [= <-].
Qed.

Lemma firstPayload_plain (cs : list JSON) (p : JSON) :
  Forall (fun c => plain c = true) cs -> firstPayload cs = Some p -> plain p = true.
Proof.
  induction 1 as [|c cs Hc _ IH]; cbn; [discriminate|].
  destruct (candidatePayload c) eqn:E; [|exact IH].
  intros [= <-]. eapply candidatePayload_plain; eassumption.
Qed.

Lemma filterBoolean_plain (slots : list (option JSON)) :
  Forall (fun slot => forall v, slot = Some v -> plain v = true) slots ->
  Forall (fun c => plain c = true) (filterBoolean slots).
Proof.
  induction 1 as [|slot slots Hslot _ IH]; cbn; [constructor|].
  destruct slot as [v|]; [|exact IH].
  destruct (truthy v); [|exact IH]. constructor; [now apply Hslot|exact IH].
Qed.

Lemma candidates_plain (obj : JSON) :
  plain obj = true -> Forall (fun c => plain c = true) (candidates obj).
Proof.
  intros Hobj. apply filterBoolean_plain. unfold candidateSlots.
  assert (Hvalues : forall v, prop "values" obj = Some v -> plain v = true)
    by (intros v; apply plain_prop; exact Hobj).
  repeat constructor; intros v.
  - now apply plain_prop.
  - now apply plain_optProp.
  - now apply plain_prop.
  - now apply plain_optProp.
Qed.

Lemma plain_fallbackPayload : plain fallbackPayload = true.
Proof. reflexivity. Qed.

Lemma extractInterruptPayload_plain (obj : JSON) :
  plain obj = true ->
  never (extractInterruptPayload h obj)
  /\ forall p, extractInterruptPayload h obj = Returned (Some p) -> plain p = true.
Proof.
  intros Hobj. unfold extractInterruptPayload.
  destruct (truthy obj); cbn [negb]; [|split; intros; discriminate].
  destruct (firstPayload (candidates obj)) as [p|] eqn:E.
  - split; [intros msg; discriminate|].
    intros p' [= <-]. eapply firstPayload_plain; [|exact E]. now apply candidates_plain.
  - destruct (stringOrEmpty_plain h (prop "status" obj)) as (status & ->).
    { intros v. now apply plain_prop. }
    split; [intros msg; discriminate|].
    intros p. destruct (String.eqb status "interrupted"); [|discriminate].
    now intros [= <-].
Qed.


Lemma questionText_never (p : JSON) : plain p = true -> never (questionText h p).
Proof.
  intros Hp. unfold questionText.
  destruct (prop "question" p) as [q|] eqn:Q; [|intros msg; discriminate].
  destruct (truthy q); [|intros msg; discriminate].
  apply String_never. eapply plain_prop; eassumption.
Qed.

Lemma previewOf_plain (p : JSON) : plain p = true -> plain (previewOf p) = true.
Proof.
  intros Hp. unfold previewOf.
  destruct (prop "analysis_preview" p) as [v|] eqn:V; [|reflexivity].
  destruct (truthy v); [|reflexivity]. eapply plain_prop; eassumption.
Qed.

Lemma entry_never (idx : nat) (x : JSON) :
  plain x = true -> never (Preview.entry h idx x).
Proof.
  intros Hx msg. unfold Preview.entry.
  assert (Htype : exists type,
            match prop "type" x with
            | Some t => if truthy t then String_ h t
                        else Returned ("Message " ++ Preview.decimal (idx + 1))
            | None => Returned ("Message " ++ Preview.decimal (idx + 1))
            end = Returned type).
  { destruct (prop "type" x) as [t|] eqn:T; [|eauto].
    destruct (truthy t); [|eauto]. apply plain_String. eapply plain_prop; eassumption. }
  destruct Htype as (type & ->). destruct (Preview.firstLines _ 4). discriminate.
Qed.

Lemma entriesFrom_never (idx : nat) (items : list JSON) :
  Forall (fun x => plain x = true) items -> never (Preview.entriesFrom h idx items).
Proof.
  intros Hall. revert idx.
  induction Hall as [|x items Hx _ IH]; intros idx msg; cbn; [discriminate|].
  destruct (Preview.entry h idx x) eqn:E.
  - destruct (Preview.entriesFrom h (S idx) items) eqn:E'; [discriminate|].
    intros _. exact (IH _ _ E').
  - intros _. exact (entry_never _ _ Hx _ E).
Qed.

Lemma previewEntries_never (v : JSON) :
  plain v = true -> never (Preview.renderPreview h (Some v)).
Proof.
  intros Hv. unfold Preview.renderPreview.
  destruct v; try (intros msg; discriminate).
  apply entriesFrom_never. now apply plain_items.
Qed.

Lemma renderPreview_never (v : JSON) :
  plain v = true -> neverThrows (renderPreview h (Some v)).
Proof.
  intros Hv. unfold renderPreview. throws. apply throwsOnly_lift.
  now apply previewEntries_never.
Qed.

Lemma showApprovalIfNeeded_never (p : JSON) :
  plain p = true -> neverThrows (showApprovalIfNeeded h p).
Proof.
  intros Hp. unfold showApprovalIfNeeded.
  throws; try (apply renderPreview_never; now apply previewOf_plain);
    apply throwsOnly_lift; now apply questionText_never.
Qed.

Lemma stepOfValues_never (raw : JSON) : plain raw = true -> never (stepOfValues h raw).
Proof.
  intros Hraw. apply stringOrEmpty_never. intros v. apply plain_optProp.
  intros values. unfold valuesObject.
  destruct (prop "values" raw) as [x|] eqn:X; [|discriminate].
  destruct (isObject x); [|discriminate]. intros [= <-]. eapply plain_prop; eassumption.
Qed.

Lemma handleSseEvent_never (ev : Frame) :
  plainFrame ev = true -> neverThrows (handleSseEvent h ev).
Proof.
  unfold plainFrame. intros Hraw.
  destruct (extractInterruptPayload_plain _ Hraw) as (Hnever & Hpayload).
  unfold handleSseEvent. apply throwsOnly_bind_lift.
  - destruct (isObject (ev_data ev)); [exact Hnever|intros msg; discriminate].
  - intros [p|] Hp.
    + apply showApprovalIfNeeded_never.
      destruct (isObject (ev_data ev)); [now apply Hpayload|discriminate].
    + unfold applyCurrentStep, logUpdates, logValues.
      change SHOW_NOISY_SSE with false. cbn [negb andb].
      fold (valuesObject (ev_data ev)). fold (stepOfValues h (ev_data ev)).
      throws; apply throwsOnly_lift; try (now apply stepOfValues_never).
      apply stringOrEmpty_never. intros v. apply plain_optProp.
      intros values. now apply plain_prop.
Qed.

Lemma handled_never (frames : list Frame) :
  Forall (fun ev => plainFrame ev = true) frames -> neverThrows (handled h frames).
Proof.
  induction 1 as [|ev frames Hev _ IH]; cbn [handled].
  - apply throwsOnly_ret.
  - apply throwsOnly_bind; [now apply handleSseEvent_never|intros _; exact IH].
Qed.


End PlainFacts.

(* --------------------------------------------------------------------- *)
(** ** The streaming client: the read loop *)
(* --------------------------------------------------------------------- *)

Section StreamedFrames.

Import Js Json Extract Frontend.
Variable h : Host.

Lemma keeps_handled (frames : list Frame) : keeps State Kept (handled h frames).
Proof.
  induction frames as [|ev frames IH]; cbn [handled].
  - apply (keeps_ret _ _ Kept_refl).
  - apply (keeps_bind _ _ Kept_trans); [apply keeps_handleSseEvent|intros _; exact IH].
Qed.

Lemma handled_throws (frames : list Frame) :
  throwsOnly State (conversionFailure h) (handled h frames).
Proof.
  induction frames as [|ev frames IH]; cbn [handled].
  - apply throwsOnly_ret.
  - apply throwsOnly_bind; [apply handleSseEvent_throws|intros _; exact IH].
Qed.

(** Once the handler has thrown, the frames that follow change
    nothing. *)
Lemma handled_texts (texts : list string) (o : Outcome unit) (s : State) :
  fold_left (handle h (Outcome unit * State) (onEvent h)) texts (o, s)
  = match o with
    | Returned _ => handled h (map (Sse.parseSseFrame h) texts) s
    | Thrown msg => (Thrown msg, s)
    end.
Proof.
  revert o s. induction texts as [|t texts IH]; intros o s; cbn [fold_left map handled].
  - destruct o as [[]|msg]; reflexivity.
  - unfold handle at 2. destruct o as [[]|msg]; cbn [onEvent].
    + unfold bind. destruct (handleSseEvent h (Sse.parseSseFrame h t) s) as [[[]|msg] s1];
        now rewrite IH.
    + now rewrite IH.
Qed.

(** What the read loop of [runStream] leaves: the frames of [decode]
    were handled, up to the first on which the handler threw, and
    counted. *)
Lemma readAll_decode (chunks : list string) (s : State) :
  Sse.seen (Sse.readAll h (onEvent h) chunks (Returned tt, s))
  = handled h (Sse.decode h chunks) s
  /\ Sse.eventCount (Sse.readAll h (onEvent h) chunks (Returned tt, s))
     = List.length (Sse.decode h chunks).
Proof.
  unfold Sse.readAll. rewrite readAll_blocksFrom, decode_blocksFrom.
  cbn [Sse.seen Sse.eventCount Sse.buffer]. rewrite handled_texts, length_map.
  split; reflexivity.
Qed.

(** [runStream] on a thread id that has no text: the controller is
    taken and nothing is sent. *)
Lemma runStream_unsent (tid : JSON) (body : RunBody) (reply : StreamReply)
      (msg : string) (s : State) :
  String_ h tid = Thrown msg ->
  runStream h tid body reply s = (Thrown msg, set_currentController true s).
Proof. intros E. unfold runStream. rewrite bind_exec, E. reflexivity. Qed.

(** [runStream] on a thread id whose text is [text], by the reply. *)
Lemma runStream_run (tid : JSON) (text : string) (body : RunBody) (reply : StreamReply)
      (s : State) :
  String_ h tid = Returned text ->
  let sent := send (PostRunsStream text body) (set_currentController true s) in
  runStream h tid body reply s
  = match reply with
    | StreamBody contentType chunks ending =>
        match handled h (Sse.decode h chunks) sent with
        | (Thrown msg, s1) => (Thrown msg, set_currentController false s1)
        | (Returned _, s1) =>
            let after := set_currentController false s1 in
            match ending with
            | EndOfBody =>
                (Returned tt,
                 match Sse.decode h chunks with
                 | [] => addLogEntry h noEvents after
                 | _ => after
                 end)
            | ReadFails message => (Thrown message, after)
            | CanceledByUser message =>
                (Thrown message, set_currentController false (cancelInFlight h s1))
            end
        end
    | _ => (Thrown (streamFailure h reply), sent)
    end.
Proof.
  intros E. cbv zeta. unfold runStream.
  rewrite bind_exec, E, bind_lift_returned, bind_exec.
  destruct reply as [message|status tx| |ct chunks ending]; try reflexivity.
  rewrite bind_exec. change SHOW_NOISY_SSE with false. cbv iota.
  destruct (readAll_decode chunks
              (send (PostRunsStream text body) (set_currentController true s)))
    as (Hseen & Hcount).
  cbv zeta. rewrite Hseen, Hcount.
  destruct (handled h (Sse.decode h chunks) _) as [[[]|msg] s1]; [|reflexivity].
  destruct ending; try reflexivity.
  destruct (Sse.decode h chunks); reflexivity.
Qed.

(** runStream.  A run of the stream on a thread id that has a text sends
    its request and hands to the handler the frames that [decode] makes
    of the chunks, each once and in their order, up to the first frame
    on which the handler throws; then it releases the controller.  When
    the handler threw, its error is thrown, however the body ends.  When
    it did not: if the body ended and held no frame at all, a WARN entry
    says so; if a read failed, the failure is thrown after the frames
    that had come were handled. *)
Theorem runStream_handles_the_decoded_frames
        (tid : JSON) (text : string) (body : RunBody) (contentType : string)
        (chunks : list string) (s : State) :
  String_ h tid = Returned text ->
  let sent := send (PostRunsStream text body) (set_currentController true s) in
  let read := handled h (Sse.decode h chunks) sent in
  let after := set_currentController false (snd read) in
  match fst read with
  | Thrown msg =>
      forall ending,
        runStream h tid body (StreamBody contentType chunks ending) s = (Thrown msg, after)
  | Returned _ =>
      runStream h tid body (StreamBody contentType chunks EndOfBody) s
      = (Returned tt,
         match Sse.decode h chunks with
         | [] => addLogEntry h noEvents after
         | _ => after
         end)
      /\ forall message,
           runStream h tid body (StreamBody contentType chunks (ReadFails message)) s
           = (Thrown message, after)
  end.
Proof.
  intros E. cbv zeta.
  pose proof (fun reply => runStream_run tid text body reply s E) as Hrun.
  cbv zeta in Hrun.
  destruct (handled h (Sse.decode h chunks) _) as [[[]|msg] s1] eqn:Hread; cbn [fst snd].
  - split; [|intros message]; rewrite Hrun, Hread; reflexivity.
  - intros ending. rewrite Hrun, Hread. reflexivity.
Qed.

End StreamedFrames.

(** A body of one frame that the handler takes, read to its end and
    read until a read fails. *)
Lemma runStream_handles_the_decoded_frames_witness :
  let body := ["event: error" ++ Js.nl ++ "data: boom" ++ Js.nl ++ Js.nl] in
  let s := Frontend.loaded None in
  let after := Frontend.send (Frontend.PostRunsStream "t1" (Frontend.ResumeCommand "y")) s in
  Frontend.runStream plainHost (JStr "t1") (Frontend.ResumeCommand "y")
    (Frontend.StreamBody "text/event-stream" body Frontend.EndOfBody) s
  = (Returned tt, after)
  /\ Frontend.runStream plainHost (JStr "t1") (Frontend.ResumeCommand "y")
       (Frontend.StreamBody "text/event-stream" body (Frontend.ReadFails "reset")) s
     = (Thrown "reset", after).
Proof.
  cbv zeta.
  pose proof (runStream_handles_the_decoded_frames plainHost (JStr "t1") "t1"
                (Frontend.ResumeCommand "y") "text/event-stream"
                ["event: error" ++ Js.nl ++ "data: boom" ++ Js.nl ++ Js.nl]
                (Frontend.loaded None) eq_refl) as H.
  cbv zeta in H. destruct H as [H1 H2]. split; [exact H1|exact (H2 "reset")].
Defined.

(* --------------------------------------------------------------------- *)
(** ** The streaming client: after the stream *)
(* --------------------------------------------------------------------- *)

Section ReconcileFacts.

Import Js Json Extract Frontend.
Variable h : Host.

Lemma newestSummary_addLogEntry (a : LogArgs) (s : State) :
  newestSummary (addLogEntry h a s) = Some (arg_summary a).
Proof.
  unfold newestSummary, addLogEntry. cbn [logItems set_logItems].
  match goal with
  | |- context [nth_error (if ?c then firstn ?n (?x :: ?l) else _) 0] =>
      destruct (unshift_capped _ x l) as (_ & H & _)
  end.
  cbv zeta in H. rewrite H. reflexivity.
Qed.

Lemma extractFinalReport_as_specified (t : JSON) :
  extractFinalReportFromThread t = reportAsSpecified t.
Proof.
  unfold extractFinalReportFromThread, reportAsSpecified, asString.
  destruct (prop "values" t) as [values|]; cbn [truthyOpt negb optProp]; [|reflexivity].
  destruct (truthy values) eqn:T; cbn [negb].
  - destruct (prop "final_report" values) as [[| | |report| |]|]; try reflexivity.
    rewrite nonEmpty_trim. now destruct (allWhiteSpace report).
  - destruct values; try discriminate; reflexivity.
Qed.

Lemma Quiet_refl (s : State) : Quiet s s.
Proof. unfold Quiet. tauto. Qed.

Lemma Quiet_trans (s1 s2 s3 : State) : Quiet s1 s2 -> Quiet s2 s3 -> Quiet s1 s3.
Proof.
  unfold Quiet. intros (a1 & a2 & a3 & a4) (b1 & b2 & b3 & b4).
  repeat split; congruence.
Qed.

Lemma Kept_Quiet (s s' : State) : Kept s s' -> Quiet s s'.
Proof. unfold Kept, Quiet. tauto. Qed.

Lemma keeps_Quiet_showApprovalIfNeeded (p : JSON) :
  keeps State Quiet (showApprovalIfNeeded h p).
Proof. intros s. apply Kept_Quiet. apply keeps_showApprovalIfNeeded. Qed.

Lemma keeps_reconcile (text : string) (t : JSON) :
  keeps State Quiet (reconcile h text t).
Proof.
  unfold reconcile.
  steps Quiet_refl Quiet_trans; try apply keeps_Quiet_showApprovalIfNeeded;
    unfold Quiet; cbn; tauto.
Qed.

(** When [reconcile] returns, the snapshot has decided. *)
Lemma reconcile_returned (text : string) (t : JSON) (s s' : State) :
  reconcile h text t s = (Returned tt, s') ->
  reportCard s = false ->
  errorBanner s = EmptyString ->
  decidedBySnapshot h text t s'.
Proof.
  intros Hrun Hcard Hbanner. unfold decidedBySnapshot.
  pose proof (keeps_run _ _ _ _ _ _ _ (keeps_reconcile text t) Hrun) as (_ & _ & _ & Hb).
  revert Hrun. unfold reconcile.
  destruct (extractInterruptPayload h t) as [[payload|]|msg] eqn:E;
    [| |discriminate]; rewrite bind_lift_returned;
    (destruct (extractCurrentStepFromThread h t) as [step|msg];
     [rewrite bind_lift_returned|discriminate]).
  - pose proof (extractInterruptPayload_truthy h _ _ E) as Ht.
    set (c := if nonEmpty step then exec (setWork h step) else ret tt).
    assert (Hc : exists s1, c s = (Returned tt, s1) /\ reportCard s1 = reportCard s)
      by (unfold c; destruct (nonEmpty step); eexists; split; reflexivity).
    destruct Hc as (s1 & Hc & Hcard1). rewrite (bind_returned _ _ _ _ _ _ _ _ Hc).
    rewrite (showApprovalIfNeeded_run h payload s1 Ht).
    destruct (uiState s1) eqn:U; cbv zeta;
      try (intros [= <-]; split; [exact U|congruence]);
      (destruct (questionText h payload); [|discriminate]);
      (destruct (Preview.renderPreview h (Some (previewOf payload))); [|discriminate]);
      intros [= <-]; cbn; split; congruence.
  - rewrite <- extractFinalReport_as_specified. rewrite Hb, Hbanner.
    destruct (nonEmpty step); rewrite ?bind_exec, ?bind_ret;
      destruct (nonEmpty (extractFinalReportFromThread t)); cbn [negb];
      rewrite !bind_exec; intros [= <-];
      rewrite newestSummary_addLogEntry; cbn; auto.
Qed.

(** What [reconcile] throws is the error of a conversion. *)
Lemma reconcile_throws (text : string) (t : JSON) :
  throwsOnly State (conversionFailure h) (reconcile h text t).
Proof.
  unfold reconcile.
  throws; try apply showApprovalIfNeeded_throws; apply throwsOnly_lift;
    [apply extractInterruptPayload_throws|apply extractCurrentStep_throws].
Qed.

End ReconcileFacts.

(* --------------------------------------------------------------------- *)
(** ** The streaming client: start and resume *)
(* --------------------------------------------------------------------- *)

Section RunFacts.

Import Js Json Extract Frontend.
Variable h : Host.

Lemma createThread_run (reply : Reply JSON) (s : State) :
  createThread reply s
  = (match createdId reply with
     | Some id => Returned id
     | None => Thrown (createFailure reply)
     end, send PostThreads s).
Proof.
  unfold createThread, createdId. rewrite bind_exec.
  destruct reply as [m|st tx|m|data]; try reflexivity.
  destruct (prop "thread_id" data) as [id|]; [|reflexivity].
  destruct (truthy id); reflexivity.
Qed.

Lemma ensureThreadIdFromServer_run (forceNew : bool) (reply : Reply JSON) (s : State) :
  ensureThreadIdFromServer h forceNew reply s
  = match reusable forceNew s with
    | Some tid => (Returned tid, s)
    | None =>
        match createdId reply with
        | None => (Thrown (createFailure reply), send PostThreads s)
        | Some id =>
            match String_ h id with
            | Returned text => (Returned id, createdThread h id text s)
            | Thrown msg => (Thrown msg, set_threadId (Some id) (send PostThreads s))
            end
        end
    end.
Proof.
  unfold ensureThreadIdFromServer, reusable. rewrite bind_gets.
  assert (Hcreate :
    (id <- createThread reply ;;
     exec (set_threadId (Some id)) ;;
     persistThreadId h id ;;
     text <- lift (String_ h id) ;;
     exec (addLogEntry h (note "THREAD" ("Created: thread_id=" ++ text)
                               ("Created: thread_id=" ++ text))) ;;
     ret id)%run s
    = match createdId reply with
      | None => (Thrown (createFailure reply), send PostThreads s)
      | Some id =>
          match String_ h id with
          | Returned text => (Returned id, createdThread h id text s)
          | Thrown msg => (Thrown msg, set_threadId (Some id) (send PostThreads s))
          end
      end).
  { unfold bind at 1. rewrite createThread_run.
    destruct (createdId reply) as [id|]; [|reflexivity].
    rewrite bind_exec. unfold persistThreadId.
    unfold bind at 1. unfold bind at 1. unfold lift at 1.
    destruct (String_ h id) as [text|msg] eqn:E; [|reflexivity].
    reflexivity. }
  destruct (threadId s) as [tid|]; [|exact Hcreate].
  destruct (negb forceNew && truthy tid); [reflexivity|exact Hcreate].
Qed.

Lemma reusable_forced (s : State) : reusable true s = None.
Proof. unfold reusable. now destruct (threadId s). Qed.

Lemma getThread_run (tid : JSON) (text : string) (reply : Reply JSON) (s : State) :
  String_ h tid = Returned text ->
  getThread h tid reply s
  = (match reply with
     | Body t => Returned t
     | _ => Thrown (pollFailure reply)
     end, send (GetThread text) s).
Proof.
  intros E. unfold getThread. rewrite E, bind_lift_returned, bind_exec.
  destruct reply; reflexivity.
Qed.

(** The stream, the poll and the decision, by how the stream ends. *)
Lemma streamAndPoll_run (tid : JSON) (text : string) (body : RunBody)
      (stream : StreamReply) (thread : Reply JSON) (nr : string) (s : State) :
  String_ h tid = Returned text ->
  streamAndPoll h tid body stream thread nr s
  = match runStream h tid body stream s with
    | (Thrown msg, s1) => (Thrown msg, s1)
    | (Returned _, s1) =>
        match thread with
        | Body t => reconcile h nr t (send (GetThread text) s1)
        | _ => (Thrown (pollFailure thread), send (GetThread text) s1)
        end
    end.
Proof.
  intros E. unfold streamAndPoll. unfold bind at 1.
  destruct (runStream h tid body stream s) as [[[]|msg] s1]; [|reflexivity].
  unfold bind. rewrite (getThread_run _ _ _ _ E). destruct thread; reflexivity.
Qed.

Lemma start_run (themeInput : string)
      (created : Reply JSON) (stream : StreamReply) (thread : Reply JSON) (s : State) :
  start h themeInput created stream thread s
  = match createdId created with
    | None => (Thrown (createFailure created), send PostThreads (resetViewForRun s))
    | Some id =>
        match String_ h id with
        | Thrown msg =>
            (Thrown msg, set_threadId (Some id) (send PostThreads (resetViewForRun s)))
        | Returned tid =>
            streamAndPoll h id (StartInput (themeValue themeInput)) stream thread
              startNoReport
              (started h themeInput tid (createdThread h id tid (resetViewForRun s)))
        end
    end.
Proof.
  unfold start. rewrite bind_exec. unfold bind at 1.
  rewrite ensureThreadIdFromServer_run, reusable_forced.
  destruct (createdId created) as [id|]; [|reflexivity].
  destruct (String_ h id) as [tid|msg] eqn:E; [|reflexivity].
  rewrite !bind_exec, E, bind_lift_returned, bind_exec. reflexivity.
Qed.

Lemma resume_run (decision : string) (id : JSON)
      (created : Reply JSON) (stream : StreamReply) (thread : Reply JSON) (s : State) :
  threadId s = Some id ->
  truthy id = true ->
  resume h decision created stream thread s
  = match String_ h id with
    | Thrown msg => (Thrown msg, setUiState resuming (resetViewForRun s))
    | Returned tid =>
        streamAndPoll h id (ResumeCommand decision) stream thread resumeNoReport
          (resumedOn h decision tid (resetViewForRun s))
    end.
Proof.
  intros Hid Ht. unfold resume. rewrite bind_exec. unfold bind at 1.
  rewrite ensureThreadIdFromServer_run.
  assert (Hr : reusable false (resetViewForRun s) = Some id).
  { unfold reusable. cbn. now rewrite Hid, Ht. }
  rewrite Hr, bind_exec.
  destruct (String_ h id) as [tid|msg] eqn:E; [|reflexivity].
  rewrite bind_lift_returned, bind_exec. reflexivity.
Qed.


(** The stream read to its end, all of whose frames are plain: the
    handler took them all, and the request of the stream was sent. *)
Lemma runStream_plain (tid : JSON) (text : string) (body : RunBody)
      (contentType : string) (chunks : list string) (s : State) :
  String_ h tid = Returned text ->
  Forall (fun ev => plainFrame ev = true) (Sse.decode h chunks) ->
  exists s1,
    runStream h tid body (StreamBody contentType chunks EndOfBody) s = (Returned tt, s1)
    /\ threadId s1 = threadId s
    /\ storedThreadId s1 = storedThreadId s
    /\ requests s1 = (requests s ++ [PostRunsStream text body])%list
    /\ reportCard s1 = reportCard s
    /\ errorBanner s1 = errorBanner s.
Proof.
  intros E Hplain.
  pose proof (runStream_run h tid text body (StreamBody contentType chunks EndOfBody) s E)
    as Hrun. cbv zeta in Hrun. rewrite Hrun. clear Hrun.
  set (sent := send (PostRunsStream text body) (set_currentController true s)).
  destruct (never_returns _ _ _ sent (handled_never h _ Hplain)) as ([] & Hret).
  destruct (handled h (Sse.decode h chunks) sent) as [o s1] eqn:Hread.
  cbn [fst] in Hret. subst o.
  pose proof (keeps_run _ _ _ _ _ _ _ (keeps_handled h (Sse.decode h chunks)) Hread)
    as (K1 & K2 & K3 & _ & K5 & _ & K7 & _).
  eexists. split; [reflexivity|].
  destruct (Sse.decode h chunks); cbn; rewrite ?K1, ?K2, ?K3, ?K5, ?K7; repeat split.
Qed.

End RunFacts.

(* --------------------------------------------------------------------- *)
(** ** The streaming client: the decision after the stream *)
(* --------------------------------------------------------------------- *)

Section DecisionFacts.

Import Js Json Extract Frontend.
Variable h : Host.

Lemma runWithUi_returned (fn : Run State unit) (s s1 : State) :
  fn (setError EmptyString s) = (Returned tt, s1) -> runWithUi h fn s = s1.
Proof. intros E. unfold runWithUi. now rewrite E. Qed.


(** With a thread made and the frames plain, [start] comes to the
    decision on the snapshot. *)
Lemma start_reaches_poll (themeInput contentType : string) (id : JSON) (tid : string)
      (chunks : list string) (created : Reply JSON) (t : JSON) (s : State) :
  createdId created = Some id ->
  String_ h id = Returned tid ->
  Forall (fun ev => plainFrame ev = true) (Sse.decode h chunks) ->
  exists s1,
    start h themeInput created (StreamBody contentType chunks EndOfBody) (Body t) s
    = reconcile h startNoReport t s1
    /\ threadId s1 = Some id
    /\ storedThreadId s1 = Some tid
    /\ requests s1
       = (requests s ++ [PostThreads;
                         PostRunsStream tid (StartInput (themeValue themeInput));
                         GetThread tid])%list
    /\ reportCard s1 = false
    /\ errorBanner s1 = EmptyString.
Proof.
  intros Hid Htid Hplain. rewrite start_run, Hid, Htid.
  rewrite (streamAndPoll_run h _ _ _ _ _ _ _ Htid).
  destruct (runStream_plain h id tid (StartInput (themeValue themeInput)) contentType chunks
              (started h themeInput tid (createdThread h id tid (resetViewForRun s)))
              Htid Hplain)
    as (s1 & -> & K1 & K2 & K3 & K4 & K5).
  eexists. split; [reflexivity|]. cbn. rewrite K1, K2, K3, K4, K5. cbn.
  rewrite <- !app_assoc. repeat split.
Qed.


(** A decision that is reached and returns. *)
Lemma decided (fn : Run State unit) (nr : string) (t : JSON) (s s1 : State) :
  fn (setError EmptyString s) = reconcile h nr t s1 ->
  reportCard s1 = false ->
  errorBanner s1 = EmptyString ->
  (exists s2, reconcile h nr t s1 = (Returned tt, s2)) ->
  requests (runWithUi h fn s) = requests s1
  /\ threadId (runWithUi h fn s) = threadId s1
  /\ storedThreadId (runWithUi h fn s) = storedThreadId s1
  /\ decidedBySnapshot h nr t (runWithUi h fn s).
Proof.
  intros Hfn Hcard Hbanner (s2 & Hrun).
  rewrite (runWithUi_returned fn s s2) by (now rewrite Hfn).
  pose proof (keeps_run _ _ _ _ _ _ _ (keeps_reconcile h nr t) Hrun) as (Q1 & Q2 & Q3 & _).
  repeat split; try assumption.
  eapply reconcile_returned; eassumption.
Qed.


Lemma reconcile_no_interrupt (nr : string) (t : JSON) (step : string) (s : State) :
  extractInterruptPayload h t = Returned None ->
  extractCurrentStepFromThread h t = Returned step ->
  exists s', reconcile h nr t s = (Returned tt, s').
Proof.
  intros E S. unfold reconcile. rewrite E, S, !bind_lift_returned.
  destruct (nonEmpty step); rewrite ?bind_exec, ?bind_ret;
    destruct (nonEmpty (extractFinalReportFromThread t)); cbn [negb];
    rewrite !bind_exec; eexists; reflexivity.
Qed.







(** C10.  [extractFinalReportFromThread] returns the string under
    [values.final_report] when it has a character that is not white
    space, and the empty string in every other case (no such field, not a
    string, empty, blank); so when the decision on the snapshot is
    reached (the thread was made, the stream was read to its end with
    every frame handled), and the snapshot has no interrupt, a current
    step that can be converted, and a blank report, [start] ends done
    with the no-report text shown in place of the report. *)
Theorem C10_blank_report_is_no_report :
  (forall t : JSON, extractFinalReportFromThread t = reportAsSpecified t)
  /\ (forall (s : State) (themeInput contentType : string) (id : JSON)
             (tid blank step : string)
             (chunks : list string) (created : Reply JSON) (t : JSON),
         createdId created = Some id ->
         String_ h id = Returned tid ->
         Forall (fun ev => plainFrame ev = true) (Sse.decode h chunks) ->
         extractInterruptPayload h t = Returned None ->
         extractCurrentStepFromThread h t = Returned step ->
         optProp "final_report" (prop "values" t) = Some (JStr blank) ->
         allWhiteSpace blank = true ->
         let s' := runWithUi h (start h themeInput created
                                  (StreamBody contentType chunks EndOfBody) (Body t)) s in
         uiState s' = done
         /\ reportEl s' = startNoReport
         /\ newestSummary s' = Some "Done (no final report)").
Proof.
  split; [exact extractFinalReport_as_specified|].
  intros s themeInput ct id tid blank step chunks created t
         Hid Htid Hplain Hnone Hstep Hfield Hblank s'.
  destruct (start_reaches_poll themeInput ct id tid chunks created t
              (setError EmptyString s) Hid Htid Hplain)
    as (s1 & Hrun & _ & _ & _ & Hcard & Hbanner).
  destruct (decided _ startNoReport t s s1 Hrun Hcard Hbanner
              (reconcile_no_interrupt _ t step s1 Hnone Hstep))
    as (_ & _ & _ & D).
  fold s' in D. unfold decidedBySnapshot in D. rewrite Hnone in D.
  unfold reportAsSpecified in D. rewrite Hfield, Hblank in D.
  cbn in D. tauto.
Qed.

End DecisionFacts.



Lemma C10_witness :
  let s' := Frontend.runWithUi plainHost
              (Frontend.start plainHost "Topic" threadT1
                 (Frontend.StreamBody "text/event-stream" [] Frontend.EndOfBody)
                 (Body blankReport))
              (Frontend.loaded None) in
  Frontend.uiState s' = done
  /\ Frontend.reportEl s' = startNoReport
  /\ newestSummary s' = Some "Done (no final report)".
Proof.
  destruct (C10_blank_report_is_no_report plainHost) as [_ H].
  apply (H (Frontend.loaded None) "Topic" "text/event-stream" (JStr "t1") "t1" "   "
           EmptyString [] threadT1 blankReport); try reflexivity.
  constructor.
Defined.

(* --------------------------------------------------------------------- *)
(** ** The streaming client: relations that a run keeps *)
(* --------------------------------------------------------------------- *)

Section GrownFacts.

Variable A : Type.

Lemma grown_refl (l : list A) : grown l l.
Proof. now left. Qed.

Lemma firstn_app_firstn (n : nat) (a l : list A) :
  firstn n (a ++ firstn n l) = firstn n (a ++ l).
Proof.
  rewrite !firstn_app, firstn_firstn.
  f_equal. f_equal. lia.
Qed.

Lemma grown_unshift (x : A) (l l' : list A) :
  grown l l' -> grown l (firstn MAX_LOG_ITEMS (x :: l')).
Proof.
  intros [->|(new & ->)]; right.
  - now exists [x].
  - exists (x :: new).
    change (x :: firstn MAX_LOG_ITEMS (new ++ l))
      with ([x] ++ firstn MAX_LOG_ITEMS (new ++ l))%list.
    now rewrite firstn_app_firstn.
Qed.

Lemma grown_trans (l1 l2 l3 : list A) : grown l1 l2 -> grown l2 l3 -> grown l1 l3.
Proof.
  intros H12 [->|(new & ->)]; [exact H12|].
  destruct H12 as [->|(new' & ->)]; right.
  - now exists new.
  - exists (new ++ new')%list. now rewrite firstn_app_firstn, app_assoc.
Qed.

Lemma grown_length (l l' : list A) :
  grown l l' -> List.length l <= 80 -> List.length l' <= 80.
Proof.
  intros [->|(new & ->)] H; [exact H|].
  rewrite length_firstn. unfold MAX_LOG_ITEMS. lia.
Qed.

End GrownFacts.

(** A step that changes what the page shows, or adds a log entry. *)
Ltac view_step HR :=
  first [ apply (step_log HR)
        | apply (step_view HR); unfold SameCore; cbn; tauto ].

Section StreamingSteps.

Import Js Json Extract Frontend.
Variable h : Host.
Variable R : State -> State -> Prop.
Hypothesis HR : Stepwise h R.

Lemma step_refl (s : State) : R s s.
Proof. apply (step_view HR). unfold SameCore. tauto. Qed.

Lemma any_renderPreview (analysisPreview : option JSON) :
  keeps State R (renderPreview h analysisPreview).
Proof.
  unfold renderPreview. steps step_refl (step_trans HR); view_step HR.
Qed.

Lemma any_showApprovalIfNeeded (payload : JSON) :
  keeps State R (showApprovalIfNeeded h payload).
Proof.
  unfold showApprovalIfNeeded.
  steps step_refl (step_trans HR); try apply any_renderPreview; view_step HR.
Qed.

Lemma any_handleSseEvent (ev : Frame) : keeps State R (handleSseEvent h ev).
Proof.
  unfold handleSseEvent, applyCurrentStep, logUpdates, logValues, logRawSse.
  change SHOW_NOISY_SSE with false. cbn [negb andb].
  steps step_refl (step_trans HR);
    try apply any_showApprovalIfNeeded; try apply step_refl; view_step HR.
Qed.

Lemma any_handled (frames : list Frame) : keeps State R (handled h frames).
Proof.
  induction frames as [|ev rest IH]; cbn [handled].
  - apply (keeps_ret _ _ step_refl).
  - apply (keeps_bind _ _ (step_trans HR)); [apply any_handleSseEvent|intros _; exact IH].
Qed.

Lemma any_reconcile (text : string) (t : JSON) : keeps State R (reconcile h text t).
Proof.
  unfold reconcile.
  steps step_refl (step_trans HR); try apply any_showApprovalIfNeeded; view_step HR.
Qed.

Lemma any_cancelInFlight (s : State) : R s (cancelInFlight h s).
Proof.
  unfold cancelInFlight. destruct (negb _); [apply step_refl|apply (step_log HR)].
Qed.

Lemma any_controller (b : bool) (s : State) : R s (set_currentController b s).
Proof. view_step HR. Qed.

Lemma any_runStream (tid : JSON) (body : RunBody) (reply : StreamReply) :
  keeps State R (runStream h tid body reply).
Proof.
  intros s. destruct (String_ h tid) as [text|msg] eqn:E.
  - pose proof (@runStream_run h tid text body reply s E) as Hrun. cbv zeta in Hrun.
    rewrite Hrun. clear Hrun.
    assert (Hsent : R s (send (PostRunsStream text body) (set_currentController true s))).
    { eapply (step_trans HR); [apply (any_controller true)|apply (step_stream HR)]. }
    destruct reply as [message|status tx| |ct chunks ending]; try exact Hsent.
    destruct (handled h (Sse.decode h chunks) _) as [[[]|msg] s1] eqn:Hread;
      pose proof (keeps_run _ _ _ _ _ _ _ (any_handled _) Hread) as H1;
      pose proof (step_trans HR _ _ _ Hsent H1) as H2.
    + destruct ending; cbn [snd].
      * destruct (Sse.decode h chunks).
        -- eapply (step_trans HR); [exact H2|].
           eapply (step_trans HR); [apply (any_controller false)|apply (step_log HR)].
        -- eapply (step_trans HR); [exact H2|apply (any_controller false)].
      * eapply (step_trans HR); [exact H2|apply (any_controller false)].
      * eapply (step_trans HR); [exact H2|].
        eapply (step_trans HR); [apply any_cancelInFlight|apply (any_controller false)].
    + cbn [snd]. eapply (step_trans HR); [exact H2|apply (any_controller false)].
  - rewrite (@runStream_unsent h tid body reply msg s E). cbn [snd]. apply (any_controller true).
Qed.

Lemma any_getThread (tid : JSON) (reply : Reply JSON) :
  keeps State R (getThread h tid reply).
Proof.
  unfold getThread. steps step_refl (step_trans HR). apply (step_poll HR).
Qed.

Lemma any_streamAndPoll (tid : JSON) (body : RunBody) (stream : StreamReply)
      (thread : Reply JSON) (nr : string) :
  keeps State R (streamAndPoll h tid body stream thread nr).
Proof.
  unfold streamAndPoll.
  apply (keeps_bind _ _ (step_trans HR)); [apply any_runStream|intros _].
  apply (keeps_bind _ _ (step_trans HR)); [apply any_getThread|intros t].
  apply any_reconcile.
Qed.

Lemma any_run (A : Type) (c : Run State A) (s : State) :
  keeps State R c -> R s (snd (c s)).
Proof. intros H. apply H. Qed.

End StreamingSteps.

Section StreamingRuns.

Import Js Json Extract Frontend.
Variable h : Host.
Variable R : State -> State -> Prop.
Hypothesis HR : Runwise h R.

Let HS : Stepwise h R := run_steps HR.

Lemma any_ensureThreadIdFromServer (forceNew : bool) (reply : Reply JSON) :
  keeps State R (ensureThreadIdFromServer h forceNew reply).
Proof.
  unfold ensureThreadIdFromServer, createThread, persistThreadId.
  steps (@step_refl h R HS) (step_trans HS);
    first [apply (run_post HR)|apply (run_tid HR)|apply (run_stored HR)|view_step HS].
Qed.

Lemma any_start (themeInput : string)
      (created : Reply JSON) (stream : StreamReply) (thread : Reply JSON) :
  keeps State R (start h themeInput created stream thread).
Proof.
  unfold start. fold (streamAndPoll h).
  apply (keeps_bind _ _ (step_trans HS)); [apply keeps_exec; intros s; view_step HS|intros _].
  apply (keeps_bind _ _ (step_trans HS)); [apply any_ensureThreadIdFromServer|intros tid].
  apply (keeps_bind _ _ (step_trans HS)); [apply keeps_exec; intros s; view_step HS|intros _].
  apply (keeps_bind _ _ (step_trans HS)); [apply keeps_exec; intros s; view_step HS|intros _].
  apply (keeps_bind _ _ (step_trans HS)); [apply (keeps_lift _ _ (@step_refl h R HS))|intros text].
  apply (keeps_bind _ _ (step_trans HS)); [apply keeps_exec; intros s; view_step HS|intros _].
  apply (@any_streamAndPoll h R HS).
Qed.

Lemma any_resume (decision : string)
      (created : Reply JSON) (stream : StreamReply) (thread : Reply JSON) :
  keeps State R (resume h decision created stream thread).
Proof.
  unfold resume.
  apply (keeps_bind _ _ (step_trans HS)); [apply keeps_exec; intros s; view_step HS|intros _].
  apply (keeps_bind _ _ (step_trans HS)); [apply any_ensureThreadIdFromServer|intros tid].
  apply (keeps_bind _ _ (step_trans HS)); [apply keeps_exec; intros s; view_step HS|intros _].
  apply (keeps_bind _ _ (step_trans HS)); [apply (keeps_lift _ _ (@step_refl h R HS))|intros text].
  apply (keeps_bind _ _ (step_trans HS)); [apply keeps_exec; intros s; view_step HS|intros _].
  apply (@any_streamAndPoll h R HS).
Qed.

Lemma any_runWithUi (fn : Run State unit) (s : State) :
  keeps State R fn -> R s (runWithUi h fn s).
Proof.
  intros Hfn. unfold runWithUi.
  assert (H0 : R s (setError EmptyString s)) by view_step HS.
  specialize (Hfn (setError EmptyString s)).
  destruct (fn (setError EmptyString s)) as [[[]|msg] s1]; cbn [snd] in Hfn.
  - exact (step_trans HS _ _ _ H0 Hfn).
  - eapply (step_trans HS); [exact (step_trans HS _ _ _ H0 Hfn)|].
    eapply (step_trans HS); [|apply (step_log HS)]. view_step HS.
Qed.

(** The listeners of Run, of a decision and of Cancel. *)
Lemma any_listener (e : Event) (s : State) :
  e <> ClickClear -> e <> ClickClearLog -> R s (listener h e s).
Proof.
  intros Hclear Hlog.
  destruct e as [themeInput created stream thread|decision created stream thread| | |];
    cbn [listener]; try congruence.
  - apply any_runWithUi, any_start.
  - unfold handleDecision. eapply (step_trans HS); [|apply any_runWithUi, any_resume].
    view_step HS.
  - apply (@any_cancelInFlight h R HS).
Qed.

End StreamingRuns.

Section StreamingRelations.

Import Js Json Extract Frontend.
Variable h : Host.

Lemma Grown_runwise : Runwise h Grown.
Proof.
  assert (Hview : forall s s', SameCore s s' -> Grown s s').
  { intros s s' (_ & _ & Hlog & _). unfold Grown. rewrite Hlog. apply grown_refl. }
  split; [split|..]; try exact Hview.
  - intros s1 s2 s3. apply grown_trans.
  - intros a s. unfold Grown. rewrite logItems_addLogEntry.
    apply grown_unshift, grown_refl.
  - intros text body s. apply grown_refl.
  - intros text s. apply grown_refl.
  - intros s. apply grown_refl.
  - intros id s. apply grown_refl.
  - intros text s. apply grown_refl.
Qed.

Lemma keepsId_runwise : Runwise h keepsId.
Proof.
  assert (Hview : forall s s', SameCore s s' -> keepsId s s').
  { intros s s' (H1 & H2 & _). unfold keepsId. rewrite H1, H2. tauto. }
  split; [split|..]; try exact Hview.
  - intros s1 s2 s3 [A1 A2] [B1 B2]. split; auto.
  - intros a s. unfold keepsId. cbn. tauto.
  - intros text body s. unfold keepsId. cbn. tauto.
  - intros text s. unfold keepsId. cbn. tauto.
  - intros s. unfold keepsId. cbn. tauto.
  - intros id s. unfold keepsId. cbn. split; [discriminate|tauto].
  - intros text s. unfold keepsId. cbn. split; [tauto|discriminate].
Qed.

Lemma Onward_stepwise : Stepwise h Onward.
Proof.
  assert (Hone : forall r s, r <> PostThreads -> Onward s (send r s)).
  { intros r s Hr. unfold Onward. cbn. repeat split.
    exists [r]. split; [reflexivity|]. intros [Hin|[]]. now apply Hr. }
  split.
  - intros s1 s2 s3 (A1 & A2 & m1 & A3 & A4) (B1 & B2 & m2 & B3 & B4).
    unfold Onward. rewrite B1, B2, B3, A3. repeat split; try assumption.
    exists (m1 ++ m2)%list. split; [now rewrite app_assoc|].
    intros Hin. apply in_app_or in Hin as [Hin|Hin]; tauto.
  - intros s s' (H1 & H2 & _ & H4). unfold Onward. rewrite H1, H2, H4.
    repeat split. exists []. split; [now rewrite app_nil_r|intros []].
  - intros a s. unfold Onward. cbn. repeat split.
    exists []. split; [now rewrite app_nil_r|intros []].
  - intros text body s. apply Hone. discriminate.
  - intros text s. apply Hone. discriminate.
Qed.

End StreamingRelations.

(* --------------------------------------------------------------------- *)
(** ** Both clients: the load of the page *)
(* --------------------------------------------------------------------- *)

Section LoadFacts.

Import Js Json Extract.
Variable h : Host.

Lemma initAsync_effect (saved : string) (thread : Reply JSON) :
  saved <> EmptyString ->
  let s' := Frontend.initAsync h thread (Frontend.loaded (Some saved)) in
  Frontend.requests s' = [Frontend.GetThread saved]
  /\ match actionable h thread with
     | Some payload =>
         Frontend.uiState s' = waiting_approval
         /\ Frontend.threadId s' = Some (JStr saved)
         /\ Frontend.approvalCard s' = true
         /\ match shownFor h payload with
            | Some (question, entries) =>
                Frontend.storedThreadId s' = Some saved
                /\ Frontend.questionEl s' = question
                /\ Frontend.previewEl s' = entries
            | None => Frontend.storedThreadId s' = None
            end
     | None =>
         Frontend.uiState s' = idle
         /\ Frontend.threadId s' = None
         /\ Frontend.storedThreadId s' = None
     end.
Proof.
  intros Hne s'. apply nonEmpty_true in Hne.
  assert (Hs : s' = Frontend.initAsync h thread (Frontend.loaded (Some saved)))
    by reflexivity.
  clearbody s'.
  unfold Frontend.initAsync, Frontend.restoreThreadId in Hs.
  cbn [Frontend.storedThreadId Frontend.addLogEntry Frontend.setWork Frontend.setUiState
       Frontend.set_logItems Frontend.set_clock Frontend.set_workBadge
       Frontend.set_uiState Frontend.loaded] in Hs.
  rewrite Hne in Hs. unfold Frontend.restore, actionable in *.
  unfold bind at 1 in Hs.
  rewrite (getThread_run h (JStr saved) saved thread _ eq_refl) in Hs.
  destruct thread as [m|st tx|m|t]; cbn beta iota in Hs; try (subst s'; cbn; tauto).
  destruct (extractInterruptPayload h t) as [[payload|]|msg];
    [rewrite bind_lift_returned in Hs|rewrite bind_lift_returned in Hs
    |rewrite bind_lift_thrown in Hs; subst s'; cbn; tauto];
    (destruct (extractCurrentStepFromThread h t) as [step|msg];
     [rewrite bind_lift_returned in Hs
     |rewrite bind_lift_thrown in Hs; subst s'; cbn; tauto]).
  - unfold shownFor.
    assert (Hstep : forall s0 : Frontend.State,
               exists s1,
                 (if nonEmpty step then exec (Frontend.setWork h step) else ret tt) s0
                 = (Returned tt, s1)
                 /\ Frontend.requests s1 = Frontend.requests s0
                 /\ Frontend.storedThreadId s1 = Frontend.storedThreadId s0).
    { intros s0. destruct (nonEmpty step); eexists; (split; [reflexivity|]); cbn; tauto. }
    match type of Hs with
    | context [bind (if nonEmpty step then _ else _) ?k ?x] =>
        destruct (Hstep x) as (s1 & Hs1 & R1 & R2);
        rewrite (bind_returned _ _ _ _ _ _ _ _ Hs1) in Hs
    end.
    rewrite !bind_exec in Hs.
    destruct (Frontend.questionText h payload) as [question|msg].
    + rewrite bind_lift_returned, bind_exec, renderPreview_run in Hs.
      destruct (Preview.renderPreview h _) as [entries|msg];
        subst s'; cbn; rewrite ?R1, ?R2; cbn; tauto.
    + rewrite bind_lift_thrown in Hs. subst s'. cbn. rewrite R1. cbn. tauto.
  - destruct (nonEmpty step); rewrite ?bind_exec, ?bind_ret in Hs; subst s'; cbn; tauto.
Qed.

Lemma init_ls_effect (saved : string) :
  saved <> EmptyString ->
  let s' := FrontendLs.init h (FrontendLs.loaded (Some saved)) in
  FrontendLs.requests s' = []
  /\ FrontendLs.uiState s' = idle
  /\ FrontendLs.threadId s' = Some (JStr saved)
  /\ FrontendLs.storedThreadId s' = Some saved.
Proof.
  intros Hne. apply nonEmpty_true in Hne.
  unfold FrontendLs.init, FrontendLs.restoreThreadId.
  cbn [FrontendLs.storedThreadId FrontendLs.loaded]. rewrite Hne.
  cbn. tauto.
Qed.

(** C2, as amended.  When its page loads with a thread id in storage,
    the streaming client polls the snapshot of that thread once and
    sends nothing else.  If the poll succeeds and the snapshot shows an
    interrupt (and its current step has a text), the client waits for
    approval on that interrupt, with the saved id as its thread id; the
    id stays in storage when the question and the preview of the
    interrupt can be shown, and is removed from storage when showing
    them throws.  Else (no interrupt, a failed poll, a status or a
    current step with no text) it removes the id from storage and stays
    idle without a thread id.  The LangServe client sends nothing and
    takes the stored id as its thread id, kept in storage. *)
Theorem C2_page_load_with_stored_thread_id (saved : string) :
  saved <> EmptyString ->
  (forall thread : Reply JSON,
      let s' := Frontend.initAsync h thread (Frontend.loaded (Some saved)) in
      Frontend.requests s' = [Frontend.GetThread saved]
      /\ match actionable h thread with
         | Some payload =>
             Frontend.uiState s' = waiting_approval
             /\ Frontend.threadId s' = Some (JStr saved)
             /\ Frontend.approvalCard s' = true
             /\ match shownFor h payload with
                | Some (question, entries) =>
                    Frontend.storedThreadId s' = Some saved
                    /\ Frontend.questionEl s' = question
                    /\ Frontend.previewEl s' = entries
                | None => Frontend.storedThreadId s' = None
                end
         | None =>
             Frontend.uiState s' = idle
             /\ Frontend.threadId s' = None
             /\ Frontend.storedThreadId s' = None
         end)
  /\ (let s' := FrontendLs.init h (FrontendLs.loaded (Some saved)) in
      FrontendLs.requests s' = []
      /\ FrontendLs.uiState s' = idle
      /\ FrontendLs.threadId s' = Some (JStr saved)
      /\ FrontendLs.storedThreadId s' = Some saved).
Proof.
  intros Hne. split.
  - intros thread. now apply initAsync_effect.
  - now apply init_ls_effect.
Qed.

End LoadFacts.

Lemma C2_witness :
  (let s' := Frontend.initAsync plainHost (Body pausedWithReport)
               (Frontend.loaded (Some "t1")) in
   Frontend.requests s' = [Frontend.GetThread "t1"]
   /\ Frontend.uiState s' = waiting_approval
   /\ Frontend.threadId s' = Some (JStr "t1")
   /\ Frontend.approvalCard s' = true
   /\ Frontend.storedThreadId s' = Some "t1"
   /\ Frontend.questionEl s' = "Approve?"
   /\ Frontend.previewEl s' = [])
  /\ (let s' := Frontend.initAsync plainHost (Body blankReport)
                  (Frontend.loaded (Some "t1")) in
      Frontend.requests s' = [Frontend.GetThread "t1"]
      /\ Frontend.uiState s' = idle
      /\ Frontend.threadId s' = None
      /\ Frontend.storedThreadId s' = None).
Proof.
  assert (Hne : "t1" <> EmptyString) by discriminate.
  split.
  - exact (proj1 (C2_page_load_with_stored_thread_id plainHost "t1" Hne)
             (Body pausedWithReport)).
  - exact (proj1 (C2_page_load_with_stored_thread_id plainHost "t1" Hne)
             (Body blankReport)).
Defined.

(** C2 as stated fails.  With the id "t1" in storage the LangServe
    client polls nothing when its page loads, and although no interrupt
    is known it keeps the id, in memory and in storage.  And the
    streaming client, on a snapshot whose interrupt has a question with
    no text, waits for approval on "t1" but has removed the id from
    storage. *)
Lemma C2_counterexample :
  (let s' := FrontendLs.init plainHost (FrontendLs.loaded (Some "t1")) in
   FrontendLs.requests s' = []
   /\ FrontendLs.uiState s' = idle
   /\ FrontendLs.threadId s' = Some (JStr "t1")
   /\ FrontendLs.storedThreadId s' = Some "t1")
  /\ (let s' := Frontend.initAsync plainHost (Body pausedOnExotic)
                  (Frontend.loaded (Some "t1")) in
      Extract.extractInterruptPayload plainHost pausedOnExotic
      = Returned (Some (JObj [("kind", JStr "approval_request"); ("question", exotic)]))
      /\ Frontend.uiState s' = waiting_approval
      /\ Frontend.threadId s' = Some (JStr "t1")
      /\ Frontend.storedThreadId s' = None).
Proof. vm_compute. repeat split. Qed.

(* --------------------------------------------------------------------- *)
(** ** The streaming client: what a run does to the thread id *)
(* --------------------------------------------------------------------- *)

Section RunEffects.

Import Js Json Extract Frontend.
Variable h : Host.

Lemma caught_reports (msg : string) (s : State) :
  reportsError msg (addLogEntry h (note "ERROR" msg msg) (setError msg (setUiState error s))).
Proof.
  unfold reportsError. split; [reflexivity|]. split; [reflexivity|].
  rewrite logItems_addLogEntry. eexists. split; [reflexivity|]. repeat split.
Qed.

(** What [runWithUi] adds to the run of [fn]. *)
Lemma runWithUi_cases (fn : Run State unit) (s : State) :
  let r := fn (setError EmptyString s) in
  let s' := runWithUi h fn s in
  threadId s' = threadId (snd r)
  /\ storedThreadId s' = storedThreadId (snd r)
  /\ requests s' = requests (snd r)
  /\ currentController s' = currentController (snd r)
  /\ reportCard s' = reportCard (snd r)
  /\ approvalCard s' = approvalCard (snd r)
  /\ match fst r with
     | Returned _ => s' = snd r
     | Thrown msg => reportsError msg s'
     end.
Proof.
  cbv zeta. unfold runWithUi.
  destruct (fn (setError EmptyString s)) as [[[]|msg] s1]; cbn [fst snd].
  - repeat split.
  - repeat split; try reflexivity. apply caught_reports.
Qed.

(** [runStream] on a thread id that has a text sends its request, and
    leaves the thread id and the cards alone. *)
Lemma runStream_sent (tid : JSON) (text : string) (body : RunBody) (reply : StreamReply)
      (s : State) :
  String_ h tid = Returned text ->
  let r := runStream h tid body reply s in
  threadId (snd r) = threadId s
  /\ storedThreadId (snd r) = storedThreadId s
  /\ requests (snd r) = (requests s ++ [PostRunsStream text body])%list
  /\ reportCard (snd r) = reportCard s
  /\ errorBanner (snd r) = errorBanner s
  /\ (closedByServer reply = false -> exists msg, fst r = Thrown msg).
Proof.
  intros E r.
  assert (Hr : r = runStream h tid body reply s) by reflexivity. clearbody r.
  pose proof (runStream_run h tid text body reply s E) as Hrun. cbv zeta in Hrun.
  rewrite Hrun in Hr. clear Hrun.
  destruct reply as [message|status tx| |ct chunks ending];
    try (subst r; cbn; repeat split; intros _; eexists; reflexivity).
  destruct (handled h (Sse.decode h chunks) _) as [[[]|msg] s1] eqn:Hread;
    pose proof (keeps_run _ _ _ _ _ _ _ (keeps_handled h _) Hread)
      as (K1 & K2 & K3 & _ & K5 & _ & K7 & _).
  - destruct ending; subst r; cbn [fst snd].
    + destruct (Sse.decode h chunks); cbn; rewrite K1, K2, K3, K5, K7; cbn;
        repeat split; discriminate.
    + cbn. rewrite K1, K2, K3, K5, K7. cbn. repeat split. intros _. eexists. reflexivity.
    + unfold cancelInFlight. destruct (negb (currentController s1));
        cbn; rewrite K1, K2, K3, K5, K7; cbn; repeat split; intros _; eexists; reflexivity.
  - subst r. cbn. rewrite K1, K2, K3, K5, K7. cbn. repeat split. intros _. eexists. reflexivity.
Qed.

(** The stream, the poll and the decision on a thread id that has a
    text. *)
Lemma streamAndPoll_effect (tid : JSON) (text : string) (body : RunBody)
      (stream : StreamReply) (thread : Reply JSON) (nr : string) (s : State) :
  String_ h tid = Returned text ->
  let r := streamAndPoll h tid body stream thread nr s in
  threadId (snd r) = threadId s
  /\ storedThreadId (snd r) = storedThreadId s
  /\ (requests (snd r) = (requests s ++ [PostRunsStream text body])%list
      \/ requests (snd r)
         = (requests s ++ [PostRunsStream text body; GetThread text])%list)
  /\ (completed stream thread = None -> exists msg, fst r = Thrown msg).
Proof.
  intros E r.
  assert (Hr : r = streamAndPoll h tid body stream thread nr s) by reflexivity. clearbody r.
  rewrite (streamAndPoll_run h tid text body stream thread nr s E) in Hr.
  pose proof (runStream_sent tid text body stream s E) as Hsent. cbv zeta in Hsent.
  destruct (runStream h tid body stream s) as [[[]|msg] s1]; cbn [fst snd] in Hsent;
    destruct Hsent as (K1 & K2 & K3 & _ & _ & K6).
  - destruct thread as [m|st tx|m|t];
      try (subst r; cbn; rewrite K1, K2, K3, <- app_assoc; repeat split;
           [now right|intros _; eexists; reflexivity]).
    destruct (reconcile h nr t (send (GetThread text) s1)) as [o s2] eqn:Hrec.
    pose proof (keeps_run _ _ _ _ _ _ _ (keeps_reconcile h nr t) Hrec) as (Q1 & Q2 & Q3 & _).
    subst r. cbn [fst snd]. rewrite Q1, Q2, Q3. cbn. rewrite K1, K2, K3, <- app_assoc.
    repeat split; [now right|].
    intros Hc. destruct stream as [m|st tx| |ct chunks [|m|m]];
      try (destruct (K6 eq_refl) as (msg & Hm); discriminate).
    discriminate.
  - subst r. cbn. rewrite K1, K2, K3. repeat split; [now left|]. intros _. eexists. reflexivity.
Qed.

(** What a click on Run comes to. *)
Lemma start_effect (themeInput : string)
      (created : Reply JSON) (stream : StreamReply) (thread : Reply JSON) (s : State) :
  let s' := runWithUi h (start h themeInput created stream thread) s in
  let run := PostRunsStream in
  match createdId created with
  | None =>
      reportsError (createFailure created) s'
      /\ threadId s' = threadId s
      /\ storedThreadId s' = storedThreadId s
      /\ requests s' = (requests s ++ [PostThreads])%list
      /\ currentController s' = currentController s
      /\ reportCard s' = false
  | Some id =>
      threadId s' = Some id
      /\ match String_ h id with
         | Thrown msg =>
             reportsError msg s'
             /\ storedThreadId s' = storedThreadId s
             /\ requests s' = (requests s ++ [PostThreads])%list
         | Returned tid =>
             storedThreadId s' = Some tid
             /\ (requests s'
                 = (requests s
                    ++ [PostThreads; run tid (StartInput (themeValue themeInput))])%list
                 \/ requests s'
                    = (requests s
                       ++ [PostThreads; run tid (StartInput (themeValue themeInput));
                           GetThread tid])%list)
             /\ (completed stream thread = None -> uiState s' = error)
         end
  end.
Proof.
  cbv zeta.
  pose proof (runWithUi_cases (start h themeInput created stream thread) s) as Hui.
  cbv zeta in Hui. rewrite start_run in Hui.
  destruct (createdId created) as [id|].
  - destruct (String_ h id) as [tid|msg] eqn:E.
    + pose proof (streamAndPoll_effect id tid (StartInput (themeValue themeInput))
                    stream thread startNoReport
                    (started h themeInput tid
                       (createdThread h id tid (resetViewForRun (setError EmptyString s))))
                    E) as Hrun.
      cbv zeta in Hrun.
      destruct (streamAndPoll h id _ stream thread startNoReport _) as [o s1];
        cbn [fst snd] in *.
      destruct Hui as (U1 & U2 & U3 & _ & _ & _ & U7).
      destruct Hrun as (K1 & K2 & K3 & K4).
      rewrite U1, U2, U3, K1, K2. cbn. split; [reflexivity|]. split; [reflexivity|].
      split.
      * destruct K3 as [-> | ->]; [left|right]; cbn; now rewrite <- app_assoc.
      * intros Hc. destruct (K4 Hc) as (msg & ->). apply U7.
    + cbn [fst snd] in Hui. destruct Hui as (U1 & U2 & U3 & _ & _ & _ & U7).
      rewrite U1, U2, U3. cbn. repeat split; apply U7.
  - cbn [fst snd] in Hui. destruct Hui as (U1 & U2 & U3 & U4 & U5 & _ & U7).
    rewrite U1, U2, U3, U4, U5. cbn. repeat split; apply U7.
Qed.

(** What a decision comes to, made while a thread id is in memory. *)
Lemma resume_effect (decision : string) (id : JSON)
      (created : Reply JSON) (stream : StreamReply) (thread : Reply JSON) (s : State) :
  threadId s = Some id ->
  truthy id = true ->
  let s' := handleDecision h decision created stream thread s in
  threadId s' = Some id
  /\ storedThreadId s' = storedThreadId s
  /\ match String_ h id with
     | Thrown msg => reportsError msg s' /\ requests s' = requests s
     | Returned tid =>
         (requests s' = (requests s ++ [PostRunsStream tid (ResumeCommand decision)])%list
          \/ requests s'
             = (requests s
                ++ [PostRunsStream tid (ResumeCommand decision); GetThread tid])%list)
         /\ (completed stream thread = None -> uiState s' = error)
     end.
Proof.
  intros Hid Ht. cbv zeta. unfold handleDecision.
  pose proof (runWithUi_cases (resume h decision created stream thread)
                (setUiState resuming s)) as Hui.
  cbv zeta in Hui.
  rewrite (resume_run h decision id created stream thread
             (setError EmptyString (setUiState resuming s)) Hid Ht) in Hui.
  destruct (String_ h id) as [tid|msg] eqn:E.
  - pose proof (streamAndPoll_effect id tid (ResumeCommand decision)
                  stream thread resumeNoReport
                  (resumedOn h decision tid
                     (resetViewForRun (setError EmptyString (setUiState resuming s))))
                  E) as Hrun.
    cbv zeta in Hrun.
    destruct (streamAndPoll h id _ stream thread resumeNoReport _) as [o s1];
      cbn [fst snd] in *.
    destruct Hui as (U1 & U2 & U3 & _ & _ & _ & U7).
    destruct Hrun as (K1 & K2 & K3 & K4).
    rewrite U1, U2, U3, K1, K2. cbn. split; [exact Hid|]. split; [reflexivity|].
    split.
    + destruct K3 as [-> | ->]; [left|right]; reflexivity.
    + intros Hc. destruct (K4 Hc) as (msg & ->). apply U7.
  - cbn [fst snd] in Hui. destruct Hui as (U1 & U2 & U3 & _ & _ & _ & U7).
    rewrite U1, U2, U3. cbn. repeat split; try assumption; apply U7.
Qed.

End RunEffects.

(* --------------------------------------------------------------------- *)
(** ** The LangServe client: relations that a run keeps *)
(* --------------------------------------------------------------------- *)

Ltac view_step_ls HR :=
  first [ apply (ls_log HR)
        | apply (ls_view HR); unfold SameCoreLs; cbn; tauto ].

Section LsSteps.

Import Js Json FrontendLs.
Variable h : Host.
Variable R : State -> State -> Prop.
Hypothesis HR : StepwiseLs h R.

Lemma ls_refl (s : State) : R s s.
Proof. apply (ls_view HR). unfold SameCoreLs. tauto. Qed.

Lemma any_ls_renderPreview (analysisPreview : option JSON) :
  keeps State R (renderPreview h analysisPreview).
Proof.
  unfold renderPreview. steps ls_refl (ls_trans HR); view_step_ls HR.
Qed.

Lemma any_ls_summarizeOutput (out : option JSON) : keeps State R (summarizeOutput h out).
Proof.
  unfold summarizeOutput.
  apply (keeps_bind _ _ (ls_trans HR)); [apply (keeps_lift _ _ ls_refl)|intros st].
  apply (keeps_bind _ _ (ls_trans HR)); [apply (keeps_gets _ _ ls_refl)|intros current].
  apply (keeps_bind _ _ (ls_trans HR)); [apply (keeps_lift _ _ ls_refl)|intros tid].
  apply (keeps_ret _ _ ls_refl).
Qed.

Lemma any_ls_decideOutput (what waitingText : string) (out : option JSON) :
  keeps State R (decideOutput h what waitingText out).
Proof.
  unfold decideOutput.
  steps ls_refl (ls_trans HR); try apply any_ls_renderPreview; view_step_ls HR.
Qed.

Lemma any_ls_cancelInFlight (s : State) : R s (cancelInFlight h s).
Proof.
  unfold cancelInFlight. destruct (negb _); [apply ls_refl|apply (ls_log HR)].
Qed.

Lemma any_ls_runWithUi (fn : Run State unit) (s : State) :
  keeps State R fn -> R s (runWithUi h fn s).
Proof.
  intros Hfn. unfold runWithUi.
  assert (H0 : R s (setError EmptyString s)) by view_step_ls HR.
  specialize (Hfn (setError EmptyString s)).
  destruct (fn (setError EmptyString s)) as [[[]|msg] s1]; cbn [snd] in Hfn.
  - exact (ls_trans HR _ _ _ H0 Hfn).
  - eapply (ls_trans HR); [exact (ls_trans HR _ _ _ H0 Hfn)|].
    eapply (ls_trans HR); [|apply (ls_log HR)]. view_step_ls HR.
Qed.

Lemma any_ls_copyReport (clipboard : ClipboardReply) (s : State) :
  R s (FrontendLsReport.copyReport h clipboard s).
Proof.
  unfold FrontendLsReport.copyReport. destruct (negb _); [apply (ls_log HR)|].
  destruct clipboard; [apply ls_refl| |];
    (eapply (ls_trans HR); [|apply (ls_log HR)]); view_step_ls HR.
Qed.

Lemma any_ls_downloadReport (ymd hm themeInput : string) (s : State) :
  R s (snd (FrontendLsReport.downloadReport h ymd hm themeInput s)).
Proof.
  unfold FrontendLsReport.downloadReport. destruct (negb _); apply (ls_log HR).
Qed.

End LsSteps.

Section LsAdopting.

Import Js Json FrontendLs.
Variable h : Host.
Variable R : State -> State -> Prop.
Hypothesis HR : AdoptingLs h R.

Let HB : StepwiseLs h R := ls_base HR.

Lemma any_ls_adoptThreadId (out : option JSON) : keeps State R (adoptThreadId h out).
Proof.
  unfold adoptThreadId, persistThreadId.
  steps (@ls_refl h R HB) (ls_trans HB);
    first [apply (ls_tid HR)|apply (ls_stored HR)|view_step_ls HB].
Qed.

Lemma any_ls_handleOutput (what waitingText : string) (data : JSON) :
  keeps State R (handleOutput h what waitingText data).
Proof.
  assert (Hrest : keeps State R
                    (adoptThreadId h (prop "output" data) ;;
                     summary <- summarizeOutput h (prop "output" data) ;;
                     exec (addLog h "API" (what ++ " response: " ++ summary)) ;;
                     decideOutput h what waitingText (prop "output" data))%run).
  { apply (keeps_bind _ _ (ls_trans HB)); [apply any_ls_adoptThreadId|intros _].
    apply (keeps_bind _ _ (ls_trans HB));
      [apply (@any_ls_summarizeOutput h R HB)|intros summary].
    apply (keeps_bind _ _ (ls_trans HB)); [apply keeps_exec; intros s; apply (ls_log HB)|].
    intros _. apply (@any_ls_decideOutput h R HB). }
  unfold handleOutput. destruct data; try exact Hrest.
  apply (keeps_throw _ _ (@ls_refl h R HB)).
Qed.

End LsAdopting.

Section LsRuns.

Import Js Json FrontendLs.
Variable h : Host.
Variable R : State -> State -> Prop.
Hypothesis HR : RunwiseLs h R.

Let HA : AdoptingLs h R := ls_steps HR.
Let HS : StepwiseLs h R := ls_base HA.

Lemma any_ls_ensureThreadId : keeps State R (ensureThreadId h).
Proof.
  unfold ensureThreadId, persistThreadId.
  steps (@ls_refl h R HS) (ls_trans HS);
    first [apply (ls_uuids HR)|apply (ls_tid HA)|apply (ls_stored HA)|view_step_ls HS].
Qed.

Lemma any_ls_invoked (input : InvokeInput) (what waitingText : string)
      (reply : InvokeReply) :
  keeps State R (invoked h input what waitingText reply).
Proof.
  unfold invoked.
  apply (keeps_bind _ _ (ls_trans HS)); [apply (ls_invoke HR)|intros data].
  apply (@any_ls_handleOutput h R HA).
Qed.

Lemma any_ls_start (themeInput : string) (reply : InvokeReply) :
  keeps State R (start h themeInput reply).
Proof.
  unfold start. fold (invoked h).
  apply (keeps_bind _ _ (ls_trans HS)); [apply keeps_exec; intros s; view_step_ls HS|].
  intros _.
  apply (keeps_bind _ _ (ls_trans HS)); [apply any_ls_ensureThreadId|intros tid].
  apply (keeps_bind _ _ (ls_trans HS)); [apply keeps_exec; intros s; view_step_ls HS|].
  intros _.
  apply (keeps_bind _ _ (ls_trans HS)); [apply (keeps_lift _ _ (@ls_refl h R HS))|].
  intros text.
  apply (keeps_bind _ _ (ls_trans HS)); [apply keeps_exec; intros s; view_step_ls HS|].
  intros _. apply any_ls_invoked.
Qed.

Lemma any_ls_resume (decision : string) (reply : InvokeReply) :
  keeps State R (resume h decision reply).
Proof.
  unfold resume. fold (invoked h).
  apply (keeps_bind _ _ (ls_trans HS)); [apply keeps_exec; intros s; view_step_ls HS|].
  intros _.
  apply (keeps_bind _ _ (ls_trans HS)); [apply any_ls_ensureThreadId|intros tid].
  destruct (negb (truthy tid)).
  - steps (@ls_refl h R HS) (ls_trans HS); view_step_ls HS.
  - apply (keeps_bind _ _ (ls_trans HS)); [apply keeps_exec; intros s; view_step_ls HS|].
    intros _.
    apply (keeps_bind _ _ (ls_trans HS)); [apply (keeps_lift _ _ (@ls_refl h R HS))|].
    intros text.
    apply (keeps_bind _ _ (ls_trans HS)); [apply keeps_exec; intros s; view_step_ls HS|].
    intros _. apply any_ls_invoked.
Qed.

(** The listeners of Run, of a decision and of Cancel, and those of
    the report card. *)
Lemma any_ls_act (a : FrontendLsReport.Action) (s : State) :
  a <> FrontendLsReport.Listened ClickClear ->
  a <> FrontendLsReport.Listened ClickClearLog ->
  R s (FrontendLsReport.act h a s).
Proof.
  intros Hclear Hlog.
  destruct a as [[themeInput reply|decision reply| | | ]
                |clipboard|ymd hm themeInput];
    cbn [FrontendLsReport.act listener]; try congruence.
  - apply (@any_ls_runWithUi h R HS), any_ls_start.
  - unfold handleDecision.
    eapply (ls_trans HS); [|apply (@any_ls_runWithUi h R HS), any_ls_resume].
    view_step_ls HS.
  - apply (@any_ls_cancelInFlight h R HS).
  - apply (@any_ls_copyReport h R HS).
  - apply (@any_ls_downloadReport h R HS).
Qed.

End LsRuns.

Section LsRelations.

Import Js Json FrontendLs.
Variable h : Host.

Lemma logItems_addLog (tag message : string) (s : State) :
  logItems (addLog h tag message s)
  = firstn MAX_LOG_ITEMS (loggedLs h tag message (clock s) :: logItems s).
Proof. unfold addLog. cbn [logItems set_logItems]. apply capped_firstn. Qed.

(** [callInvoke], by the reply. *)
Lemma callInvoke_run (input : InvokeInput) (reply : InvokeReply) (s : State) :
  callInvoke h input reply s
  = (match reply with
     | InvokeBody data => Returned data
     | _ => Thrown (failureText h reply)
     end, sentLs h input reply s).
Proof.
  unfold callInvoke, sentLs, failureText. rewrite !bind_exec.
  destruct reply as [m|reason|st tx|m|data]; rewrite ?bind_exec; try reflexivity.
  destruct (apiError h st tx); reflexivity.
Qed.

Lemma GrownLs_runwise : RunwiseLs h GrownLs.
Proof.
  assert (Hlog : forall tag message s, GrownLs s (addLog h tag message s)).
  { intros tag message s. unfold GrownLs. rewrite logItems_addLog.
    apply grown_unshift, grown_refl. }
  split; [split; [split|..]|..].
  - intros s1 s2 s3. apply grown_trans.
  - intros s s' (_ & _ & Hl & _). unfold GrownLs. rewrite Hl. apply grown_refl.
  - exact Hlog.
  - intros v s. apply grown_refl.
  - intros text s. apply grown_refl.
  - intros n s. apply grown_refl.
  - intros input reply s. rewrite callInvoke_run. cbn [snd]. unfold sentLs. cbv zeta.
    destruct reply as [m|[[]|]|st tx|m|data]; try apply grown_refl.
    unfold cancelInFlight. cbn [currentController send set_requests set_currentController negb].
    unfold GrownLs. cbn [logItems set_currentController]. rewrite logItems_addLog.
    apply grown_unshift, grown_refl.
Qed.

Lemma keepsIdLs_runwise : RunwiseLs h keepsIdLs.
Proof.
  split; [split; [split|..]|..].
  - intros s1 s2 s3 [A1 A2] [B1 B2]. split; auto.
  - intros s s' (H1 & H2 & _). unfold keepsIdLs. rewrite H1, H2. tauto.
  - intros tag message s. unfold keepsIdLs. cbn. tauto.
  - intros v s. unfold keepsIdLs. cbn. split; [discriminate|tauto].
  - intros text s. unfold keepsIdLs. cbn. split; [tauto|discriminate].
  - intros n s. unfold keepsIdLs. cbn. tauto.
  - intros input reply s. rewrite callInvoke_run. cbn [snd]. unfold sentLs. cbv zeta.
    destruct reply as [m|[[]|]|st tx|m|data]; unfold keepsIdLs; cbn; tauto.
Qed.

Lemma Released_runwise : RunwiseLs h Released.
Proof.
  split; [split; [split|..]|..].
  - intros s1 s2 s3 A B H. auto.
  - intros s s' (_ & _ & _ & _ & _ & H). unfold Released. now rewrite H.
  - intros tag message s. unfold Released. cbn. tauto.
  - intros v s. unfold Released. cbn. tauto.
  - intros text s. unfold Released. cbn. tauto.
  - intros n s. unfold Released. cbn. tauto.
  - intros input reply s. rewrite callInvoke_run. cbn [snd]. unfold sentLs, Released.
    reflexivity.
Qed.

Lemma SameIds_stepwise : StepwiseLs h SameIds.
Proof.
  split.
  - intros s1 s2 s3 (A1 & A2) (B1 & B2). unfold SameIds. split; congruence.
  - intros s s' (H1 & H2 & _). unfold SameIds. tauto.
  - intros tag message s. unfold SameIds. cbn. tauto.
Qed.

Lemma SameTraffic_adopting : AdoptingLs h SameTraffic.
Proof.
  split; [split|..].
  - intros s1 s2 s3 (A1 & A2 & A3) (B1 & B2 & B3). unfold SameTraffic.
    repeat split; congruence.
  - intros s s' (_ & _ & _ & H1 & H2 & H3). unfold SameTraffic. tauto.
  - intros tag message s. unfold SameTraffic. cbn. tauto.
  - intros v s. unfold SameTraffic. cbn. tauto.
  - intros text s. unfold SameTraffic. cbn. tauto.
Qed.

(** [ensureThreadId] returns the id in use. *)
Lemma ensureThreadId_run (s : State) :
  ensureThreadId h s = (Returned (idInUse h s), ensured h s).
Proof.
  unfold ensureThreadId, idInUse, ensured. rewrite bind_gets.
  destruct (currentThreadId s) as [tid|]; [reflexivity|].
  reflexivity.
Qed.

Lemma idInUse_truthy (s : State) :
  nonEmpty (randomUUID h (uuids s)) = true \/ currentThreadId s <> None ->
  truthy (idInUse h s) = true.
Proof.
  unfold idInUse, currentThreadId. intros H.
  destruct (threadId s) as [tid|].
  - destruct (truthy tid) eqn:T; [exact T|].
    destruct H as [H|H]; [exact H|now destruct H].
  - destruct H as [H|H]; [exact H|now destruct H].
Qed.

Lemma start_ls_run (themeInput : string) (reply : InvokeReply) (s : State) :
  start h themeInput reply s
  = match String_ h (idInUse h (resetViewForRun s)) with
    | Thrown msg => (Thrown msg, setUiState starting (ensured h (resetViewForRun s)))
    | Returned text =>
        invoked h (StartAction (themeValue themeInput) (idInUse h (resetViewForRun s)))
          "start" "Waiting for approval (please respond using the buttons)." reply
          (startedLs h themeInput text s)
    end.
Proof.
  unfold start. rewrite bind_exec. unfold bind at 1. rewrite ensureThreadId_run.
  rewrite bind_exec.
  destruct (String_ h (idInUse h (resetViewForRun s))) as [text|msg].
  - rewrite bind_lift_returned, bind_exec. reflexivity.
  - rewrite bind_lift_thrown. reflexivity.
Qed.

Lemma resume_ls_run (decision : string) (reply : InvokeReply) (s : State) :
  resume h decision reply s
  = if negb (truthy (idInUse h (resetViewForRun s))) then
      (Returned tt,
       addLog h "ERROR" "Cannot resume because thread_id is missing."
         (setError "Missing thread_id. Click 'Run' first."
            (setUiState error (ensured h (resetViewForRun s)))))
    else
      match String_ h (idInUse h (resetViewForRun s)) with
      | Thrown msg => (Thrown msg, setUiState resuming (ensured h (resetViewForRun s)))
      | Returned text =>
          invoked h (ResumeAction (idInUse h (resetViewForRun s)) decision)
            "resume" "Waiting for approval again." reply
            (resumedLs h decision text s)
      end.
Proof.
  unfold resume. rewrite bind_exec. unfold bind at 1. rewrite ensureThreadId_run.
  destruct (negb (truthy (idInUse h (resetViewForRun s)))).
  - rewrite !bind_exec. reflexivity.
  - rewrite bind_exec.
    destruct (String_ h (idInUse h (resetViewForRun s))) as [text|msg].
    + rewrite bind_lift_returned, bind_exec. reflexivity.
    + rewrite bind_lift_thrown. reflexivity.
Qed.

End LsRelations.

(* --------------------------------------------------------------------- *)
(** ** The LangServe client: start and resume *)
(* --------------------------------------------------------------------- *)

Section LsRunFacts.

Import Js Json FrontendLs.
Variable h : Host.

Lemma runWithUi_caught (fn : Run State unit) (s : State) :
  runWithUi h fn s = caught h (fn (setError EmptyString s)).
Proof. reflexivity. Qed.

Lemma caught_fields (r : Outcome unit * State) :
  threadId (caught h r) = threadId (snd r)
  /\ storedThreadId (caught h r) = storedThreadId (snd r)
  /\ requests (caught h r) = requests (snd r)
  /\ uuids (caught h r) = uuids (snd r)
  /\ currentController (caught h r) = currentController (snd r)
  /\ approvalCard (caught h r) = approvalCard (snd r)
  /\ reportCard (caught h r) = reportCard (snd r)
  /\ match fst r with
     | Returned _ => caught h r = snd r
     | Thrown msg =>
         uiState (caught h r) = error
         /\ errorBanner (caught h r) = msg
         /\ exists entry, nth_error (logItems (caught h r)) 0 = Some entry
                          /\ tag entry = "ERROR"
                          /\ message entry = msg
     end.
Proof.
  destruct r as [[[]|msg] s]; cbn [caught fst snd]; repeat split.
  rewrite logItems_addLog. eexists. split; [reflexivity|]. split; reflexivity.
Qed.

Lemma caught_error (r : Outcome unit * State) :
  endsInError r -> uiState (caught h r) = error.
Proof.
  destruct r as [[[]|msg] s]; cbn [caught fst snd]; intros [(m & Hm)|Hu];
    try discriminate; try reflexivity. exact Hu.
Qed.

Lemma bind_endsInError (A : Type) (c : Run State A) (k : A -> Run State unit) (s : State) :
  (forall a s1, endsInError (k a s1)) -> endsInError (bind c k s).
Proof.
  intros Hk. unfold bind. destruct (c s) as [[a|msg] s1]; [apply Hk|].
  left. now exists msg.
Qed.

Lemma ensured_fields (s : State) :
  threadId (ensured h s) = Some (idInUse h s)
  /\ requests (ensured h s) = requests s
  /\ uuids (ensured h s)
     = match currentThreadId s with Some _ => uuids s | None => S (uuids s) end
  /\ currentController (ensured h s) = currentController s
  /\ approvalCard (ensured h s) = approvalCard s
  /\ reportCard (ensured h s) = reportCard s
  /\ errorBanner (ensured h s) = errorBanner s
  /\ logItems (ensured h s) = logItems s
  /\ (storedThreadId s <> None \/ currentThreadId s = None ->
      storedThreadId (ensured h s) <> None).
Proof.
  unfold ensured, idInUse, currentThreadId.
  destruct (threadId s) as [tid|] eqn:T; [destruct (truthy tid) eqn:Tt|];
    cbn; rewrite ?T; repeat split; try discriminate.
  intros [H|H]; [exact H|discriminate].
Qed.

Lemma sentLs_fields (input : InvokeInput) (reply : InvokeReply) (s : State) :
  threadId (sentLs h input reply s) = threadId s
  /\ storedThreadId (sentLs h input reply s) = storedThreadId s
  /\ requests (sentLs h input reply s) = (requests s ++ [input])%list
  /\ uuids (sentLs h input reply s) = uuids s
  /\ currentController (sentLs h input reply s) = false
  /\ approvalCard (sentLs h input reply s) = approvalCard s
  /\ reportCard (sentLs h input reply s) = reportCard s
  /\ errorBanner (sentLs h input reply s) = errorBanner s.
Proof.
  unfold sentLs. destruct reply as [m|[[]|]|st tx|m|data]; cbn; repeat split.
Qed.

(** A request that does not come back with a body throws the words of
    [failureText]. *)
Lemma invoked_fails (input : InvokeInput) (what waiting : string) (reply : InvokeReply)
      (s : State) :
  (forall data, reply <> InvokeBody data) ->
  invoked h input what waiting reply s
  = (Thrown (failureText h reply), sentLs h input reply s).
Proof.
  intros Hno. unfold invoked, bind. rewrite callInvoke_run.
  destruct reply as [m|reason|st tx|m|data]; try reflexivity.
  now destruct (Hno data).
Qed.

Lemma invoked_body (input : InvokeInput) (what waiting : string) (data : JSON)
      (s : State) :
  invoked h input what waiting (InvokeBody data) s
  = handleOutput h what waiting data (sentLs h input (InvokeBody data) s).
Proof. unfold invoked, bind. rewrite callInvoke_run. reflexivity. Qed.

(** However its request ends, a run has sent it, has made no
    identifier after it, and holds no controller. *)
Lemma invoked_effect (input : InvokeInput) (what waiting : string) (reply : InvokeReply)
      (s : State) :
  let r := invoked h input what waiting reply s in
  requests (snd r) = (requests s ++ [input])%list
  /\ uuids (snd r) = uuids s
  /\ currentController (snd r) = false
  /\ keepsIdLs s (snd r).
Proof.
  intros r.
  assert (Hkeep : keepsIdLs s (snd r))
    by apply (any_ls_invoked h keepsIdLs (keepsIdLs_runwise h)).
  assert (Hr : r = invoked h input what waiting reply s) by reflexivity. clearbody r.
  destruct (sentLs_fields input reply s) as (_ & _ & F3 & F4 & F5 & _).
  destruct reply as [m|reason|st tx|m|data];
    try (rewrite invoked_fails in Hr by (intros data; discriminate);
         subst r; cbn [snd]; tauto).
  rewrite invoked_body in Hr.
  pose proof (any_ls_handleOutput h SameTraffic (SameTraffic_adopting h) what waiting data
                (sentLs h input (InvokeBody data) s)) as (T1 & T2 & T3).
  rewrite <- Hr in T1, T2, T3. rewrite T1, T2, T3. tauto.
Qed.

(** A reply that names no thread leaves the client on its thread. *)
Lemma handleOutput_same_thread (what waiting : string) (data : JSON) :
  truthyOpt (optProp "thread_id" (prop "output" data)) = false ->
  keeps State SameIds (handleOutput h what waiting data).
Proof.
  intros Hno.
  pose proof (SameIds_stepwise h) as HS.
  assert (Hadopt : adoptThreadId h (prop "output" data) = ret tt).
  { unfold adoptThreadId. unfold truthyOpt in Hno.
    destruct (optProp "thread_id" (prop "output" data)) as [v|]; [|reflexivity].
    now rewrite Hno. }
  assert (Hrest : keeps State SameIds
                    (adoptThreadId h (prop "output" data) ;;
                     summary <- summarizeOutput h (prop "output" data) ;;
                     exec (addLog h "API" (what ++ " response: " ++ summary)) ;;
                     decideOutput h what waiting (prop "output" data))%run).
  { rewrite Hadopt.
    apply (keeps_bind _ _ (ls_trans HS)); [apply (keeps_ret _ _ (ls_refl h SameIds HS))|intros _].
    apply (keeps_bind _ _ (ls_trans HS)); [apply (any_ls_summarizeOutput h SameIds HS)|intros summary].
    apply (keeps_bind _ _ (ls_trans HS)); [apply keeps_exec; intros s; apply (ls_log HS)|].
    intros _. apply (any_ls_decideOutput h SameIds HS). }
  unfold handleOutput. destruct data; try exact Hrest.
  apply (keeps_throw _ _ (ls_refl h SameIds HS)).
Qed.

Lemma invoked_same_thread (input : InvokeInput) (what waiting : string)
      (reply : InvokeReply) (s : State) :
  namesNoThread reply ->
  threadId (snd (invoked h input what waiting reply s)) = threadId s.
Proof.
  intros Hno. destruct (sentLs_fields input reply s) as (F1 & _).
  destruct reply as [m|reason|st tx|m|data];
    try (rewrite invoked_fails by (intros data; discriminate); exact F1).
  rewrite invoked_body.
  destruct (handleOutput_same_thread what waiting data Hno
              (sentLs h input (InvokeBody data) s)) as (T1 & _).
  now rewrite T1.
Qed.

(** A status that is not a known one ends the run in an error. *)
Lemma decideOutput_unknown (what waiting : string) (out : option JSON) (s : State) :
  match out with
  | Some o => statusIs o "interrupted" || statusIs o "completed"
  | None => false
  end = false ->
  endsInError (decideOutput h what waiting out s).
Proof.
  intros Hun. unfold decideOutput.
  destruct out as [o|]; [|left; eexists; reflexivity].
  apply orb_false_iff in Hun as [H1 H2].
  destruct o; try (left; eexists; reflexivity);
    rewrite H1, H2, !bind_exec; right; reflexivity.
Qed.

Lemma handleOutput_unknown (what waiting : string) (data : JSON) (s : State) :
  knownStatus data = false ->
  endsInError (handleOutput h what waiting data s).
Proof.
  intros Hun. unfold knownStatus in Hun.
  assert (Hrest : endsInError
                    ((adoptThreadId h (prop "output" data) ;;
                      summary <- summarizeOutput h (prop "output" data) ;;
                      exec (addLog h "API" (what ++ " response: " ++ summary)) ;;
                      decideOutput h what waiting (prop "output" data))%run s)).
  { apply bind_endsInError. intros _ s1.
    apply bind_endsInError. intros summary s2.
    apply bind_endsInError. intros _ s3.
    now apply decideOutput_unknown. }
  unfold handleOutput. destruct data; try exact Hrest.
  left. eexists. reflexivity.
Qed.

Lemma invoked_failing (input : InvokeInput) (what waiting : string)
      (reply : InvokeReply) (s : State) :
  failing reply -> endsInError (invoked h input what waiting reply s).
Proof.
  intros Hfail.
  destruct reply as [m|reason|st tx|m|data];
    try (rewrite invoked_fails by (intros data; discriminate); left; eexists; reflexivity).
  rewrite invoked_body. now apply handleOutput_unknown.
Qed.

Lemma idInUse_reset (s : State) (state : UiState) :
  idInUse h (resetViewForRun (setError EmptyString s)) = idInUse h s
  /\ idInUse h (resetViewForRun (setError EmptyString (setUiState state s))) = idInUse h s.
Proof. split; reflexivity. Qed.

Lemma idInUse_current (s : State) (tid : JSON) :
  currentThreadId s = Some tid -> idInUse h s = tid /\ truthy tid = true
                                  /\ threadId s = Some tid.
Proof.
  unfold idInUse, currentThreadId. destruct (threadId s) as [t|]; [|discriminate].
  destruct (truthy t) eqn:T; [|discriminate]. intros [= <-]. tauto.
Qed.

(** What a click on Run comes to. *)
Lemma start_ls_effect (themeInput : string) (reply : InvokeReply) (s : State) :
  let s' := runWithUi h (start h themeInput reply) s in
  threadId s' <> None
  /\ (storedThreadId s <> None \/ currentThreadId s = None -> storedThreadId s' <> None)
  /\ uuids s' = match currentThreadId s with Some _ => uuids s | None => S (uuids s) end
  /\ (namesNoThread reply -> threadId s' = Some (idInUse h s))
  /\ (failing reply -> uiState s' = error)
  /\ approvalCard s' = approvalCard (snd (start h themeInput reply (setError EmptyString s)))
  /\ reportCard s' = reportCard (snd (start h themeInput reply (setError EmptyString s)))
  /\ match String_ h (idInUse h s) with
     | Thrown msg =>
         requests s' = requests s
         /\ currentController s' = currentController s
         /\ uiState s' = error
         /\ errorBanner s' = msg
     | Returned _ =>
         requests s'
         = (requests s ++ [StartAction (themeValue themeInput) (idInUse h s)])%list
         /\ currentController s' = false
     end.
Proof.
  cbv zeta. rewrite runWithUi_caught.
  pose proof (caught_fields (start h themeInput reply (setError EmptyString s)))
    as (C1 & C2 & C3 & C4 & C5 & C6 & C7 & C8).
  pose proof (caught_error (start h themeInput reply (setError EmptyString s))) as Cerr.
  rewrite C1, C2, C3, C4, C5, C6, C7. clear C1 C2 C3 C4 C5 C6 C7.
  rewrite start_ls_run in *.
  destruct (ensured_fields (resetViewForRun (setError EmptyString s)))
    as (E1 & E2 & E3 & E4 & E5 & E6 & E7 & E8 & E9).
  change (idInUse h (resetViewForRun (setError EmptyString s))) with (idInUse h s) in *.
  change (currentThreadId (resetViewForRun (setError EmptyString s)))
    with (currentThreadId s) in *.
  change (storedThreadId (resetViewForRun (setError EmptyString s)))
    with (storedThreadId s) in *.
  change (requests (resetViewForRun (setError EmptyString s))) with (requests s) in *.
  change (uuids (resetViewForRun (setError EmptyString s))) with (uuids s) in *.
  change (currentController (resetViewForRun (setError EmptyString s)))
    with (currentController s) in *.
  destruct (String_ h (idInUse h s)) as [text|msg] eqn:Htext.
  - set (input := StartAction (themeValue themeInput) (idInUse h s)) in *.
    set (s0 := startedLs h themeInput text (setError EmptyString s)) in *.
    assert (H0 : threadId s0 = Some (idInUse h s) /\ requests s0 = requests s
                 /\ uuids s0 = match currentThreadId s with
                               | Some _ => uuids s | None => S (uuids s) end
                 /\ (storedThreadId s <> None \/ currentThreadId s = None ->
                     storedThreadId s0 <> None)).
    { unfold s0, startedLs. cbn. rewrite E1, E2, E3. tauto. }
    destruct H0 as (A1 & A2 & A3 & A4). clearbody s0.
    pose proof (invoked_effect input "start"
                  "Waiting for approval (please respond using the buttons)." reply s0)
      as (I1 & I2 & I3 & I4 & I5).
    pose proof (invoked_same_thread input "start"
                  "Waiting for approval (please respond using the buttons)." reply s0) as I6.
    pose proof (invoked_failing input "start"
                  "Waiting for approval (please respond using the buttons)." reply s0) as I7.
    repeat split; try congruence; auto;
      try (intros Hno; rewrite (I6 Hno); exact A1);
      try (apply I4; congruence).
  - cbn [snd fst] in *. repeat split; cbn; try congruence; auto;
      try (intros _; apply Cerr; left; eexists; reflexivity);
      try apply C8.
Qed.

(** What a decision comes to. *)
Lemma resume_ls_effect (decision : string) (reply : InvokeReply) (s : State) :
  let s' := handleDecision h decision reply s in
  threadId s' <> None
  /\ (storedThreadId s <> None \/ currentThreadId s = None -> storedThreadId s' <> None)
  /\ uuids s' = match currentThreadId s with Some _ => uuids s | None => S (uuids s) end
  /\ (namesNoThread reply -> threadId s' = Some (idInUse h s))
  /\ (failing reply -> uiState s' = error)
  /\ if truthy (idInUse h s) then
       match String_ h (idInUse h s) with
       | Thrown msg =>
           requests s' = requests s
           /\ currentController s' = currentController s
           /\ uiState s' = error
           /\ errorBanner s' = msg
       | Returned _ =>
           requests s' = (requests s ++ [ResumeAction (idInUse h s) decision])%list
           /\ currentController s' = false
       end
     else
       requests s' = requests s
       /\ uiState s' = error
       /\ errorBanner s' = "Missing thread_id. Click 'Run' first.".
Proof.
  cbv zeta. unfold handleDecision. rewrite runWithUi_caught.
  pose proof (caught_fields
                (resume h decision reply (setError EmptyString (setUiState resuming s))))
    as (C1 & C2 & C3 & C4 & C5 & _ & _ & C8).
  pose proof (caught_error
                (resume h decision reply (setError EmptyString (setUiState resuming s))))
    as Cerr.
  rewrite C1, C2, C3, C4, C5. clear C1 C2 C3 C4 C5.
  rewrite resume_ls_run in *.
  destruct (ensured_fields
              (resetViewForRun (setError EmptyString (setUiState resuming s))))
    as (E1 & E2 & E3 & E4 & E5 & E6 & E7 & E8 & E9).
  change (idInUse h (resetViewForRun (setError EmptyString (setUiState resuming s))))
    with (idInUse h s) in *.
  change (currentThreadId
            (resetViewForRun (setError EmptyString (setUiState resuming s))))
    with (currentThreadId s) in *.
  change (storedThreadId
            (resetViewForRun (setError EmptyString (setUiState resuming s))))
    with (storedThreadId s) in *.
  change (requests (resetViewForRun (setError EmptyString (setUiState resuming s))))
    with (requests s) in *.
  change (uuids (resetViewForRun (setError EmptyString (setUiState resuming s))))
    with (uuids s) in *.
  change (currentController
            (resetViewForRun (setError EmptyString (setUiState resuming s))))
    with (currentController s) in *.
  destruct (truthy (idInUse h s)) eqn:Htruthy; cbn [negb] in *.
  - destruct (String_ h (idInUse h s)) as [text|msg] eqn:Htext.
    + set (input := ResumeAction (idInUse h s) decision) in *.
      set (s0 := resumedLs h decision text (setError EmptyString (setUiState resuming s)))
        in *.
      assert (H0 : threadId s0 = Some (idInUse h s) /\ requests s0 = requests s
                   /\ uuids s0 = match currentThreadId s with
                                 | Some _ => uuids s | None => S (uuids s) end
                   /\ (storedThreadId s <> None \/ currentThreadId s = None ->
                       storedThreadId s0 <> None)).
      { unfold s0, resumedLs. cbn. rewrite E1, E2, E3. tauto. }
      destruct H0 as (A1 & A2 & A3 & A4). clearbody s0.
      pose proof (invoked_effect input "resume" "Waiting for approval again." reply s0)
        as (I1 & I2 & I3 & I4 & I5).
      pose proof (invoked_same_thread input "resume" "Waiting for approval again."
                    reply s0) as I6.
      pose proof (invoked_failing input "resume" "Waiting for approval again."
                    reply s0) as I7.
      repeat split; try congruence; auto;
        try (intros Hno; rewrite (I6 Hno); exact A1);
        try (apply I4; congruence).
    + cbn [snd fst] in *. repeat split; cbn; try congruence; auto;
        try (intros _; apply Cerr; left; eexists; reflexivity);
        try apply C8.
  - cbn [snd fst caught] in *. repeat split; cbn; try congruence; auto.
Qed.

End LsRunFacts.

(* --------------------------------------------------------------------- *)
(** ** Both clients: the thread id of a run *)
(* --------------------------------------------------------------------- *)

Section ThreadIdFacts.

Import Js Json.
Variable h : Host.

(** C1, as amended.  In the streaming client every [start] asks the
    server for a thread, once and before anything else, whatever thread
    id is in memory or in storage; the id the server returns becomes
    the id in memory, and, when it has a text, the id in storage and
    the one the run is opened on (an id with no text ends the [start]
    in an error before any run is opened).  A decision made while a
    thread id is in memory opens its run on that id and asks for no
    thread.  In the LangServe client [start] and a decision both send
    the id in memory when there is one, making none; [start] makes an
    id only when there is none. *)
Theorem C1_thread_id_of_a_run :
  (forall (s : Frontend.State) (themeInput : string)
          (created : Reply JSON) (stream : Frontend.StreamReply) (thread : Reply JSON),
      let s' := Frontend.listener h
                  (Frontend.ClickStart themeInput created stream thread) s in
      exists more,
        Frontend.requests s' = (Frontend.requests s ++ Frontend.PostThreads :: more)%list
        /\ ~ In Frontend.PostThreads more)
  /\ (forall (s : Frontend.State) (themeInput : string) (id : JSON)
             (created : Reply JSON) (stream : Frontend.StreamReply) (thread : Reply JSON),
         createdId created = Some id ->
         let s' := Frontend.listener h
                     (Frontend.ClickStart themeInput created stream thread) s in
         Frontend.threadId s' = Some id
         /\ match String_ h id with
            | Returned tid =>
                Frontend.storedThreadId s' = Some tid
                /\ exists more,
                     Frontend.requests s'
                     = (Frontend.requests s
                          ++ Frontend.PostThreads
                          :: Frontend.PostRunsStream tid
                               (Frontend.StartInput (Frontend.themeValue themeInput))
                          :: more)%list
                     /\ ~ In Frontend.PostThreads more
            | Thrown _ =>
                Frontend.uiState s' = error
                /\ Frontend.requests s'
                   = (Frontend.requests s ++ [Frontend.PostThreads])%list
            end)
  /\ (forall (s : Frontend.State) (decision : string) (id : JSON)
             (created : Reply JSON) (stream : Frontend.StreamReply) (thread : Reply JSON),
         Frontend.threadId s = Some id ->
         truthy id = true ->
         let s' := Frontend.listener h
                     (Frontend.ClickDecision decision created stream thread) s in
         Frontend.threadId s' = Some id
         /\ match String_ h id with
            | Returned tid =>
                exists more,
                  Frontend.requests s'
                  = (Frontend.requests s
                       ++ Frontend.PostRunsStream tid (Frontend.ResumeCommand decision)
                       :: more)%list
                  /\ ~ In Frontend.PostThreads more
            | Thrown _ =>
                Frontend.uiState s' = error
                /\ Frontend.requests s' = Frontend.requests s
            end)
  /\ (forall (s : FrontendLs.State) (themeInput : string) (tid : JSON)
             (reply : FrontendLs.InvokeReply),
         FrontendLs.currentThreadId s = Some tid ->
         let s' := FrontendLs.listener h (FrontendLs.ClickStart themeInput reply) s in
         FrontendLs.uuids s' = FrontendLs.uuids s
         /\ match String_ h tid with
            | Returned _ =>
                FrontendLs.requests s'
                = (FrontendLs.requests s
                     ++ [FrontendLs.StartAction (FrontendLs.themeValue themeInput) tid])%list
            | Thrown _ =>
                FrontendLs.uiState s' = error
                /\ FrontendLs.requests s' = FrontendLs.requests s
            end)
  /\ (forall (s : FrontendLs.State) (themeInput : string)
             (reply : FrontendLs.InvokeReply),
         FrontendLs.currentThreadId s = None ->
         let s' := FrontendLs.listener h (FrontendLs.ClickStart themeInput reply) s in
         FrontendLs.requests s'
         = (FrontendLs.requests s
              ++ [FrontendLs.StartAction (FrontendLs.themeValue themeInput)
                    (JStr (randomUUID h (FrontendLs.uuids s)))])%list
         /\ FrontendLs.uuids s' = S (FrontendLs.uuids s))
  /\ (forall (s : FrontendLs.State) (decision : string) (tid : JSON)
             (reply : FrontendLs.InvokeReply),
         FrontendLs.currentThreadId s = Some tid ->
         let s' := FrontendLs.listener h (FrontendLs.ClickDecision decision reply) s in
         FrontendLs.uuids s' = FrontendLs.uuids s
         /\ match String_ h tid with
            | Returned _ =>
                FrontendLs.requests s'
                = (FrontendLs.requests s ++ [FrontendLs.ResumeAction tid decision])%list
            | Thrown _ =>
                FrontendLs.uiState s' = error
                /\ FrontendLs.requests s' = FrontendLs.requests s
            end).
Proof.
  assert (Hpoll : forall tid, ~ In Frontend.PostThreads [Frontend.GetThread tid])
    by (intros tid [Hin|[]]; discriminate).
  assert (Hrun : forall tid body, ~ In Frontend.PostThreads [Frontend.PostRunsStream tid body])
    by (intros tid body [Hin|[]]; discriminate).
  assert (Hboth : forall tid body,
             ~ In Frontend.PostThreads
                 [Frontend.PostRunsStream tid body; Frontend.GetThread tid])
    by (intros tid body [Hin|[Hin|[]]]; discriminate).
  split; [|split; [|split; [|split; [|split]]]].
  - intros s themeInput created stream thread. cbn [Frontend.listener]. cbv zeta.
    pose proof (start_effect h themeInput created stream thread s) as H. cbv zeta in H.
    destruct (createdId created) as [id|].
    + destruct H as (_ & H). destruct (String_ h id) as [tid|msg].
      * destruct H as (_ & [-> | ->] & _); eexists; (split; [reflexivity|]);
          [apply Hrun|apply Hboth].
      * destruct H as (_ & _ & ->). exists []. split; [reflexivity|intros []].
    + destruct H as (_ & _ & _ & -> & _). exists []. split; [reflexivity|intros []].
  - intros s themeInput id created stream thread Hid. cbn [Frontend.listener]. cbv zeta.
    pose proof (start_effect h themeInput created stream thread s) as H. cbv zeta in H.
    rewrite Hid in H. destruct H as (H1 & H). split; [exact H1|].
    destruct (String_ h id) as [tid|msg].
    + destruct H as (H2 & [-> | ->] & _); (split; [exact H2|]); eexists;
        (split; [reflexivity|]); [intros []|apply Hpoll].
    + destruct H as ((Hu & _) & _ & ->). split; [exact Hu|reflexivity].
  - intros s decision id created stream thread Hid Ht. cbn [Frontend.listener]. cbv zeta.
    pose proof (resume_effect h decision id created stream thread s Hid Ht) as H.
    cbv zeta in H. destruct H as (H1 & _ & H). split; [exact H1|].
    destruct (String_ h id) as [tid|msg].
    + destruct H as ([-> | ->] & _); eexists; (split; [reflexivity|]);
        [intros []|apply Hpoll].
    + destruct H as ((Hu & _) & ->). split; [exact Hu|reflexivity].
  - intros s themeInput tid reply Hcur. cbn [FrontendLs.listener]. cbv zeta.
    pose proof (start_ls_effect h themeInput reply s) as H. cbv zeta in H.
    destruct (idInUse_current h s tid Hcur) as (Hin & _). rewrite Hin, Hcur in H.
    destruct H as (_ & _ & H3 & _ & _ & _ & _ & H8). split; [exact H3|].
    destruct (String_ h tid); tauto.
  - intros s themeInput reply Hcur. cbn [FrontendLs.listener]. cbv zeta.
    pose proof (start_ls_effect h themeInput reply s) as H. cbv zeta in H.
    assert (Hin : idInUse h s = JStr (randomUUID h (FrontendLs.uuids s)))
      by (unfold idInUse; now rewrite Hcur).
    rewrite Hin, Hcur in H. cbn [String_] in H.
    destruct H as (_ & _ & H3 & _ & _ & _ & _ & H8 & _). split; [exact H8|exact H3].
  - intros s decision tid reply Hcur. cbn [FrontendLs.listener]. cbv zeta.
    pose proof (resume_ls_effect h decision reply s) as H. cbv zeta in H.
    destruct (idInUse_current h s tid Hcur) as (Hin & Ht & _). rewrite Hin, Hcur, Ht in H.
    destruct H as (_ & _ & H3 & _ & _ & H6). split; [exact H3|].
    destruct (String_ h tid); tauto.
Qed.

End ThreadIdFacts.

Lemma C1_witness :
  (let s' := Frontend.listener plainHost
               (Frontend.ClickStart "Topic" threadT1
                  (Frontend.StreamBody "text/event-stream" [] Frontend.EndOfBody)
                  (Body pausedWithReport)) onOldThread in
   Frontend.threadId s' = Some (JStr "t1")
   /\ Frontend.storedThreadId s' = Some "t1"
   /\ exists more,
        Frontend.requests s'
        = (Frontend.requests onOldThread
             ++ Frontend.PostThreads
             :: Frontend.PostRunsStream "t1"
                  (Frontend.StartInput (Frontend.themeValue "Topic"))
             :: more)%list
        /\ ~ In Frontend.PostThreads more)
  /\ (let s' := Frontend.listener plainHost
                  (Frontend.ClickDecision "retry" threadT1
                     (Frontend.StreamBody "text/event-stream" [] Frontend.EndOfBody)
                     (Body pausedWithReport)) onOldThread in
      Frontend.threadId s' = Some (JStr "old")
      /\ exists more,
           Frontend.requests s'
           = (Frontend.requests onOldThread
                ++ Frontend.PostRunsStream "old" (Frontend.ResumeCommand "retry")
                :: more)%list
           /\ ~ In Frontend.PostThreads more)
  /\ (let s' := FrontendLs.listener plainHost
                  (FrontendLs.ClickStart "Topic" completedReply) restoredT1 in
      FrontendLs.uuids s' = FrontendLs.uuids restoredT1
      /\ FrontendLs.requests s'
         = (FrontendLs.requests restoredT1
              ++ [FrontendLs.StartAction (FrontendLs.themeValue "Topic") (JStr "t1")])%list)
  /\ (let s := FrontendLs.loaded None in
      let s' := FrontendLs.listener plainHost
                  (FrontendLs.ClickStart "Topic" completedReply) s in
      FrontendLs.requests s'
      = (FrontendLs.requests s
           ++ [FrontendLs.StartAction (FrontendLs.themeValue "Topic")
                 (JStr (randomUUID plainHost (FrontendLs.uuids s)))])%list
      /\ FrontendLs.uuids s' = S (FrontendLs.uuids s))
  /\ (let s' := FrontendLs.listener plainHost
                  (FrontendLs.ClickDecision "retry" completedReply) restoredT1 in
      FrontendLs.uuids s' = FrontendLs.uuids restoredT1
      /\ FrontendLs.requests s'
         = (FrontendLs.requests restoredT1
              ++ [FrontendLs.ResumeAction (JStr "t1") "retry"])%list).
Proof.
  destruct (C1_thread_id_of_a_run plainHost) as (_ & H1 & H2 & H3 & H4 & H5).
  split; [|split; [|split; [|split]]].
  - apply (H1 onOldThread "Topic" (JStr "t1") threadT1
             (Frontend.StreamBody "text/event-stream" [] Frontend.EndOfBody)
             (Body pausedWithReport) eq_refl).
  - apply (H2 onOldThread "retry" (JStr "old") threadT1
             (Frontend.StreamBody "text/event-stream" [] Frontend.EndOfBody)
             (Body pausedWithReport) eq_refl eq_refl).
  - apply (H3 restoredT1 "Topic" (JStr "t1") completedReply eq_refl).
  - apply (H4 (FrontendLs.loaded None) "Topic" completedReply eq_refl).
  - apply (H5 restoredT1 "retry" (JStr "t1") completedReply eq_refl).
Defined.

(** C1 as stated fails on the LangServe client: two starts in a row,
    after a page load that found "t1" in storage, both run on "t1", and
    no id is made. *)
Lemma C1_counterexample :
  let start := FrontendLs.listener plainHost (FrontendLs.ClickStart "Topic" completedReply) in
  FrontendLs.storedThreadId (FrontendLs.loaded (Some "t1")) = Some "t1"
  /\ FrontendLs.requests (start (start restoredT1))
     = [FrontendLs.StartAction "Topic" (JStr "t1");
        FrontendLs.StartAction "Topic" (JStr "t1")]
  /\ FrontendLs.uuids (start (start restoredT1)) = 0.
Proof. vm_compute. repeat split. Qed.

(* --------------------------------------------------------------------- *)
(** ** Both clients: failures *)
(* --------------------------------------------------------------------- *)

Section FailureFacts.

Import Js Json.
Variable h : Host.

Lemma listener_keepsId (e : Frontend.Event) (s : Frontend.State) :
  e <> Frontend.ClickClear -> keepsId s (Frontend.listener h e s).
Proof.
  intros Hclear.
  destruct e as [themeInput created stream thread|decision created stream thread| | |];
    try (apply (any_listener h keepsId (keepsId_runwise h)); [exact Hclear|discriminate]).
  cbn. unfold keepsId. cbn. tauto.
Qed.

Lemma listener_ls_keepsId (e : FrontendLs.Event) (s : FrontendLs.State) :
  e <> FrontendLs.ClickClear -> keepsIdLs s (FrontendLs.listener h e s).
Proof.
  intros Hclear.
  destruct e as [themeInput reply|decision reply| | |];
    try (match goal with
         | |- keepsIdLs s (FrontendLs.listener h ?e s) =>
             exact (any_ls_act h keepsIdLs (keepsIdLs_runwise h)
                      (FrontendLsReport.Listened e) s
                      ltac:(discriminate) ltac:(discriminate))
         end).
  - cbn. unfold keepsIdLs. cbn. tauto.
  - now destruct Hclear.
Qed.

(** C9, as amended.  A [start] or a decision that fails (the request for
    a thread, the stream, the poll, the invoke request, a reply whose
    status is not a known one, or a thread id that has no text) leaves
    the client in the error state with a thread id still in memory and
    in storage: the one it was using, and for a [start] of the
    streaming client the one just created, when the creation succeeded
    (in storage only when that id has a text); the LangServe client
    replaces it only by a thread id the reply itself names.  Of the
    listeners only the one of the Clear button clears the thread id;
    beside it the load of the streaming client's page removes the
    stored id unless the poll shows an interrupt whose question and
    preview can be shown. *)
Theorem C9_failure_keeps_the_thread_id :
  (forall (s : Frontend.State) (themeInput : string)
          (created : Reply JSON) (stream : Frontend.StreamReply) (thread : Reply JSON),
      let s' := Frontend.listener h
                  (Frontend.ClickStart themeInput created stream thread) s in
      match createdId created with
      | None =>
          Frontend.uiState s' = error
          /\ Frontend.threadId s' = Frontend.threadId s
          /\ Frontend.storedThreadId s' = Frontend.storedThreadId s
      | Some id =>
          Frontend.threadId s' = Some id
          /\ match String_ h id with
             | Returned tid =>
                 Frontend.storedThreadId s' = Some tid
                 /\ (completed stream thread = None -> Frontend.uiState s' = error)
             | Thrown _ =>
                 Frontend.uiState s' = error
                 /\ Frontend.storedThreadId s' = Frontend.storedThreadId s
             end
      end)
  /\ (forall (s : Frontend.State) (decision : string) (id : JSON)
             (created : Reply JSON) (stream : Frontend.StreamReply) (thread : Reply JSON),
         Frontend.threadId s = Some id ->
         truthy id = true ->
         let s' := Frontend.listener h
                     (Frontend.ClickDecision decision created stream thread) s in
         Frontend.threadId s' = Some id
         /\ Frontend.storedThreadId s' = Frontend.storedThreadId s
         /\ match String_ h id with
            | Returned _ => completed stream thread = None -> Frontend.uiState s' = error
            | Thrown _ => Frontend.uiState s' = error
            end)
  /\ (forall (s : FrontendLs.State) (themeInput : string) (reply : FrontendLs.InvokeReply),
         failing reply ->
         let s' := FrontendLs.listener h (FrontendLs.ClickStart themeInput reply) s in
         FrontendLs.uiState s' = error
         /\ FrontendLs.threadId s' <> None
         /\ (FrontendLs.storedThreadId s <> None \/ FrontendLs.currentThreadId s = None ->
             FrontendLs.storedThreadId s' <> None)
         /\ (namesNoThread reply -> FrontendLs.threadId s' = Some (idInUse h s)))
  /\ (forall (s : FrontendLs.State) (decision : string) (tid : JSON)
             (reply : FrontendLs.InvokeReply),
         FrontendLs.currentThreadId s = Some tid ->
         failing reply ->
         let s' := FrontendLs.listener h (FrontendLs.ClickDecision decision reply) s in
         FrontendLs.uiState s' = error
         /\ FrontendLs.threadId s' <> None
         /\ (FrontendLs.storedThreadId s <> None -> FrontendLs.storedThreadId s' <> None)
         /\ (namesNoThread reply -> FrontendLs.threadId s' = Some tid))
  /\ (forall (e : Frontend.Event) (s : Frontend.State),
         e <> Frontend.ClickClear -> keepsId s (Frontend.listener h e s))
  /\ (forall (e : FrontendLs.Event) (s : FrontendLs.State),
         e <> FrontendLs.ClickClear -> keepsIdLs s (FrontendLs.listener h e s))
  /\ (forall s : Frontend.State,
         Frontend.threadId (Frontend.listener h Frontend.ClickClear s) = None
         /\ Frontend.storedThreadId (Frontend.listener h Frontend.ClickClear s) = None)
  /\ (forall s : FrontendLs.State,
         FrontendLs.threadId (FrontendLs.listener h FrontendLs.ClickClear s) = None
         /\ FrontendLs.storedThreadId (FrontendLs.listener h FrontendLs.ClickClear s) = None)
  /\ (forall (saved : string) (thread : Reply JSON),
         saved <> EmptyString ->
         Frontend.storedThreadId
           (Frontend.initAsync h thread (Frontend.loaded (Some saved)))
         = match actionable h thread with
           | Some payload =>
               match shownFor h payload with
               | Some _ => Some saved
               | None => None
               end
           | None => None
           end).
Proof.
  repeat match goal with |- _ /\ _ => split end.
  - intros s themeInput created stream thread. cbn [Frontend.listener]. cbv zeta.
    pose proof (start_effect h themeInput created stream thread s) as H. cbv zeta in H.
    destruct (createdId created) as [id|].
    + destruct H as (H1 & H). split; [exact H1|].
      destruct (String_ h id) as [tid|msg].
      * destruct H as (H2 & _ & H3). tauto.
      * destruct H as ((Hu & _) & H2 & _). tauto.
    + destruct H as ((Hu & _) & H1 & H2 & _). tauto.
  - intros s decision id created stream thread Hid Ht. cbn [Frontend.listener]. cbv zeta.
    pose proof (resume_effect h decision id created stream thread s Hid Ht) as H.
    cbv zeta in H. destruct H as (H1 & H2 & H).
    split; [exact H1|]. split; [exact H2|].
    destruct (String_ h id) as [tid|msg]; [tauto|]. destruct H as ((Hu & _) & _). exact Hu.
  - intros s themeInput reply Hfail. cbn [FrontendLs.listener]. cbv zeta.
    pose proof (start_ls_effect h themeInput reply s) as H. cbv zeta in H.
    destruct H as (H1 & H2 & _ & H4 & H5 & _). tauto.
  - intros s decision tid reply Hcur Hfail. cbn [FrontendLs.listener]. cbv zeta.
    pose proof (resume_ls_effect h decision reply s) as H. cbv zeta in H.
    destruct (idInUse_current h s tid Hcur) as (Hin & _). rewrite Hin in H.
    destruct H as (H1 & H2 & _ & H4 & H5 & _). tauto.
  - exact listener_keepsId.
  - exact listener_ls_keepsId.
  - intros s. cbn. tauto.
  - intros s. cbn. tauto.
  - intros saved thread Hne.
    destruct (initAsync_effect h saved thread Hne) as (_ & Hi).
    destruct (actionable h thread) as [payload|]; [|tauto].
    destruct Hi as (_ & _ & _ & Hi).
    destruct (shownFor h payload) as [[question entries]|]; tauto.
Qed.

End FailureFacts.

Lemma C9_witness :
  (let s' := Frontend.listener plainHost
               (Frontend.ClickDecision "y" threadT1
                  (Frontend.StreamNetworkError "Failed to fetch")
                  (Body pausedWithReport))
               onOldThread in
   Frontend.threadId s' = Some (JStr "old")
   /\ Frontend.storedThreadId s' = Frontend.storedThreadId onOldThread
   /\ Frontend.uiState s' = error)
  /\ (let s' := FrontendLs.listener plainHost
                  (FrontendLs.ClickStart "Topic" (FrontendLs.InvokeHttpError "500" "down"))
                  restoredT1 in
      FrontendLs.uiState s' = error
      /\ FrontendLs.threadId s' = Some (JStr "t1")
      /\ FrontendLs.storedThreadId s' <> None)
  /\ (let s' := FrontendLs.listener plainHost
                  (FrontendLs.ClickDecision "y" oddReply) restoredT1 in
      FrontendLs.uiState s' = error
      /\ FrontendLs.threadId s' <> None
      /\ FrontendLs.storedThreadId s' <> None)
  /\ keepsId onOldThread (Frontend.listener plainHost Frontend.ClickCancel onOldThread)
  /\ keepsIdLs restoredT1 (FrontendLs.listener plainHost FrontendLs.ClickClearLog restoredT1)
  /\ Frontend.storedThreadId
       (Frontend.initAsync plainHost (Body pausedWithReport) (Frontend.loaded (Some "t1")))
     = Some "t1".
Proof.
  destruct (C9_failure_keeps_the_thread_id plainHost)
    as (_ & H2 & H3 & H4 & H5 & H6 & _ & _ & H9).
  split; [|split; [|split; [|split; [|split]]]].
  - destruct (H2 onOldThread "y" (JStr "old") threadT1
                (Frontend.StreamNetworkError "Failed to fetch")
                (Body pausedWithReport) eq_refl eq_refl) as (A & B & C).
    split; [exact A|]. split; [exact B|]. apply C. reflexivity.
  - destruct (H3 restoredT1 "Topic" (FrontendLs.InvokeHttpError "500" "down") I)
      as (A & B & C & D).
    split; [exact A|]. split; [exact (D I)|]. apply C. left. discriminate.
  - destruct (H4 restoredT1 "y" (JStr "t1") oddReply eq_refl eq_refl) as (A & B & C & _).
    split; [exact A|]. split; [exact B|]. apply C. discriminate.
  - apply H5. discriminate.
  - apply H6. discriminate.
  - apply (H9 "t1" (Body pausedWithReport)). discriminate.
Defined.

(** C9 as stated fails twice.  The load of the streaming client's page,
    which is not the Clear button, removes the id "t1" from storage when
    the snapshot polled shows no interrupt; and a [start] of the
    LangServe client that fails on a reply of unknown status ends in the
    error state with the thread id changed from "t1" to the one the
    reply names. *)
Lemma C9_counterexample :
  (Frontend.storedThreadId (Frontend.loaded (Some "t1")) = Some "t1"
   /\ Frontend.storedThreadId
        (Frontend.initAsync plainHost (Body blankReport) (Frontend.loaded (Some "t1")))
      = None)
  /\ (let s' := FrontendLs.listener plainHost
                  (FrontendLs.ClickStart "Topic" oddReply) restoredT1 in
      FrontendLs.threadId restoredT1 = Some (JStr "t1")
      /\ FrontendLs.uiState s' = error
      /\ FrontendLs.threadId s' = Some (JStr "srv")
      /\ FrontendLs.storedThreadId s' = Some "srv").
Proof. vm_compute. repeat split. Qed.

(* --------------------------------------------------------------------- *)
(** ** The streaming client: requests that fail *)
(* --------------------------------------------------------------------- *)

Section StreamingFailures.

Import Js Json Extract Frontend.
Variable h : Host.





End StreamingFailures.


(* --------------------------------------------------------------------- *)
(** ** The LangServe client: what a reply leads to *)
(* --------------------------------------------------------------------- *)

Section LsReplyFacts.

Import Js Json FrontendLs.
Variable h : Host.

Lemma previewOf_truthy (out : JSON) : truthy (previewOf out) = true.
Proof.
  unfold previewOf. destruct (optProp "analysis_preview" (prop "interrupt" out)) as [v|];
    [|reflexivity].
  destruct (truthy v) eqn:T; [exact T|reflexivity].
Qed.

Lemma renderPreview_ls_run (out : JSON) (s : State) :
  renderPreview h (Some (previewOf out)) s
  = match shownPreview h out with
    | Returned items => (Returned tt, set_previewEl items s)
    | Thrown msg => (Thrown msg, set_previewEl [] s)
    end.
Proof.
  unfold renderPreview, shownPreview. rewrite bind_exec.
  pose proof (previewOf_truthy out) as T.
  destruct (previewOf out) as [| | | |items|fields]; try discriminate;
    try rewrite T; try reflexivity.
Qed.

(** The decision on the status of the [output]. *)
Lemma decideOutput_decided (what waiting : string) (out : JSON) (s : State) :
  out <> JNull ->
  errorBanner s = EmptyString ->
  reportCard s = false ->
  decidedByStatus h out (caught h (decideOutput h what waiting (Some out) s)).
Proof.
  intros Hnn Hbanner Hcard.
  assert (Hbody : decideOutput h what waiting (Some out) s
                  = (if statusIs out "interrupted" then
                       exec (setUiState waiting_approval) ;;
                       exec (set_approvalCard true) ;;
                       question <- lift (questionText h out) ;;
                       exec (set_questionEl question) ;;
                       renderPreview h (Some (previewOf out)) ;;
                       exec (addLog h "HITL" waiting)
                     else
                       exec (set_approvalCard false) ;;
                       if statusIs out "completed" then
                         exec (setUiState done) ;;
                         exec (set_reportCard true) ;;
                         report <- lift (stringOrEmpty h (prop "report" out)) ;;
                         exec (set_reportEl report) ;;
                         exec (addLog h "DONE" "Completed (report generated).")
                       else
                         exec (setUiState error) ;;
                         exec (setError
                                 "Unexpected response format. Please check the 'status' field.") ;;
                         exec (addLog h "ERROR"
                                 ("Unexpected response format (" ++ what ++ ").")))%run s).
  { unfold decideOutput. destruct out; try reflexivity. now destruct Hnn. }
  remember (caught h (decideOutput h what waiting (Some out) s)) as s' eqn:Hs'.
  rewrite Hbody in Hs'. clear Hbody. unfold decidedByStatus.
  destruct (statusIs out "interrupted").
  - rewrite !bind_exec in Hs'.
    destruct (questionText h out) as [question|msg].
    + rewrite bind_lift_returned, bind_exec in Hs'. unfold bind at 1 in Hs'.
      rewrite renderPreview_ls_run in Hs'.
      destruct (shownPreview h out) as [items|msg]; subst s'; cbn; tauto.
    + rewrite bind_lift_thrown in Hs'. subst s'. cbn. tauto.
  - rewrite bind_exec in Hs'. destruct (statusIs out "completed").
    + rewrite !bind_exec in Hs'.
      destruct (stringOrEmpty h (prop "report" out)) as [report|msg].
      * rewrite bind_lift_returned, !bind_exec in Hs'. subst s'. cbn. tauto.
      * rewrite bind_lift_thrown in Hs'. subst s'. cbn. tauto.
    + rewrite !bind_exec in Hs'. subst s'. cbn. tauto.
Qed.

(** The thread id of the reply is adopted and the reply is logged, when
    the thread id and the status of the reply and the id in use have a
    text. *)
Lemma header_run (what waiting : string) (data out tid : JSON) (s0 : State) :
  prop "output" data = Some out ->
  hasText (prop "thread_id" out) = true ->
  hasText (prop "status" out) = true ->
  threadId s0 = Some tid ->
  truthy tid = true ->
  convertible tid = true ->
  exists s2,
    handleOutput h what waiting data s0 = decideOutput h what waiting (Some out) s2
    /\ threadId s2 = Some (idAfter out tid)
    /\ errorBanner s2 = errorBanner s0
    /\ reportCard s2 = reportCard s0.
Proof.
  intros Hout Hid Hst Ht Htr Hcv.
  assert (Hdata : handleOutput h what waiting data s0
                  = (adoptThreadId h (Some out) ;;
                     summary <- summarizeOutput h (Some out) ;;
                     exec (addLog h "API" (what ++ " response: " ++ summary)) ;;
                     decideOutput h what waiting (Some out))%run s0).
  { unfold handleOutput. destruct data; rewrite ?Hout; try reflexivity. discriminate. }
  rewrite Hdata. clear Hdata.
  assert (Hstatus : exists st,
             match optProp "status" (Some out) with
             | Some v => if truthy v
                         then match String_ h v with
                              | Returned text => Returned ("status=" ++ text)
                              | Thrown message => Thrown message
                              end
                         else Returned "status=?"
             | None => Returned "status=?"
             end = Returned st).
  { cbn [optProp]. unfold hasText in Hst.
    destruct (prop "status" out) as [v|]; [|eauto].
    destruct (truthy v); [|eauto].
    destruct (String_convertible h v Hst) as (text & ->). eauto. }
  destruct Hstatus as (st & Hstatus).
  destruct (String_convertible h tid Hcv) as (own & Hown).
  unfold adoptThreadId, summarizeOutput, idAfter, hasText in *.
  rewrite Hstatus. clear Hstatus. cbn [optProp] in *.
  destruct (prop "thread_id" out) as [v|]; [destruct (truthy v) eqn:Tv|].
  - destruct (String_convertible h v Hid) as (text & Hv).
    unfold persistThreadId. rewrite Hv.
    unfold bind, exec, lift, gets, ret.
    eexists. split; [reflexivity|]. cbn. tauto.
  - unfold bind, exec, lift, gets, ret, currentThreadId. rewrite Ht, Htr, Hown.
    eexists. split; [reflexivity|]. cbn. tauto.
  - unfold bind, exec, lift, gets, ret, currentThreadId. rewrite Ht, Htr, Hown.
    eexists. split; [reflexivity|]. cbn. tauto.
Qed.

(** A request answered by a body with an [output]. *)
Lemma invoked_decided (input : InvokeInput) (what waiting : string)
      (data out tid : JSON) (s0 : State) :
  prop "output" data = Some out ->
  out <> JNull ->
  hasText (prop "thread_id" out) = true ->
  hasText (prop "status" out) = true ->
  threadId s0 = Some tid ->
  truthy tid = true ->
  convertible tid = true ->
  errorBanner s0 = EmptyString ->
  reportCard s0 = false ->
  let s' := caught h (invoked h input what waiting (InvokeBody data) s0) in
  decidedByStatus h out s'
  /\ threadId s' = Some (idAfter out tid)
  /\ requests s' = (requests s0 ++ [input])%list
  /\ currentController s' = false.
Proof.
  intros Hout Hnn Hid Hst Ht Htr Hcv Hbanner Hcard. cbv zeta.
  pose proof (invoked_effect h input what waiting (InvokeBody data) s0) as (I1 & _ & I3 & _).
  destruct (caught_fields h (invoked h input what waiting (InvokeBody data) s0))
    as (C1 & _ & C3 & _ & C5 & _).
  rewrite C3, C5, I1, I3, C1. clear C1 C3 C5 I1 I3.
  rewrite invoked_body.
  destruct (sentLs_fields h input (InvokeBody data) s0) as (F1 & _ & _ & _ & _ & _ & F7 & F8).
  destruct (header_run what waiting data out tid (sentLs h input (InvokeBody data) s0)
              Hout Hid Hst (eq_trans F1 Ht) Htr Hcv)
    as (s2 & -> & H1 & H2 & H3).
  split; [|split; [|split; reflexivity]].
  - apply decideOutput_decided; [exact Hnn|congruence|congruence].
  - pose proof (any_ls_decideOutput h SameIds (SameIds_stepwise h) what waiting (Some out) s2)
      as (T1 & _).
    now rewrite T1.
Qed.

Lemma startedLs_fields (themeInput text : string) (s : State) :
  threadId (startedLs h themeInput text s) = Some (idInUse h s)
  /\ requests (startedLs h themeInput text s) = requests s
  /\ errorBanner (startedLs h themeInput text s) = EmptyString
  /\ reportCard (startedLs h themeInput text s) = false
  /\ approvalCard (startedLs h themeInput text s) = false.
Proof.
  destruct (ensured_fields h (resetViewForRun s)) as (E1 & E2 & _ & _ & E5 & E6 & E7 & _).
  unfold startedLs. cbn. rewrite E1, E2, E5, E6, E7. repeat split.
Qed.

Lemma resumedLs_fields (decision text : string) (s : State) :
  threadId (resumedLs h decision text s) = Some (idInUse h s)
  /\ requests (resumedLs h decision text s) = requests s
  /\ errorBanner (resumedLs h decision text s) = EmptyString
  /\ reportCard (resumedLs h decision text s) = false
  /\ approvalCard (resumedLs h decision text s) = false.
Proof.
  destruct (ensured_fields h (resetViewForRun s)) as (E1 & E2 & _ & _ & E5 & E6 & E7 & _).
  unfold resumedLs. cbn. rewrite E1, E2, E5, E6, E7. repeat split.
Qed.

(** The status decides.  A [start], and a decision, made on a thread id
    that is truthy and has a text, whose request is answered by a body
    with an [output] whose thread id and status, if any, have a text,
    ends as the status of the output calls for: "interrupted" shows
    the approval card and makes the client wait for approval, unless
    the question or the preview cannot be shown, which is an error;
    "completed" shows the report card and the report, unless the
    report has no text, which is an error; anything else is an error
    that names the status field.  The client is then on the thread the
    output names, else on the one it sent, and holds no controller. *)
Theorem ls_status_decides :
  (forall (s : State) (themeInput text : string) (data out : JSON),
      String_ h (idInUse h s) = Returned text ->
      truthy (idInUse h s) = true ->
      prop "output" data = Some out ->
      out <> JNull ->
      hasText (prop "thread_id" out) = true ->
      hasText (prop "status" out) = true ->
      let s' := listener h (ClickStart themeInput (InvokeBody data)) s in
      decidedByStatus h out s'
      /\ threadId s' = Some (idAfter out (idInUse h s))
      /\ requests s'
         = (requests s ++ [StartAction (themeValue themeInput) (idInUse h s)])%list
      /\ currentController s' = false)
  /\ (forall (s : State) (decision text : string) (data out : JSON),
         String_ h (idInUse h s) = Returned text ->
         truthy (idInUse h s) = true ->
         prop "output" data = Some out ->
         out <> JNull ->
         hasText (prop "thread_id" out) = true ->
         hasText (prop "status" out) = true ->
         let s' := listener h (ClickDecision decision (InvokeBody data)) s in
         decidedByStatus h out s'
         /\ threadId s' = Some (idAfter out (idInUse h s))
         /\ requests s' = (requests s ++ [ResumeAction (idInUse h s) decision])%list
         /\ currentController s' = false).
Proof.
  split.
  - intros s themeInput text data out Htext Htr Hout Hnn Hid Hst. cbv zeta.
    cbn [listener]. rewrite runWithUi_caught, start_ls_run.
    change (idInUse h (resetViewForRun (setError EmptyString s))) with (idInUse h s).
    rewrite Htext.
    destruct (startedLs_fields themeInput text (setError EmptyString s))
      as (P1 & P2 & P3 & P4 & _).
    change (idInUse h (setError EmptyString s)) with (idInUse h s) in P1.
    change (requests (setError EmptyString s)) with (requests s) in P2.
    rewrite <- P2.
    apply (invoked_decided _ _ _ data out (idInUse h s)); try assumption.
    apply (String_returned h _ _ Htext).
  - intros s decision text data out Htext Htr Hout Hnn Hid Hst. cbv zeta.
    cbn [listener]. unfold handleDecision. rewrite runWithUi_caught, resume_ls_run.
    change (idInUse h (resetViewForRun (setError EmptyString (setUiState resuming s))))
      with (idInUse h s).
    rewrite Htext, Htr. cbn [negb].
    destruct (resumedLs_fields decision text (setError EmptyString (setUiState resuming s)))
      as (P1 & P2 & P3 & P4 & _).
    change (idInUse h (setError EmptyString (setUiState resuming s)))
      with (idInUse h s) in P1.
    change (requests (setError EmptyString (setUiState resuming s)))
      with (requests s) in P2.
    rewrite <- P2.
    apply (invoked_decided _ _ _ data out (idInUse h s)); try assumption.
    apply (String_returned h _ _ Htext).
Qed.

End LsReplyFacts.

(** A [start] on the thread restored when the page loaded, answered by a
    pause. *)
Lemma ls_status_decides_witness :
  let s' := FrontendLs.listener plainHost (FrontendLs.ClickStart "Topic" pausedReply)
              restoredT1 in
  decidedByStatus plainHost pausedOutput s'
  /\ FrontendLs.threadId s' = Some (JStr "t1")
  /\ FrontendLs.requests s' = [FrontendLs.StartAction "Topic" (JStr "t1")]
  /\ FrontendLs.currentController s' = false.
Proof.
  cbv zeta.
  destruct (ls_status_decides plainHost) as (H & _).
  apply (H restoredT1 "Topic" "t1" (JObj [("output", pausedOutput)]) pausedOutput);
    try reflexivity.
  discriminate.
Defined.

(* --------------------------------------------------------------------- *)
(** ** The LangServe client: requests that fail, and the controller *)
(* --------------------------------------------------------------------- *)

Section LsFailureFacts.

Import Js Json FrontendLs.
Variable h : Host.

(** Failures of the request.  A [start], and a decision made on a
    truthy thread id, whose request is aborted, refused or does not get
    through ends in the error state; the banner and the newest log
    entry, tagged ERROR, hold the words that go with the failure: the
    reason of an abort, the [detail] of the error body when it has one,
    else the status and the text of the response, or the message of the
    network error.  The one request was sent, no controller is held, and
    both cards are hidden.  When the thread id in use has no text, the
    run ends in the same way before its request is sent, with the words
    of the failed conversion. *)
Theorem ls_failures_are_reported :
  (forall (s : State) (themeInput : string) (reply : InvokeReply),
      (forall data, reply <> InvokeBody data) ->
      let s' := listener h (ClickStart themeInput reply) s in
      match String_ h (idInUse h s) with
      | Returned _ =>
          uiState s' = error
          /\ errorBanner s' = failureText h reply
          /\ (exists entry, nth_error (logItems s') 0 = Some entry
                            /\ tag entry = "ERROR"
                            /\ message entry = failureText h reply)
          /\ requests s'
             = (requests s ++ [StartAction (themeValue themeInput) (idInUse h s)])%list
          /\ currentController s' = false
          /\ approvalCard s' = false
          /\ reportCard s' = false
      | Thrown msg =>
          uiState s' = error
          /\ errorBanner s' = msg
          /\ (exists entry, nth_error (logItems s') 0 = Some entry
                            /\ tag entry = "ERROR"
                            /\ message entry = msg)
          /\ requests s' = requests s
          /\ approvalCard s' = false
          /\ reportCard s' = false
      end)
  /\ (forall (s : State) (decision : string) (reply : InvokeReply),
         truthy (idInUse h s) = true ->
         (forall data, reply <> InvokeBody data) ->
         let s' := listener h (ClickDecision decision reply) s in
         match String_ h (idInUse h s) with
         | Returned _ =>
             uiState s' = error
             /\ errorBanner s' = failureText h reply
             /\ (exists entry, nth_error (logItems s') 0 = Some entry
                               /\ tag entry = "ERROR"
                               /\ message entry = failureText h reply)
             /\ requests s' = (requests s ++ [ResumeAction (idInUse h s) decision])%list
             /\ currentController s' = false
             /\ approvalCard s' = false
             /\ reportCard s' = false
         | Thrown msg =>
             uiState s' = error
             /\ errorBanner s' = msg
             /\ (exists entry, nth_error (logItems s') 0 = Some entry
                               /\ tag entry = "ERROR"
                               /\ message entry = msg)
             /\ requests s' = requests s
             /\ approvalCard s' = false
             /\ reportCard s' = false
         end).
Proof.
  split.
  - intros s themeInput reply Hno. cbv zeta. cbn [listener].
    rewrite runWithUi_caught, start_ls_run.
    change (idInUse h (resetViewForRun (setError EmptyString s))) with (idInUse h s).
    destruct (String_ h (idInUse h s)) as [text|msg].
    + rewrite (invoked_fails h _ _ _ _ _ Hno).
      destruct (caught_fields h
                  (Thrown (failureText h reply),
                   sentLs h (StartAction (themeValue themeInput) (idInUse h s)) reply
                     (startedLs h themeInput text (setError EmptyString s))))
        as (_ & _ & C3 & _ & C5 & C6 & C7 & C8 & C9 & C10).
      cbn [fst snd] in *.
      destruct (sentLs_fields h (StartAction (themeValue themeInput) (idInUse h s)) reply
                  (startedLs h themeInput text (setError EmptyString s)))
        as (_ & _ & F3 & _ & F5 & F6 & F7 & _).
      destruct (startedLs_fields h themeInput text (setError EmptyString s))
        as (_ & P2 & _ & P4 & P5).
      rewrite C3, C5, C6, C7, F3, F5, F6, F7, P2, P4, P5. tauto.
    + destruct (caught_fields h
                  (Thrown msg,
                   setUiState starting
                     (ensured h (resetViewForRun (setError EmptyString s)))))
        as (_ & _ & C3 & _ & _ & C6 & C7 & C8 & C9 & C10).
      cbn [fst snd] in *.
      destruct (ensured_fields h (resetViewForRun (setError EmptyString s)))
        as (_ & E2 & _ & _ & E5 & E6 & _).
      rewrite C3, C6, C7. cbn. rewrite E2, E5, E6. tauto.
  - intros s decision reply Htr Hno. cbv zeta. cbn [listener]. unfold handleDecision.
    rewrite runWithUi_caught, resume_ls_run.
    change (idInUse h (resetViewForRun (setError EmptyString (setUiState resuming s))))
      with (idInUse h s).
    rewrite Htr. cbn [negb].
    destruct (String_ h (idInUse h s)) as [text|msg].
    + rewrite (invoked_fails h _ _ _ _ _ Hno).
      destruct (caught_fields h
                  (Thrown (failureText h reply),
                   sentLs h (ResumeAction (idInUse h s) decision) reply
                     (resumedLs h decision text
                        (setError EmptyString (setUiState resuming s)))))
        as (_ & _ & C3 & _ & C5 & C6 & C7 & C8 & C9 & C10).
      cbn [fst snd] in *.
      destruct (sentLs_fields h (ResumeAction (idInUse h s) decision) reply
                  (resumedLs h decision text
                     (setError EmptyString (setUiState resuming s))))
        as (_ & _ & F3 & _ & F5 & F6 & F7 & _).
      destruct (resumedLs_fields h decision text
                  (setError EmptyString (setUiState resuming s)))
        as (_ & P2 & _ & P4 & P5).
      rewrite C3, C5, C6, C7, F3, F5, F6, F7, P2, P4, P5. tauto.
    + destruct (caught_fields h
                  (Thrown msg,
                   setUiState resuming
                     (ensured h
                        (resetViewForRun
                           (setError EmptyString (setUiState resuming s))))))
        as (_ & _ & C3 & _ & _ & C6 & C7 & C8 & C9 & C10).
      cbn [fst snd] in *.
      destruct (ensured_fields h
                  (resetViewForRun (setError EmptyString (setUiState resuming s))))
        as (_ & E2 & _ & _ & E5 & E6 & _).
      rewrite C3, C6, C7. cbn. rewrite E2, E5, E6. tauto.
Qed.

Lemma act_ls_controller (a : FrontendLsReport.Action) (s : State) :
  currentController s = false ->
  currentController (FrontendLsReport.act h a s) = false.
Proof.
  intros H.
  destruct a as [[themeInput reply|decision reply| | | ]
                |clipboard|ymd hm themeInput];
    try (match goal with
         | |- currentController (FrontendLsReport.act h ?a s) = false =>
             exact (any_ls_act h Released (Released_runwise h) a s
                      ltac:(discriminate) ltac:(discriminate) H)
         end);
    exact H.
Qed.

(** The controller.  Between the actions on its page the LangServe
    client holds no controller, whatever became of its requests; so the
    Cancel button, pressed when no request is under way, does nothing at
    all. *)
Theorem ls_cancel_between_requests_does_nothing
        (stored : option string) (actions : list FrontendLsReport.Action) :
  currentController (FrontendLsReport.session h stored actions) = false
  /\ listener h ClickCancel (FrontendLsReport.session h stored actions)
     = FrontendLsReport.session h stored actions.
Proof.
  assert (H : currentController (FrontendLsReport.session h stored actions) = false).
  { unfold FrontendLsReport.session.
    induction actions as [|a actions IH] using rev_ind; cbn [fold_left].
    - unfold init. cbv zeta. now destruct (restoreThreadId _).
    - rewrite fold_left_app. cbn [fold_left]. now apply act_ls_controller. }
  split; [exact H|]. cbn [listener]. unfold cancelInFlight. now rewrite H.
Qed.

End LsFailureFacts.

(** A [start] that the user aborts. *)
Lemma ls_failures_are_reported_witness :
  let s' := FrontendLs.listener plainHost
              (FrontendLs.ClickStart "Topic"
                 (FrontendLs.InvokeAborted (Some FrontendLs.user))) restoredT1 in
  FrontendLs.uiState s' = error
  /\ FrontendLs.errorBanner s' = "Request aborted by the user."
  /\ (exists entry, nth_error (FrontendLs.logItems s') 0 = Some entry
                    /\ FrontendLs.tag entry = "ERROR"
                    /\ FrontendLs.message entry = "Request aborted by the user.")
  /\ FrontendLs.requests s' = [FrontendLs.StartAction "Topic" (JStr "t1")]
  /\ FrontendLs.currentController s' = false
  /\ FrontendLs.approvalCard s' = false
  /\ FrontendLs.reportCard s' = false.
Proof.
  cbv zeta.
  destruct (ls_failures_are_reported plainHost) as (H & _).
  apply (H restoredT1 "Topic" (FrontendLs.InvokeAborted (Some FrontendLs.user))).
  discriminate.
Defined.

(* --------------------------------------------------------------------- *)
(** ** The LangServe client: a decision without a thread *)
(* --------------------------------------------------------------------- *)

Section LsNoThread.

Import Js Json FrontendLs.
Variable h : Host.

(** A decision without a thread.  When no thread id is in use, a
    decision does not stop at the missing id: the client makes up an
    identifier, keeps it in memory and in storage, and sends the resume
    on it.  The refusal "Missing thread_id" is reached only when the
    identifier made up is the empty string; then nothing is sent. *)
Theorem ls_decision_makes_up_a_thread
        (s : State) (decision : string) (reply : InvokeReply) :
  currentThreadId s = None ->
  let id := randomUUID h (uuids s) in
  let s' := listener h (ClickDecision decision reply) s in
  uuids s' = S (uuids s)
  /\ if nonEmpty id
     then requests s' = (requests s ++ [ResumeAction (JStr id) decision])%list
          /\ threadId s' <> None
          /\ storedThreadId s' <> None
     else requests s' = requests s
          /\ uiState s' = error
          /\ errorBanner s' = "Missing thread_id. Click 'Run' first.".
Proof.
  intros Hcur. cbv zeta. cbn [listener].
  pose proof (resume_ls_effect h decision reply s) as H. cbv zeta in H.
  assert (Hin : idInUse h s = JStr (randomUUID h (uuids s)))
    by (unfold idInUse; now rewrite Hcur).
  rewrite Hin, Hcur in H. cbn [truthy String_] in H.
  destruct H as (H1 & H2 & H3 & _ & _ & H6).
  split; [exact H3|].
  destruct (nonEmpty (randomUUID h (uuids s))).
  - destruct H6 as (H6 & _). repeat split; [exact H6|exact H1|]. apply H2. now right.
  - exact H6.
Qed.

End LsNoThread.

(** A decision on a page that was loaded without a stored thread id. *)
Lemma ls_decision_makes_up_a_thread_witness :
  let s := FrontendLs.init plainHost (FrontendLs.loaded None) in
  let s' := FrontendLs.listener plainHost
              (FrontendLs.ClickDecision "y" (FrontendLs.InvokeHttpError "404" "no thread")) s in
  FrontendLs.uuids s' = 1
  /\ FrontendLs.requests s' = [FrontendLs.ResumeAction (JStr "uuid") "y"]
  /\ FrontendLs.threadId s' <> None
  /\ FrontendLs.storedThreadId s' <> None.
Proof.
  cbv zeta.
  apply (ls_decision_makes_up_a_thread plainHost
           (FrontendLs.init plainHost (FrontendLs.loaded None)) "y"
           (FrontendLs.InvokeHttpError "404" "no thread")).
  reflexivity.
Defined.

(* --------------------------------------------------------------------- *)
(** ** Both clients: the log over the life of a page *)
(* --------------------------------------------------------------------- *)

Section LogGrowth.

Import Js Json Extract Frontend FrontendReport.
Variable h : Host.

Let HG : Runwise h Grown := Grown_runwise h.
Let HS : Stepwise h Grown := run_steps HG.

Lemma act_grown (a : Action) (s : State) :
  a <> Listened ClickClear -> a <> Listened ClickClearLog ->
  grown (logItems s) (logItems (act h a s)).
Proof.
  intros Hclear Hlog.
  change (Grown s (act h a s)).
  destruct a as [e|clipboard|ymd hm themeInput]; cbn [act].
  - apply (any_listener h Grown HG); congruence.
  - unfold copyReport. destruct (negb _); [apply (step_log HS)|].
    destruct clipboard; [apply (step_refl h Grown HS)| |];
      (eapply (step_trans HS); [|apply (step_log HS)]); view_step HS.
  - unfold downloadReport. destruct (negb _); apply (step_log HS).
Qed.

Lemma restore_grown (saved : string) (thread : Reply JSON) :
  keeps State Grown (restore h saved thread).
Proof.
  unfold restore.
  apply (keeps_bind _ _ (step_trans HS)); [apply (any_getThread h Grown HS)|intros t].
  steps (step_refl h Grown HS) (step_trans HS);
    try apply (any_renderPreview h Grown HS);
    first [apply (step_log HS)|apply grown_refl].
Qed.

Lemma initAsync_grown (thread : Reply JSON) (s : State) :
  Grown s (initAsync h thread s).
Proof.
  unfold initAsync. cbv zeta.
  set (s0 := addLogEntry h _ (setWork h "-" (setUiState idle s))).
  assert (H0 : Grown s s0).
  { unfold s0. eapply (step_trans HS); [|apply (step_log HS)]. apply grown_refl. }
  destruct (restoreThreadId s0) as [saved|]; [|exact H0].
  pose proof (restore_grown saved thread s0) as Hr.
  destruct (restore h saved thread s0) as [[[]|msg] s1]; cbn [snd] in Hr.
  - exact (step_trans HS _ _ _ H0 Hr).
  - eapply (step_trans HS); [exact (step_trans HS _ _ _ H0 Hr)|].
    eapply (step_trans HS); [|apply (step_log HS)]. apply grown_refl.
Qed.

Lemma length_addLogEntry (a : LogArgs) (s : State) :
  List.length (logItems (addLogEntry h a s)) <= 80.
Proof. rewrite logItems_addLogEntry, length_firstn. unfold MAX_LOG_ITEMS. lia. Qed.

Lemma session_log_bound (stored : option string) (thread : Reply JSON)
      (actions : list Action) :
  List.length (logItems (session h stored thread actions)) <= 80.
Proof.
  unfold session.
  induction actions as [|a actions IH] using rev_ind; cbn [fold_left].
  - eapply grown_length; [apply initAsync_grown|]. cbn. lia.
  - rewrite fold_left_app. cbn [fold_left].
    set (s := fold_left _ actions _) in *.
    destruct a as [[themeInput created stream polled
                   |decision created stream polled| | | ]
                  |clipboard|ymd hm themeInput].
    5: { cbn. lia. }
    4: { cbn [act listener]. apply length_addLogEntry. }
    all: eapply grown_length; [apply act_grown; discriminate|exact IH].
Qed.

End LogGrowth.

Section LsLogGrowth.

Import Js Json FrontendLs FrontendLsReport.
Variable h : Host.

Lemma length_addLog (tag message : string) (s : State) :
  List.length (logItems (addLog h tag message s)) <= 80.
Proof. rewrite logItems_addLog, length_firstn. unfold MAX_LOG_ITEMS. lia. Qed.

Lemma act_ls_grown (a : Action) (s : State) :
  a <> Listened ClickClear -> a <> Listened ClickClearLog ->
  grown (logItems s) (logItems (act h a s)).
Proof. apply (any_ls_act h GrownLs (GrownLs_runwise h)). Qed.

Lemma session_ls_log_bound (stored : option string) (actions : list Action) :
  List.length (logItems (session h stored actions)) <= 80.
Proof.
  unfold session.
  induction actions as [|a actions IH] using rev_ind; cbn [fold_left].
  - unfold init. cbv zeta. apply length_addLog.
  - rewrite fold_left_app. cbn [fold_left].
    set (s := fold_left _ actions _) in *.
    destruct a as [[themeInput reply|decision reply| | | ]
                  |clipboard|ymd hm themeInput].
    5: { cbn. lia. }
    4: { cbn [act listener]. apply length_addLog. }
    all: eapply grown_length; [apply act_ls_grown; discriminate|exact IH].
Qed.

End LsLogGrowth.

(** The log over the life of a page.  In both clients an action other
    than the two that clear leaves the log as it was or adds entries at
    its head, cutting what goes beyond 80 at its tail: no entry is
    changed, moved or taken from the middle.  The Clear button empties
    the log and "clear log" leaves the one entry that says so.  So the
    log of a page never holds more than 80 entries. *)
Theorem logs_grow_at_the_head (h : Host) :
  (forall (a : FrontendReport.Action) (s : Frontend.State),
      a <> FrontendReport.Listened Frontend.ClickClear ->
      a <> FrontendReport.Listened Frontend.ClickClearLog ->
      grown (Frontend.logItems s) (Frontend.logItems (FrontendReport.act h a s)))
  /\ (forall s : Frontend.State,
         Frontend.logItems (Frontend.listener h Frontend.ClickClear s) = []
         /\ exists entry,
              Frontend.logItems (Frontend.listener h Frontend.ClickClearLog s) = [entry]
              /\ Frontend.summary entry = "Cleared logs.")
  /\ (forall (stored : option string) (thread : Reply JSON)
             (actions : list FrontendReport.Action),
         List.length (Frontend.logItems (FrontendReport.session h stored thread actions))
         <= 80)
  /\ (forall (a : FrontendLsReport.Action) (s : FrontendLs.State),
         a <> FrontendLsReport.Listened FrontendLs.ClickClear ->
         a <> FrontendLsReport.Listened FrontendLs.ClickClearLog ->
         grown (FrontendLs.logItems s) (FrontendLs.logItems (FrontendLsReport.act h a s)))
  /\ (forall s : FrontendLs.State,
         FrontendLs.logItems (FrontendLs.listener h FrontendLs.ClickClear s) = []
         /\ exists entry,
              FrontendLs.logItems (FrontendLs.listener h FrontendLs.ClickClearLog s)
              = [entry]
              /\ FrontendLs.message entry = "Cleared the log.")
  /\ (forall (stored : option string) (actions : list FrontendLsReport.Action),
         List.length (FrontendLs.logItems (FrontendLsReport.session h stored actions))
         <= 80).
Proof.
  split; [apply act_grown|]. split.
  { intros s. split; [reflexivity|]. eexists. split; reflexivity. }
  split; [apply session_log_bound|].
  split; [apply act_ls_grown|]. split.
  { intros s. split; [reflexivity|]. eexists. split; reflexivity. }
  apply session_ls_log_bound.
Qed.

(** A cancelled copy grows the log of the streaming client, and a
    refused request that of the LangServe client. *)
Lemma logs_grow_at_the_head_witness :
  grown (Frontend.logItems (Frontend.loaded None))
        (Frontend.logItems
           (FrontendReport.act plainHost (FrontendReport.ClickCopy CopyRefused)
              (Frontend.loaded None)))
  /\ grown (FrontendLs.logItems restoredT1)
           (FrontendLs.logItems
              (FrontendLsReport.act plainHost
                 (FrontendLsReport.Listened
                    (FrontendLs.ClickStart "Topic" (FrontendLs.InvokeHttpError "500" "down")))
                 restoredT1)).
Proof.
  destruct (logs_grow_at_the_head plainHost) as (H1 & _ & _ & H4 & _).
  split; [apply H1|apply H4]; discriminate.
Defined.

(* --------------------------------------------------------------------- *)
(** ** The LangServe client: the page between two actions *)
(* --------------------------------------------------------------------- *)

Section LsSettledFacts.

Import Js Json FrontendLs FrontendLsReport.
Variable h : Host.

Lemma SameCards_refl (s : State) : SameCards s s.
Proof. unfold SameCards. tauto. Qed.

Lemma SameCards_trans (s1 s2 s3 : State) :
  SameCards s1 s2 -> SameCards s2 s3 -> SameCards s1 s3.
Proof. unfold SameCards. intros [A1 A2] [B1 B2]. split; congruence. Qed.

Lemma cards_adoptThreadId (out : option JSON) : keeps State SameCards (adoptThreadId h out).
Proof.
  unfold adoptThreadId, persistThreadId.
  steps SameCards_refl SameCards_trans; unfold SameCards; cbn; tauto.
Qed.

Lemma cards_summarizeOutput (out : option JSON) :
  keeps State SameCards (summarizeOutput h out).
Proof.
  unfold summarizeOutput.
  apply (keeps_bind _ _ SameCards_trans); [apply (keeps_lift _ _ SameCards_refl)|].
  intros st.
  apply (keeps_bind _ _ SameCards_trans); [apply (keeps_gets _ _ SameCards_refl)|].
  intros current.
  apply (keeps_bind _ _ SameCards_trans); [apply (keeps_lift _ _ SameCards_refl)|].
  intros tid. apply (keeps_ret _ _ SameCards_refl).
Qed.

(** A run that throws while the report card is hidden. *)
Lemma thrown_settled (msg : string) (s : State) :
  reportCard s = false -> settledLs (caught h (Thrown msg, s)).
Proof.
  intros Hcard. unfold settledLs. cbn. rewrite Hcard.
  repeat split; intros; try discriminate; auto.
Qed.

Lemma decided_settled (out : JSON) (s : State) :
  decidedByStatus h out s -> settledLs s.
Proof.
  unfold decidedByStatus, settledLs.
  destruct (statusIs out "interrupted"); [|destruct (statusIs out "completed")].
  - intros (Ha & Hr & Hq). rewrite Hr.
    destruct (questionText h out) as [question|msg].
    + destruct Hq as (_ & Hp).
      destruct (shownPreview h out) as [items|msg];
        destruct Hp as (-> & _); repeat split; intros; try discriminate; auto.
    + destruct Hq as (-> & _). repeat split; intros; try discriminate; auto.
  - intros (Ha & Hr & Hq). rewrite Hr.
    destruct (stringOrEmpty h (prop "report" out)) as [report|msg];
      destruct Hq as (-> & _); repeat split; intros; try discriminate; auto.
  - intros (-> & _ & _ & ->). repeat split; intros; try discriminate; auto.
Qed.

Lemma handleOutput_settled (what waiting : string) (data : JSON) (s0 : State) :
  reportCard s0 = false ->
  errorBanner s0 = EmptyString ->
  settledLs (caught h (handleOutput h what waiting data s0)).
Proof.
  intros Hcard Hbanner.
  assert (Hrest : settledLs
                    (caught h
                       ((adoptThreadId h (prop "output" data) ;;
                         summary <- summarizeOutput h (prop "output" data) ;;
                         exec (addLog h "API" (what ++ " response: " ++ summary)) ;;
                         decideOutput h what waiting (prop "output" data))%run s0))).
  { unfold bind at 1.
    destruct (adoptThreadId h (prop "output" data) s0) as [[[]|m] s1] eqn:A;
      pose proof (keeps_run _ _ _ _ _ _ _ (cards_adoptThreadId _) A) as (A1 & A2);
      [|apply thrown_settled; congruence].
    unfold bind at 1.
    destruct (summarizeOutput h (prop "output" data) s1) as [[summary|m] s2] eqn:B;
      pose proof (keeps_run _ _ _ _ _ _ _ (cards_summarizeOutput _) B) as (B1 & B2);
      [|apply thrown_settled; congruence].
    rewrite bind_exec.
    set (s3 := addLog h "API" (what ++ " response: " ++ summary) s2).
    assert (C1 : reportCard s3 = false) by (unfold s3; cbn; congruence).
    assert (C2 : errorBanner s3 = EmptyString) by (unfold s3; cbn; congruence).
    clearbody s3.
    destruct (prop "output" data) as [out|]; [|now apply thrown_settled].
    assert (Hnull : out = JNull \/ out <> JNull)
      by (destruct out; (now left) || (right; discriminate)).
    destruct Hnull as [->|Hnn]; [now apply thrown_settled|].
    apply (decided_settled out). now apply decideOutput_decided. }
  unfold handleOutput. destruct data; try exact Hrest.
  now apply thrown_settled.
Qed.

Lemma invoked_settled (input : InvokeInput) (what waiting : string)
      (reply : InvokeReply) (s0 : State) :
  reportCard s0 = false ->
  errorBanner s0 = EmptyString ->
  settledLs (caught h (invoked h input what waiting reply s0)).
Proof.
  intros Hcard Hbanner.
  destruct (sentLs_fields h input reply s0) as (_ & _ & _ & _ & _ & _ & F7 & F8).
  destruct reply as [m|reason|st tx|m|data];
    try (rewrite invoked_fails by (intros data; discriminate);
         apply thrown_settled; congruence).
  rewrite invoked_body. apply handleOutput_settled; congruence.
Qed.

Lemma start_settled (themeInput : string) (reply : InvokeReply) (s : State) :
  settledLs (runWithUi h (start h themeInput reply) s).
Proof.
  rewrite runWithUi_caught, start_ls_run.
  destruct (String_ h _) as [text|msg].
  - destruct (startedLs_fields h themeInput text (setError EmptyString s))
      as (_ & _ & P3 & P4 & _).
    now apply invoked_settled.
  - apply thrown_settled.
    destruct (ensured_fields h (resetViewForRun (setError EmptyString s)))
      as (_ & _ & _ & _ & _ & E6 & _).
    cbn. rewrite E6. reflexivity.
Qed.

Lemma resume_settled (decision : string) (reply : InvokeReply) (s : State) :
  settledLs (handleDecision h decision reply s).
Proof.
  unfold handleDecision. rewrite runWithUi_caught, resume_ls_run.
  destruct (ensured_fields h
              (resetViewForRun (setError EmptyString (setUiState resuming s))))
    as (_ & _ & _ & _ & _ & E6 & _).
  destruct (negb (truthy _)).
  - unfold settledLs. cbn. rewrite E6. cbn.
    repeat split; intros; try discriminate; auto.
  - destruct (String_ h _) as [text|msg].
    + destruct (resumedLs_fields h decision text
                  (setError EmptyString (setUiState resuming s)))
        as (_ & _ & P3 & P4 & _).
      now apply invoked_settled.
    + apply thrown_settled. cbn. rewrite E6. reflexivity.
Qed.

Lemma act_settled (a : Action) (s : State) : settledLs s -> settledLs (act h a s).
Proof.
  intros Hs.
  destruct a as [[themeInput reply|decision reply| | | ]
                |clipboard|ymd hm themeInput];
    cbn [act listener].
  - apply start_settled.
  - apply resume_settled.
  - unfold cancelInFlight. destruct (negb _); exact Hs.
  - exact Hs.
  - unfold settledLs. cbn. repeat split; intros; try discriminate; auto.
  - unfold copyReport. destruct (negb _); [exact Hs|].
    destruct clipboard; exact Hs.
  - unfold downloadReport. destruct (negb _); exact Hs.
Qed.

(** The page of the LangServe client settles.  After the load of the
    page and after every action on it, whatever the replies, the client
    is idle, waiting for approval, done or in error, never left
    starting or resuming; while it waits the approval card is shown;
    when it is done the report card is shown; and the report card is
    shown only when it is done or in error (a report that has no text
    leaves the card shown and the run in error). *)
Theorem ls_page_settles_after_every_action
        (stored : option string) (actions : list Action) :
  settledLs (session h stored actions).
Proof.
  unfold session.
  induction actions as [|a actions IH] using rev_ind; cbn [fold_left].
  - unfold init. cbv zeta. unfold settledLs.
    destruct (restoreThreadId _); cbn;
      repeat split; intros; try discriminate; auto.
  - rewrite fold_left_app. cbn [fold_left]. now apply act_settled.
Qed.

End LsSettledFacts.

(** A page that was loaded with "t1" in storage, after a run whose
    report has no text: the client is in error with the report card
    shown. *)
Lemma ls_page_settles_after_every_action_witness :
  let s := FrontendLsReport.session plainHost (Some "t1")
             [FrontendLsReport.Listened
                (FrontendLs.ClickStart "Topic" exoticReportReply)] in
  settledLs s
  /\ FrontendLs.uiState s = error
  /\ FrontendLs.reportCard s = true.
Proof.
  split; [apply ls_page_settles_after_every_action|].
  vm_compute. split; reflexivity.
Defined.

Section LsInStepFacts.

Import Js Json FrontendLs FrontendLsReport.
Variable h : Host.

Lemma inStep_same (s s' : State) : SameIds s s' -> inStep h s -> inStep h s'.
Proof. unfold SameIds, inStep. intros [-> ->]. tauto. Qed.

Lemma ensured_inStep (s : State) : inStep h s -> inStep h (ensured h s).
Proof.
  unfold ensured. destruct (currentThreadId s); [tauto|].
  intros _. unfold inStep. cbn. now intros text [= <-].
Qed.

Lemma adoptThreadId_inStep (out : option JSON) (s : State) :
  inStep h s -> inStep h (snd (adoptThreadId h out s)).
Proof.
  intros Hs. unfold adoptThreadId.
  destruct (optProp "thread_id" out) as [v|]; [|exact Hs].
  destruct (truthy v); [|exact Hs].
  unfold persistThreadId. rewrite bind_exec.
  destruct (String_ h v) as [text|msg] eqn:E.
  - rewrite bind_lift_returned. unfold inStep. cbn. rewrite E. now intros t [= <-].
  - rewrite bind_lift_thrown. unfold inStep. cbn. rewrite E. discriminate.
Qed.

Lemma handleOutput_inStep (what waiting : string) (data : JSON) (s0 : State) :
  inStep h s0 -> inStep h (snd (handleOutput h what waiting data s0)).
Proof.
  intros Hs.
  pose proof (SameIds_stepwise h) as HS.
  assert (Hrest : inStep h
                    (snd ((adoptThreadId h (prop "output" data) ;;
                           summary <- summarizeOutput h (prop "output" data) ;;
                           exec (addLog h "API" (what ++ " response: " ++ summary)) ;;
                           decideOutput h what waiting (prop "output" data))%run s0))).
  { pose proof (adoptThreadId_inStep (prop "output" data) s0 Hs) as H1.
    unfold bind at 1.
    destruct (adoptThreadId h (prop "output" data) s0) as [[[]|m] s1]; [|exact H1].
    cbn [snd] in H1.
    refine (inStep_same _ _ _ H1).
    apply (keeps_bind _ _ (ls_trans HS)); [apply (any_ls_summarizeOutput h SameIds HS)|].
    intros summary.
    apply (keeps_bind _ _ (ls_trans HS)); [apply keeps_exec; intros s; apply (ls_log HS)|].
    intros _. apply (any_ls_decideOutput h SameIds HS). }
  unfold handleOutput. destruct data; try exact Hrest. exact Hs.
Qed.

Lemma invoked_inStep (input : InvokeInput) (what waiting : string)
      (reply : InvokeReply) (s0 : State) :
  inStep h s0 -> inStep h (snd (invoked h input what waiting reply s0)).
Proof.
  intros Hs.
  destruct (sentLs_fields h input reply s0) as (F1 & F2 & _).
  assert (H1 : inStep h (sentLs h input reply s0))
    by (apply (inStep_same s0); [split; assumption|exact Hs]).
  destruct reply as [m|reason|st tx|m|data];
    try (rewrite invoked_fails by (intros data; discriminate); exact H1).
  rewrite invoked_body. now apply handleOutput_inStep.
Qed.

Lemma caught_inStep (r : Outcome unit * State) :
  inStep h (snd r) -> inStep h (caught h r).
Proof.
  destruct (caught_fields h r) as (C1 & C2 & _).
  apply inStep_same. split; assumption.
Qed.

Lemma act_inStep (a : Action) (s : State) : inStep h s -> inStep h (act h a s).
Proof.
  intros Hs.
  destruct a as [[themeInput reply|decision reply| | | ]
                |clipboard|ymd hm themeInput];
    cbn [act listener].
  - rewrite runWithUi_caught. apply caught_inStep. rewrite start_ls_run.
    assert (H1 : inStep h (ensured h (resetViewForRun (setError EmptyString s))))
      by now apply ensured_inStep.
    destruct (String_ h _) as [text|msg]; [|exact H1].
    apply invoked_inStep. exact H1.
  - unfold handleDecision. rewrite runWithUi_caught. apply caught_inStep.
    rewrite resume_ls_run.
    assert (H1 : inStep h (ensured h (resetViewForRun
                                        (setError EmptyString (setUiState resuming s)))))
      by now apply ensured_inStep.
    destruct (negb (truthy _)); [exact H1|].
    destruct (String_ h _) as [text|msg]; [|exact H1].
    apply invoked_inStep. exact H1.
  - unfold cancelInFlight. destruct (negb _); exact Hs.
  - exact Hs.
  - unfold inStep. cbn. now left.
  - unfold copyReport. destruct (negb _); [exact Hs|].
    destruct clipboard; exact Hs.
  - unfold downloadReport. destruct (negb _); exact Hs.
Qed.

(** Memory and storage of the LangServe client.  After the load of the
    page and after every action on it, whatever the replies, the
    storage holds the text of the thread id in memory whenever that id
    has a text, so that a reload finds the thread the page was on; and
    with no thread id in memory the storage holds none (or the empty
    string that was found in it at the load).  A thread id that has no
    text, taken from a reply, stays in memory beside what the storage
    held before. *)
Theorem ls_page_keeps_memory_and_storage_in_step
        (stored : option string) (actions : list Action) :
  inStep h (session h stored actions).
Proof.
  unfold session.
  induction actions as [|a actions IH] using rev_ind; cbn [fold_left].
  - unfold init, restoreThreadId, inStep. cbv zeta. cbn [storedThreadId loaded].
    destruct stored as [saved|]; [|cbn; now left].
    destruct (nonEmpty saved) eqn:N.
    + cbn. now intros text [= <-].
    + cbn. right. f_equal. destruct saved; [reflexivity|discriminate].
  - rewrite fold_left_app. cbn [fold_left]. now apply act_inStep.
Qed.

End LsInStepFacts.

(** A page loaded with "t1" in storage, after a run whose reply names a
    thread id that has no text: that id is in memory, and the storage
    still holds "t1". *)
Lemma ls_page_keeps_memory_and_storage_in_step_witness :
  let s := FrontendLsReport.session plainHost (Some "t1")
             [FrontendLsReport.Listened
                (FrontendLs.ClickStart "Topic" exoticThreadReply)] in
  inStep plainHost s
  /\ FrontendLs.threadId s = Some exotic
  /\ FrontendLs.storedThreadId s = Some "t1".
Proof.
  split; [apply ls_page_keeps_memory_and_storage_in_step|].
  vm_compute. split; reflexivity.
Defined.


(* --------------------------------------------------------------------- *)
(** ** Lines: splitting and joining *)
(* --------------------------------------------------------------------- *)

Section LineFacts.

Import Js.

Lemma splitLines_not_nil (s : string) : splitLines s <> [].
Proof.
  induction s as [|c s IH]; cbn [splitLines]; [discriminate|].
  destruct (isLF c); [discriminate|].
  destruct (splitLines s); discriminate.
Qed.

Lemma joinLines_cons (l : string) (ls : list string) :
  ls <> [] -> joinLines (l :: ls) = l ++ nl ++ joinLines ls.
Proof. destruct ls; [congruence|reflexivity]. Qed.

Lemma isLF_true (c : ascii) : isLF c = true -> c = LF.
Proof. unfold isLF. now intros H%Ascii.eqb_eq. Qed.

(** Joining the lines of a text gives the text back. *)
Lemma joinLines_splitLines (s : string) : joinLines (splitLines s) = s.
Proof.
  induction s as [|c s IH]; cbn [splitLines]; [reflexivity|].
  destruct (isLF c) eqn:E.
  - rewrite joinLines_cons by apply splitLines_not_nil.
    rewrite IH. apply isLF_true in E. now subst c.
  - pose proof (splitLines_not_nil s) as Hn.
    destruct (splitLines s) as [|l ls]; [congruence|].
    destruct ls as [|l' ls].
    + cbn in *. now rewrite IH.
    + rewrite joinLines_cons by discriminate.
      rewrite joinLines_cons in IH by discriminate.
      cbn [append]. now rewrite IH.
Qed.

Lemma splitLines_app_line (l s : string) :
  every (fun c => negb (isLF c)) l = true ->
  splitLines (l ++ nl ++ s) = l :: splitLines s.
Proof.
  induction l as [|c l IH]; intros H.
  - reflexivity.
  - cbn [every] in H. apply andb_true_iff in H as [Hc Hl].
    cbn [append splitLines]. apply negb_true_iff in Hc. rewrite Hc.
    change (l ++ String LF s) with (l ++ nl ++ s). now rewrite IH.
Qed.

Lemma splitLines_line (l : string) :
  every (fun c => negb (isLF c)) l = true -> splitLines l = [l].
Proof.
  induction l as [|c l IH]; intros H; [reflexivity|].
  cbn [every] in H. apply andb_true_iff in H as [Hc Hl].
  cbn [splitLines]. apply negb_true_iff in Hc. rewrite Hc. now rewrite IH.
Qed.

(** Splitting what was joined gives the lines back, when there is a line
    at all and no line holds a line feed. *)
Lemma splitLines_joinLines (ls : list string) :
  ls <> [] ->
  Forall (fun l => every (fun c => negb (isLF c)) l = true) ls ->
  splitLines (joinLines ls) = ls.
Proof.
  induction ls as [|l ls IH]; intros Hn Hall; [congruence|].
  inversion Hall as [|? ? Hl Hls]; subst.
  destruct ls as [|l' ls].
  - cbn. now apply splitLines_line.
  - rewrite joinLines_cons by discriminate.
    rewrite splitLines_app_line by exact Hl.
    rewrite IH; [reflexivity|discriminate|exact Hls].
Qed.

Lemma every_weaken (p q : ascii -> bool) (s : string) :
  (forall c, p c = true -> q c = true) -> every p s = true -> every q s = true.
Proof.
  intros Hpq. induction s as [|c s IH]; cbn [every]; [reflexivity|].
  intros H. apply andb_true_iff in H as [Hc Hs].
  now rewrite (Hpq _ Hc), IH.
Qed.

Lemma oneLine_noLF (s : string) :
  oneLine s = true -> every (fun c => negb (isLF c)) s = true.
Proof.
  apply every_weaken. intros c H. apply negb_true_iff in H.
  apply orb_false_iff in H as [H _]. now rewrite H.
Qed.

(** No line of a split text holds a line feed. *)
Lemma splitLines_lines (s : string) :
  Forall (fun l => every (fun c => negb (isLF c)) l = true) (splitLines s).
Proof.
  induction s as [|c s IH]; cbn [splitLines].
  - repeat constructor.
  - destruct (isLF c) eqn:E; [constructor; [reflexivity|exact IH]|].
    destruct (splitLines s) as [|l ls]; [repeat constructor; cbn; now rewrite E|].
    inversion IH; subst. constructor; [cbn; now rewrite E|assumption].
Qed.

Lemma length_splitLines (s : string) :
  List.length (splitLines s) = S (lineFeeds s).
Proof.
  induction s as [|c s IH]; cbn [splitLines lineFeeds]; [reflexivity|].
  destruct (isLF c).
  - cbn [List.length]. now rewrite IH.
  - pose proof (splitLines_not_nil s) as Hn.
    destruct (splitLines s) as [|l ls]; [congruence|]. exact IH.
Qed.

End LineFacts.

(* --------------------------------------------------------------------- *)
(** ** The head of a preview item *)
(* --------------------------------------------------------------------- *)

Section PreviewFacts.

Import Js Preview.

(** Splitting at [/\r?\n/] is splitting at the line feeds after the
    replacement of CR LF by LF. *)
Lemma splitNewlines_replaceCRLF (s : string) :
  splitNewlines s = splitLines (replaceCRLF s).
Proof.
  assert (H : forall n s, String.length s <= n ->
                          splitNewlines s = splitLines (replaceCRLF s)).
  { clear s. induction n as [|n IH]; intros s Hlen.
    - destruct s; [reflexivity|cbn in Hlen; lia].
    - destruct s as [|c s]; [reflexivity|].
      cbn [String.length] in Hlen.
      cbn [splitNewlines]. destruct (isLF c) eqn:E.
      + rewrite IH by lia. rewrite replaceCRLF_cons, startsWith_crlf_cons.
        apply isLF_true in E. subst c.
        change (Ascii.eqb CR LF) with false. cbn [andb splitLines].
        change (isLF LF) with true. cbv iota. reflexivity.
      + destruct s as [|d s].
        * cbn. now rewrite E.
        * cbn [replaceCRLF]. destruct (isCR c && isLF d) eqn:E2.
          -- cbn [String.length] in Hlen. rewrite IH by lia.
             cbn [splitLines]. change (isLF LF) with true. reflexivity.
          -- rewrite IH by lia. cbn [splitLines]. rewrite E.
             cbn [replaceCRLF]. reflexivity. }
  apply (H (String.length s)). lia.
Qed.

Lemma lineFeeds_replaceCRLF (s : string) :
  lineFeeds (replaceCRLF s) = lineFeeds s.
Proof.
  induction s as [|c s IH]; [reflexivity|].
  rewrite replaceCRLF_cons, startsWith_crlf_cons.
  destruct (Ascii.eqb_spec CR c) as [<-|Hc]; cbn [andb].
  - destruct (startsWith s nl) eqn:E.
    + rewrite IH. reflexivity.
    + cbn [lineFeeds]. now rewrite IH.
  - cbn [lineFeeds]. now rewrite IH.
Qed.

(** firstLines.  [more] is set exactly when the text has [n] line feeds
    or more; for [n] of 1 or more, [head] holds the first [n] lines of
    the text and no other; and a text of fewer than [n] line feeds is its
    own head, but for its CR LF line ends, which have become LF. *)
Theorem firstLines_head_and_more (text : string) (n : nat) :
  snd (firstLines text n) = Nat.leb n (lineFeeds text)
  /\ (1 <= n ->
      splitLines (fst (firstLines text n)) = firstn n (splitNewlines text))
  /\ (lineFeeds text < n -> fst (firstLines text n) = replaceCRLF text).
Proof.
  unfold firstLines. cbn [fst snd].
  rewrite splitNewlines_replaceCRLF.
  pose proof (length_splitLines (replaceCRLF text)) as Hlen.
  rewrite lineFeeds_replaceCRLF in Hlen.
  split; [|split].
  - rewrite Hlen. reflexivity.
  - intros Hn. apply splitLines_joinLines.
    + pose proof (splitLines_not_nil (replaceCRLF text)) as Hnil.
      destruct (splitLines (replaceCRLF text)); [congruence|].
      destruct n; [lia|discriminate].
    + pose proof (splitLines_lines (replaceCRLF text)) as Hall.
      rewrite <- (firstn_skipn n) in Hall.
      now apply Forall_app in Hall as [Hall _].
  - intros Hn. rewrite firstn_all2 by lia. apply joinLines_splitLines.
Qed.

End PreviewFacts.

(** A text of three lines, the second ended by CR LF: two lines of it
    make the head, and more is left. *)
Lemma firstLines_head_and_more_witness :
  let text := "a" ++ Js.nl ++ "b" ++ cr ++ Js.nl ++ "c" in
  Js.splitLines (fst (Preview.firstLines text 2)) = ["a"; "b"]
  /\ snd (Preview.firstLines text 2) = true
  /\ fst (Preview.firstLines text 3) = "a" ++ Js.nl ++ "b" ++ Js.nl ++ "c".
Proof.
  cbv zeta.
  destruct (firstLines_head_and_more ("a" ++ Js.nl ++ "b" ++ cr ++ Js.nl ++ "c") 2)
    as (Hmore & Hhead & _).
  destruct (firstLines_head_and_more ("a" ++ Js.nl ++ "b" ++ cr ++ Js.nl ++ "c") 3)
    as (_ & _ & Hall).
  split; [|split].
  - rewrite Hhead by lia. reflexivity.
  - rewrite Hmore. reflexivity.
  - rewrite Hall by (vm_compute; lia). reflexivity.
Defined.

(* --------------------------------------------------------------------- *)
(** ** The name of the downloaded file *)
(* --------------------------------------------------------------------- *)

Section SanitizeFacts.

Import Js Download.

Lemma every_app (p : ascii -> bool) (a b : string) :
  every p (a ++ b) = every p a && every p b.
Proof.
  induction a as [|c a IH]; [reflexivity|].
  cbn [append every]. now rewrite IH, andb_assoc.
Qed.

Lemma trimStart_suffix (s : string) : exists a, s = a ++ trimStart s.
Proof.
  induction s as [|c s (a & IH)]; [now exists EmptyString|].
  cbn [trimStart]. destruct (isWhiteSpace c).
  - exists (String c a). cbn [append]. now rewrite <- IH.
  - now exists EmptyString.
Qed.

Lemma trimEnd_prefix (s : string) : exists b, s = trimEnd s ++ b.
Proof.
  induction s as [|c s (b & IH)]; [now exists EmptyString|].
  cbn [trimEnd]. destruct (trimEnd s) as [|d t] eqn:E.
  - destruct (isWhiteSpace c).
    + now exists (String c s).
    + exists s. reflexivity.
  - exists b. cbn [append]. cbn [append] in IH. now rewrite <- IH.
Qed.

Lemma sliceTo_sliceFrom (n : nat) (s : string) :
  s = sliceTo n s ++ sliceFrom n s.
Proof.
  revert s. induction n as [|n IH]; intros [|c s]; try reflexivity.
  cbn [sliceTo sliceFrom append]. now rewrite <- IH.
Qed.

Lemma length_sliceTo (n : nat) (s : string) : String.length (sliceTo n s) <= n.
Proof.
  revert s. induction n as [|n IH]; intros [|c s]; cbn; try lia.
  specialize (IH s). lia.
Qed.

(** What [trim] leaves starts with a character that is not white
    space. *)
Lemma trimStart_head (s : string) (c : ascii) (r : string) :
  trimStart s = String c r -> isWhiteSpace c = false.
Proof.
  induction s as [|d s IH]; cbn [trimStart]; [discriminate|].
  destruct (isWhiteSpace d) eqn:E; [exact IH|].
  now intros [= <- <-].
Qed.

Lemma trimEnd_head (s : string) (c : ascii) (r : string) :
  trimEnd s = String c r -> exists r', s = String c r'.
Proof.
  destruct s as [|d s]; cbn [trimEnd]; [discriminate|].
  destruct (trimEnd s); [destruct (isWhiteSpace d)|];
    intros [= <- <-] || discriminate; eauto.
Qed.

Lemma trim_head (s : string) (c : ascii) (r : string) :
  trim s = String c r -> isWhiteSpace c = false.
Proof.
  unfold trim. intros H. apply trimEnd_head in H as (r' & H).
  now apply trimStart_head in H.
Qed.

(** [trim s] is a part of [s]. *)
Lemma trim_part (s : string) : exists a b, s = a ++ trim s ++ b.
Proof.
  destruct (trimStart_suffix s) as (a & Ha).
  destruct (trimEnd_prefix (trimStart s)) as (b & Hb).
  exists a, b. unfold trim. now rewrite <- Hb.
Qed.

Lemma forbidden_not_white (c : ascii) :
  isForbidden c = true -> isWhiteSpace c = false.
Proof.
  destruct c as [[] [] [] [] [] [] [] []]; vm_compute; congruence.
Qed.

Lemma allWhiteSpace_replaceForbidden (s : string) :
  allWhiteSpace (replaceForbidden s) = allWhiteSpace s.
Proof.
  induction s as [|c s IH]; [reflexivity|].
  cbn [replaceForbidden allWhiteSpace]. rewrite IH.
  destruct (isForbidden c) eqn:E; [|reflexivity].
  now rewrite (forbidden_not_white _ E).
Qed.

Lemma allWhiteSpace_collapseSpaces (s : string) :
  allWhiteSpace (collapseSpaces s) = allWhiteSpace s.
Proof.
  induction s as [|c s IH]; [reflexivity|].
  cbn [collapseSpaces allWhiteSpace].
  destruct (isWhiteSpace c) eqn:E; cbn [andb].
  - destruct s as [|d s]; [reflexivity|].
    destruct (isWhiteSpace d) eqn:D; [exact IH|].
    cbn [allWhiteSpace]. change (isWhiteSpace " ") with true. cbn [andb]. exact IH.
  - cbn [allWhiteSpace]. now rewrite E.
Qed.

Lemma every_replaceForbidden (s : string) :
  every (fun c => negb (isForbidden c)) (replaceForbidden s) = true.
Proof.
  induction s as [|c s IH]; [reflexivity|].
  cbn [replaceForbidden every]. rewrite IH, andb_true_r.
  destruct (isForbidden c) eqn:E; [reflexivity|]. now rewrite E.
Qed.

Lemma every_collapseSpaces (p : ascii -> bool) (s : string) :
  p " "%char = true ->
  every p s = true -> every p (collapseSpaces s) = true.
Proof.
  intros Hsp. induction s as [|c s IH]; [reflexivity|].
  cbn [every collapseSpaces]. intros H. apply andb_true_iff in H as [Hc Hs].
  destruct (isWhiteSpace c).
  - destruct s as [|d s]; [cbn; now rewrite Hsp|].
    destruct (isWhiteSpace d); [now apply IH|].
    cbn [every]. rewrite Hsp. now apply IH.
  - cbn [every]. rewrite Hc. now apply IH.
Qed.

(** After the second replacement every white space is a space, and no
    white space follows another. *)
Lemma spaces_collapseSpaces (s : string) :
  every (fun c => negb (isWhiteSpace c) || Ascii.eqb c " ") (collapseSpaces s) = true.
Proof.
  induction s as [|c s IH]; [reflexivity|].
  cbn [collapseSpaces]. destruct (isWhiteSpace c) eqn:E.
  - destruct s as [|d s]; [reflexivity|].
    destruct (isWhiteSpace d); [exact IH|].
    cbn [every]. now rewrite IH.
  - cbn [every]. now rewrite E, IH.
Qed.

Lemma collapseSpaces_head (s : string) (c : ascii) (r : string) :
  collapseSpaces s = String c r ->
  isWhiteSpace c = true ->
  startsWith r " " = false.
Proof.
  induction s as [|d s IH]; cbn [collapseSpaces]; [discriminate|].
  destruct (isWhiteSpace d) eqn:E.
  - destruct s as [|e s]; [now intros [= <- <-]|].
    destruct (isWhiteSpace e) eqn:E2; [exact IH|].
    intros [= <- <-] _. cbn [collapseSpaces]. rewrite E2.
    cbn [startsWith]. destruct (Ascii.eqb_spec " "%char e) as [<-|]; [|reflexivity].
    discriminate.
  - intros [= <- <-]. congruence.
Qed.

Lemma double_space_collapseSpaces (s : string) :
  includes (collapseSpaces s) "  " = false.
Proof.
  induction s as [|c s IH]; [reflexivity|].
  destruct (collapseSpaces (String c s)) as [|d r] eqn:E; [reflexivity|].
  assert (Hr : includes r "  " = false).
  { revert E. cbn [collapseSpaces]. destruct (isWhiteSpace c).
    - destruct s as [|e s]; [now intros [= <- <-]|].
      destruct (isWhiteSpace e).
      + intros E. rewrite E in IH. rewrite includes_cons in IH.
        now apply orb_false_iff in IH as [_ IH].
      + now intros [= <- <-].
    - now intros [= <- <-]. }
  rewrite includes_cons, Hr, orb_false_r.
  cbn [startsWith]. destruct (Ascii.eqb_spec " "%char d) as [<-|]; [|reflexivity].
  cbn [andb]. destruct r as [|e r]; [reflexivity|].
  pose proof (collapseSpaces_head _ _ _ E eq_refl) as Hh.
  cbn [startsWith] in Hh. cbn [startsWith]. now rewrite andb_true_r in *.
Qed.

(** sanitizeFilename.  The name has 60 characters or fewer, none of them
    one of the nine the first replacement removes; its white space is
    single spaces, and it does not start with one. *)
Theorem sanitizeFilename_is_safe (s : string) :
  String.length (sanitizeFilename s) <= 60
  /\ every (fun c => negb (isForbidden c)) (sanitizeFilename s) = true
  /\ every (fun c => negb (isWhiteSpace c) || Ascii.eqb c " ") (sanitizeFilename s) = true
  /\ includes (sanitizeFilename s) "  " = false
  /\ startsWith (sanitizeFilename s) " " = false.
Proof.
  unfold sanitizeFilename.
  set (u := collapseSpaces (replaceForbidden s)).
  destruct (trim_part u) as (a & b & Hu).
  pose proof (sliceTo_sliceFrom 60 (trim u)) as Hs.
  assert (Hevery : forall p, every p u = true -> every p (sliceTo 60 (trim u)) = true).
  { intros p H. rewrite Hu, every_app, every_app, Hs, every_app in H.
    apply andb_true_iff in H as [_ H]. apply andb_true_iff in H as [H _].
    now apply andb_true_iff in H as [H _]. }
  split; [apply length_sliceTo|]. split; [|split; [|split]].
  - apply Hevery. apply every_collapseSpaces; [reflexivity|].
    apply every_replaceForbidden.
  - apply Hevery. apply spaces_collapseSpaces.
  - pose proof (double_space_collapseSpaces (replaceForbidden s)) as H.
    fold u in H. rewrite Hu in H.
    apply includes_app in H as [_ H]. apply includes_app in H as [H _].
    rewrite Hs in H. now apply includes_app in H as [H _].
  - destruct (trim u) as [|c r] eqn:E; [reflexivity|].
    apply trim_head in E. cbn [sliceTo startsWith].
    destruct (Ascii.eqb_spec " "%char c) as [<-|]; [discriminate|reflexivity].
Qed.

(** A topic that is not blank keeps a name. *)
Lemma sanitizeFilename_not_empty (s : string) :
  allWhiteSpace s = false -> sanitizeFilename s <> EmptyString.
Proof.
  intros H. unfold sanitizeFilename.
  destruct (trim (collapseSpaces (replaceForbidden s))) as [|c r] eqn:E.
  - apply trim_empty_iff in E.
    rewrite allWhiteSpace_collapseSpaces, allWhiteSpace_replaceForbidden in E.
    congruence.
  - discriminate.
Qed.

Lemma orElse_trim_not_blank (s fallback : string) :
  allWhiteSpace fallback = false ->
  allWhiteSpace (orElse (trim s) fallback) = false.
Proof.
  intros Hf. unfold orElse. destruct (trim s) as [|c r] eqn:E; [exact Hf|].
  cbn [nonEmpty allWhiteSpace]. now rewrite (trim_head _ _ _ E).
Qed.

End SanitizeFacts.

Section DownloadFacts.

Import Js Download.
Variable h : Host.

(** downloadReport.  In both scripts a file is handed over exactly when
    the report has text; the file holds that text, and its name carries
    the sanitized topic, which is never empty, so that the word kept for
    an empty one is never used.  The globals gain one log entry and are
    otherwise left alone. *)
Theorem downloadReport_names_the_topic (ymd hm themeInput : string) :
  (forall s : Frontend.State,
      let theme := sanitizeFilename (Frontend.themeValue themeInput) in
      let name := "business_plan_" ++ ymd ++ "_" ++ hm ++ "_" ++ theme ++ ".txt" in
      theme <> EmptyString
      /\ fst (FrontendReport.downloadReport h ymd hm themeInput s)
         = (if nonEmpty (Frontend.reportEl s)
            then Some (name, Frontend.reportEl s) else None)
      /\ exists a, snd (FrontendReport.downloadReport h ymd hm themeInput s)
                   = Frontend.addLogEntry h a s)
  /\ (forall s : FrontendLs.State,
         let theme := sanitizeFilename (FrontendLs.themeValue themeInput) in
         let name := "business_plan_" ++ ymd ++ "_" ++ hm ++ "_" ++ theme ++ ".txt" in
         theme <> EmptyString
         /\ fst (FrontendLsReport.downloadReport h ymd hm themeInput s)
            = (if nonEmpty (FrontendLs.reportEl s)
               then Some (name, FrontendLs.reportEl s) else None)
         /\ exists tag message,
              snd (FrontendLsReport.downloadReport h ymd hm themeInput s)
              = FrontendLs.addLog h tag message s).
Proof.
  split; intros s; cbv zeta.
  - assert (Hne : sanitizeFilename (Frontend.themeValue themeInput) <> EmptyString).
    { apply sanitizeFilename_not_empty. now apply orElse_trim_not_blank. }
    split; [exact Hne|].
    unfold FrontendReport.downloadReport, filename, orElse.
    apply nonEmpty_true in Hne. rewrite Hne.
    destruct (nonEmpty (Frontend.reportEl s)); cbn [negb fst snd]; eauto.
  - assert (Hne : sanitizeFilename (FrontendLs.themeValue themeInput) <> EmptyString).
    { apply sanitizeFilename_not_empty. now apply orElse_trim_not_blank. }
    split; [exact Hne|].
    unfold FrontendLsReport.downloadReport, filename, orElse.
    apply nonEmpty_true in Hne. rewrite Hne.
    destruct (nonEmpty (FrontendLs.reportEl s)); cbn [negb fst snd]; eauto.
Qed.

End DownloadFacts.

(* --------------------------------------------------------------------- *)
(** ** The fields of a frame *)
(* --------------------------------------------------------------------- *)

Section ParseFacts.

Import Js Sse.
Variable h : Host.

Lemma oneLine_app (a b : string) : oneLine (a ++ b) = oneLine a && oneLine b.
Proof. apply every_app. Qed.

(** The replacement passes over a text that has no CR. *)
Lemma replaceCRLF_line (l t : string) :
  oneLine l = true -> replaceCRLF (l ++ t) = l ++ replaceCRLF t.
Proof.
  induction l as [|c l IH]; intros H; [reflexivity|].
  cbn [oneLine every] in H. apply andb_true_iff in H as [Hc Hl].
  apply negb_true_iff, orb_false_iff in Hc as [_ Hc].
  cbn [append]. rewrite replaceCRLF_cons, startsWith_crlf_cons.
  unfold isCR in Hc. rewrite Ascii.eqb_sym in Hc. rewrite Hc. cbn [andb].
  now rewrite (IH Hl).
Qed.

Lemma replaceCRLF_lines (sep : string) (lines : list string) :
  sep = nl \/ sep = crlf ->
  Forall (fun l => oneLine l = true) lines ->
  replaceCRLF (String.concat sep lines) = joinLines lines.
Proof.
  intros Hsep Hall. induction Hall as [|l ls Hl Hls IH]; [reflexivity|].
  destruct ls as [|l' ls].
  - cbn [String.concat joinLines]. rewrite <- (append_empty_r l) at 1.
    rewrite replaceCRLF_line by exact Hl. apply append_empty_r.
  - rewrite joinLines_cons by discriminate.
    change (String.concat sep (l :: l' :: ls))
      with (l ++ sep ++ String.concat sep (l' :: ls)).
    rewrite replaceCRLF_line by exact Hl. f_equal.
    destruct Hsep as [-> | ->].
    + change (nl ++ String.concat nl (l' :: ls))
        with (String LF (String.concat nl (l' :: ls))).
      rewrite replaceCRLF_cons. change (startsWith (String LF _) crlf) with false.
      cbv iota. now rewrite IH.
    + change (crlf ++ String.concat crlf (l' :: ls))
        with (String CR (String LF (String.concat crlf (l' :: ls)))).
      rewrite replaceCRLF_cons. change (startsWith (String CR (String LF _)) crlf) with true.
      cbv iota. rewrite replaceCRLF_cons.
      change (startsWith (String LF _) crlf) with false.
      cbv iota. now rewrite IH.
Qed.

Lemma parseLine_event (acc : string * list string * string) (value : string) :
  parseLine acc ("event:" ++ value) = (trim value, snd (fst acc), snd acc).
Proof. now destruct acc as [[e ds] i]. Qed.

Lemma parseLine_data (acc : string * list string * string) (value : string) :
  parseLine acc ("data:" ++ value)
  = (fst (fst acc), (snd (fst acc) ++ [trim value])%list, snd acc).
Proof. now destruct acc as [[e ds] i]. Qed.

Lemma parseLine_id (acc : string * list string * string) (value : string) :
  parseLine acc ("id:" ++ value) = (fst (fst acc), snd (fst acc), trim value).
Proof. now destruct acc as [[e ds] i]. Qed.

Lemma parseLine_comment (acc : string * list string * string) (text : string) :
  parseLine acc (":" ++ text) = acc.
Proof. now destruct acc as [[e ds] i]. Qed.

Lemma parseLine_other (acc : string * list string * string) (line : string) :
  startsWith line ":" || startsWith line "event:"
  || startsWith line "data:" || startsWith line "id:" = false ->
  parseLine acc line = acc.
Proof.
  intros H. apply orb_false_iff in H as [H Hid].
  apply orb_false_iff in H as [H Hdata]. apply orb_false_iff in H as [Hc Hev].
  destruct acc as [[e ds] i]. unfold parseLine.
  rewrite Hc, Hev, Hdata, Hid. now destruct (negb (nonEmpty line)).
Qed.

Lemma last_cons_default (A : Type) (x d d' : A) (l : list A) :
  last (x :: l) d = last (x :: l) d'.
Proof.
  revert x. induction l as [|y l IH]; intros x; [reflexivity|].
  change (last (y :: l) d = last (y :: l) d'). apply IH.
Qed.

(** What the loop over the lines leaves in its three variables. *)
Lemma parseLines_fields (fields : list Field) (e : string) (ds : list string) (i : string) :
  forallb wellFormed fields = true ->
  fold_left parseLine (map fieldLine fields) (e, ds, i)
  = (match eventValues fields with [] => e | vs => trim (last vs EmptyString) end,
     (ds ++ map trim (dataValues fields))%list,
     match idValues fields with [] => i | vs => trim (last vs EmptyString) end).
Proof.
  revert e ds i. induction fields as [|f fields IH]; intros e ds i H.
  - cbn. now rewrite app_nil_r.
  - cbn [forallb] in H. apply andb_true_iff in H as [Hf H].
    cbn [map fold_left]. destruct f as [v|v|v|t|line]; cbn [fieldLine].
    + rewrite parseLine_event. cbn [fst snd]. rewrite IH by exact H.
      cbn [eventValues dataValues idValues flat_map app].
      fold (eventValues fields). fold (dataValues fields). fold (idValues fields).
      destruct (eventValues fields) as [|v' vs]; [reflexivity|].
      reflexivity.
    + rewrite parseLine_data. cbn [fst snd]. rewrite IH by exact H.
      cbn [eventValues dataValues idValues flat_map app map].
      fold (eventValues fields). fold (dataValues fields). fold (idValues fields).
      now rewrite <- app_assoc.
    + rewrite parseLine_id. cbn [fst snd]. rewrite IH by exact H.
      cbn [eventValues dataValues idValues flat_map app].
      fold (eventValues fields). fold (dataValues fields). fold (idValues fields).
      destruct (idValues fields) as [|v' vs]; reflexivity.
    + rewrite parseLine_comment. now rewrite IH by exact H.
    + unfold wellFormed in Hf. apply andb_true_iff in Hf as [_ Hf].
      apply negb_true_iff in Hf. rewrite parseLine_other by exact Hf.
      now rewrite IH by exact H.
Qed.

(** parseSseFrame.  Of a frame whose lines are joined by LF or by CR LF
    the event and the id are the trimmed values of the last [event:] and
    [id:] lines, the data is made of the trimmed values of the [data:]
    lines in their order, and comments and other lines count for
    nothing. *)
Theorem parseSseFrame_reads_fields (sep : string) (fields : list Field) :
  sep = nl \/ sep = crlf ->
  forallb wellFormed fields = true ->
  parseSseFrame h (String.concat sep (map fieldLine fields))
  = {| ev_id := lastTrimmed (idValues fields);
       ev_event := lastTrimmed (eventValues fields);
       ev_data := dataOf h (dataValues fields) |}.
Proof.
  intros Hsep Hwf. unfold parseSseFrame.
  assert (Hlines : Forall (fun l => oneLine l = true) (map fieldLine fields)).
  { apply Forall_forall. intros l Hl. apply in_map_iff in Hl as (f & <- & Hf).
    rewrite forallb_forall in Hwf. specialize (Hwf f Hf).
    unfold wellFormed in Hwf. now apply andb_true_iff in Hwf as [Hwf _]. }
  rewrite (replaceCRLF_lines _ _ Hsep Hlines).
  assert (Hfold : fold_left parseLine (splitLines (joinLines (map fieldLine fields)))
                    (EmptyString, [], EmptyString)
                  = fold_left parseLine (map fieldLine fields)
                      (EmptyString, [], EmptyString)).
  { destruct fields as [|f fields]; [reflexivity|].
    rewrite splitLines_joinLines; [reflexivity|discriminate|].
    revert Hlines. apply Forall_impl. intros l. apply oneLine_noLF. }
  rewrite Hfold, (parseLines_fields _ _ _ _ Hwf). cbn [app].
  unfold lastTrimmed, dataOf.
  destruct (eventValues fields), (idValues fields); reflexivity.
Qed.

End ParseFacts.

(** A frame of the server, with CR LF line ends, a comment, two data
    lines and a line that is no field. *)
Lemma parseSseFrame_reads_fields_witness :
  Sse.parseSseFrame plainHost
    ("event: updates" ++ crlf ++ ": keep-alive" ++ crlf ++ "data: {" ++ crlf
     ++ "retry" ++ crlf ++ "id:7" ++ crlf ++ "data:}")
  = {| ev_id := "7"; ev_event := "updates"; ev_data := JStr ("{" ++ Js.nl ++ "}") |}.
Proof.
  apply (parseSseFrame_reads_fields plainHost crlf
           [EventField " updates"; Comment " keep-alive"; DataField " {";
            Other "retry"; IdField "7"; DataField "}"]).
  - now right.
  - reflexivity.
Defined.

(* --------------------------------------------------------------------- *)
(** ** The line shown beside a preview item *)
(* --------------------------------------------------------------------- *)

Section PreviewEntryFacts.

Import Js Json Preview.

Lemma lineFeeds_app (a b : string) :
  lineFeeds (a ++ b) = lineFeeds a + lineFeeds b.
Proof.
  induction a as [|c a IH]; [reflexivity|].
  cbn [append lineFeeds]. rewrite IH. lia.
Qed.

Lemma lineFeeds_cons_0 (c : ascii) (s : string) :
  lineFeeds (String c s) = 0 -> isLF c = false /\ lineFeeds s = 0.
Proof.
  cbn [lineFeeds]. destruct (isLF c); [lia|]. now split.
Qed.

Lemma replaceCRLF_noLF (s : string) : lineFeeds s = 0 -> replaceCRLF s = s.
Proof.
  induction s as [|c s IH]; [reflexivity|].
  intros H. apply lineFeeds_cons_0 in H as [_ Hs].
  cbn [replaceCRLF]. destruct s as [|d s]; [reflexivity|].
  pose proof (lineFeeds_cons_0 _ _ Hs) as [Hd _].
  rewrite Hd, andb_false_r. now rewrite IH.
Qed.

Lemma replaceLineFeeds_noLF (sign s : string) :
  lineFeeds s = 0 -> replaceLineFeeds sign s = s.
Proof.
  induction s as [|c s IH]; [reflexivity|].
  intros H. apply lineFeeds_cons_0 in H as [Hc Hs].
  cbn [replaceLineFeeds]. rewrite Hc. now rewrite IH.
Qed.

(** No line feed is left once the runs of line feeds are replaced. *)
Lemma lineFeeds_replaceLineFeeds (sign s : string) :
  lineFeeds sign = 0 -> lineFeeds (replaceLineFeeds sign s) = 0.
Proof.
  intros Hsign. induction s as [|c s IH]; [reflexivity|].
  cbn [replaceLineFeeds]. destruct (isLF c) eqn:E.
  - destruct s as [|d s]; [exact Hsign|].
    destruct (isLF d); [exact IH|].
    rewrite lineFeeds_app, Hsign, IH. reflexivity.
  - cbn [lineFeeds]. rewrite E, IH. reflexivity.
Qed.

Variable h : Host.

Let sign : string := " " ++ returnSymbol h ++ " ".

Lemma entry_snippet (idx : nat) (x : JSON) (e : Entry) :
  entry h idx x = Returned e ->
  snippet e
  = replaceLineFeeds sign (fst (firstLines (body e) 4))
    ++ (if Nat.leb 4 (lineFeeds (body e)) then " " ++ ellipsis h else EmptyString).
Proof.
  unfold entry.
  match goal with
  | |- context [firstLines ?t 4] => set (full := t)
  end.
  pose proof (firstLines_head_and_more full 4) as (Hmore & _).
  destruct (firstLines full 4) as [head more] eqn:F.
  cbn [fst snd] in Hmore.
  destruct (match prop "type" x with
            | Some t => if truthy t then String_ h t
                        else Returned ("Message " ++ decimal (idx + 1))
            | None => Returned ("Message " ++ decimal (idx + 1))
            end) as [type|msg]; [|discriminate].
  intros [= <-]. cbn [snippet body]. rewrite F. cbn [fst]. now rewrite Hmore.
Qed.

(** Each entry shown was made of an item. *)
Lemma entriesFrom_In (items : list JSON) (idx : nat) (shown : list Entry) (e : Entry) :
  entriesFrom h idx items = Returned shown ->
  In e shown ->
  exists idx' x, entry h idx' x = Returned e.
Proof.
  revert idx shown. induction items as [|x items IH]; intros idx shown; cbn [entriesFrom].
  - intros [= <-] [].
  - destruct (entry h idx x) as [e0|msg] eqn:E; [|discriminate].
    destruct (entriesFrom h (S idx) items) as [es|msg] eqn:Es; [|discriminate].
    intros [= <-] [<-|Hin].
    + now exists idx, x.
    + exact (IH _ _ Es Hin).
Qed.

(** renderPreview.  The line beside the title of a preview item holds no
    line feed; it is the text itself when the text has no line feed, the
    text with its line ends replaced by the sign when it has fewer than
    four of them, and it ends in the mark that more is left when it has
    four or more. *)
Theorem preview_snippets_are_one_line
        (analysisPreview : option JSON) (shown : list Entry) (e : Entry) :
  lineFeeds (returnSymbol h) = 0 ->
  lineFeeds (ellipsis h) = 0 ->
  renderPreview h analysisPreview = Returned shown ->
  In e shown ->
  lineFeeds (snippet e) = 0
  /\ (lineFeeds (body e) = 0 -> snippet e = body e)
  /\ (lineFeeds (body e) < 4 ->
      snippet e = replaceLineFeeds sign (replaceCRLF (body e)))
  /\ (4 <= lineFeeds (body e) ->
      exists head, snippet e = head ++ " " ++ ellipsis h).
Proof.
  intros Hsym Hell Hshown Hin.
  unfold renderPreview in Hshown.
  destruct (entriesFrom_In _ _ _ _ Hshown Hin) as (idx & x & Hentry).
  assert (Hsign : lineFeeds sign = 0).
  { unfold sign. rewrite !lineFeeds_app, Hsym. reflexivity. }
  rewrite (entry_snippet _ _ _ Hentry).
  set (full := body e). clearbody full.
  pose proof (firstLines_head_and_more full 4) as (_ & _ & Hall).
  split; [|split; [|split]].
  - rewrite lineFeeds_app, lineFeeds_replaceLineFeeds by exact Hsign.
    destruct (Nat.leb 4 (lineFeeds full)); [|reflexivity].
    rewrite lineFeeds_app, Hell. reflexivity.
  - intros H0. rewrite Hall by lia.
    rewrite replaceCRLF_noLF by exact H0.
    rewrite replaceLineFeeds_noLF by exact H0.
    rewrite H0. cbn. apply append_empty_r.
  - intros Hlt. rewrite Hall by exact Hlt.
    destruct (Nat.leb_spec 4 (lineFeeds full)) as [Hle|_]; [lia|].
    apply append_empty_r.
  - intros Hle. apply Nat.leb_le in Hle. rewrite Hle.
    now exists (replaceLineFeeds sign (fst (firstLines full 4))).
Qed.

End PreviewEntryFacts.

(** A preview of two items: a typed message of two lines, the second
    line after an empty one, and a bare text of five lines. *)
Lemma preview_snippets_are_one_line_witness :
  let first := JObj [("type", JStr "human");
                     ("content", JStr ("a" ++ Js.nl ++ Js.nl ++ "b"))] in
  let second := JStr ("1" ++ cr ++ Js.nl ++ "2" ++ Js.nl ++ "3" ++ Js.nl
                          ++ "4" ++ Js.nl ++ "5") in
  let preview := Some (JArr [first; second]) in
  exists shown,
    Preview.renderPreview plainHost preview = Returned shown
    /\ map Preview.title shown = ["human"; "Message 2"]
    /\ map Preview.snippet shown = ["a ^ b"; "1 ^ 2 ^ 3 ^ 4 ..."]
    /\ Forall (fun e => lineFeeds (Preview.snippet e) = 0) shown.
Proof.
  intros first second preview.
  destruct (Preview.renderPreview plainHost preview) as [shown|msg] eqn:Hshown;
    [|discriminate].
  exists shown. split; [reflexivity|].
  assert (Hall : forall e, In e shown -> lineFeeds (Preview.snippet e) = 0).
  { intros e Hin.
    apply (preview_snippets_are_one_line plainHost preview shown e);
      [reflexivity|reflexivity|exact Hshown|exact Hin]. }
  injection Hshown as <-.
  split; [reflexivity|]. split; [reflexivity|].
  apply Forall_forall. exact Hall.
Defined.

